(** * The native input seat of mutter: a shallow embedding

    Source files embedded here:
    - [src/backends/native/meta-seat-native.c] (virtual touch-slot bases,
      motion compression, releasing and reclaiming the devices),
    - [src/backends/native/meta-seat-impl.c] (touch states, button counters,
      button mapping, scroll accumulation, pointer constraining, relative
      motion across outputs, touchpad gestures, tablet tools and pads,
      NumLock, key repeat, device ids, the device list and touch mode, the
      keyboard layout, releasing and reclaiming the devices).

    Conventions.  C [int]/[guint]/[uint32_t] values are [Z], with the
    wrap-around written out where the code can reach it.  The scroll
    accumulators are C [float]s and are modelled as such: binary32 numbers
    with rounding to nearest, infinities and NaN, the count of discrete
    events being taken in [double] arithmetic as the code takes it.  The
    other [float] and [double] values (coordinates, deltas, scales, axes)
    are exact rationals [Q], compared with [==].  Hash tables are
    [gmap]/[gset].  The Clutter event queue is the list of events a
    function pushes, oldest first. *)

From Stdlib Require Import ZArith QArith Qround Qabs Qpower Qreduction Lia Lqa List Bool.
From stdpp Require Import gmap.

Local Open Scope Z_scope.

(** ** Virtual touch-slot bases ([meta-seat-native.c]) *)

Module VirtualSlots.

Section Bases.

(** [CLUTTER_VIRTUAL_INPUT_DEVICE_MAX_TOUCH_SLOTS]: the constant is declared
    in a Clutter header that is not part of the embedded sources, so it is
    taken as a parameter. *)
Variable MAX_TOUCH_SLOTS : Z.

(** The two fields of [MetaSeatNative] the reservation uses. *)
Record MetaSeatNative := mkSeatNative {
  virtual_touch_slot_base : Z;
  reserved_virtual_slots : gset Z
}.

(** [guint] arithmetic wraps modulo 2^32. *)
Definition guint (z : Z) : Z := z mod 2 ^ 32.

(** [g_hash_table_lookup] on a table filled with [g_hash_table_add]: the
    stored value is the key itself, [NULL] (0) when the key is absent. *)
Definition g_hash_table_lookup (table : gset Z) (key : Z) : Z :=
  if decide (key ∈ table) then key else 0.

(** [bump_virtual_touch_slot_base]: the [while (TRUE)] loop, one iteration
    per unit of fuel; [None] when the fuel runs out. *)
Fixpoint bump_virtual_touch_slot_base
    (fuel : nat) (seat_native : MetaSeatNative) : option (Z * MetaSeatNative) :=
  match fuel with
  | O => None
  | S fuel' =>
      let base0 := virtual_touch_slot_base seat_native in
      let base1 := if base0 <? 0x100 then 0x100 else base0 in
      let base2 := guint (base1 + MAX_TOUCH_SLOTS) in
      let seat' := mkSeatNative base2 (reserved_virtual_slots seat_native) in
      if g_hash_table_lookup (reserved_virtual_slots seat_native) base2 =? 0
      then Some (base2, seat')
      else bump_virtual_touch_slot_base fuel' seat'
  end.

(** [meta_seat_native_create_virtual_device], as far as the slot base is
    concerned: bump, then add the base to the reserved set. *)
Definition meta_seat_native_create_virtual_device
    (fuel : nat) (seat_native : MetaSeatNative) : option (Z * MetaSeatNative) :=
  match bump_virtual_touch_slot_base fuel seat_native with
  | None => None
  | Some (slot_base, s) =>
      Some (slot_base,
            mkSeatNative (virtual_touch_slot_base s)
                         ({[ slot_base ]} ∪ reserved_virtual_slots s))
  end.

(** [meta_seat_native_release_touch_slots]. *)
Definition meta_seat_native_release_touch_slots
    (seat : MetaSeatNative) (base_slot : Z) : MetaSeatNative :=
  mkSeatNative (virtual_touch_slot_base seat)
               (reserved_virtual_slots seat ∖ {[ base_slot ]}).

End Bases.

Arguments virtual_touch_slot_base : clear implicits.
Arguments reserved_virtual_slots : clear implicits.

(** A freshly constructed seat: GObject zero-fills the structure and the
    reserved table starts empty. *)
Definition fresh_seat : MetaSeatNative := mkSeatNative 0 ∅.

End VirtualSlots.

(** ** Numbers ([meta-seat-impl.c]) *)

(** [uint32_t] arithmetic wraps modulo 2^32; storing such a value in an
    [int] reads it back in two's complement. *)
Definition uint32 (z : Z) : Z := z mod 2 ^ 32.
Definition int32 (z : Z) : Z := (z + 2 ^ 31) mod 2 ^ 32 - 2 ^ 31.

Definition Qlt_bool (a b : Q) : bool := negb (Qle_bool b a).

(** The quotient [x / y] truncated toward zero, and the remainder
    [x - n * y] it leaves, [n] being that quotient: the value of the C
    library's [fmod]. *)
Definition Qtruncate (x : Q) : Z :=
  if Qle_bool 0 x then Qfloor x else Qceiling x.
Definition Qfmod (x y : Q) : Q := (x - inject_Z (Qtruncate (x / y)) * y)%Q.

(** *** Floating-point numbers

    The scroll accumulators are C [float]s, and the count of discrete
    events is taken from them in [double] arithmetic.  A floating-point
    number is a rational, an infinity or NaN; the sign of a zero is not
    kept, nothing the seat does can tell the two zeros apart. *)
Inductive c_float :=
| F_finite (value : Q)
| F_infinity (negative : bool)
| F_nan.

(** A binary format of IEEE 754: the number of bits of the significand and
    the exponent bound. *)
Record float_format := mkFormat { precision : Z; emax : Z }.
Definition binary32 : float_format := mkFormat 24 128.
Definition binary64 : float_format := mkFormat 53 1024.

(** The exponent of the smallest positive number of a format. *)
Definition emin (fmt : float_format) : Z := 3 - emax fmt - precision fmt.

(** [floor (log2 x)] of a positive rational. *)
Definition Qlog2 (x : Q) : Z :=
  let e := Z.log2 (Qnum x) - Z.log2 (Zpos (Qden x)) in
  if Qle_bool (2 ^ e) x then e else e - 1.

(** The nearest integer, the even one of two that are equally near. *)
Definition round_half_even (x : Q) : Z :=
  let f := Qfloor x in
  match (x - inject_Z f ?= 1 # 2)%Q with
  | Lt => f
  | Gt => f + 1
  | Eq => if Z.even f then f else f + 1
  end.

(** The exponent of the last place of [x] in a format: [precision] bits
    below the leading one, but not below [emin]. *)
Definition ulp_exponent (fmt : float_format) (x : Q) : Z :=
  Z.max (Qlog2 (Qabs x) - (precision fmt - 1)) (emin fmt).

(** Rounding to nearest, ties to even, the exponent unbounded above. *)
Definition round_value (fmt : float_format) (x : Q) : Q :=
  let e := ulp_exponent fmt x in
  (inject_Z (round_half_even (x / 2 ^ e)) * 2 ^ e)%Q.

(** The number of a format a real result is stored as: the rounded value,
    or an infinity when that is [2 ^ emax] or more in magnitude. *)
Definition round_to (fmt : float_format) (x : Q) : c_float :=
  let v := round_value fmt x in
  if Qle_bool (2 ^ emax fmt) (Qabs v) then F_infinity (Qlt_bool v 0)
  else F_finite (Qred v).

(** [x + y] in a format. *)
Definition c_add (fmt : float_format) (x y : c_float) : c_float :=
  match x, y with
  | F_nan, _ | _, F_nan => F_nan
  | F_infinity s, F_infinity s' => if Bool.eqb s s' then F_infinity s else F_nan
  | F_infinity s, F_finite _ | F_finite _, F_infinity s => F_infinity s
  | F_finite a, F_finite b => round_to fmt (a + b)
  end.

(** [x / y] in a format, for a divisor that is a nonzero number (the seat
    divides by [DISCRETE_SCROLL_STEP] only). *)
Definition c_div (fmt : float_format) (x : c_float) (y : Q) : c_float :=
  match x with
  | F_finite a => round_to fmt (a / y)
  | F_infinity s => F_infinity (xorb s (Qlt_bool y 0))
  | F_nan => F_nan
  end.

(** The conversion of a [double] to [float]; the one of a [float] to
    [double] changes nothing. *)
Definition float_of_double (x : c_float) : c_float :=
  match x with
  | F_finite a => round_to binary32 a
  | _ => x
  end.

Definition c_fabs (x : c_float) : c_float :=
  match x with
  | F_finite a => F_finite (Qabs a)
  | F_infinity _ => F_infinity false
  | F_nan => F_nan
  end.

Definition c_floor (x : c_float) : c_float :=
  match x with
  | F_finite a => F_finite (inject_Z (Qfloor a))
  | _ => x
  end.

(** [x > y] for a number [y]: false for NaN. *)
Definition c_gt (x : c_float) (y : Q) : bool :=
  match x with
  | F_finite a => Qlt_bool y a
  | F_infinity s => negb s
  | F_nan => false
  end.

Definition INT_MIN : Z := - 2 ^ 31.
Definition INT_MAX : Z := 2 ^ 31 - 1.

(** The conversion of a [double] to [int].  The C standard leaves the
    conversion of a value outside the range of [int], of an infinity and of
    NaN undefined; x86-64 gives [INT_MIN] there, and so does the model. *)
Definition int_of_double (x : c_float) : Z :=
  match x with
  | F_finite a =>
      let n := Qtruncate a in
      if (INT_MIN <=? n) && (n <=? INT_MAX) then n else INT_MIN
  | _ => INT_MIN
  end.

(** The C library's [fmodf] for a divisor that is a nonzero number: the
    remainder is exact, and NaN for an infinity or NaN. *)
Definition fmodf (x : c_float) (y : Q) : c_float :=
  match x with
  | F_finite a => F_finite (Qred (Qfmod a y))
  | _ => F_nan
  end.

(** [acc += delta] for a [float] accumulator and a [double] delta: the sum
    is taken in [double] and stored as [float]. *)
Definition float_add_double (acc : c_float) (delta : Q) : c_float :=
  float_of_double (c_add binary64 acc (F_finite delta)).

Definition DISCRETE_SCROLL_STEP : Q := 10.
Definition INITIAL_POINTER_X : Q := 16.
Definition INITIAL_POINTER_Y : Q := 16.
Definition AUTOREPEAT_VALUE : Z := 2.

(** [FLT_MIN] and [DBL_EPSILON] of <float.h>. *)
Definition FLT_MIN : Q := 1 # (2 ^ 126).
Definition DBL_EPSILON : Q := 1 # (2 ^ 52).

(** Button codes of <linux/input-event-codes.h>. *)
Definition BTN_LEFT : Z := 0x110.
Definition BTN_RIGHT : Z := 0x111.
Definition BTN_MIDDLE : Z := 0x112.
Definition BTN_TOOL_PEN : Z := 0x140.
Definition BTN_STYLUS3 : Z := 0x149.
Definition BTN_TOUCH : Z := 0x14a.
Definition BTN_STYLUS : Z := 0x14b.
Definition BTN_STYLUS2 : Z := 0x14c.

(** Modelled from the spec: Clutter's button numbers (PRIMARY 1, MIDDLE 2,
    SECONDARY 3) and the modifier masks Button1..Button5, one bit each;
    clutter-enums.h is outside the embedded sources. *)
Definition CLUTTER_BUTTON_PRIMARY : Z := 1.
Definition CLUTTER_BUTTON_MIDDLE : Z := 2.
Definition CLUTTER_BUTTON_SECONDARY : Z := 3.
Definition CLUTTER_BUTTON1_MASK : Z := 2 ^ 8.
Definition CLUTTER_BUTTON2_MASK : Z := 2 ^ 9.
Definition CLUTTER_BUTTON3_MASK : Z := 2 ^ 10.
Definition CLUTTER_BUTTON4_MASK : Z := 2 ^ 11.
Definition CLUTTER_BUTTON5_MASK : Z := 2 ^ 12.

(** Modelled from the spec: the FINISHED flags of [ClutterScrollFinishFlags],
    one bit for each axis. *)
Definition CLUTTER_SCROLL_FINISHED_NONE : Z := 0.
Definition CLUTTER_SCROLL_FINISHED_HORIZONTAL : Z := 1.
Definition CLUTTER_SCROLL_FINISHED_VERTICAL : Z := 2.

(** [XKB_STATE_LEDS] of xkbcommon. *)
Definition XKB_STATE_LEDS : Z := 2 ^ 8.

(** Modelled from the spec: [us2ms], a macro of a header outside the
    embedded sources; event times in ms are [time_us / 1000]. *)
Definition us2ms (time_us : Z) : Z := time_us / 1000.

(** ** Devices *)

Inductive ClutterInputDeviceType :=
| CLUTTER_POINTER_DEVICE | CLUTTER_KEYBOARD_DEVICE | CLUTTER_EXTENSION_DEVICE
| CLUTTER_JOYSTICK_DEVICE | CLUTTER_TABLET_DEVICE | CLUTTER_TOUCHPAD_DEVICE
| CLUTTER_TOUCHSCREEN_DEVICE | CLUTTER_PEN_DEVICE | CLUTTER_ERASER_DEVICE
| CLUTTER_CURSOR_DEVICE | CLUTTER_PAD_DEVICE.

Definition is_tablet (t : ClutterInputDeviceType) : bool :=
  match t with CLUTTER_TABLET_DEVICE => true | _ => false end.

Inductive ClutterInputDeviceToolType :=
| CLUTTER_INPUT_DEVICE_TOOL_NONE | CLUTTER_INPUT_DEVICE_TOOL_PEN
| CLUTTER_INPUT_DEVICE_TOOL_ERASER | CLUTTER_INPUT_DEVICE_TOOL_BRUSH
| CLUTTER_INPUT_DEVICE_TOOL_PENCIL | CLUTTER_INPUT_DEVICE_TOOL_AIRBRUSH
| CLUTTER_INPUT_DEVICE_TOOL_MOUSE | CLUTTER_INPUT_DEVICE_TOOL_LENS.

Definition tool_type_eqb (a b : ClutterInputDeviceToolType) : bool :=
  match a, b with
  | CLUTTER_INPUT_DEVICE_TOOL_NONE, CLUTTER_INPUT_DEVICE_TOOL_NONE
  | CLUTTER_INPUT_DEVICE_TOOL_PEN, CLUTTER_INPUT_DEVICE_TOOL_PEN
  | CLUTTER_INPUT_DEVICE_TOOL_ERASER, CLUTTER_INPUT_DEVICE_TOOL_ERASER
  | CLUTTER_INPUT_DEVICE_TOOL_BRUSH, CLUTTER_INPUT_DEVICE_TOOL_BRUSH
  | CLUTTER_INPUT_DEVICE_TOOL_PENCIL, CLUTTER_INPUT_DEVICE_TOOL_PENCIL
  | CLUTTER_INPUT_DEVICE_TOOL_AIRBRUSH, CLUTTER_INPUT_DEVICE_TOOL_AIRBRUSH
  | CLUTTER_INPUT_DEVICE_TOOL_MOUSE, CLUTTER_INPUT_DEVICE_TOOL_MOUSE
  | CLUTTER_INPUT_DEVICE_TOOL_LENS, CLUTTER_INPUT_DEVICE_TOOL_LENS => true
  | _, _ => false
  end.

(** A tablet tool: the serial and the type, which identify it within a
    device, and its button-code table. *)
Record ClutterInputDeviceTool := mkTool {
  tool_serial : Z;
  tool_type : ClutterInputDeviceToolType;
  tool_button_codes : gmap Z Z
}.

(** Modelled from the spec: [meta_input_device_tool_native_get_button_code]
    lives in meta-input-device-tool-native.c; the per-tool table maps a
    logical button to an event code, 0 when the button is not remapped. *)
Definition meta_input_device_tool_native_get_button_code
    (tool : ClutterInputDeviceTool) (button_nr : Z) : Z :=
  default 0 (tool_button_codes tool !! button_nr).

(** Modelled from the spec: Clutter's
    [clutter_input_device_tool_get_tool_type], the type of a tool; for no
    tool its precondition check returns 0, which is
    [CLUTTER_INPUT_DEVICE_TOOL_NONE]. *)
Definition clutter_input_device_tool_get_tool_type
    (tool : option ClutterInputDeviceTool) : ClutterInputDeviceToolType :=
  match tool with
  | Some t => tool_type t
  | None => CLUTTER_INPUT_DEVICE_TOOL_NONE
  end.

(** The source compares tools by address.  A device finds its tools by
    serial and type and creates one only when none is found, so within a
    device these two identify the tool. *)
Definition tool_is (serial : Z) (type : ClutterInputDeviceToolType)
    (tool : ClutterInputDeviceTool) : bool :=
  (tool_serial tool =? serial) && tool_type_eqb (tool_type tool) type.

Definition same_tool (a b : option ClutterInputDeviceTool) : bool :=
  match a, b with
  | None, None => true
  | Some x, Some y => tool_is (tool_serial y) (tool_type y) x
  | _, _ => false
  end.

(** The immutable part of an input device.  What a device caches while
    events come in (its coordinates, its tools and the tool last in
    proximity) is kept in the seat model, keyed by [device_id]. *)
Record ClutterInputDevice := mkDevice {
  device_id : Z;
  device_type : ClutterInputDeviceType
}.

Inductive MetaInputDeviceMapping :=
| META_INPUT_DEVICE_MAPPING_ABSOLUTE | META_INPUT_DEVICE_MAPPING_RELATIVE.

(** ** Viewports *)

Record cairo_rectangle_int_t := mkRect {
  rect_x : Z; rect_y : Z; rect_width : Z; rect_height : Z
}.

Record ViewInfo := mkView {
  view_rect : cairo_rectangle_int_t;
  view_scale : Q
}.

Abbreviation MetaViewportInfo := (list ViewInfo).

Inductive MetaDisplayDirection :=
| META_DISPLAY_UP | META_DISPLAY_DOWN | META_DISPLAY_LEFT | META_DISPLAY_RIGHT.

Definition direction_is (d : option MetaDisplayDirection)
    (e : MetaDisplayDirection) : bool :=
  match d, e with
  | Some META_DISPLAY_UP, META_DISPLAY_UP
  | Some META_DISPLAY_DOWN, META_DISPLAY_DOWN
  | Some META_DISPLAY_LEFT, META_DISPLAY_LEFT
  | Some META_DISPLAY_RIGHT, META_DISPLAY_RIGHT => true
  | _, _ => false
  end.

(** The test [constrain_all_screen_monitors] writes out, and the hit test of
    a view: left and top edges belong to the rectangle, right and bottom
    edges do not. *)
Definition point_in_rect (x y : Q) (rect : cairo_rectangle_int_t) : bool :=
  let left := rect_x rect in
  let right := left + rect_width rect in
  let top := rect_y rect in
  let bottom := top + rect_height rect in
  Qle_bool (inject_Z left) x && Qlt_bool x (inject_Z right) &&
  Qle_bool (inject_Z top) y && Qlt_bool y (inject_Z bottom).

(** Modelled from the spec: [meta_viewport_info_get_view_at] lives in
    meta-viewport-info.c; it is the hit test of a point, giving the index of
    the first view that holds it, or -1. *)
Fixpoint view_at_from (i : Z) (views : MetaViewportInfo) (x y : Q) : Z :=
  match views with
  | [] => -1
  | v :: rest =>
      if point_in_rect x y (view_rect v) then i
      else view_at_from (i + 1) rest x y
  end.

(** Modelled from the spec: the hit test started at index 0. *)
Definition meta_viewport_info_get_view_at
    (viewports : MetaViewportInfo) (x y : Q) : Z :=
  view_at_from 0 viewports x y.

(** Modelled from the spec: [meta_viewport_info_get_view], the rectangle and
    scale of the view at an index. *)
Definition meta_viewport_info_get_view
    (viewports : MetaViewportInfo) (idx : Z) : option ViewInfo :=
  if idx <? 0 then None else viewports !! Z.to_nat idx.

(** Modelled from the spec: two views are neighbours on a side when they
    share that edge and overlap along it. *)
Definition vert_overlap (a b : cairo_rectangle_int_t) : bool :=
  (rect_y a <? rect_y b + rect_height b) && (rect_y b <? rect_y a + rect_height a).
Definition horiz_overlap (a b : cairo_rectangle_int_t) : bool :=
  (rect_x a <? rect_x b + rect_width b) && (rect_x b <? rect_x a + rect_width a).

Definition view_has_neighbor (view neighbor : cairo_rectangle_int_t)
    (direction : MetaDisplayDirection) : bool :=
  match direction with
  | META_DISPLAY_RIGHT =>
      (rect_x neighbor =? rect_x view + rect_width view) && vert_overlap neighbor view
  | META_DISPLAY_LEFT =>
      (rect_x view =? rect_x neighbor + rect_width neighbor) && vert_overlap neighbor view
  | META_DISPLAY_UP =>
      (rect_y view =? rect_y neighbor + rect_height neighbor) && horiz_overlap neighbor view
  | META_DISPLAY_DOWN =>
      (rect_y neighbor =? rect_y view + rect_height view) && horiz_overlap neighbor view
  end.

Fixpoint neighbor_from (i idx : Z) (rect : cairo_rectangle_int_t)
    (views : MetaViewportInfo) (direction : MetaDisplayDirection) : Z :=
  match views with
  | [] => -1
  | v :: rest =>
      if negb (idx =? i) && view_has_neighbor rect (view_rect v) direction then i
      else neighbor_from (i + 1) idx rect rest direction
  end.

(** Modelled from the spec: [meta_viewport_info_get_neighbor],
    [neighbor(view, direction)] giving a view index or -1: the first other
    view that touches the given side of the view. *)
Definition meta_viewport_info_get_neighbor (viewports : MetaViewportInfo)
    (idx : Z) (direction : MetaDisplayDirection) : Z :=
  match meta_viewport_info_get_view viewports idx with
  | None => -1
  | Some v => neighbor_from 0 idx (view_rect v) viewports direction
  end.

(** Modelled from the spec: [meta_viewport_info_get_extents], the overall
    extents (width, height) of the layout. *)
Definition meta_viewport_info_get_extents
    (viewports : option MetaViewportInfo) : Q * Q :=
  match viewports with
  | None | Some [] => (0, 0)%Q
  | Some (v :: rest) =>
      let r := view_rect v in
      let '(x0, y0, x1, y1) :=
        fold_left (fun '(x0, y0, x1, y1) w =>
                     let r := view_rect w in
                     (Z.min x0 (rect_x r), Z.min y0 (rect_y r),
                      Z.max x1 (rect_x r + rect_width r),
                      Z.max y1 (rect_y r + rect_height r)))
                  rest
                  (rect_x r, rect_y r, rect_x r + rect_width r, rect_y r + rect_height r) in
      (inject_Z (x1 - x0), inject_Z (y1 - y0))
  end.

(** ** Segments *)

Record MetaVector2 := mkVec { vec_x : Q; vec_y : Q }.
Record MetaLine2 := mkLine { line_a : MetaVector2; line_b : MetaVector2 }.

Definition meta_vector2_subtract (a b : MetaVector2) : MetaVector2 :=
  mkVec (vec_x a - vec_x b) (vec_y a - vec_y b).
Definition meta_vector2_cross_product (a b : MetaVector2) : Q :=
  (vec_x a * vec_y b - vec_y a * vec_x b)%Q.

(** Modelled from the spec: [meta_line2_intersects_with] lives in
    core/boxes.c; it intersects two segments, [p + t r] and [q + u s] with
    [t] and [u] in [0, 1], and gives the crossing point when there is one
    (none for parallel segments). *)
Definition meta_line2_intersects_with (line1 line2 : MetaLine2)
    : option MetaVector2 :=
  let p := line_a line1 in
  let r := meta_vector2_subtract (line_b line1) (line_a line1) in
  let q := line_a line2 in
  let s := meta_vector2_subtract (line_b line2) (line_a line2) in
  let rxs := meta_vector2_cross_product r s in
  let sxr := meta_vector2_cross_product s r in
  if Qlt_bool (Qabs rxs) FLT_MIN then None
  else
    let t := (meta_vector2_cross_product (meta_vector2_subtract q p) s / rxs)%Q in
    let u := (meta_vector2_cross_product (meta_vector2_subtract p q) r / sxr)%Q in
    if Qlt_bool t 0 || Qlt_bool 1 t || Qlt_bool u 0 || Qlt_bool 1 u then None
    else Some (mkVec (vec_x p + t * vec_x r) (vec_y p + t * vec_y r)).

(** ** Keyboard state

    xkbcommon is an external library.  Its state is modelled by what the
    seat reads and writes through the API: the three modifier masks and the
    three layout components. *)

Record xkb_keymap := mkKeymap {
  keymap_num_mods : Z;      (* number of modifiers of the keymap *)
  keymap_num_layouts : Z;
  keymap_mod2_index : Z     (* xkb_keymap_mod_get_index (keymap, "Mod2") *)
}.

Record xkb_state := mkXkb {
  xkb_depressed_mods : Z;
  xkb_latched_mods : Z;
  xkb_locked_mods : Z;
  xkb_depressed_layout : Z;
  xkb_latched_layout : Z;
  xkb_locked_layout : Z
}.

Inductive xkb_state_component :=
| XKB_STATE_MODS_DEPRESSED | XKB_STATE_MODS_LATCHED | XKB_STATE_MODS_LOCKED.

(** Modelled from the spec: [serialize_mods({depressed,latched,locked})]
    reads one of the modifier masks of the state. *)
Definition xkb_state_serialize_mods (state : xkb_state)
    (component : xkb_state_component) : Z :=
  match component with
  | XKB_STATE_MODS_DEPRESSED => xkb_depressed_mods state
  | XKB_STATE_MODS_LATCHED => xkb_latched_mods state
  | XKB_STATE_MODS_LOCKED => xkb_locked_mods state
  end.

(** Modelled from the spec: the effective layout of the state, the sum of
    the three layout components wrapped into the keymap's layouts. *)
Definition xkb_state_serialize_layout_effective
    (keymap : xkb_keymap) (state : xkb_state) : Z :=
  if keymap_num_layouts keymap <=? 0 then 0
  else (xkb_depressed_layout state + xkb_latched_layout state
        + xkb_locked_layout state) mod keymap_num_layouts keymap.

(** Modelled from the spec:
    [update_mask(depressed,latched,locked,g1,g2,layout)] overwrites the
    masks, each cut down to the modifiers the keymap has, and the layout
    components. *)
Definition xkb_state_update_mask (keymap : xkb_keymap) (state : xkb_state)
    (depressed latched locked g1 g2 layout : Z) : xkb_state :=
  let mask := 2 ^ keymap_num_mods keymap - 1 in
  mkXkb (Z.land depressed mask) (Z.land latched mask) (Z.land locked mask)
        g1 g2 layout.

(** ** Events pushed to the Clutter queue *)

Inductive ClutterScrollDirection :=
| CLUTTER_SCROLL_UP | CLUTTER_SCROLL_DOWN | CLUTTER_SCROLL_LEFT
| CLUTTER_SCROLL_RIGHT | CLUTTER_SCROLL_SMOOTH.

Inductive ClutterScrollSource :=
| CLUTTER_SCROLL_SOURCE_UNKNOWN | CLUTTER_SCROLL_SOURCE_WHEEL
| CLUTTER_SCROLL_SOURCE_FINGER | CLUTTER_SCROLL_SOURCE_CONTINUOUS.

Inductive ClutterTouchType :=
| CLUTTER_TOUCH_BEGIN | CLUTTER_TOUCH_UPDATE | CLUTTER_TOUCH_END
| CLUTTER_TOUCH_CANCEL.

Inductive ClutterButtonType := CLUTTER_BUTTON_PRESS | CLUTTER_BUTTON_RELEASE.

Record KeyEvent := mkKeyEvent {
  key_time : Z;
  key_event_code : Z;
  key_state : Z;
  key_hardware_keycode : Z;
  key_modifier_state : Z;
  key_repeated : bool;          (* CLUTTER_EVENT_FLAG_REPEATED *)
  key_device : ClutterInputDevice;
  key_source_device : ClutterInputDevice
}.

Record MotionEvent := mkMotionEvent {
  motion_time_usec : Z;
  motion_time : Z;
  motion_modifier_state : Z;
  motion_x : Q;
  motion_y : Q;
  motion_axes : option (list Q);
  motion_device : ClutterInputDevice;
  motion_source_device : ClutterInputDevice;
  motion_tool : option ClutterInputDeviceTool;
  (* dx, dy, dx_unaccel, dy_unaccel of meta_event_native_set_relative_motion *)
  motion_relative : option (Q * Q * Q * Q)
}.

Record ButtonEvent := mkButtonEvent {
  button_type : ClutterButtonType;
  button_time_usec : Z;
  button_time : Z;
  button_modifier_state : Z;
  button_button : Z;
  button_x : Q;
  button_y : Q;
  button_event_code : Z;
  button_device : ClutterInputDevice;
  button_source_device : ClutterInputDevice;
  button_tool : option ClutterInputDeviceTool
}.

Record ScrollEvent := mkScrollEvent {
  scroll_time_usec : Z;
  scroll_time : Z;
  scroll_modifier_state : Z;
  scroll_direction : ClutterScrollDirection;
  scroll_delta : Q * Q;
  scroll_x : Q;
  scroll_y : Q;
  scroll_device : ClutterInputDevice;
  scroll_source_device : ClutterInputDevice;
  scroll_scroll_source : ClutterScrollSource;
  scroll_finish_flags : Z;
  scroll_emulated : bool
}.

Record TouchEvent := mkTouchEvent {
  touch_type : ClutterTouchType;
  touch_time_usec : Z;
  touch_time : Z;
  touch_x : Q;
  touch_y : Q;
  touch_sequence : Z;
  touch_modifier_state : Z;
  touch_device : ClutterInputDevice;
  touch_source_device : ClutterInputDevice
}.

Inductive ClutterTouchpadGesturePhase :=
| CLUTTER_TOUCHPAD_GESTURE_PHASE_BEGIN | CLUTTER_TOUCHPAD_GESTURE_PHASE_UPDATE
| CLUTTER_TOUCHPAD_GESTURE_PHASE_END | CLUTTER_TOUCHPAD_GESTURE_PHASE_CANCEL.

Record TouchpadPinchEvent := mkPinchEvent {
  pinch_phase : ClutterTouchpadGesturePhase;
  pinch_time_usec : Z;
  pinch_time : Z;
  pinch_x : Q;
  pinch_y : Q;
  pinch_dx : Q;
  pinch_dy : Q;
  pinch_angle_delta : Q;
  pinch_scale : Q;
  pinch_n_fingers : Z;
  pinch_modifier_state : Z;
  pinch_device : ClutterInputDevice;
  pinch_source_device : ClutterInputDevice
}.

Record TouchpadSwipeEvent := mkSwipeEvent {
  swipe_phase : ClutterTouchpadGesturePhase;
  swipe_time_usec : Z;
  swipe_time : Z;
  swipe_x : Q;
  swipe_y : Q;
  swipe_dx : Q;
  swipe_dy : Q;
  swipe_n_fingers : Z;
  swipe_modifier_state : Z;
  swipe_device : ClutterInputDevice;
  swipe_source_device : ClutterInputDevice
}.

Inductive ClutterProximityType := CLUTTER_PROXIMITY_IN | CLUTTER_PROXIMITY_OUT.

Record ProximityEvent := mkProximityEvent {
  proximity_type : ClutterProximityType;
  proximity_time_usec : Z;
  proximity_time : Z;
  proximity_tool : option ClutterInputDeviceTool;
  proximity_device : ClutterInputDevice;
  proximity_source_device : ClutterInputDevice
}.

Inductive ClutterPadButtonType :=
| CLUTTER_PAD_BUTTON_PRESS | CLUTTER_PAD_BUTTON_RELEASE.

Inductive ClutterInputDevicePadSource :=
| CLUTTER_INPUT_DEVICE_PAD_SOURCE_UNKNOWN | CLUTTER_INPUT_DEVICE_PAD_SOURCE_FINGER.

Record PadButtonEvent := mkPadButtonEvent {
  pad_button_type : ClutterPadButtonType;
  pad_button_time_usec : Z;
  pad_button_button : Z;
  pad_button_group : Z;
  pad_button_mode : Z;
  pad_button_device : ClutterInputDevice;
  pad_button_source_device : ClutterInputDevice;
  pad_button_time : Z
}.

Record PadStripEvent := mkPadStripEvent {
  pad_strip_time_usec : Z;
  pad_strip_source : ClutterInputDevicePadSource;
  pad_strip_number : Z;
  pad_strip_value : Q;
  pad_strip_group : Z;
  pad_strip_mode : Z;
  pad_strip_device : ClutterInputDevice;
  pad_strip_source_device : ClutterInputDevice;
  pad_strip_time : Z
}.

Record PadRingEvent := mkPadRingEvent {
  pad_ring_time_usec : Z;
  pad_ring_source : ClutterInputDevicePadSource;
  pad_ring_number : Z;
  pad_ring_angle : Q;
  pad_ring_group : Z;
  pad_ring_mode : Z;
  pad_ring_device : ClutterInputDevice;
  pad_ring_source_device : ClutterInputDevice;
  pad_ring_time : Z
}.

Inductive ClutterEvent :=
| CLUTTER_KEY (e : KeyEvent)
| CLUTTER_MOTION (e : MotionEvent)
| CLUTTER_BUTTON (e : ButtonEvent)
| CLUTTER_SCROLL (e : ScrollEvent)
| CLUTTER_TOUCH (e : TouchEvent)
| CLUTTER_TOUCHPAD_PINCH (e : TouchpadPinchEvent)
| CLUTTER_TOUCHPAD_SWIPE (e : TouchpadSwipeEvent)
| CLUTTER_PROXIMITY (e : ProximityEvent)
| CLUTTER_PAD_BUTTON (e : PadButtonEvent)
| CLUTTER_PAD_STRIP (e : PadStripEvent)
| CLUTTER_PAD_RING (e : PadRingEvent).

(** What a seat function does besides changing the seat: events pushed with
    [queue_event], [g_warning] messages, signals, LED updates and the
    reconfiguration of a device for a tool. *)
Inductive Effect :=
| Queued (e : ClutterEvent)
| Warning_unhandled_button (button : Z)
| Signal_mods_state_changed
| Sync_leds (state : xkb_state)
| A11y_maybe_notify_toggle_keys
| Device_update_from_tool (device : ClutterInputDevice) (tool : ClutterInputDeviceTool)
| Signal_tool_changed (device : ClutterInputDevice)
    (tool : option ClutterInputDeviceTool).

Fixpoint queued_events (t : list Effect) : list ClutterEvent :=
  match t with
  | [] => []
  | Queued ev :: rest => ev :: queued_events rest
  | _ :: rest => queued_events rest
  end.

Fixpoint warnings (t : list Effect) : list Z :=
  match t with
  | [] => []
  | Warning_unhandled_button button :: rest => button :: warnings rest
  | _ :: rest => warnings rest
  end.

(** ** Raw events of the event source *)

Inductive libinput_pointer_axis_source :=
| LIBINPUT_POINTER_AXIS_SOURCE_WHEEL | LIBINPUT_POINTER_AXIS_SOURCE_FINGER
| LIBINPUT_POINTER_AXIS_SOURCE_CONTINUOUS | LIBINPUT_POINTER_AXIS_SOURCE_WHEEL_TILT.

(** One axis of a pointer-axis event, present when
    [libinput_event_pointer_has_axis] holds. *)
Record libinput_axis := mkAxis {
  axis_value : Q;
  axis_value_discrete : Q
}.

Record libinput_event_pointer_axis := mkAxisEvent {
  axis_horizontal : option libinput_axis;
  axis_vertical : option libinput_axis
}.

Inductive libinput_tablet_tool_type :=
| LIBINPUT_TABLET_TOOL_TYPE_PEN | LIBINPUT_TABLET_TOOL_TYPE_ERASER
| LIBINPUT_TABLET_TOOL_TYPE_BRUSH | LIBINPUT_TABLET_TOOL_TYPE_PENCIL
| LIBINPUT_TABLET_TOOL_TYPE_AIRBRUSH | LIBINPUT_TABLET_TOOL_TYPE_MOUSE
| LIBINPUT_TABLET_TOOL_TYPE_LENS | LIBINPUT_TABLET_TOOL_TYPE_TOTEM.

(** A tool as libinput describes it: serial, type and the axes it has. *)
Record libinput_tablet_tool := mkLibinputTool {
  libinput_tablet_tool_get_serial : Z;
  libinput_tablet_tool_get_type : libinput_tablet_tool_type;
  libinput_tablet_tool_has_distance : bool;
  libinput_tablet_tool_has_pressure : bool;
  libinput_tablet_tool_has_tilt : bool;
  libinput_tablet_tool_has_rotation : bool;
  libinput_tablet_tool_has_slider : bool;
  libinput_tablet_tool_has_wheel : bool
}.

(** What the seat reads off a tablet-tool event.  [tablet_x] and
    [tablet_y] are what [libinput_event_tablet_tool_get_x] and [_get_y]
    return; [tablet_x_normalized] and [tablet_y_normalized] are the
    position [.._get_x_transformed] and [.._get_y_transformed] scale to the
    stage. *)
Record libinput_event_tablet_tool := mkTabletToolEvent {
  tablet_time_usec : Z;
  tablet_tool : libinput_tablet_tool;
  tablet_x : Q;
  tablet_y : Q;
  tablet_x_normalized : Q;
  tablet_y_normalized : Q;
  tablet_dx : Q;
  tablet_dy : Q;
  tablet_distance : Q;
  tablet_pressure : Q;
  tablet_tilt_x : Q;
  tablet_tilt_y : Q;
  tablet_rotation : Q;
  tablet_slider_position : Q;
  tablet_wheel_delta : Q
}.

Inductive libinput_tablet_pad_strip_axis_source :=
| LIBINPUT_TABLET_PAD_STRIP_SOURCE_UNKNOWN | LIBINPUT_TABLET_PAD_STRIP_SOURCE_FINGER.

Inductive libinput_tablet_pad_ring_axis_source :=
| LIBINPUT_TABLET_PAD_RING_SOURCE_UNKNOWN | LIBINPUT_TABLET_PAD_RING_SOURCE_FINGER.

(** The events [process_device_event] has a case for, and
    [LIBINPUT_EVENT_TOUCH_FRAME] for the kinds it leaves to the default
    branch.  [LIBINPUT_EVENT_SWITCH_TOGGLE] writes the tablet-mode state
    kept with the device list: its case is in [process_event] below. *)
Inductive libinput_event :=
| LIBINPUT_EVENT_KEYBOARD_KEY
    (device : ClutterInputDevice) (time_us key : Z) (pressed : bool)
    (seat_key_count : Z)
| LIBINPUT_EVENT_POINTER_MOTION
    (device : ClutterInputDevice) (time_us : Z) (dx dy dx_unaccel dy_unaccel : Q)
| LIBINPUT_EVENT_POINTER_MOTION_ABSOLUTE
    (device : ClutterInputDevice) (time_us : Z) (x y : Q)
| LIBINPUT_EVENT_POINTER_BUTTON
    (device : ClutterInputDevice) (time_us button : Z) (pressed : bool)
    (seat_button_count : Z)
| LIBINPUT_EVENT_POINTER_AXIS
    (device : ClutterInputDevice) (time_us : Z)
    (source : libinput_pointer_axis_source) (axis_event : libinput_event_pointer_axis)
| LIBINPUT_EVENT_TOUCH_DOWN
    (device : ClutterInputDevice) (time_us seat_slot : Z) (x y : Q)
| LIBINPUT_EVENT_TOUCH_UP
    (device : ClutterInputDevice) (time_us seat_slot : Z)
| LIBINPUT_EVENT_TOUCH_MOTION
    (device : ClutterInputDevice) (time_us seat_slot : Z) (x y : Q)
| LIBINPUT_EVENT_TOUCH_CANCEL
    (device : ClutterInputDevice) (time_us seat_slot : Z)
| LIBINPUT_EVENT_GESTURE_PINCH_BEGIN
    (device : ClutterInputDevice) (time_us n_fingers : Z)
| LIBINPUT_EVENT_GESTURE_PINCH_UPDATE
    (device : ClutterInputDevice) (time_us n_fingers : Z)
    (dx dy angle_delta scale : Q)
| LIBINPUT_EVENT_GESTURE_PINCH_END
    (device : ClutterInputDevice) (time_us n_fingers : Z) (cancelled : bool)
| LIBINPUT_EVENT_GESTURE_SWIPE_BEGIN
    (device : ClutterInputDevice) (time_us n_fingers : Z)
| LIBINPUT_EVENT_GESTURE_SWIPE_UPDATE
    (device : ClutterInputDevice) (time_us n_fingers : Z) (dx dy : Q)
| LIBINPUT_EVENT_GESTURE_SWIPE_END
    (device : ClutterInputDevice) (time_us n_fingers : Z) (cancelled : bool)
| LIBINPUT_EVENT_TABLET_TOOL_AXIS
    (device : ClutterInputDevice) (tablet_event : libinput_event_tablet_tool)
| LIBINPUT_EVENT_TABLET_TOOL_PROXIMITY
    (device : ClutterInputDevice) (tablet_event : libinput_event_tablet_tool)
    (proximity_in : bool)
| LIBINPUT_EVENT_TABLET_TOOL_BUTTON
    (device : ClutterInputDevice) (tablet_event : libinput_event_tablet_tool)
    (button : Z) (pressed : bool)
| LIBINPUT_EVENT_TABLET_TOOL_TIP
    (device : ClutterInputDevice) (tablet_event : libinput_event_tablet_tool)
    (tip_down : bool)
| LIBINPUT_EVENT_TABLET_PAD_BUTTON
    (device : ClutterInputDevice) (time_us button group mode : Z) (pressed : bool)
| LIBINPUT_EVENT_TABLET_PAD_STRIP
    (device : ClutterInputDevice) (time_us number : Z)
    (source : libinput_tablet_pad_strip_axis_source) (group mode : Z) (value : Q)
| LIBINPUT_EVENT_TABLET_PAD_RING
    (device : ClutterInputDevice) (time_us number : Z)
    (source : libinput_tablet_pad_ring_axis_source) (group mode : Z) (angle : Q)
| LIBINPUT_EVENT_TOUCH_FRAME
    (device : ClutterInputDevice) (time_us : Z).

(** Modelled from the spec: libinput's [..._get_x_transformed (event, width)]
    scales a normalised coordinate to the stage, [x = raw_x * stage_w]. *)
Definition transformed (raw extent : Q) : Q := (raw * extent)%Q.

(** ** The seat *)

Record MetaTouchState := mkTouchState {
  seat_slot : Z;
  coords_x : Q;
  coords_y : Q
}.

(** The collaborators of the seat that live outside the embedded sources:
    the barrier manager, the pointer constraint, the key handling of
    xkbcommon, the output mapping of a device, the stage-view setting, the
    mapping mode set on a device and the pressure curve of a tool.  The
    seat is verified for every behaviour of these. *)
Class External := {
  BarrierManager : Type;
  meta_barrier_manager_native_process :
    BarrierManager -> ClutterInputDevice -> Z -> Q -> Q -> BarrierManager * (Q * Q);
  PointerConstraint : Type;
  meta_pointer_constraint_impl_constrain :
    PointerConstraint -> ClutterInputDevice -> Z -> Q -> Q -> Q -> Q -> Q * Q;
  xkb_state_update_key : xkb_keymap -> xkb_state -> Z -> bool -> xkb_state * Z;
  xkb_keymap_key_repeats : xkb_keymap -> Z -> bool;
  meta_xkb_translate_state : xkb_state -> Z -> Z;
  meta_xkb_evdev_to_keycode : Z -> Z;
  meta_input_device_native_translate_coordinates :
    ClutterInputDevice -> MetaViewportInfo -> Q -> Q -> Q * Q;
  meta_is_stage_views_scaled : bool;
  meta_input_device_native_get_mapping_mode :
    ClutterInputDevice -> MetaInputDeviceMapping;
  meta_input_device_tool_native_translate_pressure :
    option ClutterInputDeviceTool -> Q -> Q
}.

Section Seat.

Context {ext : External}.

Record MetaSeatImpl := mkSeat {
  xkb : xkb_state;
  keymap : xkb_keymap;
  button_state : Z;
  (* int button_count[KEY_CNT], zero-filled; the model does not bound the
     index *)
  button_count : gmap Z Z;
  (* NULL until the first acquire *)
  touch_states : option (gmap Z MetaTouchState);
  pointer_x : Q;
  pointer_y : Q;
  accum_scroll_dx : c_float;
  accum_scroll_dy : c_float;
  viewports : option MetaViewportInfo;
  pointer_constraint : option PointerConstraint;
  barrier_manager : BarrierManager;
  core_pointer : ClutterInputDevice;
  core_keyboard : ClutterInputDevice;
  (* the coordinates cached on the devices, by device id *)
  device_coords : gmap Z (Q * Q);
  (* the field [repeat] of the source *)
  repeat_enabled : bool;
  repeat_delay : Z;
  repeat_interval : Z;
  repeat_count : Z;
  repeat_key : Z;
  (* the timeout source, with its interval, when armed *)
  repeat_timer : option Z;
  repeat_device : option ClutterInputDevice;
  (* the tools of the devices and the tool last in proximity, by device id *)
  device_tools : gmap Z (list ClutterInputDeviceTool);
  device_last_tool : gmap Z ClutterInputDeviceTool
}.

(** Field updates. *)
Definition set_xkb (v : xkb_state) (s : MetaSeatImpl) : MetaSeatImpl :=
  mkSeat v (keymap s) (button_state s) (button_count s) (touch_states s)
    (pointer_x s) (pointer_y s) (accum_scroll_dx s) (accum_scroll_dy s)
    (viewports s) (pointer_constraint s) (barrier_manager s)
    (core_pointer s) (core_keyboard s) (device_coords s) (repeat_enabled s)
    (repeat_delay s) (repeat_interval s) (repeat_count s) (repeat_key s)
    (repeat_timer s) (repeat_device s)
    (device_tools s) (device_last_tool s).

Definition set_button_state (v : Z) (s : MetaSeatImpl) : MetaSeatImpl :=
  mkSeat (xkb s) (keymap s) v (button_count s) (touch_states s)
    (pointer_x s) (pointer_y s) (accum_scroll_dx s) (accum_scroll_dy s)
    (viewports s) (pointer_constraint s) (barrier_manager s)
    (core_pointer s) (core_keyboard s) (device_coords s) (repeat_enabled s)
    (repeat_delay s) (repeat_interval s) (repeat_count s) (repeat_key s)
    (repeat_timer s) (repeat_device s)
    (device_tools s) (device_last_tool s).

Definition set_button_count (v : gmap Z Z) (s : MetaSeatImpl)
    : MetaSeatImpl :=
  mkSeat (xkb s) (keymap s) (button_state s) v (touch_states s)
    (pointer_x s) (pointer_y s) (accum_scroll_dx s) (accum_scroll_dy s)
    (viewports s) (pointer_constraint s) (barrier_manager s)
    (core_pointer s) (core_keyboard s) (device_coords s) (repeat_enabled s)
    (repeat_delay s) (repeat_interval s) (repeat_count s) (repeat_key s)
    (repeat_timer s) (repeat_device s)
    (device_tools s) (device_last_tool s).

Definition set_touch_states (v : option (gmap Z MetaTouchState)) (s : MetaSeatImpl)
    : MetaSeatImpl :=
  mkSeat (xkb s) (keymap s) (button_state s) (button_count s) v
    (pointer_x s) (pointer_y s) (accum_scroll_dx s) (accum_scroll_dy s)
    (viewports s) (pointer_constraint s) (barrier_manager s)
    (core_pointer s) (core_keyboard s) (device_coords s) (repeat_enabled s)
    (repeat_delay s) (repeat_interval s) (repeat_count s) (repeat_key s)
    (repeat_timer s) (repeat_device s)
    (device_tools s) (device_last_tool s).

Definition set_pointer_x (v : Q) (s : MetaSeatImpl) : MetaSeatImpl :=
  mkSeat (xkb s) (keymap s) (button_state s) (button_count s)
    (touch_states s) v (pointer_y s) (accum_scroll_dx s) (accum_scroll_dy s)
    (viewports s) (pointer_constraint s) (barrier_manager s)
    (core_pointer s) (core_keyboard s) (device_coords s) (repeat_enabled s)
    (repeat_delay s) (repeat_interval s) (repeat_count s) (repeat_key s)
    (repeat_timer s) (repeat_device s)
    (device_tools s) (device_last_tool s).

Definition set_pointer_y (v : Q) (s : MetaSeatImpl) : MetaSeatImpl :=
  mkSeat (xkb s) (keymap s) (button_state s) (button_count s)
    (touch_states s) (pointer_x s) v (accum_scroll_dx s) (accum_scroll_dy s)
    (viewports s) (pointer_constraint s) (barrier_manager s)
    (core_pointer s) (core_keyboard s) (device_coords s) (repeat_enabled s)
    (repeat_delay s) (repeat_interval s) (repeat_count s) (repeat_key s)
    (repeat_timer s) (repeat_device s)
    (device_tools s) (device_last_tool s).

Definition set_accum_scroll_dx (v : c_float) (s : MetaSeatImpl) : MetaSeatImpl :=
  mkSeat (xkb s) (keymap s) (button_state s) (button_count s)
    (touch_states s) (pointer_x s) (pointer_y s) v (accum_scroll_dy s)
    (viewports s) (pointer_constraint s) (barrier_manager s)
    (core_pointer s) (core_keyboard s) (device_coords s) (repeat_enabled s)
    (repeat_delay s) (repeat_interval s) (repeat_count s) (repeat_key s)
    (repeat_timer s) (repeat_device s)
    (device_tools s) (device_last_tool s).

Definition set_accum_scroll_dy (v : c_float) (s : MetaSeatImpl) : MetaSeatImpl :=
  mkSeat (xkb s) (keymap s) (button_state s) (button_count s)
    (touch_states s) (pointer_x s) (pointer_y s) (accum_scroll_dx s) v
    (viewports s) (pointer_constraint s) (barrier_manager s)
    (core_pointer s) (core_keyboard s) (device_coords s) (repeat_enabled s)
    (repeat_delay s) (repeat_interval s) (repeat_count s) (repeat_key s)
    (repeat_timer s) (repeat_device s)
    (device_tools s) (device_last_tool s).

Definition set_viewports (v : option MetaViewportInfo) (s : MetaSeatImpl)
    : MetaSeatImpl :=
  mkSeat (xkb s) (keymap s) (button_state s) (button_count s)
    (touch_states s) (pointer_x s) (pointer_y s) (accum_scroll_dx s)
    (accum_scroll_dy s) v (pointer_constraint s) (barrier_manager s)
    (core_pointer s) (core_keyboard s) (device_coords s) (repeat_enabled s)
    (repeat_delay s) (repeat_interval s) (repeat_count s) (repeat_key s)
    (repeat_timer s) (repeat_device s)
    (device_tools s) (device_last_tool s).

Definition set_barrier_manager (v : BarrierManager) (s : MetaSeatImpl)
    : MetaSeatImpl :=
  mkSeat (xkb s) (keymap s) (button_state s) (button_count s)
    (touch_states s) (pointer_x s) (pointer_y s) (accum_scroll_dx s)
    (accum_scroll_dy s) (viewports s) (pointer_constraint s) v
    (core_pointer s) (core_keyboard s) (device_coords s) (repeat_enabled s)
    (repeat_delay s) (repeat_interval s) (repeat_count s) (repeat_key s)
    (repeat_timer s) (repeat_device s)
    (device_tools s) (device_last_tool s).

Definition set_device_coords (v : gmap Z (Q * Q)) (s : MetaSeatImpl)
    : MetaSeatImpl :=
  mkSeat (xkb s) (keymap s) (button_state s) (button_count s)
    (touch_states s) (pointer_x s) (pointer_y s) (accum_scroll_dx s)
    (accum_scroll_dy s) (viewports s) (pointer_constraint s)
    (barrier_manager s) (core_pointer s) (core_keyboard s) v
    (repeat_enabled s) (repeat_delay s) (repeat_interval s) (repeat_count s)
    (repeat_key s) (repeat_timer s) (repeat_device s)
    (device_tools s) (device_last_tool s).

Definition set_repeat_count (v : Z) (s : MetaSeatImpl) : MetaSeatImpl :=
  mkSeat (xkb s) (keymap s) (button_state s) (button_count s)
    (touch_states s) (pointer_x s) (pointer_y s) (accum_scroll_dx s)
    (accum_scroll_dy s) (viewports s) (pointer_constraint s)
    (barrier_manager s) (core_pointer s) (core_keyboard s) (device_coords s)
    (repeat_enabled s) (repeat_delay s) (repeat_interval s) v (repeat_key s)
    (repeat_timer s) (repeat_device s)
    (device_tools s) (device_last_tool s).

Definition set_repeat_key (v : Z) (s : MetaSeatImpl) : MetaSeatImpl :=
  mkSeat (xkb s) (keymap s) (button_state s) (button_count s)
    (touch_states s) (pointer_x s) (pointer_y s) (accum_scroll_dx s)
    (accum_scroll_dy s) (viewports s) (pointer_constraint s)
    (barrier_manager s) (core_pointer s) (core_keyboard s) (device_coords s)
    (repeat_enabled s) (repeat_delay s) (repeat_interval s) (repeat_count s)
    v (repeat_timer s) (repeat_device s)
    (device_tools s) (device_last_tool s).

Definition set_repeat_timer (v : option Z) (s : MetaSeatImpl)
    : MetaSeatImpl :=
  mkSeat (xkb s) (keymap s) (button_state s) (button_count s)
    (touch_states s) (pointer_x s) (pointer_y s) (accum_scroll_dx s)
    (accum_scroll_dy s) (viewports s) (pointer_constraint s)
    (barrier_manager s) (core_pointer s) (core_keyboard s) (device_coords s)
    (repeat_enabled s) (repeat_delay s) (repeat_interval s) (repeat_count s)
    (repeat_key s) v (repeat_device s)
    (device_tools s) (device_last_tool s).

Definition set_repeat_device (v : option ClutterInputDevice) (s : MetaSeatImpl)
    : MetaSeatImpl :=
  mkSeat (xkb s) (keymap s) (button_state s) (button_count s)
    (touch_states s) (pointer_x s) (pointer_y s) (accum_scroll_dx s)
    (accum_scroll_dy s) (viewports s) (pointer_constraint s)
    (barrier_manager s) (core_pointer s) (core_keyboard s) (device_coords s)
    (repeat_enabled s) (repeat_delay s) (repeat_interval s) (repeat_count s)
    (repeat_key s) (repeat_timer s) v
    (device_tools s) (device_last_tool s).

Definition set_device_tools (v : gmap Z (list ClutterInputDeviceTool))
    (s : MetaSeatImpl) : MetaSeatImpl :=
  mkSeat (xkb s) (keymap s) (button_state s) (button_count s)
    (touch_states s) (pointer_x s) (pointer_y s) (accum_scroll_dx s)
    (accum_scroll_dy s) (viewports s) (pointer_constraint s)
    (barrier_manager s) (core_pointer s) (core_keyboard s) (device_coords s)
    (repeat_enabled s) (repeat_delay s) (repeat_interval s) (repeat_count s)
    (repeat_key s) (repeat_timer s) (repeat_device s) v (device_last_tool s).

Definition set_device_last_tool (v : gmap Z ClutterInputDeviceTool)
    (s : MetaSeatImpl) : MetaSeatImpl :=
  mkSeat (xkb s) (keymap s) (button_state s) (button_count s)
    (touch_states s) (pointer_x s) (pointer_y s) (accum_scroll_dx s)
    (accum_scroll_dy s) (viewports s) (pointer_constraint s)
    (barrier_manager s) (core_pointer s) (core_keyboard s) (device_coords s)
    (repeat_enabled s) (repeat_delay s) (repeat_interval s) (repeat_count s)
    (repeat_key s) (repeat_timer s) (repeat_device s) (device_tools s) v.

(** *** Results of a seat function

    A seat function changes the seat and leaves a trace of effects.  It
    can also stop the process on a failed [g_assert], and the model of a
    loop can run out of fuel. *)
Inductive Outcome (A : Type) :=
| Done (a : A) (s : MetaSeatImpl) (t : list Effect)
| Aborted
| OutOfFuel.
Arguments Done {A}.
Arguments Aborted {A}.
Arguments OutOfFuel {A}.

Definition M (A : Type) : Type := MetaSeatImpl -> Outcome A.

Definition ret {A} (a : A) : M A := fun s => Done a s [].

Definition bind {A B} (m : M A) (k : A -> M B) : M B := fun s =>
  match m s with
  | Done a s1 t1 =>
      match k a s1 with
      | Done b s2 t2 => Done b s2 (t1 ++ t2)
      | Aborted => Aborted
      | OutOfFuel => OutOfFuel
      end
  | Aborted => Aborted
  | OutOfFuel => OutOfFuel
  end.

Definition get : M MetaSeatImpl := fun s => Done s s [].
Definition modify (f : MetaSeatImpl -> MetaSeatImpl) : M unit :=
  fun s => Done tt (f s) [].
Definition emit (e : Effect) : M unit := fun s => Done tt s [e].
Definition g_assert_failed {A} : M A := fun _ => Aborted.
Definition out_of_fuel {A} : M A := fun _ => OutOfFuel.

End Seat.

Arguments Done {ext A}.
Arguments Aborted {ext A}.
Arguments OutOfFuel {ext A}.

Declare Scope seat_scope.
Delimit Scope seat_scope with seat.
Notation "x <- m ;; k" := (bind m (fun x => k))
  (at level 100, m at next level, right associativity) : seat_scope.
Notation "m ;;; k" := (bind m (fun _ => k))
  (at level 100, right associativity) : seat_scope.

Section SeatFunctions.

Context {ext : External}.
Local Open Scope seat_scope.

Definition queue_event (event : ClutterEvent) : M unit := emit (Queued event).

(** [clutter_input_device_get_coords] and
    [meta_input_device_native_update_coords]: the coordinates cached on a
    device, (0,0) for a device that has none yet. *)
Definition clutter_input_device_get_coords
    (seat : MetaSeatImpl) (device : ClutterInputDevice) : Q * Q :=
  default (0, 0)%Q (device_coords seat !! device_id device).

Definition meta_input_device_native_update_coords
    (device : ClutterInputDevice) (x y : Q) : M unit :=
  modify (fun s => set_device_coords (<[device_id device := (x, y)]> (device_coords s)) s).

(** [device_evdev->last_tool]: the tool last in proximity of a device. *)
Definition last_tool (seat : MetaSeatImpl) (device : ClutterInputDevice)
    : option ClutterInputDeviceTool :=
  device_last_tool seat !! device_id device.

(** *** Touch states *)

Definition meta_seat_impl_lookup_touch_state
    (seat : MetaSeatImpl) (seat_slot : Z) : option MetaTouchState :=
  match touch_states seat with
  | None => None
  | Some table => table !! seat_slot
  end.

(** [meta_seat_impl_acquire_touch_state]: the table is created on first
    use; [g_assert] stops the process when the slot is already there. *)
Definition meta_seat_impl_acquire_touch_state (seat_slot : Z) : M MetaTouchState :=
  seat <- get ;;
  let table := match touch_states seat with
               | None => ∅
               | Some table => table
               end in
  match table !! seat_slot with
  | Some _ => g_assert_failed
  | None =>
      let touch_state := mkTouchState seat_slot 0 0 in
      modify (set_touch_states (Some (<[seat_slot := touch_state]> table))) ;;;
      ret touch_state
  end.

Definition meta_seat_impl_release_touch_state (seat_slot : Z) : M unit :=
  modify (fun s =>
    match touch_states s with
    | None => s
    | Some table => set_touch_states (Some (delete seat_slot table)) s
    end).

(** Writing the coordinates through the pointer that acquire or lookup
    returned: the entry of the table changes. *)
Definition touch_state_set_coords (slot : Z) (x y : Q) : M unit :=
  modify (fun s =>
    match touch_states s with
    | None => s
    | Some table =>
        set_touch_states (Some (alter (fun ts => mkTouchState (seat_slot ts) x y)
                                      slot table)) s
    end).

Definition meta_seat_impl_clear_repeat_timer : M unit :=
  modify (fun s =>
    match repeat_timer s with
    | Some _ => set_repeat_device None (set_repeat_timer None s)
    | None => s
    end).

(** [meta_seat_impl_sync_leds]: the LED bits are read from the xkb state
    and written to every device. *)
Definition meta_seat_impl_sync_leds : M unit :=
  seat <- get ;; emit (Sync_leds (xkb seat)).

(** *** Button counters *)

Definition update_button_count (button state : Z) : M Z :=
  seat <- get ;;
  let count := default 0 (button_count seat !! button) in
  if negb (state =? 0) then
    modify (set_button_count (<[button := count + 1]> (button_count seat))) ;;;
    ret (count + 1)
  else if count =? 0 then
    (* Handle cases where we never saw the initial pressed event. *)
    ret 0
  else
    modify (set_button_count (<[button := count - 1]> (button_count seat))) ;;;
    ret (count - 1).

(** The test both notify functions apply to the counter. *)
Definition drop_repeated (state count : Z) : bool :=
  (negb (state =? 0) && (1 <? count)) || ((state =? 0) && negb (count =? 0)).

(** *** Keys *)

(** Modelled from the spec: [meta_key_event_new_from_evdev] lives in
    meta-xkb-utils.c; it builds the key event (press or release, time in
    ms, modifier state) on the core keyboard for the source device. *)
Definition meta_key_event_new_from_evdev
    (device core_keyboard : ClutterInputDevice) (state : xkb_state)
    (button_state time key key_state : Z) : KeyEvent :=
  mkKeyEvent time 0 key_state (meta_xkb_evdev_to_keycode key)
             (meta_xkb_translate_state state button_state) false
             core_keyboard device.

Definition meta_seat_impl_notify_key
    (device : ClutterInputDevice) (time_us key state : Z) (update_keys : bool)
    : M unit :=
  dropped <- (if negb (state =? AUTOREPEAT_VALUE) then
                count <- update_button_count key state ;;
                ret (drop_repeated state count)
              else ret false) ;;
  if dropped : bool then ret tt
  else
    seat <- get ;;
    let event0 := meta_key_event_new_from_evdev device (core_keyboard seat)
                    (xkb seat) (button_state seat) (us2ms time_us) key state in
    let event1 := mkKeyEvent (key_time event0) key (key_state event0)
                    (key_hardware_keycode event0) (key_modifier_state event0)
                    (key_repeated event0) (key_device event0)
                    (key_source_device event0) in
    res <- (if negb (state =? AUTOREPEAT_VALUE) then
              let '(xkb', changed) :=
                xkb_state_update_key (keymap seat) (xkb seat)
                  (key_hardware_keycode event1) (negb (state =? 0)) in
              modify (set_xkb xkb') ;;; ret (changed, event1)
            else
              ret (0, mkKeyEvent (key_time event1) (key_event_code event1)
                        (key_state event1) (key_hardware_keycode event1)
                        (key_modifier_state event1) true (key_device event1)
                        (key_source_device event1))) ;;
    let '(changed_state, event) := res in
    queue_event (CLUTTER_KEY event) ;;;
    (if update_keys && negb (Z.land changed_state XKB_STATE_LEDS =? 0) then
       emit Signal_mods_state_changed ;;;
       meta_seat_impl_sync_leds ;;;
       emit A11y_maybe_notify_toggle_keys
     else ret tt) ;;;
    seat <- get ;;
    if (state =? 0) || negb (repeat_enabled seat)
       || negb (xkb_keymap_key_repeats (keymap seat) (key_hardware_keycode event))
    then meta_seat_impl_clear_repeat_timer
    else
      (if state =? 1 then modify (set_repeat_count 0) else ret tt) ;;;
      modify (fun s => set_repeat_key key (set_repeat_count (repeat_count s + 1) s)) ;;;
      seat <- get ;;
      if (repeat_count seat =? 1) || (repeat_count seat =? 2) then
        meta_seat_impl_clear_repeat_timer ;;;
        modify (set_repeat_device (Some device)) ;;;
        modify (set_repeat_timer
                  (Some (if repeat_count seat =? 1 then repeat_delay seat
                         else repeat_interval seat)))
      else ret tt.

(** *** Pointer constraining *)

(** [constrain_all_screen_monitors]: the loop over the views, with
    ([cx], [cy]) the cached coordinates of the device. *)
Fixpoint constrain_all_screen_monitors
    (cx cy : Q) (views : MetaViewportInfo) (x y : Q) : Q * Q :=
  match views with
  | [] => (x, y)
  | v :: rest =>
      let rect := view_rect v in
      let left := rect_x rect in
      let right := left + rect_width rect in
      let top := rect_y rect in
      let bottom := top + rect_height rect in
      if Qle_bool (inject_Z left) cx && Qlt_bool cx (inject_Z right) &&
         Qle_bool (inject_Z top) cy && Qlt_bool cy (inject_Z bottom)
      then
        let x1 := if Qlt_bool x (inject_Z left) then inject_Z left else x in
        let x2 := if Qle_bool (inject_Z right) x1 then inject_Z (right - 1) else x1 in
        let y1 := if Qlt_bool y (inject_Z top) then inject_Z top else y in
        let y2 := if Qle_bool (inject_Z bottom) y1 then inject_Z (bottom - 1) else y1 in
        (x2, y2)
      else constrain_all_screen_monitors cx cy rest x y
  end.

Definition meta_seat_impl_constrain_pointer
    (core_pointer : ClutterInputDevice) (time_us : Z) (x y new_x new_y : Q)
    : M (Q * Q) :=
  seat <- get ;;
  (* Constrain to barriers *)
  let '(manager, (new_x, new_y)) :=
    meta_barrier_manager_native_process (barrier_manager seat) core_pointer
                                        (us2ms time_us) new_x new_y in
  modify (set_barrier_manager manager) ;;;
  (* Bar to constraints *)
  let '(new_x, new_y) :=
    match pointer_constraint seat with
    | Some constraint =>
        meta_pointer_constraint_impl_constrain constraint core_pointer
                                               (us2ms time_us) x y new_x new_y
    | None => (new_x, new_y)
    end in
  match viewports seat with
  | Some vp =>
      (* if we're moving inside a monitor, we're fine *)
      if 0 <=? meta_viewport_info_get_view_at vp new_x new_y then ret (new_x, new_y)
      else
        (* if we're trying to escape, clamp to the CRTC we're coming from *)
        let '(cx, cy) := clutter_input_device_get_coords seat core_pointer in
        ret (constrain_all_screen_monitors cx cy vp new_x new_y)
  | None => ret (new_x, new_y)
  end.

(** *** Relative motion across outputs *)

(** The [if ... else if] chain over the four edges of the current view:
    an edge is tried unless the last crossing went the opposite way. *)
Definition pick_crossing (direction : option MetaDisplayDirection)
    (motion left right top bottom : MetaLine2)
    : option (MetaDisplayDirection * MetaVector2) :=
  let try (forbidden : MetaDisplayDirection) (edge : MetaLine2) :=
    if direction_is direction forbidden then None
    else meta_line2_intersects_with motion edge in
  match try META_DISPLAY_RIGHT left with
  | Some i => Some (META_DISPLAY_LEFT, i)
  | None =>
  match try META_DISPLAY_LEFT right with
  | Some i => Some (META_DISPLAY_RIGHT, i)
  | None =>
  match try META_DISPLAY_DOWN top with
  | Some i => Some (META_DISPLAY_UP, i)
  | None =>
  match try META_DISPLAY_UP bottom with
  | Some i => Some (META_DISPLAY_DOWN, i)
  | None => None
  end end end end.

(** The [while (cur_view >= 0)] loop of [relative_motion_across_outputs],
    one iteration per unit of fuel; the result is ([target_x],
    [target_y]) at the exit, [None] when the fuel runs out. *)
Fixpoint relative_motion_loop (fuel : nat) (viewports : MetaViewportInfo)
    (cur_view : Z) (x y target_x target_y dx dy : Q)
    (direction : option MetaDisplayDirection) : option (Q * Q) :=
  match fuel with
  | O => None
  | S fuel' =>
      if cur_view <? 0 then Some (target_x, target_y) else
      match meta_viewport_info_get_view viewports cur_view with
      | None => Some (target_x, target_y)   (* no such view: not reached *)
      | Some v =>
          let rect := view_rect v in
          let scale := view_scale v in
          let rx := inject_Z (rect_x rect) in
          let ry := inject_Z (rect_y rect) in
          let rx' := inject_Z (rect_x rect + rect_width rect) in
          let ry' := inject_Z (rect_y rect + rect_height rect) in
          let motion := mkLine (mkVec x y) (mkVec (x + dx * scale) (y + dy * scale)) in
          let left := mkLine (mkVec rx ry) (mkVec rx ry') in
          let right := mkLine (mkVec rx' ry) (mkVec rx' ry') in
          let top := mkLine (mkVec rx ry) (mkVec rx' ry) in
          let bottom := mkLine (mkVec rx ry') (mkVec rx' ry') in
          let target_x := vec_x (line_b motion) in
          let target_y := vec_y (line_b motion) in
          match pick_crossing direction motion left right top bottom with
          | None =>
              (* We reached the dest logical monitor *)
              Some (target_x, target_y)
          | Some (direction, intersection) =>
              relative_motion_loop fuel' viewports
                (meta_viewport_info_get_neighbor viewports cur_view direction)
                (vec_x intersection) (vec_y intersection) target_x target_y
                (dx - (vec_x intersection - vec_x (line_a motion)))
                (dy - (vec_y intersection - vec_y (line_a motion)))
                (Some direction)
          end
      end
  end.

Definition relative_motion_across_outputs (fuel : nat)
    (viewports : MetaViewportInfo) (view : Z) (cur_x cur_y dx dy : Q)
    : option (Q * Q) :=
  match relative_motion_loop fuel viewports view cur_x cur_y cur_x cur_y dx dy None with
  | None => None
  | Some (target_x, target_y) => Some (target_x - cur_x, target_y - cur_y)%Q
  end.

Definition meta_seat_impl_filter_relative_motion (fuel : nat)
    (seat : MetaSeatImpl) (x y dx dy : Q) : option (Q * Q) :=
  if meta_is_stage_views_scaled then Some (dx, dy)
  else
    match viewports seat with
    | None => Some (dx, dy)
    | Some vp =>
        let view := meta_viewport_info_get_view_at vp x y in
        if view <? 0 then Some (dx, dy) else
        match meta_viewport_info_get_view vp view with
        | None => Some (dx, dy)   (* no such view: not reached *)
        | Some v =>
            let scale := view_scale v in
            let new_dx := (dx * scale)%Q in
            let new_dy := (dy * scale)%Q in
            let dest_view :=
              meta_viewport_info_get_view_at vp (x + new_dx) (y + new_dy) in
            if (0 <=? dest_view) && negb (dest_view =? view) then
              (* If we are crossing monitors, attempt to bisect the distance
                 on each axis and apply the relative scale for each of them. *)
              relative_motion_across_outputs fuel vp view x y dx dy
            else Some (new_dx, new_dy)
        end
    end.

(** *** Motion events *)

Definition new_absolute_motion_event (input_device : ClutterInputDevice)
    (time_us : Z) (x y : Q) (axes : option (list Q)) : M MotionEvent :=
  let tablet := is_tablet (device_type input_device) in
  seat <- get ;;
  xy <- (if negb tablet then
           meta_seat_impl_constrain_pointer (core_pointer seat) time_us
             (pointer_x seat) (pointer_y seat) x y
         else ret (x, y)) ;;
  let '(x, y) := xy : Q * Q in
  seat <- get ;;
  let '(event_x, event_y) :=
    (* This may happen early at startup *)
    match viewports seat with
    | Some vp => meta_input_device_native_translate_coordinates input_device vp x y
    | None => (x, y)
    end in
  (if tablet then meta_input_device_native_update_coords input_device x y
   else meta_input_device_native_update_coords (core_pointer seat) x y) ;;;
  (if negb tablet then modify (fun s => set_pointer_y y (set_pointer_x x s))
   else ret tt) ;;;
  ret (mkMotionEvent time_us (us2ms time_us)
         (meta_xkb_translate_state (xkb seat) (button_state seat))
         event_x event_y axes
         (if tablet then input_device else core_pointer seat)
         input_device
         (if tablet then last_tool seat input_device else None)
         None).

Definition meta_event_native_set_relative_motion (event : MotionEvent)
    (dx dy dx_unaccel dy_unaccel : Q) : MotionEvent :=
  mkMotionEvent (motion_time_usec event) (motion_time event)
    (motion_modifier_state event) (motion_x event) (motion_y event)
    (motion_axes event) (motion_device event) (motion_source_device event)
    (motion_tool event) (Some (dx, dy, dx_unaccel, dy_unaccel)).

Definition meta_seat_impl_notify_relative_motion (fuel : nat)
    (input_device : ClutterInputDevice) (time_us : Z)
    (dx dy dx_unaccel dy_unaccel : Q) : M unit :=
  seat <- get ;;
  match meta_seat_impl_filter_relative_motion fuel seat
          (pointer_x seat) (pointer_y seat) dx dy with
  | None => out_of_fuel
  | Some (dx, dy) =>
      let new_x := (pointer_x seat + dx)%Q in
      let new_y := (pointer_y seat + dy)%Q in
      event <- new_absolute_motion_event input_device time_us new_x new_y None ;;
      queue_event (CLUTTER_MOTION
        (meta_event_native_set_relative_motion event dx dy dx_unaccel dy_unaccel))
  end.

Definition meta_seat_impl_notify_absolute_motion
    (input_device : ClutterInputDevice) (time_us : Z) (x y : Q)
    (axes : option (list Q)) : M unit :=
  event <- new_absolute_motion_event input_device time_us x y axes ;;
  queue_event (CLUTTER_MOTION event).

(** [meta_seat_impl_warp_pointer]: an absolute motion of the core pointer
    at time 0. *)
Definition meta_seat_impl_warp_pointer (x y : Z) : M unit :=
  seat <- get ;;
  meta_seat_impl_notify_absolute_motion (core_pointer seat) 0
    (inject_Z x) (inject_Z y) None.

(** *** Buttons *)

Definition maskmap : list Z :=
  [ CLUTTER_BUTTON1_MASK; CLUTTER_BUTTON3_MASK; CLUTTER_BUTTON2_MASK;
    CLUTTER_BUTTON4_MASK; CLUTTER_BUTTON5_MASK; 0; 0; 0 ].

(** The [switch (button)] of [meta_seat_impl_notify_button]; [button] is a
    [uint32_t] and [button_nr] an [int]. *)
Definition button_nr_of (input_device : ClutterInputDevice) (button : Z) : Z :=
  if (button =? BTN_LEFT) || (button =? BTN_TOUCH) then CLUTTER_BUTTON_PRIMARY
  else if (button =? BTN_RIGHT) || (button =? BTN_STYLUS) then CLUTTER_BUTTON_SECONDARY
  else if (button =? BTN_MIDDLE) || (button =? BTN_STYLUS2) then CLUTTER_BUTTON_MIDDLE
  else if button =? 0x149 (* BTN_STYLUS3 *) then 8
  else
    (* For compatibility reasons, all additional buttons go after the old
       4-7 scroll ones *)
    if is_tablet (device_type input_device)
    then int32 (uint32 (button - BTN_TOOL_PEN + 4))
    else int32 (uint32 (button - (BTN_LEFT - 1) + 4)).

Definition meta_seat_impl_notify_button (input_device : ClutterInputDevice)
    (time_us button state : Z) : M unit :=
  (* Drop any repeated button press (for example from virtual devices. *)
  button_count <- update_button_count button state ;;
  if drop_repeated state button_count then ret tt
  else
    let button_nr := button_nr_of input_device button in
    if (button_nr <? 1) || (12 <? button_nr) then
      emit (Warning_unhandled_button button)
    else
      (if button_nr <? Z.of_nat (length maskmap) then
         (* Update the modifiers *)
         let mask := nth (Z.to_nat (button_nr - 1)) maskmap 0 in
         modify (fun s =>
           set_button_state
             (if negb (state =? 0) then Z.lor (button_state s) mask
              else Z.land (button_state s) (Z.lnot mask)) s)
       else ret tt) ;;;
      seat <- get ;;
      let tablet := is_tablet (device_type input_device) in
      let '(x, y) :=
        if tablet then clutter_input_device_get_coords seat input_device
        else (pointer_x seat, pointer_y seat) in
      let event_code :=
        match last_tool seat input_device with
        | Some tool =>
            (* Apply the button event code as per the tool mapping *)
            let mapped_button :=
              meta_input_device_tool_native_get_button_code tool button_nr in
            if negb (mapped_button =? 0) then mapped_button else button
        | None => button
        end in
      queue_event (CLUTTER_BUTTON
        (mkButtonEvent
           (if negb (state =? 0) then CLUTTER_BUTTON_PRESS else CLUTTER_BUTTON_RELEASE)
           time_us (us2ms time_us)
           (meta_xkb_translate_state (xkb seat) (button_state seat))
           button_nr x y event_code
           (if tablet then input_device else core_pointer seat)
           input_device
           (if tablet then last_tool seat input_device else None))).

(** *** Scroll *)

Definition notify_scroll (input_device : ClutterInputDevice) (time_us : Z)
    (dx dy : Q) (scroll_source : ClutterScrollSource) (flags : Z)
    (emulated : bool) : M unit :=
  seat <- get ;;
  (* libinput pointer axis events are in pointer motion coordinate space.
     To convert to Xi2 discrete step coordinate space, multiply the factor
     1/10. *)
  let scroll_factor := (1 / DISCRETE_SCROLL_STEP)%Q in
  queue_event (CLUTTER_SCROLL
    (mkScrollEvent time_us (us2ms time_us)
       (meta_xkb_translate_state (xkb seat) (button_state seat))
       CLUTTER_SCROLL_SMOOTH
       (scroll_factor * dx, scroll_factor * dy)%Q
       (pointer_x seat) (pointer_y seat)
       (core_pointer seat) input_device scroll_source flags emulated)).

Definition notify_discrete_scroll (input_device : ClutterInputDevice)
    (time_us : Z) (direction : ClutterScrollDirection)
    (scroll_source : ClutterScrollSource) (emulated : bool) : M unit :=
  match direction with
  | CLUTTER_SCROLL_SMOOTH => ret tt
  | _ =>
      seat <- get ;;
      queue_event (CLUTTER_SCROLL
        (mkScrollEvent time_us (us2ms time_us)
           (meta_xkb_translate_state (xkb seat) (button_state seat))
           direction (0, 0)%Q
           (pointer_x seat) (pointer_y seat)
           (core_pointer seat) input_device scroll_source
           CLUTTER_SCROLL_FINISHED_NONE emulated))
  end.

(** [for (i = 0; i < n; i++) body], [Z.to_nat n] times: none for a
    negative [n]. *)
Fixpoint for_loop (n : nat) (body : M unit) : M unit :=
  match n with
  | O => ret tt
  | S n' => body ;;; for_loop n' body
  end.

Definition check_notify_discrete_scroll (device : ClutterInputDevice)
    (time_us : Z) (scroll_source : ClutterScrollSource) : M unit :=
  seat <- get ;;
  let n_xscrolls :=
    int_of_double
      (c_floor (c_div binary64 (c_fabs (accum_scroll_dx seat)) DISCRETE_SCROLL_STEP)) in
  let n_yscrolls :=
    int_of_double
      (c_floor (c_div binary64 (c_fabs (accum_scroll_dy seat)) DISCRETE_SCROLL_STEP)) in
  for_loop (Z.to_nat n_xscrolls)
    (notify_discrete_scroll device time_us
       (if c_gt (accum_scroll_dx seat) 0
        then CLUTTER_SCROLL_RIGHT else CLUTTER_SCROLL_LEFT)
       scroll_source true) ;;;
  for_loop (Z.to_nat n_yscrolls)
    (notify_discrete_scroll device time_us
       (if c_gt (accum_scroll_dy seat) 0
        then CLUTTER_SCROLL_DOWN else CLUTTER_SCROLL_UP)
       scroll_source true) ;;;
  modify (fun s =>
    set_accum_scroll_dy (fmodf (accum_scroll_dy s) DISCRETE_SCROLL_STEP)
      (set_accum_scroll_dx (fmodf (accum_scroll_dx s) DISCRETE_SCROLL_STEP) s)).

Definition meta_seat_impl_notify_scroll_continuous
    (input_device : ClutterInputDevice) (time_us : Z) (dx dy : Q)
    (scroll_source : ClutterScrollSource) (finish_flags : Z) : M unit :=
  modify (fun s =>
    if negb (Z.land finish_flags CLUTTER_SCROLL_FINISHED_HORIZONTAL =? 0)
    then set_accum_scroll_dx (F_finite 0) s
    else set_accum_scroll_dx (float_add_double (accum_scroll_dx s) dx) s) ;;;
  modify (fun s =>
    if negb (Z.land finish_flags CLUTTER_SCROLL_FINISHED_VERTICAL =? 0)
    then set_accum_scroll_dy (F_finite 0) s
    else set_accum_scroll_dy (float_add_double (accum_scroll_dy s) dy) s) ;;;
  notify_scroll input_device time_us dx dy scroll_source finish_flags false ;;;
  check_notify_discrete_scroll input_device time_us scroll_source.

(** [discrete_to_direction]: [None] stands for [g_assert_not_reached]. *)
Definition discrete_to_direction (discrete_dx discrete_dy : Q)
    : option ClutterScrollDirection :=
  if Qlt_bool 0 discrete_dx then Some CLUTTER_SCROLL_RIGHT
  else if Qlt_bool discrete_dx 0 then Some CLUTTER_SCROLL_LEFT
  else if Qlt_bool 0 discrete_dy then Some CLUTTER_SCROLL_DOWN
  else if Qlt_bool discrete_dy 0 then Some CLUTTER_SCROLL_UP
  else None.

Definition meta_seat_impl_notify_discrete_scroll
    (input_device : ClutterInputDevice) (time_us : Z)
    (discrete_dx discrete_dy : Q) (scroll_source : ClutterScrollSource)
    : M unit :=
  notify_scroll input_device time_us
    (discrete_dx * DISCRETE_SCROLL_STEP) (discrete_dy * DISCRETE_SCROLL_STEP)
    scroll_source CLUTTER_SCROLL_FINISHED_NONE true ;;;
  match discrete_to_direction discrete_dx discrete_dy with
  | None => g_assert_failed
  | Some direction =>
      notify_discrete_scroll input_device time_us direction scroll_source false
  end.

Definition notify_continuous_axis (device : ClutterInputDevice) (time_us : Z)
    (scroll_source : ClutterScrollSource)
    (axis_event : libinput_event_pointer_axis) : M unit :=
  let '(dx, flags_h) :=
    match axis_horizontal axis_event with
    | Some a =>
        (axis_value a,
         if Qlt_bool (Qabs (axis_value a)) DBL_EPSILON
         then CLUTTER_SCROLL_FINISHED_HORIZONTAL else CLUTTER_SCROLL_FINISHED_NONE)
    | None => (0%Q, CLUTTER_SCROLL_FINISHED_NONE)
    end in
  let '(dy, flags_v) :=
    match axis_vertical axis_event with
    | Some a =>
        (axis_value a,
         if Qlt_bool (Qabs (axis_value a)) DBL_EPSILON
         then CLUTTER_SCROLL_FINISHED_VERTICAL else CLUTTER_SCROLL_FINISHED_NONE)
    | None => (0%Q, CLUTTER_SCROLL_FINISHED_NONE)
    end in
  meta_seat_impl_notify_scroll_continuous device time_us dx dy scroll_source
    (Z.lor flags_h flags_v).

Definition notify_discrete_axis (device : ClutterInputDevice) (time_us : Z)
    (scroll_source : ClutterScrollSource)
    (axis_event : libinput_event_pointer_axis) : M unit :=
  let discrete_dx :=
    match axis_horizontal axis_event with
    | Some a => axis_value_discrete a
    | None => 0%Q
    end in
  let discrete_dy :=
    match axis_vertical axis_event with
    | Some a => axis_value_discrete a
    | None => 0%Q
    end in
  meta_seat_impl_notify_discrete_scroll device time_us discrete_dx discrete_dy
    scroll_source.

Definition translate_scroll_source (source : libinput_pointer_axis_source)
    : ClutterScrollSource :=
  match source with
  | LIBINPUT_POINTER_AXIS_SOURCE_WHEEL => CLUTTER_SCROLL_SOURCE_WHEEL
  | LIBINPUT_POINTER_AXIS_SOURCE_FINGER => CLUTTER_SCROLL_SOURCE_FINGER
  | LIBINPUT_POINTER_AXIS_SOURCE_CONTINUOUS => CLUTTER_SCROLL_SOURCE_CONTINUOUS
  | _ => CLUTTER_SCROLL_SOURCE_UNKNOWN
  end.

(** *** Touch *)

Definition meta_seat_impl_notify_touch_event (input_device : ClutterInputDevice)
    (evtype : ClutterTouchType) (time_us slot : Z) (x y : Q) : M unit :=
  seat <- get ;;
  let '(event_x, event_y) :=
    (* the source hands a NULL layout on to the device; the model leaves
       the coordinates alone then *)
    match viewports seat with
    | Some vp => meta_input_device_native_translate_coordinates input_device vp x y
    | None => (x, y)
    end in
  let modifier_state := meta_xkb_translate_state (xkb seat) (button_state seat) in
  queue_event (CLUTTER_TOUCH
    (mkTouchEvent evtype time_us (us2ms time_us) event_x event_y
       (* "NULL" sequences are special cased in clutter *)
       (Z.max 1 (slot + 1))
       (match evtype with
        | CLUTTER_TOUCH_BEGIN | CLUTTER_TOUCH_UPDATE =>
            Z.lor modifier_state CLUTTER_BUTTON1_MASK
        | _ => modifier_state
        end)
       (core_pointer seat) input_device)).

(** *** Tablet tools, gestures and pads *)

Definition notify_absolute_motion (input_device : ClutterInputDevice)
    (time_us : Z) (x y : Q) (axes : option (list Q)) : M unit :=
  event <- new_absolute_motion_event input_device time_us x y axes ;;
  queue_event (CLUTTER_MOTION event).

(** [notify_relative_tool_motion]: the position is the one cached on the
    tool's device moved by the raw delta; the delta attached to the event
    is the filtered one. *)
Definition notify_relative_tool_motion (fuel : nat)
    (input_device : ClutterInputDevice) (time_us : Z) (dx dy : Q)
    (axes : option (list Q)) : M unit :=
  seat <- get ;;
  let '(device_x, device_y) := clutter_input_device_get_coords seat input_device in
  let x := (device_x + dx)%Q in
  let y := (device_y + dy)%Q in
  match meta_seat_impl_filter_relative_motion fuel seat
          (pointer_x seat) (pointer_y seat) dx dy with
  | None => out_of_fuel
  | Some (dx, dy) =>
      event <- new_absolute_motion_event input_device time_us x y axes ;;
      queue_event (CLUTTER_MOTION
        (meta_event_native_set_relative_motion event dx dy 0 0))
  end.

Definition notify_pinch_gesture_event (input_device : ClutterInputDevice)
    (phase : ClutterTouchpadGesturePhase) (time_us : Z)
    (dx dy angle_delta scale : Q) (n_fingers : Z) : M unit :=
  seat <- get ;;
  let '(pos_x, pos_y) := clutter_input_device_get_coords seat (core_pointer seat) in
  queue_event (CLUTTER_TOUCHPAD_PINCH
    (mkPinchEvent phase time_us (us2ms time_us) pos_x pos_y dx dy
       angle_delta scale n_fingers
       (meta_xkb_translate_state (xkb seat) (button_state seat))
       (core_pointer seat) input_device)).

Definition notify_swipe_gesture_event (input_device : ClutterInputDevice)
    (phase : ClutterTouchpadGesturePhase) (time_us n_fingers : Z) (dx dy : Q)
    : M unit :=
  seat <- get ;;
  let '(pos_x, pos_y) := clutter_input_device_get_coords seat (core_pointer seat) in
  queue_event (CLUTTER_TOUCHPAD_SWIPE
    (mkSwipeEvent phase time_us (us2ms time_us) pos_x pos_y dx dy n_fingers
       (meta_xkb_translate_state (xkb seat) (button_state seat))
       (core_pointer seat) input_device)).

Definition notify_proximity (input_device : ClutterInputDevice) (time_us : Z)
    (is_in : bool) : M unit :=
  seat <- get ;;
  queue_event (CLUTTER_PROXIMITY
    (mkProximityEvent
       (if is_in then CLUTTER_PROXIMITY_IN else CLUTTER_PROXIMITY_OUT)
       time_us (us2ms time_us) (last_tool seat input_device)
       (core_pointer seat) input_device)).

Definition notify_pad_button (input_device : ClutterInputDevice)
    (time_us button mode_group mode : Z) (pressed : bool) : M unit :=
  queue_event (CLUTTER_PAD_BUTTON
    (mkPadButtonEvent
       (if pressed then CLUTTER_PAD_BUTTON_PRESS else CLUTTER_PAD_BUTTON_RELEASE)
       time_us button mode_group mode input_device input_device
       (us2ms time_us))).

Definition notify_pad_strip (input_device : ClutterInputDevice)
    (time_us strip_number : Z)
    (strip_source : libinput_tablet_pad_strip_axis_source)
    (mode_group mode : Z) (value : Q) : M unit :=
  let source :=
    match strip_source with
    | LIBINPUT_TABLET_PAD_STRIP_SOURCE_FINGER => CLUTTER_INPUT_DEVICE_PAD_SOURCE_FINGER
    | _ => CLUTTER_INPUT_DEVICE_PAD_SOURCE_UNKNOWN
    end in
  queue_event (CLUTTER_PAD_STRIP
    (mkPadStripEvent time_us source strip_number value mode_group mode
       input_device input_device (us2ms time_us))).

Definition notify_pad_ring (input_device : ClutterInputDevice)
    (time_us ring_number : Z)
    (ring_source : libinput_tablet_pad_ring_axis_source)
    (mode_group mode : Z) (angle : Q) : M unit :=
  let source :=
    match ring_source with
    | LIBINPUT_TABLET_PAD_RING_SOURCE_FINGER => CLUTTER_INPUT_DEVICE_PAD_SOURCE_FINGER
    | _ => CLUTTER_INPUT_DEVICE_PAD_SOURCE_UNKNOWN
    end in
  queue_event (CLUTTER_PAD_RING
    (mkPadRingEvent time_us source ring_number angle mode_group mode
       input_device input_device (us2ms time_us))).

Definition translate_tool_type (libinput_tool : libinput_tablet_tool)
    : ClutterInputDeviceToolType :=
  match libinput_tablet_tool_get_type libinput_tool with
  | LIBINPUT_TABLET_TOOL_TYPE_PEN => CLUTTER_INPUT_DEVICE_TOOL_PEN
  | LIBINPUT_TABLET_TOOL_TYPE_ERASER => CLUTTER_INPUT_DEVICE_TOOL_ERASER
  | LIBINPUT_TABLET_TOOL_TYPE_BRUSH => CLUTTER_INPUT_DEVICE_TOOL_BRUSH
  | LIBINPUT_TABLET_TOOL_TYPE_PENCIL => CLUTTER_INPUT_DEVICE_TOOL_PENCIL
  | LIBINPUT_TABLET_TOOL_TYPE_AIRBRUSH => CLUTTER_INPUT_DEVICE_TOOL_AIRBRUSH
  | LIBINPUT_TABLET_TOOL_TYPE_MOUSE => CLUTTER_INPUT_DEVICE_TOOL_MOUSE
  | LIBINPUT_TABLET_TOOL_TYPE_LENS => CLUTTER_INPUT_DEVICE_TOOL_LENS
  | _ => CLUTTER_INPUT_DEVICE_TOOL_NONE
  end.

(** Modelled from the spec: Clutter's [clutter_input_device_lookup_tool]
    and [clutter_input_device_add_tool]; a device keeps its tools, each
    identified by serial and type, so that a tool coming into proximity
    again is the same tool. *)
Definition clutter_input_device_lookup_tool (seat : MetaSeatImpl)
    (device : ClutterInputDevice) (serial : Z) (type : ClutterInputDeviceToolType)
    : option ClutterInputDeviceTool :=
  List.find (tool_is serial type) (default [] (device_tools seat !! device_id device)).

Definition clutter_input_device_add_tool (device : ClutterInputDevice)
    (tool : ClutterInputDeviceTool) : M unit :=
  modify (fun s =>
    set_device_tools
      (<[device_id device :=
           default [] (device_tools s !! device_id device) ++ [tool]]>
         (device_tools s)) s).

(** Modelled from the spec: [meta_input_device_tool_native_new] lives in
    meta-input-device-tool-native.c; a new tool has the given serial and
    type and no button remapped. *)
Definition meta_input_device_tool_native_new (libinput_tool : libinput_tablet_tool)
    (serial : Z) (type : ClutterInputDeviceToolType) : ClutterInputDeviceTool :=
  mkTool serial type ∅.

(** [input_device_update_tool]; [None] is the [NULL] tool. *)
Definition input_device_update_tool (input_device : ClutterInputDevice)
    (libinput_tool : option libinput_tablet_tool) : M unit :=
  tool <- match libinput_tool with
          | Some libinput_tool =>
              seat <- get ;;
              let tool_serial := libinput_tablet_tool_get_serial libinput_tool in
              let tool_type := translate_tool_type libinput_tool in
              match clutter_input_device_lookup_tool seat input_device
                      tool_serial tool_type with
              | Some tool => ret (Some tool)
              | None =>
                  let tool := meta_input_device_tool_native_new libinput_tool
                                tool_serial tool_type in
                  clutter_input_device_add_tool input_device tool ;;;
                  ret (Some tool)
              end
          | None => ret None
          end ;;
  seat <- get ;;
  if negb (same_tool (last_tool seat input_device) tool) then
    match tool with
    | Some t => emit (Device_update_from_tool input_device t)
    | None => ret tt
    end ;;;
    modify (fun s =>
      set_device_last_tool
        (match tool with
         | Some t => <[device_id input_device := t]> (device_last_tool s)
         | None => delete (device_id input_device) (device_last_tool s)
         end) s) ;;;
    emit (Signal_tool_changed input_device tool)
  else ret tt.

(** [translate_tablet_axes]: the array of the axes the tool has, in the
    order of the source; [None] is the [NULL] of an empty array. *)
Definition translate_tablet_axes (tablet_event : libinput_event_tablet_tool)
    (tool : option ClutterInputDeviceTool) : option (list Q) :=
  let libinput_tool := tablet_tool tablet_event in
  let axes :=
    [ tablet_x tablet_event; tablet_y tablet_event ]
    ++ (if libinput_tablet_tool_has_distance libinput_tool
        then [ tablet_distance tablet_event ] else [])
    ++ (if libinput_tablet_tool_has_pressure libinput_tool
        then [ meta_input_device_tool_native_translate_pressure tool
                 (tablet_pressure tablet_event) ]
        else [])
    ++ (if libinput_tablet_tool_has_tilt libinput_tool
        then [ tablet_tilt_x tablet_event; tablet_tilt_y tablet_event ] else [])
    ++ (if libinput_tablet_tool_has_rotation libinput_tool
        then [ tablet_rotation tablet_event ] else [])
    ++ (if libinput_tablet_tool_has_slider libinput_tool
        then [ tablet_slider_position tablet_event ] else [])
    ++ (if libinput_tablet_tool_has_wheel libinput_tool
        then [ tablet_wheel_delta tablet_event ] else []) in
  if Z.of_nat (length axes) =? 0 then None else Some axes.

Definition process_tablet_axis (fuel : nat) (device : ClutterInputDevice)
    (tablet_event : libinput_event_tablet_tool) : M unit :=
  seat <- get ;;
  match translate_tablet_axes tablet_event (last_tool seat device) with
  | None => ret tt
  | Some axes =>
      let '(stage_width, stage_height) :=
        meta_viewport_info_get_extents (viewports seat) in
      let time := tablet_time_usec tablet_event in
      let tool_type :=
        clutter_input_device_tool_get_tool_type (last_tool seat device) in
      if match meta_input_device_native_get_mapping_mode device with
         | META_INPUT_DEVICE_MAPPING_RELATIVE => true
         | _ => false
         end
         || tool_type_eqb tool_type CLUTTER_INPUT_DEVICE_TOOL_MOUSE
         || tool_type_eqb tool_type CLUTTER_INPUT_DEVICE_TOOL_LENS
      then
        notify_relative_tool_motion fuel device time
          (tablet_dx tablet_event) (tablet_dy tablet_event) (Some axes)
      else
        notify_absolute_motion device time
          (transformed (tablet_x_normalized tablet_event) stage_width)
          (transformed (tablet_y_normalized tablet_event) stage_height)
          (Some axes)
  end.

(** *** The translator *)

Definition process_device_event (fuel : nat) (event : libinput_event) : M unit :=
  match event with
  | LIBINPUT_EVENT_KEYBOARD_KEY device time_us key pressed seat_key_count =>
      (* Ignore key events that are not seat wide state changes. *)
      if (pressed && negb (seat_key_count =? 1))
         || (negb pressed && negb (seat_key_count =? 0))
      then ret tt
      else meta_seat_impl_notify_key device time_us key (if pressed then 1 else 0) true
  | LIBINPUT_EVENT_POINTER_MOTION device time_us dx dy dx_unaccel dy_unaccel =>
      meta_seat_impl_notify_relative_motion fuel device time_us
        dx dy dx_unaccel dy_unaccel
  | LIBINPUT_EVENT_POINTER_MOTION_ABSOLUTE device time_us x y =>
      seat <- get ;;
      let '(stage_width, stage_height) :=
        meta_viewport_info_get_extents (viewports seat) in
      meta_seat_impl_notify_absolute_motion device time_us
        (transformed x stage_width) (transformed y stage_height) None
  | LIBINPUT_EVENT_POINTER_BUTTON device time_us button pressed seat_button_count =>
      (* Ignore button events that are not seat wide state changes. *)
      if (pressed && negb (seat_button_count =? 1))
         || (negb pressed && negb (seat_button_count =? 0))
      then ret tt
      else meta_seat_impl_notify_button device time_us button (if pressed then 1 else 0)
  | LIBINPUT_EVENT_POINTER_AXIS device time_us source axis_event =>
      let scroll_source := translate_scroll_source source in
      match scroll_source with
      | CLUTTER_SCROLL_SOURCE_WHEEL =>
          notify_discrete_axis device time_us scroll_source axis_event
      | CLUTTER_SCROLL_SOURCE_FINGER
      | CLUTTER_SCROLL_SOURCE_CONTINUOUS
      | CLUTTER_SCROLL_SOURCE_UNKNOWN =>
          notify_continuous_axis device time_us scroll_source axis_event
      end
  | LIBINPUT_EVENT_TOUCH_DOWN device time_us slot x y =>
      seat <- get ;;
      let '(stage_width, stage_height) :=
        meta_viewport_info_get_extents (viewports seat) in
      let x := transformed x stage_width in
      let y := transformed y stage_height in
      touch_state <- meta_seat_impl_acquire_touch_state slot ;;
      touch_state_set_coords slot x y ;;;
      meta_seat_impl_notify_touch_event device CLUTTER_TOUCH_BEGIN time_us
        (seat_slot touch_state) x y
  | LIBINPUT_EVENT_TOUCH_UP device time_us slot =>
      seat <- get ;;
      match meta_seat_impl_lookup_touch_state seat slot with
      | None => ret tt
      | Some touch_state =>
          meta_seat_impl_notify_touch_event device CLUTTER_TOUCH_END time_us
            (seat_slot touch_state) (coords_x touch_state) (coords_y touch_state) ;;;
          meta_seat_impl_release_touch_state slot
      end
  | LIBINPUT_EVENT_TOUCH_MOTION device time_us slot x y =>
      seat <- get ;;
      let '(stage_width, stage_height) :=
        meta_viewport_info_get_extents (viewports seat) in
      let x := transformed x stage_width in
      let y := transformed y stage_height in
      match meta_seat_impl_lookup_touch_state seat slot with
      | None => ret tt
      | Some touch_state =>
          touch_state_set_coords slot x y ;;;
          meta_seat_impl_notify_touch_event device CLUTTER_TOUCH_UPDATE time_us
            (seat_slot touch_state) x y
      end
  | LIBINPUT_EVENT_TOUCH_CANCEL device time_us slot =>
      seat <- get ;;
      match meta_seat_impl_lookup_touch_state seat slot with
      | None => ret tt
      | Some touch_state =>
          meta_seat_impl_notify_touch_event device CLUTTER_TOUCH_CANCEL time_us
            (seat_slot touch_state) (coords_x touch_state) (coords_y touch_state) ;;;
          meta_seat_impl_release_touch_state slot
      end
  | LIBINPUT_EVENT_GESTURE_PINCH_BEGIN device time_us n_fingers =>
      notify_pinch_gesture_event device CLUTTER_TOUCHPAD_GESTURE_PHASE_BEGIN
        time_us 0 0 0 0 n_fingers
  | LIBINPUT_EVENT_GESTURE_PINCH_END device time_us n_fingers cancelled =>
      let phase := if cancelled then CLUTTER_TOUCHPAD_GESTURE_PHASE_CANCEL
                   else CLUTTER_TOUCHPAD_GESTURE_PHASE_END in
      notify_pinch_gesture_event device phase time_us 0 0 0 0 n_fingers
  | LIBINPUT_EVENT_GESTURE_PINCH_UPDATE device time_us n_fingers
      dx dy angle_delta scale =>
      notify_pinch_gesture_event device CLUTTER_TOUCHPAD_GESTURE_PHASE_UPDATE
        time_us dx dy angle_delta scale n_fingers
  | LIBINPUT_EVENT_GESTURE_SWIPE_BEGIN device time_us n_fingers =>
      notify_swipe_gesture_event device CLUTTER_TOUCHPAD_GESTURE_PHASE_BEGIN
        time_us n_fingers 0 0
  | LIBINPUT_EVENT_GESTURE_SWIPE_END device time_us n_fingers cancelled =>
      let phase := if cancelled then CLUTTER_TOUCHPAD_GESTURE_PHASE_CANCEL
                   else CLUTTER_TOUCHPAD_GESTURE_PHASE_END in
      notify_swipe_gesture_event device phase time_us n_fingers 0 0
  | LIBINPUT_EVENT_GESTURE_SWIPE_UPDATE device time_us n_fingers dx dy =>
      notify_swipe_gesture_event device CLUTTER_TOUCHPAD_GESTURE_PHASE_UPDATE
        time_us n_fingers dx dy
  | LIBINPUT_EVENT_TABLET_TOOL_AXIS device tablet_event =>
      process_tablet_axis fuel device tablet_event
  | LIBINPUT_EVENT_TABLET_TOOL_PROXIMITY device tablet_event is_in =>
      let time := tablet_time_usec tablet_event in
      let libinput_tool := tablet_tool tablet_event in
      (if is_in then input_device_update_tool device (Some libinput_tool)
       else ret tt) ;;;
      notify_proximity device time is_in ;;;
      (if negb is_in then input_device_update_tool device None else ret tt)
  | LIBINPUT_EVENT_TABLET_TOOL_BUTTON device tablet_event tablet_button pressed =>
      process_tablet_axis fuel device tablet_event ;;;
      meta_seat_impl_notify_button device (tablet_time_usec tablet_event)
        tablet_button (if pressed then 1 else 0)
  | LIBINPUT_EVENT_TABLET_TOOL_TIP device tablet_event tip_down =>
      (* To avoid jumps on tip, notify axes before the tip down event but
         after the tip up event *)
      (if tip_down then process_tablet_axis fuel device tablet_event
       else ret tt) ;;;
      meta_seat_impl_notify_button device (tablet_time_usec tablet_event)
        BTN_TOUCH (if tip_down then 1 else 0) ;;;
      (if negb tip_down then process_tablet_axis fuel device tablet_event
       else ret tt)
  | LIBINPUT_EVENT_TABLET_PAD_BUTTON device time_us button group mode pressed =>
      notify_pad_button device time_us button group mode pressed
  | LIBINPUT_EVENT_TABLET_PAD_STRIP device time_us number source group mode value =>
      notify_pad_strip device time_us number source group mode value
  | LIBINPUT_EVENT_TABLET_PAD_RING device time_us number source group mode angle =>
      notify_pad_ring device time_us number source group mode angle
  | LIBINPUT_EVENT_TOUCH_FRAME _ _ =>
      (* default: not handled *)
      ret tt
  end.

(** The events of one dispatch, translated in order. *)
Fixpoint process_events (fuel : nat) (events : list libinput_event) : M unit :=
  match events with
  | [] => ret tt
  | event :: rest => process_device_event fuel event ;;; process_events fuel rest
  end.

(** *** NumLock *)

Definition meta_seat_impl_set_keyboard_numlock (numlock_state : bool) : M unit :=
  seat <- get ;;
  let xkb_keymap := keymap seat in
  let numlock := uint32 (Z.shiftl 1 (keymap_mod2_index xkb_keymap)) in
  let depressed_mods := xkb_state_serialize_mods (xkb seat) XKB_STATE_MODS_DEPRESSED in
  let latched_mods := xkb_state_serialize_mods (xkb seat) XKB_STATE_MODS_LATCHED in
  let locked_mods := xkb_state_serialize_mods (xkb seat) XKB_STATE_MODS_LOCKED in
  let group_mods := xkb_state_serialize_layout_effective xkb_keymap (xkb seat) in
  let locked_mods :=
    if numlock_state then Z.lor locked_mods numlock
    else Z.land locked_mods (uint32 (Z.lnot numlock)) in
  modify (set_xkb (xkb_state_update_mask xkb_keymap (xkb seat)
                     depressed_mods latched_mods locked_mods 0 0 group_mods)) ;;;
  meta_seat_impl_sync_leds.

End SeatFunctions.

(** ** Concrete collaborators and seats for the scenarios *)

(** No barriers, no constraint, identity output mapping, unscaled stage
    views, a keyboard whose keys change no xkb component, devices mapped
    absolutely and tools with the identity pressure curve. *)
Definition plain_external : External := {|
  BarrierManager := unit;
  meta_barrier_manager_native_process := fun m _ _ x y => (m, (x, y));
  PointerConstraint := unit;
  meta_pointer_constraint_impl_constrain := fun _ _ _ _ _ new_x new_y => (new_x, new_y);
  xkb_state_update_key := fun _ state _ _ => (state, 0);
  xkb_keymap_key_repeats := fun _ _ => false;
  meta_xkb_translate_state := fun _ button_state => button_state;
  meta_xkb_evdev_to_keycode := fun key => key + 8;
  meta_input_device_native_translate_coordinates := fun _ _ x y => (x, y);
  meta_is_stage_views_scaled := false;
  meta_input_device_native_get_mapping_mode := fun _ => META_INPUT_DEVICE_MAPPING_ABSOLUTE;
  meta_input_device_tool_native_translate_pressure := fun _ pressure => pressure
|}.

Definition core_pointer_device : ClutterInputDevice :=
  mkDevice 2 CLUTTER_POINTER_DEVICE.
Definition core_keyboard_device : ClutterInputDevice :=
  mkDevice 3 CLUTTER_KEYBOARD_DEVICE.

(** The seat after [meta_seat_impl_constructed]: the pointer at
    ([INITIAL_POINTER_X], [INITIAL_POINTER_Y]), everything else zero-filled;
    the viewports are the ones given. *)
Definition initial_seat (viewports : option MetaViewportInfo)
    : @MetaSeatImpl plain_external :=
  @mkSeat plain_external
    (mkXkb 0 0 0 0 0 0) (mkKeymap 8 1 4) 0 ∅ None
    INITIAL_POINTER_X INITIAL_POINTER_Y (F_finite 0) (F_finite 0) viewports None tt
    core_pointer_device core_keyboard_device
    {[ 2 := (INITIAL_POINTER_X, INITIAL_POINTER_Y) ]}
    true 250 33 0 0 None None ∅ ∅.

Definition a_mouse : ClutterInputDevice := mkDevice 4 CLUTTER_POINTER_DEVICE.
Definition a_touchscreen : ClutterInputDevice :=
  mkDevice 5 CLUTTER_TOUCHSCREEN_DEVICE.

Definition seat_with_touch : @MetaSeatImpl plain_external :=
  set_touch_states (Some {[ 7 := mkTouchState 7 0 0 ]}) (initial_seat None).

(** ** Vocabulary of the statements *)

(** The events of scenario S1 for a device and a button. *)
Definition debounced_double_press (device : ClutterInputDevice) (time_us : Z)
    : list libinput_event :=
  [ LIBINPUT_EVENT_POINTER_BUTTON device time_us BTN_LEFT true 1;
    LIBINPUT_EVENT_POINTER_BUTTON device time_us BTN_LEFT true 2;
    LIBINPUT_EVENT_POINTER_BUTTON device time_us BTN_LEFT false 1;
    LIBINPUT_EVENT_POINTER_BUTTON device time_us BTN_LEFT false 0 ].

(** The seat-wide test of the translator: a press passes with count 1, a
    release with count 0. *)
Definition not_seat_wide (pressed : bool) (count : Z) : bool :=
  (pressed && negb (count =? 1)) || (negb pressed && negb (count =? 0)).

(** The counter of a code, 0 for a code never counted. *)
Definition button_count_of {ext : External} (seat : MetaSeatImpl) (code : Z) : Z :=
  default 0 (button_count seat !! code).

(** The counter after a notification with the given state. *)
Definition count_after (state count : Z) : Z :=
  if state =? 0 then (if count =? 0 then 0 else count - 1) else count + 1.

(** The seat after the counter of a code took a notification. *)
Definition seat_after_count {ext : External} (code state : Z) (seat : MetaSeatImpl)
    : MetaSeatImpl :=
  if (state =? 0) && (button_count_of seat code =? 0) then seat
  else set_button_count
         (<[code := count_after state (button_count_of seat code)]> (button_count seat))
         seat.

(** The button table in the words of the specification, in plain integers. *)
Definition logical_button_of_spec (tablet : bool) (raw : Z) : Z :=
  if (raw =? BTN_LEFT) || (raw =? BTN_TOUCH) then 1
  else if (raw =? BTN_RIGHT) || (raw =? BTN_STYLUS) then 3
  else if (raw =? BTN_MIDDLE) || (raw =? BTN_STYLUS2) then 2
  else if raw =? BTN_STYLUS3 then 8
  else if tablet then raw - BTN_TOOL_PEN + 4
  else raw - (BTN_LEFT - 1) + 4.

(** The modifier mask of a logical button in the words of the
    specification: {Button1, Button3, Button2, Button4, Button5} for the
    logical buttons 1 to 5, nothing for the others. *)
Definition mask_of_logical_button (button_nr : Z) : Z :=
  match button_nr with
  | 1 => CLUTTER_BUTTON1_MASK
  | 2 => CLUTTER_BUTTON3_MASK
  | 3 => CLUTTER_BUTTON2_MASK
  | 4 => CLUTTER_BUTTON4_MASK
  | 5 => CLUTTER_BUTTON5_MASK
  | _ => 0
  end.

(** The button event [meta_seat_impl_notify_button] queues, read off a seat
    whose [button_state] is already updated. *)
Definition button_event_of {ext : External} (seat : MetaSeatImpl)
    (input_device : ClutterInputDevice) (time_us button state button_nr : Z)
    : ButtonEvent :=
  let tablet := is_tablet (device_type input_device) in
  mkButtonEvent
    (if negb (state =? 0) then CLUTTER_BUTTON_PRESS else CLUTTER_BUTTON_RELEASE)
    time_us (us2ms time_us)
    (meta_xkb_translate_state (xkb seat) (button_state seat))
    button_nr
    (if tablet then fst (clutter_input_device_get_coords seat input_device)
     else pointer_x seat)
    (if tablet then snd (clutter_input_device_get_coords seat input_device)
     else pointer_y seat)
    (match last_tool seat input_device with
     | Some tool =>
         if negb (meta_input_device_tool_native_get_button_code tool button_nr =? 0)
         then meta_input_device_tool_native_get_button_code tool button_nr
         else button
     | None => button
     end)
    (if tablet then input_device else core_pointer seat)
    input_device
    (if tablet then last_tool seat input_device else None).

(** A seat whose keyboard has NumLock locked: Mod2 is modifier 4 of the
    keymap of [initial_seat]. *)
Definition seat_numlock_on : @MetaSeatImpl plain_external :=
  set_xkb (mkXkb 0 0 16 0 0 0) (initial_seat None).

(** [set_keyboard_numlock(true)] followed by [set_keyboard_numlock(false)]. *)
Definition numlock_on_then_off {ext : External} : M unit :=
  bind (meta_seat_impl_set_keyboard_numlock true)
       (fun _ => meta_seat_impl_set_keyboard_numlock false).

(** The discrete scroll event [notify_discrete_scroll] queues for a
    direction other than smooth. *)
Definition discrete_scroll_event {ext : External} (seat : MetaSeatImpl)
    (device : ClutterInputDevice) (time_us : Z) (direction : ClutterScrollDirection)
    (scroll_source : ClutterScrollSource) (emulated : bool) : ScrollEvent :=
  mkScrollEvent time_us (us2ms time_us)
    (meta_xkb_translate_state (xkb seat) (button_state seat))
    direction (0, 0)%Q (pointer_x seat) (pointer_y seat)
    (core_pointer seat) device scroll_source
    CLUTTER_SCROLL_FINISHED_NONE emulated.

(** An accumulator after the update of
    [meta_seat_impl_notify_scroll_continuous]: 0 for an axis whose flag is
    among the finish flags, the delta added otherwise. *)
Definition accumulated (finish_flags flag : Z) (acc : c_float) (delta : Q)
    : c_float :=
  if negb (Z.land finish_flags flag =? 0) then F_finite 0
  else float_add_double acc delta.

(** The count [check_notify_discrete_scroll] takes of an accumulator. *)
Definition scroll_count_of (acc : c_float) : Z :=
  int_of_double (c_floor (c_div binary64 (c_fabs acc) DISCRETE_SCROLL_STEP)).

(** The numbers of the binary32 format: a significand of at most 24 bits
    over an exponent of at least -149. *)
Definition is_binary32 (a : Q) : Prop :=
  exists M e : Z,
    (0 <= M <= 2 ^ 24)%Z /\ (-149 <= e)%Z /\ (Qabs a == inject_Z M * 2 ^ e)%Q.

(** The discrete values [notify_discrete_axis] reads off a wheel event: 0
    for an axis the event does not have. *)
Definition discrete_dx_of (axis_event : libinput_event_pointer_axis) : Q :=
  match axis_horizontal axis_event with
  | Some a => axis_value_discrete a
  | None => 0%Q
  end.
Definition discrete_dy_of (axis_event : libinput_event_pointer_axis) : Q :=
  match axis_vertical axis_event with
  | Some a => axis_value_discrete a
  | None => 0%Q
  end.

(** A wheel event of three clicks down: 45 degrees, discrete value 3. *)
Definition a_wheel_click : libinput_event_pointer_axis :=
  mkAxisEvent None (Some (mkAxis 45 3)).

(** The layout of scenario S5: two outputs side by side, the right one at
    scale 2. *)
Definition two_outputs : MetaViewportInfo :=
  [ mkView (mkRect 0 0 1000 1000) 1; mkView (mkRect 1000 0 1000 1000) 2 ].

(** The initial seat with a layout and the pointer moved to a position, as
    after a warp: the core pointer's cached coordinates agree. *)
Definition seat_at (viewports : MetaViewportInfo) (x y : Q)
    : @MetaSeatImpl plain_external :=
  set_device_coords {[ 2 := (x, y) ]}
    (set_pointer_y y (set_pointer_x x (initial_seat (Some viewports)))).

(** The raw motion of scenario S5. *)
Definition cross_output_motion : libinput_event :=
  LIBINPUT_EVENT_POINTER_MOTION a_mouse 1000 200 0 200 0.

(** A point lies in the union of the view rectangles. *)
Definition in_some_view (viewports : MetaViewportInfo) (x y : Q) : Prop :=
  exists v, In v viewports /\ point_in_rect x y (view_rect v) = true.

(** A layout is configured, the seat pointer lies in the union of its view
    rectangles, and the coordinates cached on the core pointer device are
    those of the seat pointer. *)
Definition pointer_within_views {ext : External} (seat : MetaSeatImpl) : Prop :=
  exists vp,
    viewports seat = Some vp /\
    in_some_view vp (pointer_x seat) (pointer_y seat) /\
    clutter_input_device_get_coords seat (core_pointer seat)
    = (pointer_x seat, pointer_y seat).

Definition event_device (event : libinput_event) : ClutterInputDevice :=
  match event with
  | LIBINPUT_EVENT_KEYBOARD_KEY device _ _ _ _
  | LIBINPUT_EVENT_POINTER_MOTION device _ _ _ _ _
  | LIBINPUT_EVENT_POINTER_MOTION_ABSOLUTE device _ _ _
  | LIBINPUT_EVENT_POINTER_BUTTON device _ _ _ _
  | LIBINPUT_EVENT_POINTER_AXIS device _ _ _
  | LIBINPUT_EVENT_TOUCH_DOWN device _ _ _ _
  | LIBINPUT_EVENT_TOUCH_UP device _ _
  | LIBINPUT_EVENT_TOUCH_MOTION device _ _ _ _
  | LIBINPUT_EVENT_TOUCH_CANCEL device _ _
  | LIBINPUT_EVENT_GESTURE_PINCH_BEGIN device _ _
  | LIBINPUT_EVENT_GESTURE_PINCH_UPDATE device _ _ _ _ _ _
  | LIBINPUT_EVENT_GESTURE_PINCH_END device _ _ _
  | LIBINPUT_EVENT_GESTURE_SWIPE_BEGIN device _ _
  | LIBINPUT_EVENT_GESTURE_SWIPE_UPDATE device _ _ _ _
  | LIBINPUT_EVENT_GESTURE_SWIPE_END device _ _ _
  | LIBINPUT_EVENT_TABLET_TOOL_AXIS device _
  | LIBINPUT_EVENT_TABLET_TOOL_PROXIMITY device _ _
  | LIBINPUT_EVENT_TABLET_TOOL_BUTTON device _ _ _
  | LIBINPUT_EVENT_TABLET_TOOL_TIP device _ _
  | LIBINPUT_EVENT_TABLET_PAD_BUTTON device _ _ _ _ _
  | LIBINPUT_EVENT_TABLET_PAD_STRIP device _ _ _ _ _ _
  | LIBINPUT_EVENT_TABLET_PAD_RING device _ _ _ _ _ _
  | LIBINPUT_EVENT_TOUCH_FRAME device _ => device
  end.

(** Devices have their own ids: a tablet is not the core pointer. *)
Definition tablet_is_not_core_pointer {ext : External} (seat : MetaSeatImpl)
    (event : libinput_event) : Prop :=
  is_tablet (device_type (event_device event)) = true ->
  device_id (event_device event) <> device_id (core_pointer seat).

(** The clamp of one coordinate into [low, high): what
    [constrain_all_screen_monitors] does to it. *)
Definition clamp_coordinate (low high : Z) (x : Q) : Q :=
  let x1 := if Qlt_bool x (inject_Z low) then inject_Z low else x in
  if Qle_bool (inject_Z high) x1 then inject_Z (high - 1) else x1.

Definition output_at_origin : MetaViewportInfo :=
  [ mkView (mkRect 0 0 100 100) 1 ].



(** An event leaves the pointer of the seat alone: position, cached
    coordinates, layout and core pointer are the same after it. *)
Definition same_pointer {ext : External} (seat seat' : MetaSeatImpl) : Prop :=
  pointer_x seat' = pointer_x seat /\
  pointer_y seat' = pointer_y seat /\
  device_coords seat' = device_coords seat /\
  viewports seat' = viewports seat /\
  core_pointer seat' = core_pointer seat.


(** A finger scroll of the vertical axis, as in scenario S2. *)
Definition finger_scroll (vertical : Q) : libinput_event :=
  LIBINPUT_EVENT_POINTER_AXIS a_mouse 1000 LIBINPUT_POINTER_AXIS_SOURCE_FINGER
    (mkAxisEvent None (Some (mkAxis vertical 0))).

(** Direction, emulated mark and finish flags of the queued scroll events. *)
Definition scroll_summary (t : list Effect)
    : list (ClutterScrollDirection * bool * Z) :=
  omap (fun e => match e with
                 | CLUTTER_SCROLL s =>
                     Some (scroll_direction s, scroll_emulated s, scroll_finish_flags s)
                 | _ => None
                 end)
       (queued_events t).

(** * Further parts of the seat *)

(** ** Device ids, the device list, touch mode and the keyboard layout

    The C structure [MetaSeatImpl] has more fields than the record
    [MetaSeatImpl] above.  Those the functions below use are kept in a
    record of their own, [MetaSeatImplRest]: the whole seat is a
    [MetaSeatImpl] together with a [MetaSeatImplRest].  The functions that
    use both take the second as an argument and hand the new one back. *)

Definition INITIAL_DEVICE_ID : Z := 2.

(** A libinput device, as far as the seat asks about it. *)
Record libinput_device := mkLibinputDevice {
  (* meta_input_device_native_determine_type (libinput_device) *)
  libinput_determined_type : ClutterInputDeviceType;
  (* libinput_device_has_capability (libinput_device, LIBINPUT_DEVICE_CAP_SWITCH) *)
  libinput_cap_switch : bool;
  (* libinput_device_switch_has_switch (libinput_device, LIBINPUT_SWITCH_TABLET_MODE) *)
  libinput_switch_tablet_mode : bool
}.

(** [MetaInputDeviceNative]: the Clutter device, the libinput device behind
    it and the logical device it is associated with. *)
Record MetaInputDeviceNative := mkInputDeviceNative {
  native_device : ClutterInputDevice;
  native_libinput_device : libinput_device;
  native_associated_device : option ClutterInputDevice
}.

Record MetaSeatImplRest := mkSeatRest {
  devices : list MetaInputDeviceNative;      (* GSList, newest first *)
  seat_has_touchscreen : bool;               (* the field [has_touchscreen] *)
  seat_has_tablet_switch : bool;             (* the field [has_tablet_switch] *)
  tablet_mode_switch_state : bool;
  touch_mode : bool;
  free_device_ids : list Z;                  (* GList *)
  device_id_next : Z;
  layout_idx : Z;
  released : bool
}.

Definition set_devices (v : list MetaInputDeviceNative) (s : MetaSeatImplRest)
    : MetaSeatImplRest :=
  mkSeatRest v (seat_has_touchscreen s) (seat_has_tablet_switch s)
    (tablet_mode_switch_state s) (touch_mode s) (free_device_ids s)
    (device_id_next s) (layout_idx s) (released s).

Definition set_seat_has_touchscreen (v : bool) (s : MetaSeatImplRest)
    : MetaSeatImplRest :=
  mkSeatRest (devices s) v (seat_has_tablet_switch s)
    (tablet_mode_switch_state s) (touch_mode s) (free_device_ids s)
    (device_id_next s) (layout_idx s) (released s).

Definition set_seat_has_tablet_switch (v : bool) (s : MetaSeatImplRest)
    : MetaSeatImplRest :=
  mkSeatRest (devices s) (seat_has_touchscreen s) v
    (tablet_mode_switch_state s) (touch_mode s) (free_device_ids s)
    (device_id_next s) (layout_idx s) (released s).

Definition set_tablet_mode_switch_state (v : bool) (s : MetaSeatImplRest)
    : MetaSeatImplRest :=
  mkSeatRest (devices s) (seat_has_touchscreen s) (seat_has_tablet_switch s)
    v (touch_mode s) (free_device_ids s) (device_id_next s) (layout_idx s)
    (released s).

Definition set_touch_mode (v : bool) (s : MetaSeatImplRest)
    : MetaSeatImplRest :=
  mkSeatRest (devices s) (seat_has_touchscreen s) (seat_has_tablet_switch s)
    (tablet_mode_switch_state s) v (free_device_ids s) (device_id_next s)
    (layout_idx s) (released s).

Definition set_free_device_ids (v : list Z) (s : MetaSeatImplRest)
    : MetaSeatImplRest :=
  mkSeatRest (devices s) (seat_has_touchscreen s) (seat_has_tablet_switch s)
    (tablet_mode_switch_state s) (touch_mode s) v (device_id_next s)
    (layout_idx s) (released s).

Definition set_device_id_next (v : Z) (s : MetaSeatImplRest)
    : MetaSeatImplRest :=
  mkSeatRest (devices s) (seat_has_touchscreen s) (seat_has_tablet_switch s)
    (tablet_mode_switch_state s) (touch_mode s) (free_device_ids s) v
    (layout_idx s) (released s).

Definition set_layout_idx (v : Z) (s : MetaSeatImplRest) : MetaSeatImplRest :=
  mkSeatRest (devices s) (seat_has_touchscreen s) (seat_has_tablet_switch s)
    (tablet_mode_switch_state s) (touch_mode s) (free_device_ids s)
    (device_id_next s) v (released s).

Definition set_released (v : bool) (s : MetaSeatImplRest) : MetaSeatImplRest :=
  mkSeatRest (devices s) (seat_has_touchscreen s) (seat_has_tablet_switch s)
    (tablet_mode_switch_state s) (touch_mode s) (free_device_ids s)
    (device_id_next s) (layout_idx s) v.

(** *** The pool of device ids *)

(** The loop [for (i = 0; i < 10; i++)] of
    [meta_seat_impl_acquire_device_id]: each round appends
    [device_id_next++] to the free list. *)
Fixpoint append_new_ids (rounds : nat) (seat : MetaSeatImplRest)
    : MetaSeatImplRest :=
  match rounds with
  | O => seat
  | S rounds' =>
      append_new_ids rounds'
        (set_device_id_next (device_id_next seat + 1)
           (set_free_device_ids (free_device_ids seat ++ [device_id_next seat]) seat))
  end.

Definition meta_seat_impl_acquire_device_id (seat : MetaSeatImplRest)
    : Z * MetaSeatImplRest :=
  let seat :=
    match free_device_ids seat with
    | [] =>
        (* We ran out of free ID's, so append 10 new ones. *)
        append_new_ids 10 seat
    | _ => seat
    end in
  match free_device_ids seat with
  | next_id :: rest => (next_id, set_free_device_ids rest seat)
  | [] => (0, seat)   (* not reached: the list was just filled *)
  end.

(** The ids are C [int]s well inside their range; the difference is taken
    in [Z]. *)
Definition compare_ids (a b : Z) : Z := a - b.

(** GLib's [g_list_insert_sorted]: the element goes before the first one
    it does not compare greater than, or to the end. *)
Fixpoint g_list_insert_sorted (l : list Z) (data : Z) (func : Z -> Z -> Z)
    : list Z :=
  match l with
  | [] => [data]
  | head :: tail =>
      if 0 <? func data head then head :: g_list_insert_sorted tail data func
      else data :: head :: tail
  end.

Definition meta_seat_impl_release_device_id (device : ClutterInputDevice)
    (seat : MetaSeatImplRest) : MetaSeatImplRest :=
  set_free_device_ids
    (g_list_insert_sorted (free_device_ids seat) (device_id device) compare_ids)
    seat.

(** *** Touch mode *)

(** Two pointers to devices are equal when they point to the same device;
    devices are told apart by their ids. *)
Definition same_device (a b : ClutterInputDevice) : bool :=
  device_id a =? device_id b.

(** The loop of [has_touchscreen] over the device list. *)
Fixpoint has_touchscreen_from (l : list MetaInputDeviceNative) : bool :=
  match l with
  | [] => false
  | data :: next =>
      match device_type (native_device data) with
      | CLUTTER_TOUCHSCREEN_DEVICE => true
      | _ => has_touchscreen_from next
      end
  end.

Definition has_touchscreen (seat : MetaSeatImplRest) : bool :=
  has_touchscreen_from (devices seat).

Definition device_is_tablet_switch (device_native : MetaInputDeviceNative) : bool :=
  if libinput_cap_switch (native_libinput_device device_native)
     && libinput_switch_tablet_mode (native_libinput_device device_native)
  then true else false.

Fixpoint has_tablet_switch_from (l : list MetaInputDeviceNative) : bool :=
  match l with
  | [] => false
  | data :: next =>
      if device_is_tablet_switch data then true else has_tablet_switch_from next
  end.

Definition has_tablet_switch (seat : MetaSeatImplRest) : bool :=
  has_tablet_switch_from (devices seat).

(** What the functions over [MetaSeatImplRest] do besides changing the
    seat: the touch-mode signal, the device events they queue, their
    warnings, and the calls that suspend and resume libinput.  This trace
    is kept apart from the [Effect]s of the event translation. *)
Inductive RestEffect :=
| Signal_touch_mode (touch_mode : bool)
| Queued_device_added (device : ClutterInputDevice)
| Queued_device_removed (device : ClutterInputDevice)
| Warning_release_devices
| Warning_reclaim_devices
| Warning_native_release_devices
| Warning_native_reclaim_devices
| Libinput_suspend
| Libinput_resume.

Definition update_touch_mode (seat : MetaSeatImplRest)
    : MetaSeatImplRest * list RestEffect :=
  let touch_mode' :=
    (* No touch mode if we don't have a touchscreen, easy *)
    if negb (seat_has_touchscreen seat) then false
    (* If we have a tablet mode switch, honor it being unset *)
    else if seat_has_tablet_switch seat && negb (tablet_mode_switch_state seat)
    then false
    (* If tablet mode is enabled, or if there is no tablet mode switch
       (eg. kiosk machines), assume touch-mode. *)
    else true in
  if negb (Bool.eqb (touch_mode seat) touch_mode')
  then (set_touch_mode touch_mode' seat, [Signal_touch_mode touch_mode'])
  else (seat, []).

(** Modelled from the spec: [meta_input_device_native_new] lives in
    meta-input-device-native.c; adding a device allocates its device id
    and classifies its type. *)
Definition meta_input_device_native_new (seat : MetaSeatImplRest)
    (libinput_device : libinput_device)
    : MetaInputDeviceNative * MetaSeatImplRest :=
  let '(id, seat) := meta_seat_impl_acquire_device_id seat in
  (mkInputDeviceNative
     (mkDevice id (libinput_determined_type libinput_device))
     libinput_device None,
   seat).

(** [evdev_add_device]; [core_keyboard] and [core_pointer] are the fields
    of the seat.  The association is written to the device before it goes
    into the list, where the source writes it through the pointer
    afterwards.  The list of physical devices a logical device keeps is
    Clutter's and is not modelled. *)
Definition evdev_add_device (core_keyboard core_pointer : ClutterInputDevice)
    (libinput_device : libinput_device) (seat : MetaSeatImplRest)
    : MetaInputDeviceNative * MetaSeatImplRest * list RestEffect :=
  let '(device, seat) := meta_input_device_native_new seat libinput_device in
  (* Clutter assumes that device types are exclusive in the
     ClutterInputDevice API *)
  let type := libinput_determined_type libinput_device in
  let master :=
    match type with
    | CLUTTER_KEYBOARD_DEVICE => Some core_keyboard
    | CLUTTER_POINTER_DEVICE => Some core_pointer
    | _ => None
    end in
  let device :=
    match master with
    | Some m =>
        mkInputDeviceNative (native_device device) (native_libinput_device device)
          (Some m)
    | None => device
    end in
  let seat := set_devices (device :: devices seat) seat in
  let is_touchscreen :=
    match type with CLUTTER_TOUCHSCREEN_DEVICE => true | _ => false end in
  let is_tablet_switch := device_is_tablet_switch device in
  let seat := set_seat_has_touchscreen (seat_has_touchscreen seat || is_touchscreen) seat in
  let seat :=
    set_seat_has_tablet_switch (seat_has_tablet_switch seat || is_tablet_switch) seat in
  if is_touchscreen || is_tablet_switch then
    let '(seat, effects) := update_touch_mode seat in (device, seat, effects)
  else (device, seat, []).

(** [g_slist_remove]: the first element that is the given device goes. *)
Fixpoint g_slist_remove (l : list MetaInputDeviceNative)
    (data : MetaInputDeviceNative) : list MetaInputDeviceNative :=
  match l with
  | [] => []
  | head :: tail =>
      if same_device (native_device head) (native_device data) then tail
      else head :: g_slist_remove tail data
  end.

Inductive libinput_switch := LIBINPUT_SWITCH_LID | LIBINPUT_SWITCH_TABLET_MODE.

(** The events of [process_base_event], the switch toggle, and the events
    of [process_device_event] translated above. *)
Inductive libinput_seat_event :=
| LIBINPUT_EVENT_DEVICE_ADDED (device : libinput_device)
| LIBINPUT_EVENT_DEVICE_REMOVED (device : MetaInputDeviceNative)
    (* [libinput_device_get_user_data]: the device object of the seat *)
| LIBINPUT_EVENT_SWITCH_TOGGLE (sw : libinput_switch) (state_on : bool)
| LIBINPUT_EVENT_OF_DEVICE (event : libinput_event).

Section Registry.

Context {ext : External}.
Local Open Scope seat_scope.

(** [evdev_remove_device].  Disposing of the device object is GObject's
    business and is not modelled. *)
Definition evdev_remove_device (device_native : MetaInputDeviceNative)
    (rest : MetaSeatImplRest) : M (MetaSeatImplRest * list RestEffect) :=
  let device := native_device device_native in
  let rest := set_devices (g_slist_remove (devices rest) device_native) rest in
  let is_touchscreen :=
    match device_type device with CLUTTER_TOUCHSCREEN_DEVICE => true | _ => false end in
  let is_tablet_switch := device_is_tablet_switch device_native in
  let rest :=
    if is_touchscreen then set_seat_has_touchscreen (has_touchscreen rest) rest
    else rest in
  let rest :=
    if is_tablet_switch then set_seat_has_tablet_switch (has_tablet_switch rest) rest
    else rest in
  let '(rest, effects) :=
    if is_touchscreen || is_tablet_switch then update_touch_mode rest
    else (rest, []) in
  seat <- get ;;
  (match repeat_timer seat, repeat_device seat with
   | Some _, Some repeat_device =>
       if same_device repeat_device device then meta_seat_impl_clear_repeat_timer
       else ret tt
   | _, _ => ret tt
   end) ;;;
  ret (rest, effects).

(** [process_base_event]: the device event is queued after the device was
    added or removed. *)
Definition process_base_event (event : libinput_seat_event)
    (rest : MetaSeatImplRest) : M (option (MetaSeatImplRest * list RestEffect)) :=
  match event with
  | LIBINPUT_EVENT_DEVICE_ADDED libinput_device =>
      seat <- get ;;
      let '(device, rest, effects) :=
        evdev_add_device (core_keyboard seat) (core_pointer seat)
          libinput_device rest in
      ret (Some (rest, effects ++ [Queued_device_added (native_device device)]))
  | LIBINPUT_EVENT_DEVICE_REMOVED device =>
      r <- evdev_remove_device device rest ;;
      let '(rest, effects) := r in
      ret (Some (rest, effects ++ [Queued_device_removed (native_device device)]))
  | _ => ret None
  end.

(** [process_event]: [process_base_event] first, then
    [process_device_event], whose case for the switch toggle is written
    out here. *)
Definition process_event (fuel : nat) (event : libinput_seat_event)
    (rest : MetaSeatImplRest) : M (MetaSeatImplRest * list RestEffect) :=
  handled <- process_base_event event rest ;;
  match handled with
  | Some r => ret r
  | None =>
      match event with
      | LIBINPUT_EVENT_SWITCH_TOGGLE sw state_on =>
          match sw with
          | LIBINPUT_SWITCH_TABLET_MODE =>
              ret (update_touch_mode (set_tablet_mode_switch_state state_on rest))
          | _ => ret (rest, [])
          end
      | LIBINPUT_EVENT_OF_DEVICE event =>
          process_device_event fuel event ;;; ret (rest, [])
      | _ => ret (rest, [])
      end
  end.

(** The loop of the source's [process_events] over the events libinput
    hands out, device events included. *)
Fixpoint process_seat_events (fuel : nat) (events : list libinput_seat_event)
    (rest : MetaSeatImplRest) : M (MetaSeatImplRest * list RestEffect) :=
  match events with
  | [] => ret (rest, [])
  | event :: events =>
      r <- process_event fuel event rest ;;
      let '(rest, effects) := r in
      r' <- process_seat_events fuel events rest ;;
      let '(rest, effects') := r' in
      ret (rest, effects ++ effects')
  end.

End Registry.

(** ** The repeat timer callback *)

Section SeatCallbacks.

Context {ext : External}.
Local Open Scope seat_scope.

(** [dispatch_libinput]: the events libinput holds are translated;
    [pending] are those events. *)
Definition dispatch_libinput (fuel : nat) (pending : list libinput_seat_event)
    (rest : MetaSeatImplRest) : M (MetaSeatImplRest * list RestEffect) :=
  process_seat_events fuel pending rest.

(** [keyboard_repeat], the callback of the repeat timer: [true] is
    [G_SOURCE_CONTINUE], [false] is [G_SOURCE_REMOVE]; [source_time] is the
    time of the timer source. *)
Definition keyboard_repeat (fuel : nat) (pending : list libinput_seat_event)
    (source_time : Z) (rest : MetaSeatImplRest)
    : M (bool * MetaSeatImplRest * list RestEffect) :=
  (* There might be events queued in libinput that could cancel the
     repeat timer. *)
  r <- dispatch_libinput fuel pending rest ;;
  let '(rest, effects) := r in
  seat <- get ;;
  match repeat_timer seat with
  | None => ret (false, rest, effects)
  | Some _ =>
      match repeat_device seat with
      | None => ret (false, rest, effects)   (* g_return_val_if_fail *)
      | Some device =>
          meta_seat_impl_notify_key device source_time (repeat_key seat)
            AUTOREPEAT_VALUE false ;;;
          ret (true, rest, effects)
      end
  end.

End SeatCallbacks.

(** ** The keyboard layout, releasing and reclaiming the devices *)

Section KeyboardLayout.

Context {ext : External}.
Local Open Scope seat_scope.

Definition set_keymap (v : xkb_keymap) (s : MetaSeatImpl) : MetaSeatImpl :=
  mkSeat (xkb s) v (button_state s) (button_count s) (touch_states s)
    (pointer_x s) (pointer_y s) (accum_scroll_dx s) (accum_scroll_dy s)
    (viewports s) (pointer_constraint s) (barrier_manager s) (core_pointer s)
    (core_keyboard s) (device_coords s) (repeat_enabled s) (repeat_delay s)
    (repeat_interval s) (repeat_count s) (repeat_key s) (repeat_timer s)
    (repeat_device s) (device_tools s) (device_last_tool s).

(** xkbcommon's [xkb_state_new]: the state of a keymap with no modifier
    and no layout set. *)
Definition xkb_state_new (keymap : xkb_keymap) : xkb_state :=
  mkXkb 0 0 0 0 0 0.

(** [meta_seat_impl_update_xkb_state].  The LED indices the source looks
    up again belong to the LED update, which the model keeps abstract. *)
Definition meta_seat_impl_update_xkb_state (rest : MetaSeatImplRest) : M unit :=
  seat <- get ;;
  let xkb_keymap := keymap seat in
  let latched_mods := xkb_state_serialize_mods (xkb seat) XKB_STATE_MODS_LATCHED in
  let locked_mods := xkb_state_serialize_mods (xkb seat) XKB_STATE_MODS_LOCKED in
  modify (set_xkb (xkb_state_new xkb_keymap)) ;;;
  modify (fun s =>
    set_xkb (xkb_state_update_mask xkb_keymap (xkb s)
               0 (* depressed *) latched_mods locked_mods
               0 0 (layout_idx rest)) s) ;;;
  meta_seat_impl_sync_leds.

Definition meta_seat_impl_set_keyboard_map (xkb_keymap : xkb_keymap)
    (rest : MetaSeatImplRest) : M unit :=
  modify (set_keymap xkb_keymap) ;;;
  meta_seat_impl_update_xkb_state rest.

Definition meta_seat_impl_set_keyboard_layout_index (idx : Z)
    (rest : MetaSeatImplRest) : M MetaSeatImplRest :=
  seat <- get ;;
  let state := xkb seat in
  let depressed_mods := xkb_state_serialize_mods state XKB_STATE_MODS_DEPRESSED in
  let latched_mods := xkb_state_serialize_mods state XKB_STATE_MODS_LATCHED in
  let locked_mods := xkb_state_serialize_mods state XKB_STATE_MODS_LOCKED in
  modify (set_xkb (xkb_state_update_mask (keymap seat) state
                     depressed_mods latched_mods locked_mods 0 0 idx)) ;;;
  ret (set_layout_idx idx rest).

Definition meta_seat_impl_get_keyboard_layout_index (rest : MetaSeatImplRest)
    : Z :=
  layout_idx rest.

(** [meta_seat_impl_release_devices]; [pending] are the events libinput
    holds after it was suspended. *)
Definition meta_seat_impl_release_devices (fuel : nat)
    (pending : list libinput_seat_event) (rest : MetaSeatImplRest)
    : M (MetaSeatImplRest * list RestEffect) :=
  if released rest then ret (rest, [Warning_release_devices])
  else
    r <- process_seat_events fuel pending rest ;;
    let '(rest, effects) := r in
    ret (set_released true rest, Libinput_suspend :: effects).

(** [meta_seat_impl_reclaim_devices]; [pending] are the events libinput
    holds after it was resumed. *)
Definition meta_seat_impl_reclaim_devices (fuel : nat)
    (pending : list libinput_seat_event) (rest : MetaSeatImplRest)
    : M (MetaSeatImplRest * list RestEffect) :=
  if negb (released rest) then ret (rest, [Warning_reclaim_devices])
  else
    meta_seat_impl_update_xkb_state rest ;;;
    r <- process_seat_events fuel pending rest ;;
    let '(rest, effects) := r in
    ret (set_released false rest, Libinput_resume :: effects).

(** [meta_seat_native_release_devices] and
    [meta_seat_native_reclaim_devices] of meta-seat-native.c;
    [seat_released] is the field [released] of [MetaSeatNative]. *)
Definition meta_seat_native_release_devices (fuel : nat)
    (pending : list libinput_seat_event) (seat_released : bool)
    (rest : MetaSeatImplRest) : M (bool * MetaSeatImplRest * list RestEffect) :=
  if seat_released then ret (seat_released, rest, [Warning_native_release_devices])
  else
    r <- meta_seat_impl_release_devices fuel pending rest ;;
    let '(rest, effects) := r in
    ret (true, rest, effects).

Definition meta_seat_native_reclaim_devices (fuel : nat)
    (pending : list libinput_seat_event) (seat_released : bool)
    (rest : MetaSeatImplRest) : M (bool * MetaSeatImplRest * list RestEffect) :=
  if negb seat_released
  then ret (seat_released, rest, [Warning_native_reclaim_devices])
  else
    r <- meta_seat_impl_reclaim_devices fuel pending rest ;;
    let '(rest, effects) := r in
    ret (false, rest, effects).

End KeyboardLayout.

(** ** Motion compression ([meta-seat-native.c]) *)

(** Modelled from the spec: [meta_event_native_get_relative_motion] lives
    in meta-event-native.c; it gives the relative deltas of a motion event
    that has them and fails otherwise. *)
Definition meta_event_native_get_relative_motion (event : ClutterEvent)
    : option (Q * Q * Q * Q) :=
  match event with
  | CLUTTER_MOTION e => motion_relative e
  | _ => None
  end.

(** [meta_seat_native_compress_motion]: [event] is the motion event that
    stays in the queue. *)
Definition meta_seat_native_compress_motion (event : MotionEvent)
    (to_discard : ClutterEvent) : MotionEvent :=
  match meta_event_native_get_relative_motion to_discard with
  | None => event
  | Some (dx, dy, dx_unaccel, dy_unaccel) =>
      let '(dst_dx, dst_dy, dst_dx_unaccel, dst_dy_unaccel) :=
        match meta_event_native_get_relative_motion (CLUTTER_MOTION event) with
        | Some dst => dst
        | None => (0, 0, 0, 0)%Q
        end in
      meta_event_native_set_relative_motion event
        (dx + dst_dx) (dy + dst_dy)
        (dx_unaccel + dst_dx_unaccel) (dy_unaccel + dst_dy_unaccel)
  end.

(** ** Vocabulary of the further statements *)

(** The raw event that ends a touch: TOUCH_CANCEL or TOUCH_UP. *)
Definition touch_end_event (cancel : bool) (device : ClutterInputDevice)
    (time_us slot : Z) : libinput_event :=
  if cancel then LIBINPUT_EVENT_TOUCH_CANCEL device time_us slot
  else LIBINPUT_EVENT_TOUCH_UP device time_us slot.

(** No button counter of the seat is negative. *)
Definition counters_nonnegative {ext : External} (seat : MetaSeatImpl) : Prop :=
  forall code, 0 <= button_count_of seat code.

(** The raw events that move a pointer: the motions of a pointer device
    and the tablet tool events, which all carry the position of the tool
    ([process_tablet_axis] runs for an axis, a button and a tip event). *)
Definition is_pointer_motion (event : libinput_event) : bool :=
  match event with
  | LIBINPUT_EVENT_POINTER_MOTION _ _ _ _ _ _
  | LIBINPUT_EVENT_POINTER_MOTION_ABSOLUTE _ _ _ _
  | LIBINPUT_EVENT_TABLET_TOOL_AXIS _ _
  | LIBINPUT_EVENT_TABLET_TOOL_BUTTON _ _ _ _
  | LIBINPUT_EVENT_TABLET_TOOL_TIP _ _ _ => true
  | _ => false
  end.

(** A keyboard whose keys all repeat; otherwise as [plain_external]. *)
Definition repeating_external : External := {|
  BarrierManager := unit;
  meta_barrier_manager_native_process := fun m _ _ x y => (m, (x, y));
  PointerConstraint := unit;
  meta_pointer_constraint_impl_constrain := fun _ _ _ _ _ new_x new_y => (new_x, new_y);
  xkb_state_update_key := fun _ state _ _ => (state, 0);
  xkb_keymap_key_repeats := fun _ _ => true;
  meta_xkb_translate_state := fun _ button_state => button_state;
  meta_xkb_evdev_to_keycode := fun key => key + 8;
  meta_input_device_native_translate_coordinates := fun _ _ x y => (x, y);
  meta_is_stage_views_scaled := false;
  meta_input_device_native_get_mapping_mode := fun _ => META_INPUT_DEVICE_MAPPING_ABSOLUTE;
  meta_input_device_tool_native_translate_pressure := fun _ pressure => pressure
|}.

(** The seat after construction, for the repeating keyboard, with the
    repeat counter at a given value. *)
Definition repeating_seat (count : Z) : @MetaSeatImpl repeating_external :=
  @mkSeat repeating_external
    (mkXkb 0 0 0 0 0 0) (mkKeymap 8 1 4) 0 ∅ None
    INITIAL_POINTER_X INITIAL_POINTER_Y (F_finite 0) (F_finite 0) None None tt
    core_pointer_device core_keyboard_device
    {[ 2 := (INITIAL_POINTER_X, INITIAL_POINTER_Y) ]}
    true 250 33 count 0 None None ∅ ∅.

(** The raw events of a touch sequence. *)
Definition is_touch_event (event : libinput_event) : bool :=
  match event with
  | LIBINPUT_EVENT_TOUCH_DOWN _ _ _ _ _ | LIBINPUT_EVENT_TOUCH_UP _ _ _
  | LIBINPUT_EVENT_TOUCH_MOTION _ _ _ _ _ | LIBINPUT_EVENT_TOUCH_CANCEL _ _ _ => true
  | _ => false
  end.

(** An axis of a pointer-axis event that ends the scroll on it: the axis is
    there and its value is below [DBL_EPSILON] in magnitude. *)
Definition axis_is_finished (axis : option libinput_axis) : bool :=
  match axis with
  | Some a => Qlt_bool (Qabs (axis_value a)) DBL_EPSILON
  | None => false
  end.

Definition scroll_direction_eqb (a b : ClutterScrollDirection) : bool :=
  match a, b with
  | CLUTTER_SCROLL_UP, CLUTTER_SCROLL_UP
  | CLUTTER_SCROLL_DOWN, CLUTTER_SCROLL_DOWN
  | CLUTTER_SCROLL_LEFT, CLUTTER_SCROLL_LEFT
  | CLUTTER_SCROLL_RIGHT, CLUTTER_SCROLL_RIGHT
  | CLUTTER_SCROLL_SMOOTH, CLUTTER_SCROLL_SMOOTH => true
  | _, _ => false
  end.

(** The number of queued scroll events of a direction. *)
Fixpoint scroll_steps (direction : ClutterScrollDirection) (t : list Effect) : Z :=
  match t with
  | [] => 0
  | Queued (CLUTTER_SCROLL s) :: rest =>
      (if scroll_direction_eqb (scroll_direction s) direction then 1 else 0)
      + scroll_steps direction rest
  | _ :: rest => scroll_steps direction rest
  end.

(** A list of ids in strictly ascending order. *)
Fixpoint ascending (l : list Z) : Prop :=
  match l with
  | [] => True
  | a :: rest => Forall (Z.lt a) rest /\ ascending rest
  end.

(** The free list is in ascending order and holds only ids the seat has
    made. *)
Definition pool_ok (seat : MetaSeatImplRest) : Prop :=
  ascending (free_device_ids seat) /\
  Forall (fun id => id < device_id_next seat) (free_device_ids seat).

(** [n] acquisitions in a row. *)
Fixpoint acquire_device_ids (n : nat) (seat : MetaSeatImplRest)
    : list Z * MetaSeatImplRest :=
  match n with
  | O => ([], seat)
  | S n' =>
      let '(id, seat) := meta_seat_impl_acquire_device_id seat in
      let '(ids, seat) := acquire_device_ids n' seat in
      (id :: ids, seat)
  end.

(** The rest of the seat after [meta_seat_impl_init], before any device:
    GObject zero-fills the structure. *)
Definition initial_rest : MetaSeatImplRest :=
  mkSeatRest [] false false false false [] INITIAL_DEVICE_ID 0 false.

(** The ids of the devices in a list. *)
Definition device_ids (l : list MetaInputDeviceNative) : list Z :=
  map (fun d => device_id (native_device d)) l.

(** The cached flags agree with the device list, touch mode is the value
    the flags give, the devices have ids of their own, none of them free,
    and the pool is in order. *)
Definition registry_ok (seat : MetaSeatImplRest) : Prop :=
  seat_has_touchscreen seat = has_touchscreen seat /\
  seat_has_tablet_switch seat = has_tablet_switch seat /\
  touch_mode seat
  = seat_has_touchscreen seat
    && (negb (seat_has_tablet_switch seat) || tablet_mode_switch_state seat) /\
  NoDup (device_ids (devices seat)) /\
  Forall (fun id => (id ∉ free_device_ids seat) /\ id < device_id_next seat)
         (device_ids (devices seat)) /\
  pool_ok seat.

(** A removal event is for a device of the list. *)
Definition event_of_known_device (seat : MetaSeatImplRest)
    (event : libinput_seat_event) : Prop :=
  match event with
  | LIBINPUT_EVENT_DEVICE_REMOVED device => In device (devices seat)
  | _ => True
  end.

(** The logical device a new device of a type is associated with. *)
Definition master_of (core_keyboard core_pointer : ClutterInputDevice)
    (type : ClutterInputDeviceType) : option ClutterInputDevice :=
  match type with
  | CLUTTER_KEYBOARD_DEVICE => Some core_keyboard
  | CLUTTER_POINTER_DEVICE => Some core_pointer
  | _ => None
  end.

(** The fields of the rest of the seat other than the pool of ids. *)
Definition same_but_pool (seat seat' : MetaSeatImplRest) : Prop :=
  seat' = set_free_device_ids (free_device_ids seat')
            (set_device_id_next (device_id_next seat') seat).

(** The relative deltas of an event, zero for an event that has none. *)
Definition relative_of (event : ClutterEvent) : Q * Q * Q * Q :=
  match meta_event_native_get_relative_motion event with
  | Some deltas => deltas
  | None => (0, 0, 0, 0)%Q
  end.

(** The modifier masks of a state hold only modifiers of the keymap. *)
Definition mods_within_keymap (keymap : xkb_keymap) (state : xkb_state) : Prop :=
  let mask := 2 ^ keymap_num_mods keymap - 1 in
  Z.land (xkb_depressed_mods state) mask = xkb_depressed_mods state /\
  Z.land (xkb_latched_mods state) mask = xkb_latched_mods state /\
  Z.land (xkb_locked_mods state) mask = xkb_locked_mods state.

(** The warnings of the seat implementation among the effects. *)
Definition is_impl_warning (effect : RestEffect) : bool :=
  match effect with
  | Warning_release_devices | Warning_reclaim_devices => true
  | _ => false
  end.

(** A tablet, a seat that holds key 30 down, the rest of the seat after
    its first acquisition, and a libinput device that is a touchscreen. *)
Definition a_tablet : ClutterInputDevice := mkDevice 6 CLUTTER_TABLET_DEVICE.

Definition seat_holding_key : @MetaSeatImpl plain_external :=
  set_button_count {[ 30 := 1 ]} (initial_seat None).

Definition rest_after_first_device : MetaSeatImplRest :=
  snd (meta_seat_impl_acquire_device_id initial_rest).

Definition a_libinput_touchscreen : libinput_device :=
  mkLibinputDevice CLUTTER_TOUCHSCREEN_DEVICE false false.



(** * Theorems *)

(** ** Virtual touch-slot bases *)

Section VirtualSlotsFacts.

Import VirtualSlots.

Variable MAX : Z.
Hypothesis MAX_pos : 0 < MAX.

Lemma lookup_reserved_zero (reserved : gset Z) (key : Z) :
  0 < key ->
  (g_hash_table_lookup reserved key =? 0) = bool_decide (key ∉ reserved).
Proof.
  intros Hk. unfold g_hash_table_lookup.
  destruct (decide (key ∈ reserved)) as [Hin | Hout].
  - rewrite bool_decide_eq_false_2 by tauto. apply Z.eqb_neq. lia.
  - rewrite bool_decide_eq_true_2 by assumption. reflexivity.
Qed.

(** The loop stops at the first free base above the counter. *)
Lemma bump_least_free (reserved : gset Z) :
  forall (fuel : nat) (c j : Z),
    1 <= j <= Z.of_nat fuel ->
    0 <= c ->
    Z.max c 0x100 + j * MAX < 2 ^ 32 ->
    Z.max c 0x100 + j * MAX ∉ reserved ->
    (forall i, 1 <= i < j -> Z.max c 0x100 + i * MAX ∈ reserved) ->
    bump_virtual_touch_slot_base MAX fuel (mkSeatNative c reserved)
    = Some (Z.max c 0x100 + j * MAX,
            mkSeatNative (Z.max c 0x100 + j * MAX) reserved).
Proof.
  induction fuel as [| fuel IH]; intros c j Hj Hc Hwrap Hfree Hbelow.
  - lia.
  - cbn [bump_virtual_touch_slot_base virtual_touch_slot_base reserved_virtual_slots].
    assert (Hmax : (if c <? 0x100 then 0x100 else c) = Z.max c 0x100).
    { destruct (Z.ltb_spec c 0x100); lia. }
    rewrite Hmax.
    set (c' := Z.max c 0x100) in *.
    assert (Hc' : 0x100 <= c') by (subst c'; lia).
    assert (Hg : guint (c' + MAX) = c' + MAX).
    { unfold guint. apply Z.mod_small. nia. }
    rewrite Hg, lookup_reserved_zero by lia.
    destruct (decide (j = 1)) as [-> | Hne].
    + rewrite bool_decide_eq_true_2; [ | now rewrite Z.mul_1_l in Hfree ].
      now rewrite Z.mul_1_l.
    + rewrite bool_decide_eq_false_2.
      2:{ intros Hn. apply Hn. specialize (Hbelow 1).
          rewrite Z.mul_1_l in Hbelow. apply Hbelow. lia. }
      assert (Hm : Z.max (c' + MAX) 0x100 = c' + MAX) by lia.
      replace (c' + j * MAX) with (Z.max (c' + MAX) 0x100 + (j - 1) * MAX) by lia.
      apply IH; rewrite ?Hm.
      * lia.
      * lia.
      * replace (c' + MAX + (j - 1) * MAX) with (c' + j * MAX) by lia. assumption.
      * replace (c' + MAX + (j - 1) * MAX) with (c' + j * MAX) by lia. assumption.
      * intros i Hi.
        replace (c' + MAX + i * MAX) with (c' + (i + 1) * MAX) by lia.
        apply Hbelow. lia.
Qed.

(** Among the first [n] candidates above [c] either one is free, and then
    there is a least one, or all are reserved. *)
Lemma least_free_or_full (reserved : gset Z) (c : Z) (n : nat) :
  (exists j, 1 <= j <= Z.of_nat n /\ (c + j * MAX ∉ reserved) /\
             forall i, 1 <= i < j -> c + i * MAX ∈ reserved)
  \/ (forall i, 1 <= i <= Z.of_nat n -> c + i * MAX ∈ reserved).
Proof.
  induction n as [| n [(j & Hj & Hfree & Hbelow) | Hfull]].
  - right. intros i Hi. lia.
  - left. exists j. repeat split; try assumption; lia.
  - destruct (decide (c + Z.of_nat (S n) * MAX ∈ reserved)) as [Hin | Hout].
    + right. intros i Hi.
      destruct (decide (i = Z.of_nat (S n))) as [-> | Hne]; [assumption |].
      apply Hfull. lia.
    + left. exists (Z.of_nat (S n)). repeat split; try assumption; try lia.
      intros i Hi. apply Hfull. lia.
Qed.

(** Pigeonhole: more candidates than reserved bases leaves one free. *)
Lemma not_all_reserved (reserved : gset Z) (c : Z) :
  ~ (forall i, 1 <= i <= Z.of_nat (S (size reserved)) -> c + i * MAX ∈ reserved).
Proof.
  intros Hfull.
  set (cands := (fun i : nat => c + Z.of_nat (S i) * MAX) <$> seq 0 (S (size reserved))).
  assert (Hnd : NoDup cands).
  { apply NoDup_fmap_2; [ | apply NoDup_seq ].
    intros a b Hab. nia. }
  assert (Hsub : (list_to_set cands : gset Z) ⊆ reserved).
  { intros x Hx. apply elem_of_list_to_set in Hx.
    apply list_elem_of_fmap in Hx as (i & -> & Hi).
    apply elem_of_seq in Hi. apply Hfull. lia. }
  apply subseteq_size in Hsub.
  rewrite size_list_to_set in Hsub by assumption.
  unfold cands in Hsub. rewrite length_fmap, length_seq in Hsub. lia.
Qed.

Lemma least_free_exists (reserved : gset Z) (c : Z) :
  exists j, 1 <= j <= Z.of_nat (S (size reserved)) /\ (c + j * MAX ∉ reserved) /\
            forall i, 1 <= i < j -> c + i * MAX ∈ reserved.
Proof.
  destruct (least_free_or_full reserved c (S (size reserved))) as [H | H].
  - exact H.
  - destruct (not_all_reserved reserved c H).
Qed.

(** One reservation from any seat: the base handed out. *)
Lemma create_virtual_device_spec (seat : MetaSeatNative) :
  0 <= virtual_touch_slot_base seat ->
  Z.max (virtual_touch_slot_base seat) 0x100
    + Z.of_nat (S (size (reserved_virtual_slots seat))) * MAX < 2 ^ 32 ->
  exists k,
    1 <= k <= Z.of_nat (S (size (reserved_virtual_slots seat))) /\
    let base := Z.max (virtual_touch_slot_base seat) 0x100 + k * MAX in
    (base ∉ reserved_virtual_slots seat) /\
    (forall i, 1 <= i < k ->
       Z.max (virtual_touch_slot_base seat) 0x100 + i * MAX
         ∈ reserved_virtual_slots seat) /\
    forall fuel, (size (reserved_virtual_slots seat) < fuel)%nat ->
      meta_seat_native_create_virtual_device MAX fuel seat
      = Some (base, mkSeatNative base ({[ base ]} ∪ reserved_virtual_slots seat)).
Proof.
  destruct seat as [c reserved]. cbn [virtual_touch_slot_base reserved_virtual_slots].
  intros Hc Hwrap.
  destruct (least_free_exists reserved (Z.max c 0x100)) as (j & Hj & Hfree & Hbelow).
  exists j. split; [exact Hj |]. cbv zeta. repeat split; try assumption.
  intros fuel Hfuel. unfold meta_seat_native_create_virtual_device.
  rewrite (bump_least_free reserved fuel c j); try assumption; try nia.
  reflexivity.
Qed.

End VirtualSlotsFacts.

(** C3, as the code has it.  The seat keeps a counter, the last base it
    handed out.  A reservation from any seat state returns the first base
    above that counter (above 0x100 at the least), in steps of the
    per-device constant, that is not reserved, adds it to the set and moves
    the counter to it; the base is a multiple of the constant when 0x100 and
    the counter are.  Hence reserving, releasing that base and reserving
    again returns two different bases, the second one larger. *)
Theorem reserve_next_bumps_counter
    (MAX : Z) (seat : VirtualSlots.MetaSeatNative) :
  0 < MAX ->
  0 <= VirtualSlots.virtual_touch_slot_base seat ->
  Z.max (VirtualSlots.virtual_touch_slot_base seat) 0x100
    + 2 * Z.of_nat (S (size (VirtualSlots.reserved_virtual_slots seat))) * MAX < 2 ^ 32 ->
  exists k base1 seat1 base2 seat2,
    1 <= k /\
    base1 = Z.max (VirtualSlots.virtual_touch_slot_base seat) 0x100 + k * MAX /\
    (base1 ∉ VirtualSlots.reserved_virtual_slots seat) /\
    (forall i, 1 <= i < k ->
       Z.max (VirtualSlots.virtual_touch_slot_base seat) 0x100 + i * MAX
         ∈ VirtualSlots.reserved_virtual_slots seat) /\
    0x100 < base1 /\
    ((MAX | 0x100) ->
     VirtualSlots.virtual_touch_slot_base seat < 0x100
     \/ (MAX | VirtualSlots.virtual_touch_slot_base seat) ->
     (MAX | base1)) /\
    VirtualSlots.reserved_virtual_slots seat1
      = {[ base1 ]} ∪ VirtualSlots.reserved_virtual_slots seat /\
    VirtualSlots.virtual_touch_slot_base seat1 = base1 /\
    (forall fuel, (size (VirtualSlots.reserved_virtual_slots seat) < fuel)%nat ->
       VirtualSlots.meta_seat_native_create_virtual_device MAX fuel seat
       = Some (base1, seat1) /\
       VirtualSlots.meta_seat_native_create_virtual_device MAX fuel
         (VirtualSlots.meta_seat_native_release_touch_slots seat1 base1)
       = Some (base2, seat2)) /\
    base1 < base2.
Proof.
  intros HMAX Hc Hwrap.
  destruct (create_virtual_device_spec MAX HMAX seat Hc) as (k & Hk & Hfree & Hbelow & Hrun).
  { nia. }
  cbv zeta in Hfree, Hrun.
  set (c := Z.max (VirtualSlots.virtual_touch_slot_base seat) 0x100) in *.
  set (base1 := c + k * MAX) in *.
  set (reserved := VirtualSlots.reserved_virtual_slots seat) in *.
  set (seat1 := VirtualSlots.mkSeatNative base1 ({[ base1 ]} ∪ reserved)).
  assert (Hrel : VirtualSlots.meta_seat_native_release_touch_slots seat1 base1
                 = VirtualSlots.mkSeatNative base1 reserved).
  { unfold VirtualSlots.meta_seat_native_release_touch_slots, seat1. cbn.
    f_equal. apply set_eq. intros x.
    rewrite elem_of_difference, elem_of_union, elem_of_singleton.
    split; [ tauto | ].
    intros Hx. split; [ now right | ]. intros ->. contradiction. }
  destruct (create_virtual_device_spec MAX HMAX (VirtualSlots.mkSeatNative base1 reserved))
    as (k2 & Hk2 & _ & _ & Hrun2); cbn [VirtualSlots.virtual_touch_slot_base
                                        VirtualSlots.reserved_virtual_slots].
  { subst base1 c. nia. }
  { subst base1 c. fold reserved. nia. }
  cbv zeta in Hrun2.
  cbn [VirtualSlots.virtual_touch_slot_base VirtualSlots.reserved_virtual_slots] in Hrun2, Hk2.
  exists k, base1, seat1, (Z.max base1 0x100 + k2 * MAX),
    (VirtualSlots.mkSeatNative (Z.max base1 0x100 + k2 * MAX)
       ({[ Z.max base1 0x100 + k2 * MAX ]} ∪ reserved)).
  split; [ lia | ].
  split; [ reflexivity | ].
  split; [ exact Hfree | ].
  split; [ exact Hbelow | ].
  split; [ subst base1 c; nia | ].
  split.
  { intros Hdiv Hbase. subst base1.
    apply Z.divide_add_r; [ | apply Z.divide_factor_r ].
    subst c. destruct Hbase as [Hlt | Hd].
    - replace (Z.max _ 0x100) with 0x100 by lia. exact Hdiv.
    - destruct (Z.max_spec (VirtualSlots.virtual_touch_slot_base seat) 0x100)
        as [[_ ->] | [_ ->]]; assumption. }
  split; [ reflexivity | ].
  split; [ reflexivity | ].
  split.
  { intros fuel Hfuel. split.
    - apply Hrun. exact Hfuel.
    - rewrite Hrel. apply Hrun2. exact Hfuel. }
  subst base1 c. nia.
Qed.

Lemma reserve_next_bumps_counter_witness :
  exists k base1 seat1 base2 seat2,
    1 <= k /\
    base1 = Z.max 0 0x100 + k * 256 /\
    (base1 ∉ (∅ : gset Z)) /\
    (forall i, 1 <= i < k -> Z.max 0 0x100 + i * 256 ∈ (∅ : gset Z)) /\
    0x100 < base1 /\
    ((256 | 0x100) -> 0 < 0x100 \/ (256 | 0) -> (256 | base1)) /\
    VirtualSlots.reserved_virtual_slots seat1 = {[ base1 ]} ∪ ∅ /\
    VirtualSlots.virtual_touch_slot_base seat1 = base1 /\
    (forall fuel, (size (∅ : gset Z) < fuel)%nat ->
       VirtualSlots.meta_seat_native_create_virtual_device 256 fuel VirtualSlots.fresh_seat
       = Some (base1, seat1) /\
       VirtualSlots.meta_seat_native_create_virtual_device 256 fuel
         (VirtualSlots.meta_seat_native_release_touch_slots seat1 base1)
       = Some (base2, seat2)) /\
    base1 < base2.
Proof.
  apply (reserve_next_bumps_counter 256 VirtualSlots.fresh_seat).
  - lia.
  - simpl. lia.
  - vm_compute. reflexivity.
Defined.

(** C3 as stated fails on a fresh seat with the constant at 256: 0x100 is at
    least 0x100, a multiple of 256 and not reserved, yet the first
    reservation returns 0x200; and after releasing 0x200 the next
    reservation returns 0x300, not 0x200 again. *)
Lemma reserve_next_not_smallest_free :
  exists seat1 seat2,
    VirtualSlots.meta_seat_native_create_virtual_device 256 1 VirtualSlots.fresh_seat
    = Some (0x200, seat1) /\
    (0x100 ∉ VirtualSlots.reserved_virtual_slots VirtualSlots.fresh_seat) /\
    (256 | 0x100) /\ 0x100 < 0x200 /\
    VirtualSlots.meta_seat_native_create_virtual_device 256 1
      (VirtualSlots.meta_seat_native_release_touch_slots seat1 0x200)
    = Some (0x300, seat2) /\
    0x200 <> 0x300.
Proof.
  eexists. eexists.
  split; [ vm_compute; reflexivity | ].
  split; [ cbn; set_solver | ].
  split; [ exists 1; reflexivity | ].
  split; [ lia | ].
  split; [ vm_compute; reflexivity | lia ].
Qed.

(** ** Touch slots *)

Ltac run_seat :=
  cbv beta iota delta [bind ret get modify emit queue_event g_assert_failed out_of_fuel].

Section TouchFacts.

Context {ext : External}.

(** C4, as the code has it.  A TOUCH_DOWN whose seat slot already has a
    live touch state fails the assertion of
    [meta_seat_impl_acquire_touch_state]: the process stops there, nothing
    is warned about and no event is queued. *)
Theorem touch_down_on_live_slot_aborts
    (fuel : nat) (seat : MetaSeatImpl) (device : ClutterInputDevice)
    (time_us slot : Z) (x y : Q) (touch_state : MetaTouchState) :
  meta_seat_impl_lookup_touch_state seat slot = Some touch_state ->
  process_device_event fuel (LIBINPUT_EVENT_TOUCH_DOWN device time_us slot x y) seat
  = Aborted.
Proof.
  unfold meta_seat_impl_lookup_touch_state. intros Hlive.
  destruct (touch_states seat) as [table |] eqn:Htable; [ | discriminate ].
  cbn [process_device_event]. unfold meta_seat_impl_acquire_touch_state.
  run_seat.
  destruct (meta_viewport_info_get_extents (viewports seat)) as [w h].
  rewrite Htable, Hlive. reflexivity.
Qed.

End TouchFacts.

Lemma touch_down_on_live_slot_aborts_witness :
  meta_seat_impl_lookup_touch_state seat_with_touch 7 = Some (mkTouchState 7 0 0) /\
  process_device_event 0
    (LIBINPUT_EVENT_TOUCH_DOWN a_touchscreen 1000 7 (1 # 2) (1 # 2)) seat_with_touch
  = Aborted.
Proof.
  split; [ reflexivity | ].
  apply (touch_down_on_live_slot_aborts 0 seat_with_touch a_touchscreen 1000 7
           (1 # 2) (1 # 2) (mkTouchState 7 0 0)).
  reflexivity.
Defined.

(** C4 as stated fails: two TOUCH_DOWN events on slot 7 in a row, on a
    freshly constructed seat, do not end in a warning and an unchanged seat;
    the second one stops the process. *)
Lemma touch_down_twice_aborts :
  process_events 0
    [ LIBINPUT_EVENT_TOUCH_DOWN a_touchscreen 1000 7 (1 # 2) (1 # 2);
      LIBINPUT_EVENT_TOUCH_DOWN a_touchscreen 2000 7 (1 # 2) (1 # 2) ]
    (initial_seat None)
  = Aborted
  /\ forall seat' trace,
       process_events 0
         [ LIBINPUT_EVENT_TOUCH_DOWN a_touchscreen 1000 7 (1 # 2) (1 # 2);
           LIBINPUT_EVENT_TOUCH_DOWN a_touchscreen 2000 7 (1 # 2) (1 # 2) ]
         (initial_seat None)
       <> Done tt seat' trace.
Proof.
  assert (H : process_events 0
    [ LIBINPUT_EVENT_TOUCH_DOWN a_touchscreen 1000 7 (1 # 2) (1 # 2);
      LIBINPUT_EVENT_TOUCH_DOWN a_touchscreen 2000 7 (1 # 2) (1 # 2) ]
    (initial_seat None) = Aborted) by (vm_compute; reflexivity).
  split; [ exact H | ].
  intros seat' trace. rewrite H. discriminate.
Qed.

(** ** Keys and buttons *)

Section ButtonFacts.

Context {ext : External}.

Lemma update_button_count_run (seat : MetaSeatImpl) (code state : Z) :
  update_button_count code state seat
  = Done (count_after state (button_count_of seat code))
         (seat_after_count code state seat) [].
Proof.
  unfold update_button_count, seat_after_count, count_after, button_count_of.
  run_seat.
  destruct (state =? 0); cbn [negb andb].
  - destruct (default 0 (button_count seat !! code) =? 0); reflexivity.
  - reflexivity.
Qed.

Lemma button_count_of_after (seat : MetaSeatImpl) (code state : Z) :
  button_count_of (seat_after_count code state seat) code
  = count_after state (button_count_of seat code).
Proof.
  unfold seat_after_count.
  destruct (state =? 0) eqn:Hs; cbn [andb].
  - destruct (button_count_of seat code =? 0) eqn:Hc.
    + unfold count_after. rewrite Hs, Hc. apply Z.eqb_eq in Hc. exact Hc.
    + unfold button_count_of at 1. cbn. rewrite lookup_insert_eq. reflexivity.
  - unfold button_count_of at 1. cbn. rewrite lookup_insert_eq. reflexivity.
Qed.

(** [meta_seat_impl_notify_button] in one equation. *)
Lemma notify_button_run (seat : MetaSeatImpl) (device : ClutterInputDevice)
    (time_us button state : Z) :
  meta_seat_impl_notify_button device time_us button state seat
  = let seat1 := seat_after_count button state seat in
    if drop_repeated state (count_after state (button_count_of seat button))
    then Done tt seat1 []
    else
      let button_nr := button_nr_of device button in
      if (button_nr <? 1) || (12 <? button_nr)
      then Done tt seat1 [Warning_unhandled_button button]
      else
        let seat2 :=
          if button_nr <? 8 then
            set_button_state
              (if negb (state =? 0)
               then Z.lor (button_state seat1) (nth (Z.to_nat (button_nr - 1)) maskmap 0)
               else Z.land (button_state seat1)
                      (Z.lnot (nth (Z.to_nat (button_nr - 1)) maskmap 0)))
              seat1
          else seat1 in
        Done tt seat2
          [Queued (CLUTTER_BUTTON
                     (button_event_of seat2 device time_us button state button_nr))].
Proof.
  unfold meta_seat_impl_notify_button.
  unfold bind at 1. rewrite update_button_count_run. cbv zeta.
  destruct (drop_repeated state (count_after state (button_count_of seat button))).
  - reflexivity.
  - destruct ((button_nr_of device button <? 1) || (12 <? button_nr_of device button)).
    + reflexivity.
    + change (Z.of_nat (length maskmap)) with 8.
      unfold button_event_of.
      destruct (button_nr_of device button <? 8); run_seat;
        destruct (is_tablet (device_type device));
        try destruct (clutter_input_device_get_coords _ device);
        reflexivity.
Qed.

Lemma button_state_after_count (seat : MetaSeatImpl) (code state : Z) :
  button_state (seat_after_count code state seat) = button_state seat.
Proof.
  unfold seat_after_count.
  destruct ((state =? 0) && (button_count_of seat code =? 0)); reflexivity.
Qed.

Lemma maskmap_nth (button_nr : Z) :
  1 <= button_nr < 8 ->
  nth (Z.to_nat (button_nr - 1)) maskmap 0 = mask_of_logical_button button_nr.
Proof.
  intros H.
  assert (Hc : button_nr = 1 \/ button_nr = 2 \/ button_nr = 3 \/ button_nr = 4
               \/ button_nr = 5 \/ button_nr = 6 \/ button_nr = 7) by lia.
  destruct Hc as [-> | [-> | [-> | [-> | [-> | [-> | ->]]]]]]; reflexivity.
Qed.

Lemma mask_of_logical_button_high (button_nr : Z) :
  8 <= button_nr -> mask_of_logical_button button_nr = 0.
Proof.
  intros H. unfold mask_of_logical_button.
  destruct button_nr as [| p | p]; try lia.
  do 3 (destruct p as [p | p |]; try lia; try reflexivity).
Qed.

(** A button notification that passes the counter and maps into 1..12. *)
Lemma notify_button_passes (seat : MetaSeatImpl) (device : ClutterInputDevice)
    (time_us button state : Z) :
  drop_repeated state (count_after state (button_count_of seat button)) = false ->
  1 <= button_nr_of device button <= 12 ->
  exists seat' ev,
    meta_seat_impl_notify_button device time_us button state seat
    = Done tt seat' [Queued (CLUTTER_BUTTON ev)] /\
    button_type ev
    = (if state =? 0 then CLUTTER_BUTTON_RELEASE else CLUTTER_BUTTON_PRESS) /\
    button_button ev = button_nr_of device button /\
    button_count_of seat' button = count_after state (button_count_of seat button) /\
    button_state seat'
    = (if state =? 0
       then Z.land (button_state seat)
              (Z.lnot (mask_of_logical_button (button_nr_of device button)))
       else Z.lor (button_state seat)
              (mask_of_logical_button (button_nr_of device button))).
Proof.
  intros Hdrop Hnr. rewrite notify_button_run. cbv zeta. rewrite Hdrop.
  replace ((button_nr_of device button <? 1) || (12 <? button_nr_of device button))
    with false by (symmetry; apply orb_false_iff; split; apply Z.ltb_ge; lia).
  do 2 eexists. split; [ reflexivity | ].
  split; [ cbn; destruct (state =? 0); reflexivity | ].
  split; [ reflexivity | ].
  destruct (Z.ltb_spec (button_nr_of device button) 8) as [Hlow | Hhigh].
  - rewrite maskmap_nth by lia. split.
    + unfold button_count_of at 1. cbn. apply button_count_of_after.
    + cbn. rewrite button_state_after_count. destruct (state =? 0); reflexivity.
  - split; [ apply button_count_of_after | ].
    rewrite button_state_after_count, mask_of_logical_button_high by lia.
    destruct (state =? 0).
    + change (Z.lnot 0) with (-1). now rewrite Z.land_m1_r.
    + now rewrite Z.lor_0_r.
Qed.

(** A button notification that passes the counter and maps outside 1..12. *)
Lemma notify_button_unhandled (seat : MetaSeatImpl) (device : ClutterInputDevice)
    (time_us button state : Z) :
  drop_repeated state (count_after state (button_count_of seat button)) = false ->
  ~ 1 <= button_nr_of device button <= 12 ->
  meta_seat_impl_notify_button device time_us button state seat
  = Done tt (seat_after_count button state seat) [Warning_unhandled_button button].
Proof.
  intros Hdrop Hnr. rewrite notify_button_run. cbv zeta. rewrite Hdrop.
  replace ((button_nr_of device button <? 1) || (12 <? button_nr_of device button))
    with true; [ reflexivity | ].
  symmetry. apply orb_true_iff.
  destruct (Z.ltb_spec (button_nr_of device button) 1); [ now left | right ].
  apply Z.ltb_lt. lia.
Qed.

Lemma notify_button_dropped (seat : MetaSeatImpl) (device : ClutterInputDevice)
    (time_us button state : Z) :
  drop_repeated state (count_after state (button_count_of seat button)) = true ->
  meta_seat_impl_notify_button device time_us button state seat
  = Done tt (seat_after_count button state seat) [].
Proof.
  intros Hdrop. rewrite notify_button_run. cbv zeta. rewrite Hdrop. reflexivity.
Qed.

Lemma notify_key_dropped (seat : MetaSeatImpl) (device : ClutterInputDevice)
    (time_us key state : Z) (update_keys : bool) :
  state <> AUTOREPEAT_VALUE ->
  drop_repeated state (count_after state (button_count_of seat key)) = true ->
  meta_seat_impl_notify_key device time_us key state update_keys seat
  = Done tt (seat_after_count key state seat) [].
Proof.
  intros Hstate Hdrop. unfold meta_seat_impl_notify_key.
  apply Z.eqb_neq in Hstate. rewrite Hstate. cbn [negb].
  run_seat. rewrite update_button_count_run. rewrite Hdrop. reflexivity.
Qed.

(** A key notification that passes the counter queues one key event. *)
Lemma notify_key_passes (seat : MetaSeatImpl) (device : ClutterInputDevice)
    (time_us key state : Z) (update_keys : bool) :
  state <> AUTOREPEAT_VALUE ->
  drop_repeated state (count_after state (button_count_of seat key)) = false ->
  exists seat' trace ev,
    meta_seat_impl_notify_key device time_us key state update_keys seat
    = Done tt seat' trace /\
    queued_events trace = [CLUTTER_KEY ev] /\
    key_state ev = state /\
    key_event_code ev = key /\
    key_repeated ev = false /\
    button_count_of seat' key = count_after state (button_count_of seat key).
Proof.
  intros Hstate Hdrop. unfold meta_seat_impl_notify_key.
  apply Z.eqb_neq in Hstate. rewrite Hstate. cbn [negb].
  run_seat. rewrite update_button_count_run. rewrite Hdrop.
  unfold meta_key_event_new_from_evdev, meta_seat_impl_sync_leds,
    meta_seat_impl_clear_repeat_timer.
  cbn [key_hardware_keycode key_time key_state key_modifier_state key_repeated
       key_device key_source_device key_event_code].
  destruct (xkb_state_update_key _ _ _ _) as [xkb' changed].
  run_seat.
  repeat match goal with
         | |- context [if ?c then _ else _] => destruct c; run_seat
         end.
  all: do 3 eexists; (split; [ reflexivity | ]).
  all: split; [ reflexivity | ].
  all: repeat (split; [ reflexivity | ]).
  all: unfold button_count_of at 1; cbn; apply button_count_of_after.
Qed.

Lemma process_events_cons (fuel : nat) (event : libinput_event)
    (rest : list libinput_event) (seat seat1 : MetaSeatImpl) (t1 : list Effect) :
  process_device_event fuel event seat = Done tt seat1 t1 ->
  process_events fuel (event :: rest) seat
  = match process_events fuel rest seat1 with
    | Done b seat2 t2 => Done b seat2 (t1 ++ t2)
    | Aborted => Aborted
    | OutOfFuel => OutOfFuel
    end.
Proof.
  intros H. cbn [process_events]. unfold bind. rewrite H. reflexivity.
Qed.

Lemma int32_uint32 (z : Z) : int32 (uint32 z) = (z + 2 ^ 31) mod 2 ^ 32 - 2 ^ 31.
Proof.
  unfold int32, uint32. now rewrite Zplus_mod_idemp_l.
Qed.

Lemma int32_uint32_near (z : Z) :
  - 2 ^ 31 <= z < 2 ^ 31 -> int32 (uint32 z) = z.
Proof.
  intros H. rewrite int32_uint32, Z.mod_small; lia.
Qed.

Lemma int32_uint32_far (z : Z) :
  2 ^ 31 <= z < 2 ^ 32 + 2 ^ 31 -> int32 (uint32 z) = z - 2 ^ 32.
Proof.
  intros H. rewrite int32_uint32.
  replace (z + 2 ^ 31) with (z + 2 ^ 31 - 2 ^ 32 + 1 * 2 ^ 32) by lia.
  rewrite Z_mod_plus_full, Z.mod_small; lia.
Qed.

(** The code's [switch], with its wrap-around, against the table of the
    specification. *)
Lemma button_nr_of_spec (device : ClutterInputDevice) (button : Z) :
  0 <= button < 2 ^ 32 ->
  let nr := logical_button_of_spec (is_tablet (device_type device)) button in
  (1 <= nr <= 12 -> button_nr_of device button = nr) /\
  (~ 1 <= nr <= 12 -> ~ 1 <= button_nr_of device button <= 12).
Proof.
  intros Hrange. cbv zeta.
  unfold button_nr_of, logical_button_of_spec.
  unfold BTN_STYLUS3, CLUTTER_BUTTON_PRIMARY, CLUTTER_BUTTON_SECONDARY,
    CLUTTER_BUTTON_MIDDLE.
  change (button =? 329) with (button =? 0x149).
  destruct ((button =? BTN_LEFT) || (button =? BTN_TOUCH)); [ tauto | ].
  destruct ((button =? BTN_RIGHT) || (button =? BTN_STYLUS)); [ tauto | ].
  destruct ((button =? BTN_MIDDLE) || (button =? BTN_STYLUS2)); [ tauto | ].
  destruct (button =? 0x149); [ tauto | ].
  unfold BTN_TOOL_PEN, BTN_LEFT.
  destruct (is_tablet (device_type device)); split; intros H.
  - apply int32_uint32_near. lia.
  - destruct (Z.lt_ge_cases (button - 320 + 4) (2 ^ 31)).
    + rewrite int32_uint32_near; lia.
    + rewrite int32_uint32_far; lia.
  - apply int32_uint32_near. lia.
  - destruct (Z.lt_ge_cases (button - (272 - 1) + 4) (2 ^ 31)).
    + rewrite int32_uint32_near; lia.
    + rewrite int32_uint32_far; lia.
Qed.


(** C7.  A raw key or button event that is not a seat-wide state change
    (seat count other than 1 for a press, other than 0 for a release) is
    dropped: no event is queued and the seat does not change.  On a seat
    whose counter for BTN_LEFT is 0, the four events of S1 queue a press
    and then a release of logical button 1, and nothing else. *)
Theorem seat_wide_debounce
    (fuel : nat) (seat : MetaSeatImpl) (device : ClutterInputDevice) (time_us : Z) :
  (forall key pressed count,
     not_seat_wide pressed count = true ->
     process_device_event fuel
       (LIBINPUT_EVENT_KEYBOARD_KEY device time_us key pressed count) seat
     = Done tt seat []) /\
  (forall button pressed count,
     not_seat_wide pressed count = true ->
     process_device_event fuel
       (LIBINPUT_EVENT_POINTER_BUTTON device time_us button pressed count) seat
     = Done tt seat []) /\
  (button_count_of seat BTN_LEFT = 0 ->
   exists seat' press release,
     process_events fuel (debounced_double_press device time_us) seat
     = Done tt seat' [ Queued (CLUTTER_BUTTON press);
                       Queued (CLUTTER_BUTTON release) ] /\
     button_type press = CLUTTER_BUTTON_PRESS /\
     button_button press = 1 /\
     button_type release = CLUTTER_BUTTON_RELEASE /\
     button_button release = 1 /\
     button_count_of seat' BTN_LEFT = 0).
Proof.
  split; [ | split ].
  - intros key pressed count H. cbn [process_device_event].
    unfold not_seat_wide in H. rewrite H. reflexivity.
  - intros button pressed count H. cbn [process_device_event].
    unfold not_seat_wide in H. rewrite H. reflexivity.
  - intros Hcount.
    assert (Hnr : 1 <= button_nr_of device BTN_LEFT <= 12).
    { change (button_nr_of device BTN_LEFT) with 1. lia. }
    destruct (notify_button_passes seat device time_us BTN_LEFT 1)
      as (seat1 & press & Hrun1 & Hty1 & Hb1 & Hc1 & _);
      [ rewrite Hcount; reflexivity | exact Hnr | ].
    rewrite Hcount in Hc1. change (count_after 1 0) with 1 in Hc1.
    destruct (notify_button_passes seat1 device time_us BTN_LEFT 0)
      as (seat2 & release & Hrun2 & Hty2 & Hb2 & Hc2 & _);
      [ rewrite Hc1; reflexivity | exact Hnr | ].
    rewrite Hc1 in Hc2. change (count_after 0 1) with 0 in Hc2.
    exists seat2, press, release.
    split; [ | repeat split; assumption ].
    unfold debounced_double_press.
    rewrite (process_events_cons _ _ _ seat seat1 [Queued (CLUTTER_BUTTON press)])
      by exact Hrun1.
    rewrite (process_events_cons _ _ _ seat1 seat1 []) by reflexivity.
    rewrite (process_events_cons _ _ _ seat1 seat1 []) by reflexivity.
    rewrite (process_events_cons _ _ _ seat1 seat2 [Queued (CLUTTER_BUTTON release)])
      by exact Hrun2.
    reflexivity.
Qed.

(** C8.  A button notification that the counter lets through is mapped by
    the table BTN_LEFT/BTN_TOUCH -> 1, BTN_RIGHT/BTN_STYLUS -> 3,
    BTN_MIDDLE/BTN_STYLUS2 -> 2, BTN_STYLUS3 -> 8, other codes
    raw - BTN_TOOL_PEN + 4 on a tablet and raw - (BTN_LEFT - 1) + 4
    elsewhere.  A result outside 1..12 gives the warning and no event, and
    leaves [button_state] alone.  A result inside gives one press or
    release event with that button number, and [button_state] gets the
    bit {Button1, Button3, Button2, Button4, Button5} of the logical
    buttons 1..5 set on a press and cleared on a release (no bit for the
    buttons 6..12).  A notification the counter drops gives nothing. *)
Theorem button_mapping_and_mask
    (seat : MetaSeatImpl) (device : ClutterInputDevice) (time_us button state : Z) :
  0 <= button < 2 ^ 32 ->
  let nr := logical_button_of_spec (is_tablet (device_type device)) button in
  if drop_repeated state (count_after state (button_count_of seat button)) then
    meta_seat_impl_notify_button device time_us button state seat
    = Done tt (seat_after_count button state seat) []
  else if (1 <=? nr) && (nr <=? 12) then
    exists seat' ev,
      meta_seat_impl_notify_button device time_us button state seat
      = Done tt seat' [Queued (CLUTTER_BUTTON ev)] /\
      button_button ev = nr /\
      button_type ev
      = (if state =? 0 then CLUTTER_BUTTON_RELEASE else CLUTTER_BUTTON_PRESS) /\
      button_state seat'
      = (if state =? 0
         then Z.land (button_state seat) (Z.lnot (mask_of_logical_button nr))
         else Z.lor (button_state seat) (mask_of_logical_button nr))
  else
    exists seat',
      meta_seat_impl_notify_button device time_us button state seat
      = Done tt seat' [Warning_unhandled_button button] /\
      button_state seat' = button_state seat.
Proof.
  intros Hrange nr.
  destruct (button_nr_of_spec device button Hrange) as [Hin Hout]. fold nr in Hin, Hout.
  destruct (drop_repeated state (count_after state (button_count_of seat button)))
    eqn:Hdrop.
  - apply notify_button_dropped. exact Hdrop.
  - destruct ((1 <=? nr) && (nr <=? 12)) eqn:Hnr.
    + apply andb_true_iff in Hnr as [H1 H2].
      apply Z.leb_le in H1. apply Z.leb_le in H2.
      assert (Heq : button_nr_of device button = nr) by (apply Hin; lia).
      destruct (notify_button_passes seat device time_us button state Hdrop)
        as (seat' & ev & Hrun & Hty & Hb & _ & Hmask); [ lia | ].
      exists seat', ev. rewrite Heq in Hb, Hmask. repeat split; assumption.
    + assert (Hno : ~ 1 <= nr <= 12).
      { intros [H1 H2]. apply Z.leb_le in H1. apply Z.leb_le in H2.
        rewrite H1, H2 in Hnr. discriminate. }
      exists (seat_after_count button state seat). split.
      * apply notify_button_unhandled; [ exact Hdrop | apply Hout; exact Hno ].
      * apply button_state_after_count.
Qed.

End ButtonFacts.

Lemma button_mapping_and_mask_witness :
  0 <= BTN_RIGHT < 2 ^ 32 /\
  let nr := logical_button_of_spec (is_tablet (device_type a_mouse)) BTN_RIGHT in
  if drop_repeated 1 (count_after 1 (button_count_of (initial_seat None) BTN_RIGHT)) then
    meta_seat_impl_notify_button a_mouse 5000 BTN_RIGHT 1 (initial_seat None)
    = Done tt (seat_after_count BTN_RIGHT 1 (initial_seat None)) []
  else if (1 <=? nr) && (nr <=? 12) then
    exists seat' ev,
      meta_seat_impl_notify_button a_mouse 5000 BTN_RIGHT 1 (initial_seat None)
      = Done tt seat' [Queued (CLUTTER_BUTTON ev)] /\
      button_button ev = nr /\
      button_type ev
      = (if 1 =? 0 then CLUTTER_BUTTON_RELEASE else CLUTTER_BUTTON_PRESS) /\
      button_state seat'
      = (if 1 =? 0
         then Z.land (button_state (initial_seat None)) (Z.lnot (mask_of_logical_button nr))
         else Z.lor (button_state (initial_seat None)) (mask_of_logical_button nr))
  else
    exists seat',
      meta_seat_impl_notify_button a_mouse 5000 BTN_RIGHT 1 (initial_seat None)
      = Done tt seat' [Warning_unhandled_button BTN_RIGHT] /\
      button_state seat' = button_state (initial_seat None).
Proof.
  split; [ vm_compute; split; [ discriminate | reflexivity ] | ].
  apply (button_mapping_and_mask (initial_seat None) a_mouse 5000 BTN_RIGHT 1).
  vm_compute. split; [ discriminate | reflexivity ].
Defined.


(** ** NumLock *)

Section KeyboardFacts.

Context {ext : External}.

Lemma testbit_mod_mask (num_mods n : Z) :
  0 <= num_mods -> 0 <= n ->
  Z.testbit (2 ^ num_mods - 1) n = (n <? num_mods).
Proof.
  intros Hk Hn.
  replace (2 ^ num_mods - 1) with (Z.ones num_mods)
    by (rewrite Z.ones_equiv; lia).
  rewrite Z.testbit_ones by lia.
  destruct (Z.leb_spec 0 n); [ reflexivity | lia ].
Qed.

Lemma testbit_numlock (idx n : Z) :
  0 <= idx < 32 -> 0 <= n ->
  Z.testbit (uint32 (Z.shiftl 1 idx)) n = (idx =? n).
Proof.
  intros Hidx Hn. unfold uint32.
  rewrite Z.shiftl_1_l, Z.mod_small.
  - rewrite Z.pow2_bits_eqb by lia. reflexivity.
  - split; [ apply Z.pow_nonneg; lia | apply Z.pow_lt_mono_r; lia ].
Qed.

Lemma testbit_not_numlock (idx n : Z) :
  0 <= idx < 32 -> 0 <= n ->
  Z.testbit (uint32 (Z.lnot (uint32 (Z.shiftl 1 idx)))) n
  = (n <? 32) && negb (idx =? n).
Proof.
  intros Hidx Hn. unfold uint32 at 1.
  destruct (Z.ltb_spec n 32) as [Hlow | Hhigh].
  - rewrite Z.mod_pow2_bits_low by lia.
    rewrite Z.lnot_spec, testbit_numlock by lia. reflexivity.
  - rewrite Z.mod_pow2_bits_high by lia. reflexivity.
Qed.

(** The locked mask after NumLock on, then off. *)
Lemma locked_after_on_off (locked num_mods idx : Z) :
  0 <= idx < num_mods -> num_mods <= 32 ->
  Z.land locked (2 ^ num_mods - 1) = locked ->
  Z.land (Z.land (Z.land (Z.lor locked (uint32 (Z.shiftl 1 idx)))
                         (2 ^ num_mods - 1))
                 (uint32 (Z.lnot (uint32 (Z.shiftl 1 idx)))))
         (2 ^ num_mods - 1)
  = Z.clearbit locked idx.
Proof.
  intros Hidx Hk Hwf. apply Z.bits_inj'. intros n Hn.
  rewrite !Z.land_spec, Z.lor_spec, Z.clearbit_eqb.
  rewrite testbit_mod_mask, testbit_numlock, testbit_not_numlock by lia.
  assert (Hbit : Z.testbit locked n = Z.testbit locked n && (n <? num_mods)).
  { rewrite <- Hwf at 1. rewrite Z.land_spec, testbit_mod_mask by lia. reflexivity. }
  rewrite Hbit.
  destruct (Z.testbit locked n), (Z.ltb_spec n num_mods), (Z.ltb_spec n 32),
    (idx =? n); try reflexivity; lia.
Qed.

(** C9, as the code has it.  NumLock on and then off leaves the locked
    modifiers equal to what they were with the Mod2 bit cleared: the mask
    comes back exactly when NumLock was not locked before the two calls,
    and it differs, by that bit, when NumLock was locked. *)
Theorem numlock_on_off_clears_mod2 (seat : MetaSeatImpl) :
  let idx := keymap_mod2_index (keymap seat) in
  let locked := xkb_state_serialize_mods (xkb seat) XKB_STATE_MODS_LOCKED in
  0 <= idx < keymap_num_mods (keymap seat) ->
  keymap_num_mods (keymap seat) <= 32 ->
  Z.land locked (2 ^ keymap_num_mods (keymap seat) - 1) = locked ->
  exists seat' trace,
    numlock_on_then_off seat = Done tt seat' trace /\
    xkb_state_serialize_mods (xkb seat') XKB_STATE_MODS_LOCKED
    = Z.clearbit locked idx /\
    (Z.testbit locked idx = false ->
     xkb_state_serialize_mods (xkb seat') XKB_STATE_MODS_LOCKED = locked) /\
    (Z.testbit locked idx = true ->
     xkb_state_serialize_mods (xkb seat') XKB_STATE_MODS_LOCKED <> locked).
Proof.
  intros idx locked Hidx Hk Hwf.
  unfold numlock_on_then_off, meta_seat_impl_set_keyboard_numlock,
    meta_seat_impl_sync_leds.
  run_seat. do 2 eexists. split; [ reflexivity | ].
  cbn [xkb set_xkb keymap xkb_state_serialize_mods xkb_state_update_mask
       xkb_locked_mods].
  change (xkb_locked_mods (xkb seat)) with locked. fold idx.
  rewrite locked_after_on_off by assumption.
  split; [ reflexivity | ]. split.
  - intros Hbit. apply Z.bits_inj'. intros n Hn.
    rewrite Z.clearbit_eqb.
    destruct (Z.eqb_spec idx n) as [<- | Hne].
    + rewrite Hbit. reflexivity.
    + now rewrite andb_true_r.
  - intros Hbit Heq.
    assert (Hb : Z.testbit (Z.clearbit locked idx) idx = false).
    { rewrite Z.clearbit_eqb, Z.eqb_refl. apply andb_false_r. }
    rewrite Heq, Hbit in Hb. discriminate.
Qed.

End KeyboardFacts.

Lemma numlock_on_off_clears_mod2_witness :
  0 <= 4 < 8 /\ 8 <= 32 /\ Z.land 0 (2 ^ 8 - 1) = 0 /\
  exists seat' trace,
    numlock_on_then_off (initial_seat None) = Done tt seat' trace /\
    xkb_state_serialize_mods (xkb seat') XKB_STATE_MODS_LOCKED = Z.clearbit 0 4 /\
    (Z.testbit 0 4 = false ->
     xkb_state_serialize_mods (xkb seat') XKB_STATE_MODS_LOCKED = 0) /\
    (Z.testbit 0 4 = true ->
     xkb_state_serialize_mods (xkb seat') XKB_STATE_MODS_LOCKED <> 0).
Proof.
  split; [ lia | ]. split; [ lia | ]. split; [ reflexivity | ].
  apply (numlock_on_off_clears_mod2 (initial_seat None)).
  - simpl. lia.
  - simpl. lia.
  - reflexivity.
Defined.

(** C9 as stated fails on a keyboard that has NumLock locked: the locked
    mask is 16 (the Mod2 bit) before the two calls and 0 after them. *)
Lemma numlock_on_off_loses_numlock :
  xkb_state_serialize_mods (xkb seat_numlock_on) XKB_STATE_MODS_LOCKED = 16 /\
  exists seat' trace,
    numlock_on_then_off seat_numlock_on = Done tt seat' trace /\
    xkb_state_serialize_mods (xkb seat') XKB_STATE_MODS_LOCKED = 0 /\
    xkb_state_serialize_mods (xkb seat') XKB_STATE_MODS_LOCKED
    <> xkb_state_serialize_mods (xkb seat_numlock_on) XKB_STATE_MODS_LOCKED.
Proof.
  split; [ reflexivity | ].
  do 2 eexists. split; [ vm_compute; reflexivity | ].
  split; [ reflexivity | discriminate ].
Qed.

(** ** Scroll *)

Lemma Qlt_bool_iff (a b : Q) : Qlt_bool a b = true <-> (a < b)%Q.
Proof.
  unfold Qlt_bool. rewrite negb_true_iff. split.
  - intros H. apply Qnot_le_lt. intros Hle. apply Qle_bool_iff in Hle. congruence.
  - intros H. destruct (Qle_bool b a) eqn:E; [ | reflexivity ].
    apply Qle_bool_iff in E. exfalso. apply (Qlt_not_le _ _ H E).
Qed.

Lemma Qlt_bool_false_iff (a b : Q) : Qlt_bool a b = false <-> (b <= a)%Q.
Proof.
  unfold Qlt_bool. rewrite negb_false_iff. apply Qle_bool_iff.
Qed.


(** *** Rounding

    What the count of discrete events needs of the floating-point
    arithmetic: rounding is monotone, it leaves the numbers of the format
    as they are, and what it returns lies on the grid of the format. *)

Section Pow2.
Local Open Scope Q_scope.

Lemma pow2_pos (e : Z) : 0 < 2 ^ e.
Proof. apply Qpower_0_lt. reflexivity. Qed.

Lemma pow2_add (a b : Z) : 2 ^ (a + b) == 2 ^ a * 2 ^ b.
Proof. apply Qpower_plus. discriminate. Qed.

Lemma pow2_le (a b : Z) : (a <= b)%Z -> 2 ^ a <= 2 ^ b.
Proof. intros H. apply Qpower_le_compat_l; [ exact H | discriminate ]. Qed.

Lemma pow2_lt (a b : Z) : (a < b)%Z -> 2 ^ a < 2 ^ b.
Proof. intros H. apply Qpower_lt_compat_l; [ exact H | reflexivity ]. Qed.

Lemma pow2_lt_inv (a b : Z) : 2 ^ a < 2 ^ b -> (a < b)%Z.
Proof. intros H. eapply Qpower_lt_compat_l_inv; [ exact H | reflexivity ]. Qed.

Lemma pow2_Z (n : Z) : (0 <= n)%Z -> inject_Z (2 ^ n) == 2 ^ n.
Proof. intros H. rewrite Zpower_Qpower by exact H. reflexivity. Qed.

Lemma pow2_succ (a : Z) : 2 ^ (a + 1) == 2 * 2 ^ a.
Proof. rewrite pow2_add. change (2 ^ 1) with 2. ring. Qed.

Lemma pow2_div (x : Q) (e : Z) : x / 2 ^ e * 2 ^ e == x.
Proof. field. pose proof (pow2_pos e). lra. Qed.

Lemma Qlog2_spec (x : Q) : 0 < x -> 2 ^ Qlog2 x <= x < 2 ^ (Qlog2 x + 1).
Proof.
  intros Hx. destruct x as [n d]. unfold Qlog2. cbn [Qnum Qden].
  assert (Hn : (0 < n)%Z).
  { unfold Qlt in Hx. cbn in Hx. lia. }
  pose proof (Z.log2_spec n Hn) as [Ha1 Ha2].
  pose proof (Z.log2_spec (Zpos d) (Pos2Z.is_pos d)) as [Hb1 Hb2].
  pose proof (Z.log2_nonneg n) as Ha0.
  pose proof (Z.log2_nonneg (Zpos d)) as Hb0.
  set (a := Z.log2 n) in *. set (b := Z.log2 (Zpos d)) in *.
  assert (Hx' : (n # d) * inject_Z (Zpos d) == inject_Z n).
  { unfold Qeq, Qmult, inject_Z. cbn [Qnum Qden]. lia. }
  assert (HD : 0 < inject_Z (Zpos d)) by reflexivity.
  rewrite Zle_Qle in Ha1, Hb1. rewrite Zlt_Qlt in Ha2, Hb2.
  rewrite Z.pow_succ_r in Ha2, Hb2 by assumption.
  rewrite inject_Z_mult in Ha2, Hb2.
  rewrite pow2_Z in Ha1, Ha2, Hb1, Hb2 by assumption.
  change (inject_Z 2) with 2 in *.
  assert (He : 2 ^ (a - b) * 2 ^ b == 2 ^ a).
  { rewrite <- pow2_add. replace (a - b + b)%Z with a by lia. reflexivity. }
  pose proof (pow2_pos (a - b)) as HE.
  pose proof (pow2_pos b) as HB.
  destruct (Qle_bool (2 ^ (a - b)) (n # d)) eqn:Hle.
  - apply Qle_bool_iff in Hle. split; [ exact Hle | ].
    rewrite pow2_succ.
    set (X := n # d) in *. set (D := inject_Z (Zpos d)) in *.
    set (N := inject_Z n) in *. set (E := 2 ^ (a - b)) in *.
    set (PA := 2 ^ a) in *. set (PB := 2 ^ b) in *.
    apply Qnot_le_lt. intros Hc. nra.
  - assert (Hlt : (n # d) < 2 ^ (a - b)).
    { apply Qnot_le_lt. intros Hc. apply Qle_bool_iff in Hc. congruence. }
    replace (a - b - 1 + 1)%Z with (a - b)%Z by lia.
    split; [ | exact Hlt ].
    assert (He' : 2 * 2 ^ (a - b - 1) == 2 ^ (a - b)).
    { rewrite <- pow2_succ. replace (a - b - 1 + 1)%Z with (a - b)%Z by lia.
      reflexivity. }
    pose proof (pow2_pos (a - b - 1)) as HE'.
    set (X := n # d) in *. set (D := inject_Z (Zpos d)) in *.
    set (N := inject_Z n) in *. set (E := 2 ^ (a - b)) in *.
    set (E' := 2 ^ (a - b - 1)) in *.
    set (PA := 2 ^ a) in *. set (PB := 2 ^ b) in *.
    apply Qnot_lt_le. intros Hc. nra.
Qed.

Lemma Qlog2_unique (x : Q) (k : Z) : 2 ^ k <= x < 2 ^ (k + 1) -> Qlog2 x = k.
Proof.
  intros [H1 H2].
  assert (Hx : 0 < x) by (pose proof (pow2_pos k); lra).
  destruct (Qlog2_spec x Hx) as [H3 H4].
  assert (k < Qlog2 x + 1)%Z by (apply pow2_lt_inv; lra).
  assert (Qlog2 x < k + 1)%Z by (apply pow2_lt_inv; lra).
  lia.
Qed.

Lemma Qlog2_le (x y : Q) : 0 < x -> x <= y -> (Qlog2 x <= Qlog2 y)%Z.
Proof.
  intros Hx Hxy.
  destruct (Qlog2_spec x Hx) as [H1 _].
  destruct (Qlog2_spec y ltac:(lra)) as [_ H2].
  assert (Qlog2 x < Qlog2 y + 1)%Z by (apply pow2_lt_inv; lra). lia.
Qed.

Lemma Qlog2_lt_pow2 (x : Q) (k : Z) : 0 < x -> x < 2 ^ k -> (Qlog2 x < k)%Z.
Proof.
  intros Hx Hk. destruct (Qlog2_spec x Hx) as [H1 _].
  apply pow2_lt_inv. lra.
Qed.

End Pow2.

Section Rounding.
Local Open Scope Q_scope.

Lemma round_half_even_bounds (x : Q) :
  (Qfloor x <= round_half_even x <= Qfloor x + 1)%Z.
Proof.
  unfold round_half_even.
  destruct (x - inject_Z (Qfloor x) ?= 1 # 2); [ destruct (Z.even _) | | ]; lia.
Qed.

#[global] Instance round_half_even_comp : Proper (Qeq ==> eq) round_half_even.
Proof.
  intros x y Hxy. unfold round_half_even.
  rewrite (Qfloor_comp x y Hxy).
  rewrite (Qcompare_comp (x - inject_Z (Qfloor y)) (y - inject_Z (Qfloor y))
             ltac:(rewrite Hxy; reflexivity) (1 # 2) (1 # 2) ltac:(reflexivity)).
  reflexivity.
Qed.

Lemma round_half_even_Z (n : Z) : round_half_even (inject_Z n) = n.
Proof.
  unfold round_half_even. rewrite Qfloor_Z.
  destruct (Qcompare_spec (inject_Z n - inject_Z n) (1 # 2)) as [H | H | H];
    [ lra | reflexivity | lra ].
Qed.

Lemma round_half_even_le (x y : Q) :
  x <= y -> (round_half_even x <= round_half_even y)%Z.
Proof.
  intros Hxy.
  pose proof (Qfloor_resp_le x y Hxy) as Hf.
  pose proof (round_half_even_bounds x) as Hbx.
  pose proof (round_half_even_bounds y) as Hby.
  destruct (Z.eq_dec (Qfloor x) (Qfloor y)) as [Heq | Hne]; [ | lia ].
  unfold round_half_even in *. rewrite <- Heq in *.
  destruct (Qcompare_spec (x - inject_Z (Qfloor x)) (1 # 2)) as [Hx | Hx | Hx];
    destruct (Qcompare_spec (y - inject_Z (Qfloor x)) (1 # 2)) as [Hy | Hy | Hy];
    try lia; try lra; destruct (Z.even (Qfloor x)); lia.
Qed.

Lemma round_half_even_nonneg (x : Q) : 0 <= x -> (0 <= round_half_even x)%Z.
Proof.
  intros Hx. rewrite <- (round_half_even_Z 0). apply round_half_even_le. exact Hx.
Qed.

Lemma round_half_even_opp (x : Q) : round_half_even (- x) = (- round_half_even x)%Z.
Proof.
  unfold round_half_even.
  pose proof (Qfloor_le x) as H1. pose proof (Qlt_floor x) as H2.
  pose proof (Qfloor_le (- x)) as H3. pose proof (Qlt_floor (- x)) as H4.
  rewrite inject_Z_plus in H2, H4. change (inject_Z 1) with 1 in *.
  destruct (Qeq_dec x (inject_Z (Qfloor x))) as [Hint | Hfrac].
  - assert (Hf : Qfloor (- x) = (- Qfloor x)%Z).
    { rewrite Hint at 1. rewrite <- inject_Z_opp. apply Qfloor_Z. }
    rewrite Hf.
    destruct (Qcompare_spec (- x - inject_Z (- Qfloor x)) (1 # 2)) as [H | H | H];
      rewrite inject_Z_opp in H; try lra.
    destruct (Qcompare_spec (x - inject_Z (Qfloor x)) (1 # 2)) as [H' | H' | H'];
      try lra. reflexivity.
  - assert (Hf : Qfloor (- x) = (- Qfloor x - 1)%Z).
    { assert (Hlt : inject_Z (Qfloor x) < x) by (apply Qle_lt_or_eq in H1; destruct H1; [assumption | exfalso; apply Hfrac; symmetry; assumption ]).
      assert (A : (Qfloor (- x) < - Qfloor x)%Z).
      { rewrite Zlt_Qlt, inject_Z_opp. lra. }
      assert (B : (- Qfloor x - 1 < Qfloor (- x) + 1)%Z).
      { rewrite Zlt_Qlt, inject_Z_plus. unfold Z.sub.
        rewrite inject_Z_plus, !inject_Z_opp. change (inject_Z 1) with 1. lra. }
      lia. }
    rewrite Hf. unfold Z.sub. rewrite inject_Z_plus, !inject_Z_opp.
    change (inject_Z 1) with 1.
    replace (Z.even (- Qfloor x + - (1))) with (negb (Z.even (Qfloor x))).
    2:{ replace (- Qfloor x + - (1))%Z with (- (Qfloor x + 1))%Z by lia.
        rewrite Z.even_opp. rewrite Z.even_add. destruct (Z.even (Qfloor x)); reflexivity. }
    destruct (Qcompare_spec (- x - (- inject_Z (Qfloor x) + - (1))) (1 # 2)) as [H | H | H];
      destruct (Qcompare_spec (x - inject_Z (Qfloor x)) (1 # 2)) as [H' | H' | H'];
      try lra; try lia.
    destruct (Z.even (Qfloor x)); cbn [negb]; lia.
Qed.

End Rounding.

Section RoundValue.
Local Open Scope Q_scope.

Variable fmt : float_format.
Hypothesis precision_pos : (1 <= precision fmt)%Z.

Lemma Qabs_pos_eq (x : Q) : 0 <= x -> Qabs x = x.
Proof.
  destruct x as [n d]. unfold Qle, Qabs. cbn. intros H.
  rewrite Z.abs_eq by lia. reflexivity.
Qed.

Lemma ulp_exponent_min (x : Q) : (emin fmt <= ulp_exponent fmt x)%Z.
Proof. unfold ulp_exponent. lia. Qed.

Lemma ulp_exponent_upper (x : Q) :
  0 < x -> x / 2 ^ ulp_exponent fmt x < 2 ^ precision fmt.
Proof.
  intros Hx. set (e := ulp_exponent fmt x).
  pose proof (pow2_pos e) as He.
  apply (Qmult_lt_r _ _ (2 ^ e) He). rewrite pow2_div, <- pow2_add.
  destruct (Qlog2_spec x Hx) as [_ H].
  eapply Qlt_le_trans; [ exact H | ]. apply pow2_le.
  unfold e, ulp_exponent. rewrite (Qabs_pos_eq x) by lra. lia.
Qed.

Lemma ulp_exponent_lower (x : Q) :
  0 < x -> (emin fmt < ulp_exponent fmt x)%Z ->
  (ulp_exponent fmt x = Qlog2 x - (precision fmt - 1))%Z /\
  2 ^ (precision fmt - 1) <= x / 2 ^ ulp_exponent fmt x.
Proof.
  intros Hx Hmin.
  assert (He : (ulp_exponent fmt x = Qlog2 x - (precision fmt - 1))%Z).
  { unfold ulp_exponent in *. rewrite (Qabs_pos_eq x) in * by lra. lia. }
  split; [ exact He | ].
  set (e := ulp_exponent fmt x) in *.
  pose proof (pow2_pos e) as Hpos.
  apply (Qmult_le_r _ _ (2 ^ e) Hpos). rewrite pow2_div, <- pow2_add.
  destruct (Qlog2_spec x Hx) as [H _].
  eapply Qle_trans; [ | exact H ]. apply pow2_le. lia.
Qed.

Lemma ulp_exponent_le (x y : Q) :
  0 < x -> x <= y -> (ulp_exponent fmt x <= ulp_exponent fmt y)%Z.
Proof.
  intros Hx Hxy. unfold ulp_exponent.
  rewrite (Qabs_pos_eq x), (Qabs_pos_eq y) by lra.
  pose proof (Qlog2_le x y Hx Hxy). lia.
Qed.

Lemma round_value_zero (x : Q) : x == 0 -> round_value fmt x == 0.
Proof.
  intros Hx. unfold round_value. set (e := ulp_exponent fmt x).
  assert (H : x / 2 ^ e == inject_Z 0).
  { rewrite Hx. unfold Qdiv. ring. }
  rewrite H, round_half_even_Z. ring.
Qed.

Lemma round_value_nonneg (x : Q) : 0 <= x -> 0 <= round_value fmt x.
Proof.
  intros Hx. unfold round_value.
  set (e := ulp_exponent fmt x). pose proof (pow2_pos e) as He.
  apply Qmult_le_0_compat; [ | lra ].
  change 0 with (inject_Z 0). rewrite <- Zle_Qle.
  apply round_half_even_nonneg.
  apply Qle_shift_div_l; [ exact He | lra ].
Qed.

(** Rounding is monotone (on the non-negative numbers, which is what the
    scroll count needs). *)
Lemma round_value_le (x y : Q) :
  0 <= x -> x <= y -> round_value fmt x <= round_value fmt y.
Proof.
  intros Hx0 Hxy.
  destruct (Qeq_dec x 0) as [Hzero | Hnz].
  { rewrite (round_value_zero x Hzero). apply round_value_nonneg. lra. }
  assert (Hx : 0 < x) by lra.
  assert (Hy : 0 < y) by lra.
  pose proof (ulp_exponent_le x y Hx Hxy) as He.
  unfold round_value.
  set (ex := ulp_exponent fmt x) in *. set (ey := ulp_exponent fmt y) in *.
  pose proof (pow2_pos ex) as Hex. pose proof (pow2_pos ey) as Hey.
  destruct (Z.eq_dec ex ey) as [Heq | Hne].
  - rewrite <- Heq. apply Qmult_le_compat_r; [ | lra ].
    rewrite <- Zle_Qle. apply round_half_even_le.
    apply Qmult_le_compat_r; [ exact Hxy | ].
    apply Qlt_le_weak, Qinv_lt_0_compat. exact Hex.
  - assert (Hlt : (ex < ey)%Z) by lia.
    pose proof (ulp_exponent_min x) as Hmin. fold ex in Hmin.
    assert (Hmin' : (emin fmt < ulp_exponent fmt y)%Z) by (fold ey; lia).
    destruct (ulp_exponent_lower y Hy Hmin') as [Hey' Hlow].
    fold ey in Hey', Hlow.
    set (L := Qlog2 y) in *.
    assert (HxL : x < 2 ^ L).
    { destruct (Qlog2_spec x Hx) as [_ H]. eapply Qlt_le_trans; [ exact H | ].
      apply pow2_le. unfold ex, ulp_exponent in Hlt.
      rewrite (Qabs_pos_eq x) in Hlt by lra. lia. }
    (* both sides are compared with 2 ^ L *)
    apply Qle_trans with (2 ^ L).
    + assert (Hint : (round_half_even (x / 2 ^ ex) <= 2 ^ (L - ex))%Z).
      { rewrite <- (round_half_even_Z (2 ^ (L - ex))).
        apply round_half_even_le. rewrite pow2_Z by lia.
        apply (Qmult_le_r _ _ (2 ^ ex) Hex). rewrite pow2_div, <- pow2_add.
        replace (L - ex + ex)%Z with L by lia. lra. }
      rewrite Zle_Qle in Hint. rewrite pow2_Z in Hint by lia.
      apply (Qmult_le_compat_r _ _ (2 ^ ex)) in Hint; [ | lra ].
      rewrite <- pow2_add in Hint.
      replace (L - ex + ex)%Z with L in Hint by lia. exact Hint.
    + assert (Hint : (2 ^ (precision fmt - 1) <= round_half_even (y / 2 ^ ey))%Z).
      { rewrite <- (round_half_even_Z (2 ^ (precision fmt - 1))).
        apply round_half_even_le. rewrite pow2_Z by lia. exact Hlow. }
      rewrite Zle_Qle in Hint. rewrite pow2_Z in Hint by lia.
      apply (Qmult_le_compat_r _ _ (2 ^ ey)) in Hint; [ | lra ].
      rewrite <- pow2_add in Hint.
      replace (precision fmt - 1 + ey)%Z with L in Hint by lia. exact Hint.
Qed.

(** A number that fits the format is left as it is. *)
Lemma round_value_exact (m s : Z) :
  (0 <= m < 2 ^ precision fmt)%Z -> (emin fmt <= s)%Z ->
  round_value fmt (inject_Z m * 2 ^ s) == inject_Z m * 2 ^ s.
Proof.
  intros Hm Hs.
  destruct (Z.eq_dec m 0%Z) as [-> | Hnz].
  { rewrite round_value_zero; ring. }
  set (x := inject_Z m * 2 ^ s).
  pose proof (pow2_pos s) as Hspos.
  assert (Hm1 : 1 <= inject_Z m).
  { change 1 with (inject_Z 1). rewrite <- Zle_Qle. lia. }
  assert (Hx : 0 < x) by (unfold x; nra).
  assert (Hup : x < 2 ^ (precision fmt + s)).
  { unfold x. rewrite pow2_add.
    apply Qmult_lt_compat_r; [ exact Hspos | ].
    rewrite <- pow2_Z by lia. rewrite <- Zlt_Qlt. lia. }
  pose proof (Qlog2_lt_pow2 x _ Hx Hup) as Hlog.
  assert (He : (ulp_exponent fmt x <= s)%Z).
  { unfold ulp_exponent. rewrite (Qabs_pos_eq x) by lra. lia. }
  unfold round_value. set (e := ulp_exponent fmt x) in *.
  assert (Hint : x / 2 ^ e == inject_Z (m * 2 ^ (s - e))).
  { rewrite inject_Z_mult, pow2_Z by lia.
    pose proof (pow2_pos e) as Hepos.
    apply (Qmult_inj_r _ _ (2 ^ e)); [ lra | ].
    rewrite pow2_div. rewrite <- Qmult_assoc, <- pow2_add.
    replace (s - e + e)%Z with s by lia. reflexivity. }
  rewrite Hint, round_half_even_Z.
  rewrite inject_Z_mult, pow2_Z by lia.
  rewrite <- Qmult_assoc, <- pow2_add.
  replace (s - e + e)%Z with s by lia. reflexivity.
Qed.

(** What comes out of rounding has a mantissa of at most [precision] bits
    over an exponent of at least [emin]. *)
Lemma round_value_mantissa (x : Q) :
  0 <= x ->
  exists M : Z,
    (0 <= M <= 2 ^ precision fmt)%Z /\
    round_value fmt x == inject_Z M * 2 ^ ulp_exponent fmt x.
Proof.
  intros Hx. exists (round_half_even (x / 2 ^ ulp_exponent fmt x)).
  split; [ | reflexivity ].
  set (e := ulp_exponent fmt x). pose proof (pow2_pos e) as He.
  split.
  - apply round_half_even_nonneg. apply Qle_shift_div_l; [ exact He | lra ].
  - destruct (Qeq_dec x 0) as [Hzero | Hnz].
    + assert (H : x / 2 ^ e == inject_Z 0) by (rewrite Hzero; unfold Qdiv; ring).
      rewrite H, round_half_even_Z. apply Z.pow_nonneg. lia.
    + rewrite <- (round_half_even_Z (2 ^ precision fmt)).
      apply round_half_even_le. rewrite pow2_Z by lia.
      apply Qlt_le_weak, ulp_exponent_upper. lra.
Qed.

Lemma Qabs_opp_eq (x : Q) : Qabs (- x) = Qabs x.
Proof. destruct x as [n d]. unfold Qabs, Qopp. cbn. rewrite Z.abs_opp. reflexivity. Qed.

Lemma round_value_opp (x : Q) : round_value fmt (- x) == - round_value fmt x.
Proof.
  unfold round_value, ulp_exponent. rewrite Qabs_opp_eq.
  set (e := Z.max _ _).
  assert (H : - x / 2 ^ e == - (x / 2 ^ e)) by (unfold Qdiv; ring).
  rewrite H, round_half_even_opp, inject_Z_opp. ring.
Qed.

End RoundValue.

Section ScrollCount.
Local Open Scope Q_scope.

Lemma round_to_finite (fmt : float_format) (x a : Q) :
  round_to fmt x = F_finite a ->
  a = Qred (round_value fmt x) /\ Qabs (round_value fmt x) < 2 ^ emax fmt.
Proof.
  unfold round_to. destruct (Qle_bool _ _) eqn:H; [ discriminate | ].
  intros E. inversion E. split; [ reflexivity | ].
  apply Qnot_le_lt. intros Hc. apply Qle_bool_iff in Hc. congruence.
Qed.

Lemma round_to_binary32 (x a : Q) :
  round_to binary32 x = F_finite a -> is_binary32 a.
Proof.
  intros H. apply round_to_finite in H as [-> _].
  assert (Hp : (1 <= precision binary32)%Z) by (unfold emin; cbn [emax precision binary64 binary32]; lia).
  destruct (Qlt_le_dec x 0) as [Hneg | Hpos].
  - destruct (round_value_mantissa binary32 Hp (- x) ltac:(lra)) as (M & HM & HMe).
    exists M, (ulp_exponent binary32 (- x)).
    split; [ exact HM | ]. split; [ apply (ulp_exponent_min binary32) | ].
    rewrite Qred_correct. rewrite <- HMe, round_value_opp, Qabs_neg.
    + reflexivity.
    + pose proof (round_value_nonneg binary32 (- x) ltac:(lra)) as H0.
      rewrite round_value_opp in H0. lra.
  - destruct (round_value_mantissa binary32 Hp x Hpos) as (M & HM & HMe).
    exists M, (ulp_exponent binary32 x).
    split; [ exact HM | ]. split; [ apply (ulp_exponent_min binary32) | ].
    rewrite Qred_correct, <- HMe. apply Qabs_pos.
    apply round_value_nonneg; assumption.
Qed.

(** A number of the format that is at least [2 ^ j] is a multiple of
    [2 ^ (j - 23)]. *)
Lemma binary32_grid (a : Q) (j : Z) :
  is_binary32 a -> (-126 <= j)%Z -> 2 ^ j <= Qabs a ->
  exists N : Z, Qabs a == inject_Z N * 2 ^ (j - 23).
Proof.
  intros (M & e & HM & He & Ha) Hj Hlow.
  destruct (Z_le_gt_dec (j - 23) e) as [Hge | Hlt].
  - exists (M * 2 ^ (e - (j - 23)))%Z.
    rewrite inject_Z_mult, pow2_Z by lia.
    rewrite <- Qmult_assoc, <- pow2_add.
    replace (e - (j - 23) + (j - 23))%Z with e by lia. exact Ha.
  - (* the mantissa is 2 ^ 24 and the number 2 ^ j itself *)
    assert (Hup : Qabs a <= 2 ^ j).
    { rewrite Ha. apply Qle_trans with (2 ^ 24 * 2 ^ e).
      - apply Qmult_le_compat_r; [ | apply Qlt_le_weak, pow2_pos ].
        rewrite <- (pow2_Z 24) by lia. rewrite <- Zle_Qle. lia.
      - rewrite <- pow2_add. apply pow2_le. lia. }
    exists (2 ^ 23)%Z. rewrite (pow2_Z 23) by lia. rewrite <- pow2_add.
    replace (23 + (j - 23))%Z with j by lia. lra.
Qed.

Lemma Qfloor_unique (x : Q) (k : Z) :
  inject_Z k <= x -> x < inject_Z (k + 1) -> Qfloor x = k.
Proof.
  intros H1 H2.
  pose proof (Qfloor_resp_le _ _ H1) as H3. rewrite Qfloor_Z in H3.
  pose proof (Qfloor_le x) as H4.
  assert (Qfloor x < k + 1)%Z by (rewrite Zlt_Qlt; lra). lia.
Qed.

(** Between a quotient [A / 10] below the integer [K] and [K] there is a
    double, when [A] lies on a grid of step [2 ^ (- g)]. *)
Lemma double_below (A : Q) (N K g : Z) :
  (0 <= g)%Z -> (1 <= K)%Z -> (K * 2 ^ (g + 4) <= 2 ^ 53)%Z ->
  A == inject_Z N * 2 ^ (- g) -> A < 10 * inject_Z K ->
  A / 10 <= inject_Z (K * 2 ^ (g + 4) - 1) * 2 ^ (- (g + 4)) /\
  inject_Z (K * 2 ^ (g + 4) - 1) * 2 ^ (- (g + 4)) < inject_Z K.
Proof.
  intros Hg HK Hfit HA Hlt.
  pose proof (pow2_pos g) as Hgpos.
  assert (Hinv : 2 ^ (- g) * 2 ^ g == 1).
  { rewrite <- pow2_add. replace (- g + g)%Z with 0%Z by lia. reflexivity. }
  assert (Hinv4 : 2 ^ (- (g + 4)) * (16 * 2 ^ g) == 1).
  { assert (E : 16 * 2 ^ g == 2 ^ (g + 4)).
    { rewrite pow2_add. change (2 ^ 4) with 16. ring. }
    rewrite E, <- pow2_add. replace (- (g + 4) + (g + 4))%Z with 0%Z by lia.
    reflexivity. }
  assert (HN : (N + 1 <= 10 * K * 2 ^ g)%Z).
  { assert (H : (N < 10 * K * 2 ^ g)%Z).
    { rewrite Zlt_Qlt. rewrite !inject_Z_mult, pow2_Z by lia.
      change (inject_Z 10) with 10.
      set (P := 2 ^ g) in *. set (I := 2 ^ (- g)) in *.
      set (n := inject_Z N) in *. set (k := inject_Z K) in *.
      assert (n == A * P) by (rewrite HA, <- Qmult_assoc, Hinv; ring).
      nra. }
    lia. }
  rewrite Zle_Qle in HN. rewrite inject_Z_plus, !inject_Z_mult in HN.
  rewrite pow2_Z in HN by lia. change (inject_Z 10) with 10 in HN.
  change (inject_Z 1) with 1 in HN.
  unfold Z.sub. rewrite inject_Z_plus, inject_Z_mult, inject_Z_opp.
  rewrite pow2_Z by lia. change (inject_Z 1) with 1.
  assert (E : 2 ^ (g + 4) == 16 * 2 ^ g).
  { rewrite pow2_add. change (2 ^ 4) with 16. ring. }
  rewrite E.
  pose proof (pow2_pos (- g)) as Hi. pose proof (pow2_pos (- (g + 4))) as Hi4.
  set (P := 2 ^ g) in *. set (I := 2 ^ (- g)) in *. set (I4 := 2 ^ (- (g + 4))) in *.
  set (n := inject_Z N) in *. set (k := inject_Z K) in *.
  assert (HAn : A * P == n) by (rewrite HA, <- Qmult_assoc, Hinv; ring).
  assert (H1 : (k * (16 * P) + - (1)) * I4 == k - I4).
  { setoid_replace ((k * (16 * P) + - (1)) * I4) with (k * (I4 * (16 * P)) - I4) using relation Qeq by ring.
    rewrite Hinv4. ring. }
  assert (H2 : 16 * I4 == I).
  { setoid_replace (16 * I4) with (16 * I4 * 1) using relation Qeq by ring.
    rewrite <- Hinv at 1.
    setoid_replace (16 * I4 * (I * P)) with (I * (I4 * (16 * P))) using relation Qeq by ring.
    rewrite Hinv4. ring. }
  assert (HAI : A + I <= 10 * k).
  { apply (Qmult_le_r _ _ P Hgpos).
    setoid_replace ((A + I) * P) with (A * P + I * P) using relation Qeq by ring.
    rewrite Hinv, HAn. lra. }
  rewrite H1. split.
  - apply Qle_shift_div_r; [ reflexivity | ]. lra.
  - lra.
Qed.

(** The count [floor (fabs (acc) / DISCRETE_SCROLL_STEP)] the code takes
    in double arithmetic is the floor of the exact quotient: the rounding
    of the division never reaches the next integer. *)
Lemma scroll_count (a : Q) :
  is_binary32 a -> Qabs a < 10 * 2 ^ 31 ->
  int_of_double
    (c_floor (c_div binary64 (c_fabs (F_finite a)) DISCRETE_SCROLL_STEP))
  = Qfloor (Qabs a / DISCRETE_SCROLL_STEP).
Proof.
  intros Hfloat Hrange. unfold DISCRETE_SCROLL_STEP.
  assert (Hp : (1 <= precision binary64)%Z) by (unfold emin; cbn [emax precision binary64 binary32]; lia).
  set (A := Qabs a) in *.
  assert (HA0 : 0 <= A) by apply Qabs_nonneg.
  set (k := Qfloor (A / 10)).
  pose proof (Qfloor_le (A / 10)) as Hk1. pose proof (Qlt_floor (A / 10)) as Hk2.
  fold k in Hk1, Hk2.
  assert (Hq0 : 0 <= A / 10) by (apply Qle_shift_div_l; [ reflexivity | lra ]).
  assert (Hk0 : (0 <= k)%Z).
  { unfold k. rewrite <- (Qfloor_Z 0). apply Qfloor_resp_le. exact Hq0. }
  assert (HAK : A < 10 * inject_Z (k + 1)).
  { apply (Qmult_lt_r _ _ 10) in Hk2; [ | reflexivity ].
    assert (E : A / 10 * 10 == A) by (field). rewrite E in Hk2. lra. }
  assert (HkA : 10 * inject_Z k <= A).
  { apply (Qmult_le_r _ _ 10) in Hk1; [ | reflexivity ].
    assert (E : A / 10 * 10 == A) by (field). rewrite E in Hk1. lra. }
  assert (Hkmax : (k + 1 <= 2 ^ 31)%Z).
  { assert (H : (k < 2 ^ 31)%Z).
    { rewrite Zlt_Qlt. rewrite (pow2_Z 31) by lia. lra. }
    lia. }
  (* a double between the quotient and k + 1 *)
  assert (Hd : exists m s : Z,
             (0 <= m < 2 ^ 53)%Z /\ (emin binary64 <= s)%Z /\
             A / 10 <= inject_Z m * 2 ^ s /\ inject_Z m * 2 ^ s < inject_Z (k + 1)).
  { destruct (Qlt_le_dec A 8) as [Hsmall | Hge8].
    - exists 7%Z, (-3)%Z. split; [ lia | ]. split; [ unfold emin; cbn [emax precision binary64 binary32]; lia | ].
      change (inject_Z 7 * 2 ^ (-3)) with (7 # 8).
      split.
      + apply Qle_shift_div_r; [ reflexivity | lra ].
      + assert (1 <= inject_Z (k + 1)).
        { change 1 with (inject_Z 1). rewrite <- Zle_Qle. lia. }
        lra.
    - destruct (Qlt_le_dec A 128) as [Hmid | Hge128].
      + destruct (binary32_grid a 3 Hfloat ltac:(lia) Hge8) as (N & HN).
        fold A in HN. change (3 - 23)%Z with (- 20)%Z in HN.
        assert (HK : (k + 1 <= 13)%Z).
        { assert (H : (k < 13)%Z) by (rewrite Zlt_Qlt; change (inject_Z 13) with 13; lra).
          lia. }
        destruct (double_below A N (k + 1) 20 ltac:(lia) ltac:(lia)
                    ltac:(change (2 ^ (20 + 4))%Z with 16777216%Z;
                          change (2 ^ 53)%Z with 9007199254740992%Z; lia) HN HAK)
          as [H1 H2].
        exists ((k + 1) * 2 ^ (20 + 4) - 1)%Z, (- (20 + 4))%Z.
        split; [ change (2 ^ (20 + 4))%Z with 16777216%Z;
                 change (2 ^ 53)%Z with 9007199254740992%Z; lia | ].
        split; [ unfold emin; cbn [emax precision binary64 binary32]; lia | ]. split; assumption.
      + destruct (binary32_grid a 7 Hfloat ltac:(lia) Hge128) as (N & HN).
        fold A in HN. change (7 - 23)%Z with (- 16)%Z in HN.
        destruct (double_below A N (k + 1) 16 ltac:(lia) ltac:(lia)
                    ltac:(change (2 ^ (16 + 4))%Z with 1048576%Z;
                          change (2 ^ 53)%Z with 9007199254740992%Z;
                          change (2 ^ 31)%Z with 2147483648%Z in Hkmax; lia) HN HAK)
          as [H1 H2].
        exists ((k + 1) * 2 ^ (16 + 4) - 1)%Z, (- (16 + 4))%Z.
        split; [ change (2 ^ (16 + 4))%Z with 1048576%Z;
                 change (2 ^ 53)%Z with 9007199254740992%Z;
                 change (2 ^ 31)%Z with 2147483648%Z in Hkmax; lia | ].
        split; [ unfold emin; cbn [emax precision binary64 binary32]; lia | ]. split; assumption. }
  destruct Hd as (m & s & Hm & Hs & Hd1 & Hd2).
  (* the rounded quotient lies between k and that double *)
  set (v := round_value binary64 (A / 10)).
  assert (Hlow : inject_Z k <= v).
  { apply Qle_trans with (round_value binary64 (inject_Z k * 2 ^ 0)).
    - rewrite (round_value_exact binary64 Hp k 0).
      + change (2 ^ 0) with 1. lra.
      + change (precision binary64) with 53%Z.
        change (2 ^ 53)%Z with 9007199254740992%Z.
        change (2 ^ 31)%Z with 2147483648%Z in Hkmax. lia.
      + unfold emin; cbn [emax precision binary64 binary32]; lia.
    - apply round_value_le; [ exact Hp | | ].
      + change (2 ^ 0) with 1. rewrite Qmult_1_r.
        change 0 with (inject_Z 0). rewrite <- Zle_Qle. exact Hk0.
      + change (2 ^ 0) with 1. rewrite Qmult_1_r. exact Hk1. }
  assert (Hhigh : v < inject_Z (k + 1)).
  { eapply Qle_lt_trans; [ | exact Hd2 ].
    rewrite <- (round_value_exact binary64 Hp m s Hm Hs).
    apply round_value_le; assumption. }
  assert (Hv0 : 0 <= v).
  { eapply Qle_trans; [ | exact Hlow ].
    change 0 with (inject_Z 0). rewrite <- Zle_Qle. exact Hk0. }
  cbn [c_fabs c_div]. fold A. unfold round_to. fold v.
  assert (Hfin : Qle_bool (2 ^ emax binary64) (Qabs v) = false).
  { apply not_true_is_false. intros Hc. apply Qle_bool_iff in Hc.
    rewrite Qabs_pos in Hc by exact Hv0.
    assert (Hb : inject_Z (k + 1) <= 2 ^ 31).
    { rewrite <- (pow2_Z 31) by lia. rewrite <- Zle_Qle. exact Hkmax. }
    pose proof (pow2_lt 31 (emax binary64) ltac:(unfold emin; cbn [emax precision binary64 binary32]; lia)). lra. }
  rewrite Hfin. cbn [c_floor int_of_double].
  rewrite (Qfloor_comp _ _ (Qred_correct v)).
  rewrite (Qfloor_unique v k Hlow Hhigh).
  unfold Qtruncate.
  replace (Qle_bool 0 (inject_Z k)) with true.
  2:{ symmetry. apply Qle_bool_iff. change 0 with (inject_Z 0).
      rewrite <- Zle_Qle. exact Hk0. }
  rewrite Qfloor_Z.
  replace ((INT_MIN <=? k) && (k <=? INT_MAX)) with true; [ reflexivity | ].
  symmetry. apply andb_true_iff. unfold INT_MIN, INT_MAX.
  split; [ apply Z.leb_le | apply Z.leb_le ]; lia.
Qed.

End ScrollCount.

Lemma is_binary32_zero : is_binary32 0.
Proof.
  exists 0, 0. split; [ lia | ]. split; [ lia | reflexivity ].
Qed.

(** The accumulator after the update is a binary32 number when it is a
    number at all. *)
Lemma accumulated_binary32 (finish_flags flag : Z) (acc : c_float) (delta a : Q) :
  accumulated finish_flags flag acc delta = F_finite a -> is_binary32 a.
Proof.
  unfold accumulated, float_add_double, float_of_double, c_add.
  destruct (negb (Z.land finish_flags flag =? 0)).
  - intros H. inversion H. apply is_binary32_zero.
  - destruct acc as [a0 | s | ]; try discriminate.
    destruct (round_to binary64 (a0 + delta)) as [sum | s | ]; try discriminate.
    apply round_to_binary32.
Qed.

Section ScrollFacts.

Context {ext : External}.

Lemma for_loop_run (n : nat) (body : M unit) (seat : MetaSeatImpl) (e : Effect) :
  body seat = Done tt seat [e] ->
  for_loop n body seat = Done tt seat (replicate n e).
Proof.
  intros Hbody. induction n as [| n IH]; [ reflexivity | ].
  cbn [for_loop]. unfold bind. rewrite Hbody, IH. reflexivity.
Qed.

Lemma notify_discrete_scroll_run (seat : MetaSeatImpl) (device : ClutterInputDevice)
    (time_us : Z) (direction : ClutterScrollDirection)
    (scroll_source : ClutterScrollSource) (emulated : bool) :
  direction <> CLUTTER_SCROLL_SMOOTH ->
  notify_discrete_scroll device time_us direction scroll_source emulated seat
  = Done tt seat
      [Queued (CLUTTER_SCROLL
         (mkScrollEvent time_us (us2ms time_us)
            (meta_xkb_translate_state (xkb seat) (button_state seat))
            direction (0, 0)%Q (pointer_x seat) (pointer_y seat)
            (core_pointer seat) device scroll_source
            CLUTTER_SCROLL_FINISHED_NONE emulated))].
Proof.
  intros Hdir. destruct direction; try reflexivity. contradiction.
Qed.

Lemma finished_axis_is_flushed :
  Z.to_nat (Qfloor (Qabs 0 / DISCRETE_SCROLL_STEP)) = 0%nat /\
  fmodf (F_finite 0) DISCRETE_SCROLL_STEP = F_finite 0.
Proof. split; reflexivity. Qed.

(** The number of discrete events of an accumulator, as the code takes it. *)
Lemma check_notify_discrete_scroll_run (seat : MetaSeatImpl)
    (device : ClutterInputDevice) (time_us : Z) (scroll_source : ClutterScrollSource) :
  check_notify_discrete_scroll device time_us scroll_source seat
  = Done tt
      (set_accum_scroll_dy (fmodf (accum_scroll_dy seat) DISCRETE_SCROLL_STEP)
         (set_accum_scroll_dx (fmodf (accum_scroll_dx seat) DISCRETE_SCROLL_STEP) seat))
      (replicate (Z.to_nat (scroll_count_of (accum_scroll_dx seat)))
         (Queued (CLUTTER_SCROLL
            (discrete_scroll_event seat device time_us
               (if c_gt (accum_scroll_dx seat) 0
                then CLUTTER_SCROLL_RIGHT else CLUTTER_SCROLL_LEFT)
               scroll_source true)))
       ++ replicate (Z.to_nat (scroll_count_of (accum_scroll_dy seat)))
            (Queued (CLUTTER_SCROLL
               (discrete_scroll_event seat device time_us
                  (if c_gt (accum_scroll_dy seat) 0
                   then CLUTTER_SCROLL_DOWN else CLUTTER_SCROLL_UP)
                  scroll_source true)))).
Proof.
  unfold check_notify_discrete_scroll, scroll_count_of. run_seat.
  rewrite (for_loop_run _ _ seat _
             (notify_discrete_scroll_run seat device time_us
                (if c_gt (accum_scroll_dx seat) 0
                 then CLUTTER_SCROLL_RIGHT else CLUTTER_SCROLL_LEFT)
                scroll_source true
                ltac:(destruct (c_gt (accum_scroll_dx seat) 0); discriminate))).
  rewrite (for_loop_run _ _ seat _
             (notify_discrete_scroll_run seat device time_us
                (if c_gt (accum_scroll_dy seat) 0
                 then CLUTTER_SCROLL_DOWN else CLUTTER_SCROLL_UP)
                scroll_source true
                ltac:(destruct (c_gt (accum_scroll_dy seat) 0); discriminate))).
  cbn [app]. rewrite app_nil_r. reflexivity.
Qed.

(** [meta_seat_impl_notify_scroll_continuous] in one equation. *)
Lemma notify_scroll_continuous_run
    (seat : MetaSeatImpl) (device : ClutterInputDevice) (time_us : Z)
    (dx dy : Q) (scroll_source : ClutterScrollSource) (finish_flags : Z) :
  let acc_x :=
    accumulated finish_flags CLUTTER_SCROLL_FINISHED_HORIZONTAL
      (accum_scroll_dx seat) dx in
  let acc_y :=
    accumulated finish_flags CLUTTER_SCROLL_FINISHED_VERTICAL
      (accum_scroll_dy seat) dy in
  let seat1 := set_accum_scroll_dy acc_y (set_accum_scroll_dx acc_x seat) in
  meta_seat_impl_notify_scroll_continuous device time_us dx dy scroll_source
    finish_flags seat
  = Done tt
      (set_accum_scroll_dy (fmodf acc_y DISCRETE_SCROLL_STEP)
         (set_accum_scroll_dx (fmodf acc_x DISCRETE_SCROLL_STEP) seat1))
      (Queued (CLUTTER_SCROLL
         (mkScrollEvent time_us (us2ms time_us)
            (meta_xkb_translate_state (xkb seat) (button_state seat))
            CLUTTER_SCROLL_SMOOTH
            (1 / DISCRETE_SCROLL_STEP * dx, 1 / DISCRETE_SCROLL_STEP * dy)%Q
            (pointer_x seat) (pointer_y seat) (core_pointer seat) device
            scroll_source finish_flags false))
       :: replicate (Z.to_nat (scroll_count_of acc_x))
            (Queued (CLUTTER_SCROLL
               (discrete_scroll_event seat1 device time_us
                  (if c_gt acc_x 0
                   then CLUTTER_SCROLL_RIGHT else CLUTTER_SCROLL_LEFT)
                  scroll_source true)))
       ++ replicate (Z.to_nat (scroll_count_of acc_y))
            (Queued (CLUTTER_SCROLL
               (discrete_scroll_event seat1 device time_us
                  (if c_gt acc_y 0
                   then CLUTTER_SCROLL_DOWN else CLUTTER_SCROLL_UP)
                  scroll_source true)))).
Proof.
  intros acc_x acc_y seat1.
  assert (Hrun : meta_seat_impl_notify_scroll_continuous device time_us dx dy
                   scroll_source finish_flags seat
                 = bind (notify_scroll device time_us dx dy scroll_source
                           finish_flags false)
                        (fun _ => check_notify_discrete_scroll device time_us
                                    scroll_source)
                        seat1).
  { unfold meta_seat_impl_notify_scroll_continuous, seat1, acc_x, acc_y, accumulated.
    unfold bind at 1 2, modify.
    destruct (negb (Z.land finish_flags CLUTTER_SCROLL_FINISHED_HORIZONTAL =? 0)),
      (negb (Z.land finish_flags CLUTTER_SCROLL_FINISHED_VERTICAL =? 0));
      cbn [accum_scroll_dy set_accum_scroll_dx]; unfold bind.
    all: destruct (notify_scroll _ _ _ _ _ _ _ _) as [[] s1 t1 | | ];
      [ destruct (check_notify_discrete_scroll _ _ _ s1) | | ]; try reflexivity;
      cbn [app]; reflexivity. }
  rewrite Hrun. unfold bind, notify_scroll. run_seat.
  rewrite check_notify_discrete_scroll_run.
  unfold seat1.
  cbn [accum_scroll_dx accum_scroll_dy set_accum_scroll_dx set_accum_scroll_dy].
  cbn [app]. reflexivity.
Qed.


Lemma discrete_to_direction_spec (discrete_dx discrete_dy : Q) :
  if Qeq_bool discrete_dx 0 && Qeq_bool discrete_dy 0
  then discrete_to_direction discrete_dx discrete_dy = None
  else exists direction,
         discrete_to_direction discrete_dx discrete_dy = Some direction /\
         direction <> CLUTTER_SCROLL_SMOOTH.
Proof.
  unfold discrete_to_direction.
  destruct (Qlt_bool 0 discrete_dx) eqn:Hx1.
  { apply Qlt_bool_iff in Hx1.
    replace (Qeq_bool discrete_dx 0) with false.
    - cbn [andb]. eexists. split; [ reflexivity | discriminate ].
    - symmetry. apply not_true_is_false. intros H. apply Qeq_bool_iff in H.
      rewrite H in Hx1. apply (Qlt_irrefl _ Hx1). }
  destruct (Qlt_bool discrete_dx 0) eqn:Hx2.
  { apply Qlt_bool_iff in Hx2.
    replace (Qeq_bool discrete_dx 0) with false.
    - cbn [andb]. eexists. split; [ reflexivity | discriminate ].
    - symmetry. apply not_true_is_false. intros H. apply Qeq_bool_iff in H.
      rewrite H in Hx2. apply (Qlt_irrefl _ Hx2). }
  apply Qlt_bool_false_iff in Hx1, Hx2.
  replace (Qeq_bool discrete_dx 0) with true
    by (symmetry; apply Qeq_bool_iff, Qle_antisym; assumption).
  cbn [andb].
  destruct (Qlt_bool 0 discrete_dy) eqn:Hy1.
  { apply Qlt_bool_iff in Hy1.
    replace (Qeq_bool discrete_dy 0) with false.
    - eexists. split; [ reflexivity | discriminate ].
    - symmetry. apply not_true_is_false. intros H. apply Qeq_bool_iff in H.
      rewrite H in Hy1. apply (Qlt_irrefl _ Hy1). }
  destruct (Qlt_bool discrete_dy 0) eqn:Hy2.
  { apply Qlt_bool_iff in Hy2.
    replace (Qeq_bool discrete_dy 0) with false.
    - eexists. split; [ reflexivity | discriminate ].
    - symmetry. apply not_true_is_false. intros H. apply Qeq_bool_iff in H.
      rewrite H in Hy2. apply (Qlt_irrefl _ Hy2). }
  apply Qlt_bool_false_iff in Hy1, Hy2.
  replace (Qeq_bool discrete_dy 0) with true
    by (symmetry; apply Qeq_bool_iff, Qle_antisym; assumption).
  reflexivity.
Qed.

Lemma translate_scroll_source_wheel (source : libinput_pointer_axis_source) :
  translate_scroll_source source = CLUTTER_SCROLL_SOURCE_WHEEL ->
  source = LIBINPUT_POINTER_AXIS_SOURCE_WHEEL.
Proof. destruct source; intros H; try discriminate H; reflexivity. Qed.

(** C10.  The translator, given a pointer-axis event whose source
    translates to the wheel (the libinput wheel source, and no other), and
    a nonzero discrete value on at least one axis, queues one smooth
    event, marked emulated, and after it one discrete event, not
    emulated, both of the wheel source, whatever the size of the discrete
    values; the seat is left as it was.  Nothing else guards the assertion
    of [discrete_to_direction]: with both discrete values zero it is
    reached and the process stops. *)
Theorem wheel_scroll_one_discrete
    (fuel : nat) (seat : MetaSeatImpl) (device : ClutterInputDevice) (time_us : Z)
    (source : libinput_pointer_axis_source)
    (axis_event : libinput_event_pointer_axis) :
  translate_scroll_source source = CLUTTER_SCROLL_SOURCE_WHEEL ->
  source = LIBINPUT_POINTER_AXIS_SOURCE_WHEEL /\
  if Qeq_bool (discrete_dx_of axis_event) 0 && Qeq_bool (discrete_dy_of axis_event) 0
  then
    process_device_event fuel
      (LIBINPUT_EVENT_POINTER_AXIS device time_us source axis_event) seat
    = Aborted
  else
    exists smooth discrete,
      process_device_event fuel
        (LIBINPUT_EVENT_POINTER_AXIS device time_us source axis_event) seat
      = Done tt seat [ Queued (CLUTTER_SCROLL smooth);
                       Queued (CLUTTER_SCROLL discrete) ] /\
      scroll_direction smooth = CLUTTER_SCROLL_SMOOTH /\
      scroll_emulated smooth = true /\
      scroll_scroll_source smooth = CLUTTER_SCROLL_SOURCE_WHEEL /\
      (fst (scroll_delta smooth) == discrete_dx_of axis_event)%Q /\
      (snd (scroll_delta smooth) == discrete_dy_of axis_event)%Q /\
      scroll_emulated discrete = false /\
      scroll_scroll_source discrete = CLUTTER_SCROLL_SOURCE_WHEEL /\
      discrete_to_direction (discrete_dx_of axis_event) (discrete_dy_of axis_event)
      = Some (scroll_direction discrete) /\
      scroll_direction discrete <> CLUTTER_SCROLL_SMOOTH.
Proof.
  intros Hsource. split; [ apply translate_scroll_source_wheel; exact Hsource | ].
  pose proof (discrete_to_direction_spec (discrete_dx_of axis_event)
                (discrete_dy_of axis_event)) as Hdir.
  cbn [process_device_event]. rewrite Hsource.
  unfold notify_discrete_axis, meta_seat_impl_notify_discrete_scroll, notify_scroll.
  fold (discrete_dx_of axis_event). fold (discrete_dy_of axis_event).
  destruct (Qeq_bool (discrete_dx_of axis_event) 0
            && Qeq_bool (discrete_dy_of axis_event) 0).
  - run_seat. rewrite Hdir. reflexivity.
  - destruct Hdir as (direction & Hdir & Hsmooth).
    run_seat. rewrite Hdir.
    rewrite notify_discrete_scroll_run by exact Hsmooth.
    do 2 eexists. split; [ reflexivity | ].
    cbn [scroll_direction scroll_emulated scroll_delta scroll_scroll_source fst snd].
    repeat (split; [ reflexivity | ]).
    split; [ unfold DISCRETE_SCROLL_STEP; field | ].
    split; [ unfold DISCRETE_SCROLL_STEP; field | ].
    repeat (split; [ reflexivity | ]). exact Hsmooth.
Qed.

End ScrollFacts.



Lemma wheel_scroll_one_discrete_witness :
  translate_scroll_source LIBINPUT_POINTER_AXIS_SOURCE_WHEEL
  = CLUTTER_SCROLL_SOURCE_WHEEL /\
  LIBINPUT_POINTER_AXIS_SOURCE_WHEEL = LIBINPUT_POINTER_AXIS_SOURCE_WHEEL /\
  if Qeq_bool (discrete_dx_of a_wheel_click) 0
     && Qeq_bool (discrete_dy_of a_wheel_click) 0
  then
    process_device_event 0
      (LIBINPUT_EVENT_POINTER_AXIS a_mouse 1000 LIBINPUT_POINTER_AXIS_SOURCE_WHEEL
         a_wheel_click) (initial_seat None)
    = Aborted
  else
    exists smooth discrete,
      process_device_event 0
        (LIBINPUT_EVENT_POINTER_AXIS a_mouse 1000 LIBINPUT_POINTER_AXIS_SOURCE_WHEEL
           a_wheel_click) (initial_seat None)
      = Done tt (initial_seat None)
          [ Queued (CLUTTER_SCROLL smooth); Queued (CLUTTER_SCROLL discrete) ] /\
      scroll_direction smooth = CLUTTER_SCROLL_SMOOTH /\
      scroll_emulated smooth = true /\
      scroll_scroll_source smooth = CLUTTER_SCROLL_SOURCE_WHEEL /\
      (fst (scroll_delta smooth) == discrete_dx_of a_wheel_click)%Q /\
      (snd (scroll_delta smooth) == discrete_dy_of a_wheel_click)%Q /\
      scroll_emulated discrete = false /\
      scroll_scroll_source discrete = CLUTTER_SCROLL_SOURCE_WHEEL /\
      discrete_to_direction (discrete_dx_of a_wheel_click)
        (discrete_dy_of a_wheel_click)
      = Some (scroll_direction discrete) /\
      scroll_direction discrete <> CLUTTER_SCROLL_SMOOTH.
Proof.
  split; [ reflexivity | ].
  apply (wheel_scroll_one_discrete 0 (initial_seat None) a_mouse 1000
           LIBINPUT_POINTER_AXIS_SOURCE_WHEEL a_wheel_click).
  reflexivity.
Defined.

(** ** Relative motion across outputs *)

(** C2, as the code has it.  In scenario S5 the raw motion (200,0) from
    (950,500) crosses into the output of scale 2 at (1000,500) after 50
    units; the remaining 150 are scaled by 2 there.  One MOTION event is
    queued; the pointer ends at (1300,500) and the relative motion attached
    to the event is (350,0), with the unaccelerated (200,0) passed on.  Two
    iterations of the loop over the outputs are enough. *)
Theorem cross_output_relative_motion (fuel : nat) :
  exists seat' motion dx dy,
    process_device_event (S (S fuel)) cross_output_motion (seat_at two_outputs 950 500)
    = Done tt seat' [Queued (CLUTTER_MOTION motion)] /\
    (pointer_x seat' == 1300 /\ pointer_y seat' == 500)%Q /\
    (motion_x motion == 1300 /\ motion_y motion == 500)%Q /\
    motion_relative motion = Some (dx, dy, 200%Q, 0%Q) /\
    (dx == 350 /\ dy == 0)%Q.
Proof.
  do 4 eexists. split; [ vm_compute; reflexivity | ].
  repeat split; reflexivity.
Qed.

(** C2 as stated fails: in scenario S5 the pointer does not end at
    (1100,500) and the attached relative motion is not (150,0). *)
Lemma cross_output_motion_not_1100 :
  exists seat' motion dx dy,
    process_device_event 2 cross_output_motion (seat_at two_outputs 950 500)
    = Done tt seat' [Queued (CLUTTER_MOTION motion)] /\
    motion_relative motion = Some (dx, dy, 200%Q, 0%Q) /\
    ~ (pointer_x seat' == 1100)%Q /\
    ~ (motion_x motion == 1100)%Q /\
    ~ (dx == 150)%Q.
Proof.
  do 4 eexists. split; [ vm_compute; reflexivity | ].
  split; [ reflexivity | ].
  repeat split; intros H; vm_compute in H; discriminate.
Qed.

(** ** Tablet tools, gestures and pads *)

Section TranslatorSteps.

Context {ext : External}.

Lemma bind_done_inv {A B : Type} (m : M A) (k : A -> M B)
    (seat seat' : MetaSeatImpl) (b : B) (trace : list Effect) :
  bind m k seat = Done b seat' trace ->
  exists a seat1 t1 t2,
    m seat = Done a seat1 t1 /\ k a seat1 = Done b seat' t2 /\ trace = t1 ++ t2.
Proof.
  unfold bind. destruct (m seat) as [a s1 t1 | |] eqn:Hm; try discriminate.
  destruct (k a s1) as [b' s2 t2 | |] eqn:Hk; try discriminate.
  intros H. inversion H; subst. exists a, s1, t1, t2.
  split; [ reflexivity | ]. split; [ exact Hk | reflexivity ].
Qed.

(** The notifications of gestures, proximity and pads queue one event
    and leave the seat as it is. *)
Lemma notify_pinch_gesture_event_run (seat : MetaSeatImpl)
    (device : ClutterInputDevice) (phase : ClutterTouchpadGesturePhase)
    (time_us : Z) (dx dy angle_delta scale : Q) (n_fingers : Z) :
  exists event,
    notify_pinch_gesture_event device phase time_us dx dy angle_delta scale
      n_fingers seat
    = Done tt seat [Queued (CLUTTER_TOUCHPAD_PINCH event)] /\
    pinch_phase event = phase /\ pinch_n_fingers event = n_fingers /\
    pinch_dx event = dx /\ pinch_dy event = dy /\
    pinch_angle_delta event = angle_delta /\ pinch_scale event = scale /\
    pinch_source_device event = device /\
    pinch_device event = core_pointer seat.
Proof.
  unfold notify_pinch_gesture_event. run_seat.
  destruct (clutter_input_device_get_coords seat (core_pointer seat)) as [px py].
  eexists. split; [ reflexivity | ]. repeat split.
Qed.

Lemma notify_swipe_gesture_event_run (seat : MetaSeatImpl)
    (device : ClutterInputDevice) (phase : ClutterTouchpadGesturePhase)
    (time_us n_fingers : Z) (dx dy : Q) :
  exists event,
    notify_swipe_gesture_event device phase time_us n_fingers dx dy seat
    = Done tt seat [Queued (CLUTTER_TOUCHPAD_SWIPE event)] /\
    swipe_phase event = phase /\ swipe_n_fingers event = n_fingers /\
    swipe_dx event = dx /\ swipe_dy event = dy /\
    swipe_source_device event = device /\
    swipe_device event = core_pointer seat.
Proof.
  unfold notify_swipe_gesture_event. run_seat.
  destruct (clutter_input_device_get_coords seat (core_pointer seat)) as [px py].
  eexists. split; [ reflexivity | ]. repeat split.
Qed.

Lemma notify_proximity_run (seat : MetaSeatImpl) (device : ClutterInputDevice)
    (time_us : Z) (is_in : bool) :
  notify_proximity device time_us is_in seat
  = Done tt seat
      [Queued (CLUTTER_PROXIMITY
         (mkProximityEvent
            (if is_in then CLUTTER_PROXIMITY_IN else CLUTTER_PROXIMITY_OUT)
            time_us (us2ms time_us) (last_tool seat device)
            (core_pointer seat) device))].
Proof. reflexivity. Qed.

(** [input_device_update_tool] changes the tools kept for the devices and
    nothing else of the seat. *)
Lemma input_device_update_tool_run (seat : MetaSeatImpl)
    (device : ClutterInputDevice) (libinput_tool : option libinput_tablet_tool) :
  exists tools last trace,
    input_device_update_tool device libinput_tool seat
    = Done tt (set_device_last_tool last (set_device_tools tools seat)) trace.
Proof.
  assert (Heta : forall s : MetaSeatImpl,
             s = set_device_last_tool (device_last_tool s)
                   (set_device_tools (device_tools s) s))
    by (intros s; destruct s; reflexivity).
  assert (Hlast : forall (s : MetaSeatImpl) last,
             set_device_last_tool last s
             = set_device_last_tool last (set_device_tools (device_tools s) s))
    by (intros s last; destruct s; reflexivity).
  unfold input_device_update_tool, clutter_input_device_add_tool. run_seat.
  destruct libinput_tool as [tool |]; run_seat.
  - destruct (clutter_input_device_lookup_tool _ _ _ _) as [found |]; run_seat.
    + destruct (negb (same_tool _ _)); run_seat.
      * do 3 eexists. rewrite Hlast at 1. reflexivity.
      * do 3 eexists. rewrite Heta at 1. reflexivity.
    + destruct (negb (same_tool _ _)); run_seat.
      * do 3 eexists. reflexivity.
      * do 3 eexists. rewrite (Heta (set_device_tools _ seat)) at 1. reflexivity.
  - destruct (negb (same_tool _ _)); run_seat.
    + do 3 eexists. rewrite Hlast at 1. reflexivity.
    + do 3 eexists. rewrite Heta at 1. reflexivity.
Qed.

(** A tablet-tool axis event changes the seat as the one motion event it
    makes does, and queues that event. *)
Lemma process_tablet_axis_run (fuel : nat) (device : ClutterInputDevice)
    (tablet_event : libinput_event_tablet_tool)
    (seat seat' : MetaSeatImpl) (trace : list Effect) :
  process_tablet_axis fuel device tablet_event seat = Done tt seat' trace ->
  exists x y axes event t queued,
    new_absolute_motion_event device (tablet_time_usec tablet_event) x y
      (Some axes) seat
    = Done event seat' t /\
    translate_tablet_axes tablet_event (last_tool seat device) = Some axes /\
    trace = t ++ [Queued (CLUTTER_MOTION queued)] /\
    motion_axes queued = motion_axes event /\
    motion_device queued = motion_device event /\
    motion_tool queued = motion_tool event.
Proof.
  unfold process_tablet_axis. run_seat.
  destruct (translate_tablet_axes tablet_event (last_tool seat device))
    as [axes |] eqn:Haxes.
  2:{ unfold translate_tablet_axes in Haxes. cbn [length app] in Haxes.
      destruct (Z.of_nat _ =? 0) eqn:Hlen in Haxes; [ | discriminate ].
      apply Z.eqb_eq in Hlen. lia. }
  destruct (meta_viewport_info_get_extents (viewports seat)) as [w h].
  match goal with
  | |- context [if ?c then _ else _] => destruct c
  end.
  - unfold notify_relative_tool_motion. run_seat.
    destruct (clutter_input_device_get_coords seat device) as [cx cy].
    destruct (meta_seat_impl_filter_relative_motion _ _ _ _ _ _) as [[rx ry] |];
      [ | discriminate ].
    run_seat.
    destruct (new_absolute_motion_event _ _ _ _ _ seat) as [ev s1 t1 | |] eqn:Hnew;
      try discriminate.
    intros H. inversion H; subst; clear H.
    do 6 eexists. split; [ exact Hnew | ]. split; [ reflexivity | ].
    split; [ reflexivity | ]. repeat split.
  - unfold notify_absolute_motion. run_seat.
    destruct (new_absolute_motion_event _ _ _ _ _ seat) as [ev s1 t1 | |] eqn:Hnew;
      try discriminate.
    intros H. inversion H; subst; clear H.
    do 6 eexists. split; [ exact Hnew | ]. split; [ reflexivity | ].
    split; [ reflexivity | ]. repeat split.
Qed.

End TranslatorSteps.

(** ** The pointer and the views *)

Lemma view_at_from_range (views : MetaViewportInfo) (i : Z) (x y : Q) :
  view_at_from i views x y = -1 \/
  i <= view_at_from i views x y < i + Z.of_nat (length views).
Proof.
  revert i. induction views as [| v rest IH]; intros i; cbn [view_at_from length].
  - now left.
  - destruct (point_in_rect x y (view_rect v)); [ right; lia | ].
    destruct (IH (i + 1)) as [H | H]; [ now left | right; lia ].
Qed.

Lemma view_at_from_hit (views : MetaViewportInfo) (i : Z) (x y : Q) :
  0 <= i -> 0 <= view_at_from i views x y ->
  exists v, views !! Z.to_nat (view_at_from i views x y - i) = Some v /\
            point_in_rect x y (view_rect v) = true.
Proof.
  revert i. induction views as [| v rest IH]; intros i Hi Hhit;
    cbn [view_at_from] in *.
  - lia.
  - destruct (point_in_rect x y (view_rect v)) eqn:Hin.
    + exists v. rewrite Z.sub_diag. split; [ reflexivity | exact Hin ].
    + destruct (IH (i + 1)) as (w & Hw & Hp); [ lia | exact Hhit | ].
      exists w. split; [ | exact Hp ].
      destruct (view_at_from_range rest (i + 1) x y) as [E | E]; [ lia | ].
      replace (Z.to_nat (view_at_from (i + 1) rest x y - i))
        with (S (Z.to_nat (view_at_from (i + 1) rest x y - (i + 1)))) by lia.
      exact Hw.
Qed.

Lemma view_at_from_miss (views : MetaViewportInfo) (i : Z) (x y : Q) :
  0 <= i -> view_at_from i views x y < 0 ->
  forall v, In v views -> point_in_rect x y (view_rect v) = false.
Proof.
  revert i. induction views as [| v rest IH]; intros i Hi Hmiss w Hw;
    cbn [view_at_from] in *.
  - destruct Hw.
  - destruct (point_in_rect x y (view_rect v)) eqn:Hin; [ lia | ].
    destruct Hw as [<- | Hw]; [ exact Hin | ].
    apply (IH (i + 1)); [ lia | exact Hmiss | exact Hw ].
Qed.

Lemma in_some_view_iff (vp : MetaViewportInfo) (x y : Q) :
  in_some_view vp x y <-> 0 <= meta_viewport_info_get_view_at vp x y.
Proof.
  unfold in_some_view, meta_viewport_info_get_view_at. split.
  - intros (v & Hv & Hp).
    destruct (Z.le_gt_cases 0 (view_at_from 0 vp x y)) as [H | H]; [ exact H | ].
    rewrite (view_at_from_miss vp 0 x y) in Hp by (try lia; assumption). discriminate.
  - intros H. destruct (view_at_from_hit vp 0 x y) as (v & Hv & Hp); [ lia | exact H | ].
    exists v. split; [ | exact Hp ].
    apply list_elem_of_In. eapply list_elem_of_lookup_2. exact Hv.
Qed.

Lemma point_in_rect_iff (x y : Q) (rect : cairo_rectangle_int_t) :
  point_in_rect x y rect = true <->
  (inject_Z (rect_x rect) <= x /\ x < inject_Z (rect_x rect + rect_width rect) /\
   inject_Z (rect_y rect) <= y /\ y < inject_Z (rect_y rect + rect_height rect))%Q.
Proof.
  unfold point_in_rect. cbv zeta.
  rewrite !andb_true_iff, !Qle_bool_iff, !Qlt_bool_iff. tauto.
Qed.

Lemma clamp_coordinate_bounds (low high : Z) (x : Q) :
  low < high ->
  (inject_Z low <= clamp_coordinate low high x /\
   clamp_coordinate low high x < inject_Z high)%Q.
Proof.
  intros Hlt. unfold clamp_coordinate. cbv zeta.
  assert (Hq : (inject_Z low < inject_Z high)%Q) by (rewrite <- Zlt_Qlt; exact Hlt).
  assert (Hm : (inject_Z low <= inject_Z (high - 1))%Q) by (rewrite <- Zle_Qle; lia).
  assert (Hn : (inject_Z (high - 1) < inject_Z high)%Q) by (rewrite <- Zlt_Qlt; lia).
  destruct (Qlt_bool x (inject_Z low)) eqn:H1.
  - destruct (Qle_bool (inject_Z high) (inject_Z low)) eqn:H2.
    + apply Qle_bool_iff in H2. exfalso. apply (Qlt_not_le _ _ Hq H2).
    + split; [ apply Qle_refl | exact Hq ].
  - apply Qlt_bool_false_iff in H1.
    destruct (Qle_bool (inject_Z high) x) eqn:H2.
    + split; assumption.
    + split; [ exact H1 | ]. apply Qlt_bool_iff. unfold Qlt_bool. now rewrite H2.
Qed.

Section PointerFacts.

Context {ext : External}.

(** The clamp of [constrain_all_screen_monitors]: the first view that
    holds the current position decides. *)
Lemma constrain_all_screen_monitors_first (views : MetaViewportInfo)
    (cx cy x y : Q) (i : Z) :
  0 <= i -> 0 <= view_at_from i views cx cy ->
  exists v,
    views !! Z.to_nat (view_at_from i views cx cy - i) = Some v /\
    point_in_rect cx cy (view_rect v) = true /\
    constrain_all_screen_monitors cx cy views x y
    = (clamp_coordinate (rect_x (view_rect v))
         (rect_x (view_rect v) + rect_width (view_rect v)) x,
       clamp_coordinate (rect_y (view_rect v))
         (rect_y (view_rect v) + rect_height (view_rect v)) y).
Proof.
  revert i. induction views as [| v rest IH]; intros i Hi Hhit;
    cbn [view_at_from constrain_all_screen_monitors] in *.
  - lia.
  - cbv zeta. fold (point_in_rect cx cy (view_rect v)).
    change (Qle_bool (inject_Z (rect_x (view_rect v))) cx &&
            Qlt_bool cx (inject_Z (rect_x (view_rect v) + rect_width (view_rect v))) &&
            Qle_bool (inject_Z (rect_y (view_rect v))) cy &&
            Qlt_bool cy (inject_Z (rect_y (view_rect v) + rect_height (view_rect v))))
      with (point_in_rect cx cy (view_rect v)).
    destruct (point_in_rect cx cy (view_rect v)) eqn:Hin.
    + exists v. rewrite Z.sub_diag.
      split; [ reflexivity | ]. split; [ exact Hin | reflexivity ].
    + destruct (IH (i + 1)) as (w & Hw & Hp & Hc); [ lia | exact Hhit | ].
      exists w. split; [ | split; assumption ].
      destruct (view_at_from_range rest (i + 1) cx cy) as [E | E]; [ lia | ].
      replace (Z.to_nat (view_at_from (i + 1) rest cx cy - i))
        with (S (Z.to_nat (view_at_from (i + 1) rest cx cy - (i + 1)))) by lia.
      exact Hw.
Qed.

Lemma clamped_point_in_rect (rect : cairo_rectangle_int_t) (cx cy x y : Q) :
  point_in_rect cx cy rect = true ->
  point_in_rect
    (clamp_coordinate (rect_x rect) (rect_x rect + rect_width rect) x)
    (clamp_coordinate (rect_y rect) (rect_y rect + rect_height rect) y)
    rect = true.
Proof.
  intros Hc. apply point_in_rect_iff in Hc as (Hx1 & Hx2 & Hy1 & Hy2).
  assert (Hw : rect_x rect < rect_x rect + rect_width rect).
  { rewrite Zlt_Qlt. eapply Qle_lt_trans; eassumption. }
  assert (Hh : rect_y rect < rect_y rect + rect_height rect).
  { rewrite Zlt_Qlt. eapply Qle_lt_trans; eassumption. }
  apply point_in_rect_iff.
  destruct (clamp_coordinate_bounds _ _ x Hw), (clamp_coordinate_bounds _ _ y Hh).
  tauto.
Qed.

Lemma constrain_all_screen_monitors_in_view (vp : MetaViewportInfo) (cx cy x y : Q) :
  in_some_view vp cx cy ->
  in_some_view vp (fst (constrain_all_screen_monitors cx cy vp x y))
                  (snd (constrain_all_screen_monitors cx cy vp x y)).
Proof.
  intros Hin. apply in_some_view_iff in Hin.
  destruct (constrain_all_screen_monitors_first vp cx cy x y 0)
    as (v & Hv & Hp & ->); [ lia | exact Hin | ].
  exists v. split.
  - apply list_elem_of_In. eapply list_elem_of_lookup_2. exact Hv.
  - cbn [fst snd]. eapply clamped_point_in_rect. exact Hp.
Qed.

Lemma new_absolute_motion_event_within (seat seat' : MetaSeatImpl)
    (device : ClutterInputDevice) (time_us : Z) (x y : Q) (axes : option (list Q))
    (event : MotionEvent) (trace : list Effect) :
  pointer_within_views seat ->
  (is_tablet (device_type device) = true ->
   device_id device <> device_id (core_pointer seat)) ->
  new_absolute_motion_event device time_us x y axes seat = Done event seat' trace ->
  pointer_within_views seat' /\ core_pointer seat' = core_pointer seat /\ trace = [].
Proof.
  intros (vp & Hvp & Hin & Hcoords) Hdev.
  unfold new_absolute_motion_event, meta_seat_impl_constrain_pointer,
    meta_input_device_native_update_coords.
  run_seat.
  destruct (is_tablet (device_type device)) eqn:Htab; cbn [negb]; run_seat.
  - rewrite Hvp.
    destruct (meta_input_device_native_translate_coordinates device vp x y)
      as [event_x event_y].
    intros H. inversion H; subst; clear H.
    split; [ | split; reflexivity ].
    exists vp. split; [ exact Hvp | ]. split; [ exact Hin | ].
    unfold clutter_input_device_get_coords in *. cbn.
    rewrite lookup_insert_ne by (apply Hdev; reflexivity). exact Hcoords.
  - destruct (meta_barrier_manager_native_process _ _ _ _ _) as [manager [bx by_]].
    run_seat. cbn [pointer_constraint set_barrier_manager viewports].
    set (constrained :=
           match pointer_constraint seat with
           | Some constraint =>
               meta_pointer_constraint_impl_constrain constraint (core_pointer seat)
                 (us2ms time_us) (pointer_x seat) (pointer_y seat) bx by_
           | None => (bx, by_)
           end).
    destruct constrained as [new_x new_y].
    rewrite Hvp.
    rewrite Hcoords.
    destruct (0 <=? meta_viewport_info_get_view_at vp new_x new_y) eqn:Hhit;
      run_seat; cbn [viewports set_barrier_manager].
    + rewrite Hvp.
      destruct (meta_input_device_native_translate_coordinates device vp new_x new_y)
        as [event_x event_y].
      intros H. inversion H; subst; clear H.
      split; [ | split; reflexivity ].
      exists vp. split; [ exact Hvp | ]. cbn. split.
      * apply in_some_view_iff. apply Z.leb_le. exact Hhit.
      * unfold clutter_input_device_get_coords. cbn.
        rewrite lookup_insert_eq. reflexivity.
    + pose proof (constrain_all_screen_monitors_in_view vp
                    (pointer_x seat) (pointer_y seat) new_x new_y Hin) as Hclamp.
      destruct (constrain_all_screen_monitors (pointer_x seat) (pointer_y seat)
                  vp new_x new_y) as [cx cy].
      run_seat. cbn [viewports set_barrier_manager]. rewrite Hvp.
      destruct (meta_input_device_native_translate_coordinates device vp cx cy)
        as [event_x event_y].
      intros H. inversion H; subst; clear H.
      split; [ | split; reflexivity ].
      exists vp. split; [ exact Hvp | ]. cbn. split.
      * exact Hclamp.
      * unfold clutter_input_device_get_coords. cbn.
        rewrite lookup_insert_eq. reflexivity.
Qed.
Lemma same_pointer_refl (seat : MetaSeatImpl) : same_pointer seat seat.
Proof. repeat split. Qed.

Lemma same_pointer_after_count (seat : MetaSeatImpl) (code state : Z) :
  same_pointer seat (seat_after_count code state seat).
Proof.
  unfold seat_after_count.
  destruct ((state =? 0) && (button_count_of seat code =? 0)); repeat split.
Qed.

Ltac frame_leaf :=
  let H := fresh "H" in
  intros H; inversion H; subst; clear H;
  unfold same_pointer, seat_after_count;
  repeat match goal with
         | |- context [if ?c then _ else _] => destruct c
         end;
  repeat split; reflexivity.

Lemma notify_key_frame (seat seat' : MetaSeatImpl) (device : ClutterInputDevice)
    (time_us key state : Z) (update_keys : bool) (trace : list Effect) :
  state <> AUTOREPEAT_VALUE ->
  meta_seat_impl_notify_key device time_us key state update_keys seat
  = Done tt seat' trace ->
  same_pointer seat seat'.
Proof.
  intros Hstate.
  destruct (drop_repeated state (count_after state (button_count_of seat key)))
    eqn:Hdrop.
  - rewrite notify_key_dropped by assumption.
    intros H. inversion H; subst. apply same_pointer_after_count.
  - unfold meta_seat_impl_notify_key.
    apply Z.eqb_neq in Hstate. rewrite Hstate. cbn [negb].
    run_seat. rewrite update_button_count_run. rewrite Hdrop.
    unfold meta_key_event_new_from_evdev, meta_seat_impl_sync_leds,
      meta_seat_impl_clear_repeat_timer.
    cbn [key_hardware_keycode key_time key_state key_modifier_state key_repeated
         key_device key_source_device key_event_code].
    destruct (xkb_state_update_key _ _ _ _) as [xkb' changed].
    run_seat.
    repeat match goal with
           | |- context [if ?c then _ else _] => destruct c; run_seat
           end.
    all: frame_leaf.
Qed.

Lemma notify_button_frame (seat seat' : MetaSeatImpl) (device : ClutterInputDevice)
    (time_us button state : Z) (trace : list Effect) :
  meta_seat_impl_notify_button device time_us button state seat
  = Done tt seat' trace ->
  same_pointer seat seat'.
Proof.
  rewrite notify_button_run. cbv zeta.
  repeat match goal with
         | |- context [if ?c then _ else _] => destruct c
         end.
  all: frame_leaf.
Qed.

Lemma notify_discrete_axis_frame (seat seat' : MetaSeatImpl)
    (device : ClutterInputDevice) (time_us : Z)
    (scroll_source : ClutterScrollSource) (axis_event : libinput_event_pointer_axis)
    (trace : list Effect) :
  notify_discrete_axis device time_us scroll_source axis_event seat
  = Done tt seat' trace ->
  same_pointer seat seat'.
Proof.
  unfold notify_discrete_axis, meta_seat_impl_notify_discrete_scroll, notify_scroll.
  run_seat.
  destruct (discrete_to_direction _ _) as [direction |]; [ | discriminate ].
  destruct direction; run_seat; frame_leaf.
Qed.

Lemma notify_continuous_axis_frame (seat seat' : MetaSeatImpl)
    (device : ClutterInputDevice) (time_us : Z)
    (scroll_source : ClutterScrollSource) (axis_event : libinput_event_pointer_axis)
    (trace : list Effect) :
  notify_continuous_axis device time_us scroll_source axis_event seat
  = Done tt seat' trace ->
  same_pointer seat seat'.
Proof.
  unfold notify_continuous_axis.
  destruct (axis_horizontal axis_event), (axis_vertical axis_event);
    rewrite notify_scroll_continuous_run; cbv zeta;
    intros H; inversion H; subst; clear H; repeat split.
Qed.

Lemma touch_event_frame (fuel : nat) (seat seat' : MetaSeatImpl)
    (event : libinput_event) (trace : list Effect) :
  match event with
  | LIBINPUT_EVENT_TOUCH_DOWN _ _ _ _ _ | LIBINPUT_EVENT_TOUCH_UP _ _ _
  | LIBINPUT_EVENT_TOUCH_MOTION _ _ _ _ _ | LIBINPUT_EVENT_TOUCH_CANCEL _ _ _ => True
  | _ => False
  end ->
  process_device_event fuel event seat = Done tt seat' trace ->
  same_pointer seat seat'.
Proof.
  destruct event as [d t k p c | d t dx dy ux uy | d t ax ay | d t b p c
                    | d t src ev | d t slot ax ay | d t slot | d t slot ax ay
                    | d t slot | | | | | | | | | | | | | | ];
    try contradiction; intros _;
    cbn [process_device_event];
    unfold meta_seat_impl_acquire_touch_state, meta_seat_impl_notify_touch_event,
      meta_seat_impl_release_touch_state, touch_state_set_coords,
      meta_seat_impl_lookup_touch_state;
    run_seat.
  - destruct (meta_viewport_info_get_extents (viewports seat)) as [w h]. run_seat.
    destruct (touch_states seat) as [table |] eqn:Htable.
    + destruct (table !! slot); [ discriminate | ]. run_seat.
      cbn [touch_states set_touch_states viewports].
      destruct (viewports seat);
        [ destruct (meta_input_device_native_translate_coordinates _ _ _ _) | ];
        run_seat; frame_leaf.
    + rewrite lookup_empty. run_seat.
      cbn [touch_states set_touch_states viewports].
      destruct (viewports seat);
        [ destruct (meta_input_device_native_translate_coordinates _ _ _ _) | ];
        run_seat; frame_leaf.
  - destruct (touch_states seat) as [table |] eqn:Htable; [ | frame_leaf ].
    destruct (table !! slot); [ | frame_leaf ]. run_seat.
    destruct (viewports seat);
      [ destruct (meta_input_device_native_translate_coordinates _ _ _ _) | ];
      run_seat; rewrite ?Htable; frame_leaf.
  - destruct (meta_viewport_info_get_extents (viewports seat)) as [w h]. run_seat.
    destruct (touch_states seat) as [table |] eqn:Htable; [ | frame_leaf ].
    destruct (table !! slot); [ | frame_leaf ]. run_seat.
    rewrite ?Htable. cbn [viewports set_touch_states].
    destruct (viewports seat);
      [ destruct (meta_input_device_native_translate_coordinates _ _ _ _) | ];
      run_seat; frame_leaf.
  - destruct (touch_states seat) as [table |] eqn:Htable; [ | frame_leaf ].
    destruct (table !! slot); [ | frame_leaf ]. run_seat.
    destruct (viewports seat);
      [ destruct (meta_input_device_native_translate_coordinates _ _ _ _) | ];
      run_seat; rewrite ?Htable; frame_leaf.
Qed.

Lemma same_pointer_within (seat seat' : MetaSeatImpl) :
  same_pointer seat seat' ->
  pointer_within_views seat ->
  pointer_within_views seat' /\ core_pointer seat' = core_pointer seat.
Proof.
  intros (Hx & Hy & Hc & Hv & Hp) (vp & Hvp & Hin & Hcoords).
  split; [ | exact Hp ].
  exists vp. unfold clutter_input_device_get_coords in *.
  rewrite Hx, Hy, Hc, Hv, Hp. repeat split; assumption.
Qed.

(** A tablet-tool axis event keeps the pointer within the views. *)
Lemma process_tablet_axis_within (fuel : nat) (device : ClutterInputDevice)
    (tablet_event : libinput_event_tablet_tool)
    (seat seat' : MetaSeatImpl) (trace : list Effect) :
  pointer_within_views seat ->
  (is_tablet (device_type device) = true ->
   device_id device <> device_id (core_pointer seat)) ->
  process_tablet_axis fuel device tablet_event seat = Done tt seat' trace ->
  pointer_within_views seat' /\ core_pointer seat' = core_pointer seat.
Proof.
  intros Hinv Hdev Hrun.
  apply process_tablet_axis_run in Hrun
    as (x & y & axes & event & t & queued & Hnew & _).
  apply new_absolute_motion_event_within in Hnew as (Hw & Hc & _);
    [ split; assumption | exact Hinv | exact Hdev ].
Qed.

(** A proximity event of a tablet tool leaves the pointer alone. *)
Lemma tool_proximity_frame (device : ClutterInputDevice)
    (tablet_event : libinput_event_tablet_tool) (is_in : bool)
    (seat seat' : MetaSeatImpl) (trace : list Effect) :
  bind (if is_in
        then input_device_update_tool device (Some (tablet_tool tablet_event))
        else ret tt)
    (fun _ =>
       bind (notify_proximity device (tablet_time_usec tablet_event) is_in)
         (fun _ =>
            if negb is_in then input_device_update_tool device None else ret tt))
    seat
  = Done tt seat' trace ->
  same_pointer seat seat'.
Proof.
  intros H.
  apply bind_done_inv in H as ([] & s1 & t1 & t2 & Hbefore & H & _).
  apply bind_done_inv in H as ([] & s2 & t3 & t4 & Hprox & Hafter & _).
  rewrite notify_proximity_run in Hprox. inversion Hprox; subst s2; clear Hprox.
  destruct is_in; cbn [negb] in Hafter.
  - destruct (input_device_update_tool_run seat device
                (Some (tablet_tool tablet_event))) as (tools & last & t & Hrun).
    rewrite Hrun in Hbefore. inversion Hbefore; subst s1.
    inversion Hafter; subst seat'. repeat split.
  - inversion Hbefore; subst s1.
    destruct (input_device_update_tool_run seat device None)
      as (tools & last & t & Hrun).
    rewrite Hrun in Hafter. inversion Hafter; subst seat'. repeat split.
Qed.

Ltac unchanged_seat :=
  let H := fresh "H" in
  intros H; inversion H; subst;
  split; [ assumption | reflexivity ].

(** One translated event keeps the pointer within the views. *)
Lemma process_device_event_within (fuel : nat) (event : libinput_event)
    (seat seat' : MetaSeatImpl) (trace : list Effect) :
  pointer_within_views seat ->
  tablet_is_not_core_pointer seat event ->
  process_device_event fuel event seat = Done tt seat' trace ->
  pointer_within_views seat' /\ core_pointer seat' = core_pointer seat.
Proof.
  intros Hinv Hdev.
  destruct event as [d t key pressed seat_key_count | d t dx dy ux uy | d t ax ay
                    | d t button pressed seat_button_count | d t source ev
                    | d t slot ax ay | d t slot | d t slot ax ay | d t slot
                    | d t n | d t n dx dy da sc | d t n cancelled
                    | d t n | d t n dx dy | d t n cancelled
                    | d tev | d tev is_in | d tev button pressed | d tev tip_down
                    | d t button group mode pressed
                    | d t number source group mode value
                    | d t number source group mode angle | d t];
    unfold tablet_is_not_core_pointer in Hdev; cbn [event_device] in Hdev.
  - cbn [process_device_event].
    destruct ((pressed && negb (seat_key_count =? 1))
              || (negb pressed && negb (seat_key_count =? 0))).
    + intros H. inversion H; subst. split; [ exact Hinv | reflexivity ].
    + intros H. apply notify_key_frame in H.
      * apply same_pointer_within; assumption.
      * destruct pressed; discriminate.
  - cbn [process_device_event]. unfold meta_seat_impl_notify_relative_motion.
    run_seat.
    destruct (meta_seat_impl_filter_relative_motion _ _ _ _ _ _) as [[rx ry] |];
      [ | discriminate ].
    run_seat.
    destruct (new_absolute_motion_event _ _ _ _ _ seat) as [ev s1 t1 | |] eqn:Hnew;
      try discriminate.
    apply new_absolute_motion_event_within in Hnew as (Hw & Hc & ->);
      [ | exact Hinv | exact Hdev ].
    intros H. inversion H; subst. split; assumption.
  - cbn [process_device_event]. unfold meta_seat_impl_notify_absolute_motion.
    run_seat.
    destruct (meta_viewport_info_get_extents (viewports seat)) as [w h].
    run_seat.
    destruct (new_absolute_motion_event _ _ _ _ _ seat) as [ev s1 t1 | |] eqn:Hnew;
      try discriminate.
    apply new_absolute_motion_event_within in Hnew as (Hw & Hc & ->);
      [ | exact Hinv | exact Hdev ].
    intros H. inversion H; subst. split; assumption.
  - cbn [process_device_event].
    destruct ((pressed && negb (seat_button_count =? 1))
              || (negb pressed && negb (seat_button_count =? 0))).
    + intros H. inversion H; subst. split; [ exact Hinv | reflexivity ].
    + intros H. apply notify_button_frame in H.
      apply same_pointer_within; assumption.
  - cbn [process_device_event].
    destruct (translate_scroll_source source); intros H;
      [ apply notify_continuous_axis_frame in H
      | apply notify_discrete_axis_frame in H
      | apply notify_continuous_axis_frame in H
      | apply notify_continuous_axis_frame in H ];
      apply same_pointer_within; assumption.
  - intros H. apply touch_event_frame in H; [ | exact I ].
    apply same_pointer_within; assumption.
  - intros H. apply touch_event_frame in H; [ | exact I ].
    apply same_pointer_within; assumption.
  - intros H. apply touch_event_frame in H; [ | exact I ].
    apply same_pointer_within; assumption.
  - intros H. apply touch_event_frame in H; [ | exact I ].
    apply same_pointer_within; assumption.
  - cbn [process_device_event].
    destruct (notify_pinch_gesture_event_run seat d
                CLUTTER_TOUCHPAD_GESTURE_PHASE_BEGIN t 0 0 0 0 n) as (ev & -> & _).
    unchanged_seat.
  - cbn [process_device_event].
    destruct (notify_pinch_gesture_event_run seat d
                CLUTTER_TOUCHPAD_GESTURE_PHASE_UPDATE t dx dy da sc n) as (ev & -> & _).
    unchanged_seat.
  - cbn [process_device_event]. cbv zeta.
    destruct (notify_pinch_gesture_event_run seat d
                (if cancelled then CLUTTER_TOUCHPAD_GESTURE_PHASE_CANCEL
                 else CLUTTER_TOUCHPAD_GESTURE_PHASE_END) t 0 0 0 0 n) as (ev & -> & _).
    unchanged_seat.
  - cbn [process_device_event].
    destruct (notify_swipe_gesture_event_run seat d
                CLUTTER_TOUCHPAD_GESTURE_PHASE_BEGIN t n 0 0) as (ev & -> & _).
    unchanged_seat.
  - cbn [process_device_event].
    destruct (notify_swipe_gesture_event_run seat d
                CLUTTER_TOUCHPAD_GESTURE_PHASE_UPDATE t n dx dy) as (ev & -> & _).
    unchanged_seat.
  - cbn [process_device_event]. cbv zeta.
    destruct (notify_swipe_gesture_event_run seat d
                (if cancelled then CLUTTER_TOUCHPAD_GESTURE_PHASE_CANCEL
                 else CLUTTER_TOUCHPAD_GESTURE_PHASE_END) t n 0 0) as (ev & -> & _).
    unchanged_seat.
  - cbn [process_device_event]. intros H.
    eapply process_tablet_axis_within; eassumption.
  - cbn [process_device_event]. cbv zeta. intros H.
    apply tool_proximity_frame in H. apply same_pointer_within; assumption.
  - cbn [process_device_event]. intros H.
    apply bind_done_inv in H as ([] & s1 & t1 & t2 & Haxis & Hbutton & _).
    destruct (process_tablet_axis_within _ _ _ _ _ _ Hinv Hdev Haxis) as [Hinv1 Hc1].
    apply notify_button_frame in Hbutton.
    destruct (same_pointer_within _ _ Hbutton Hinv1) as [Hinv2 Hc2].
    split; [ exact Hinv2 | congruence ].
  - cbn [process_device_event]. intros H.
    apply bind_done_inv in H as ([] & s1 & t1 & t2 & Hbefore & H & _).
    apply bind_done_inv in H as ([] & s2 & t3 & t4 & Hbutton & Hafter & _).
    assert (Hstep1 : pointer_within_views s1 /\ core_pointer s1 = core_pointer seat).
    { destruct tip_down.
      - eapply process_tablet_axis_within; eassumption.
      - inversion Hbefore; subst. split; [ exact Hinv | reflexivity ]. }
    destruct Hstep1 as [Hinv1 Hc1].
    apply notify_button_frame in Hbutton.
    destruct (same_pointer_within _ _ Hbutton Hinv1) as [Hinv2 Hc2].
    assert (Hstep3 : pointer_within_views seat' /\ core_pointer seat' = core_pointer s2).
    { destruct tip_down; cbn [negb] in Hafter.
      - inversion Hafter; subst. split; [ exact Hinv2 | reflexivity ].
      - eapply process_tablet_axis_within; [ exact Hinv2 | | exact Hafter ].
        rewrite Hc2, Hc1. exact Hdev. }
    destruct Hstep3 as [Hinv3 Hc3].
    split; [ exact Hinv3 | congruence ].
  - cbn [process_device_event]. unfold notify_pad_button, queue_event, emit.
    unchanged_seat.
  - cbn [process_device_event]. unfold notify_pad_strip, queue_event, emit.
    unchanged_seat.
  - cbn [process_device_event]. unfold notify_pad_ring, queue_event, emit.
    unchanged_seat.
  - cbn [process_device_event]. unfold ret. unchanged_seat.
Qed.

Lemma process_events_within (fuel : nat) (events : list libinput_event) :
  forall (seat seat' : MetaSeatImpl) (trace : list Effect),
    pointer_within_views seat ->
    Forall (tablet_is_not_core_pointer seat) events ->
    process_events fuel events seat = Done tt seat' trace ->
    pointer_within_views seat'.
Proof.
  induction events as [| event rest IH]; intros seat seat' trace Hinv Hdev Hrun.
  - cbn in Hrun. inversion Hrun; subst. exact Hinv.
  - cbn [process_events] in Hrun. unfold bind in Hrun.
    destruct (process_device_event fuel event seat) as [[] s1 t1 | |] eqn:Hstep;
      try discriminate.
    destruct (process_events fuel rest s1) as [[] s2 t2 | |] eqn:Hrest;
      try discriminate.
    inversion Hrun; subst.
    apply Forall_cons_1 in Hdev as [Hev Hdev].
    destruct (process_device_event_within _ _ _ _ _ Hinv Hev Hstep) as [Hw Hc].
    apply (IH s1 seat' t2 Hw); [ | exact Hrest ].
    unfold tablet_is_not_core_pointer in *. rewrite Hc. exact Hdev.
Qed.




End PointerFacts.


(** *** A crossing that never ends

    Where four outputs share a corner, a relative motion through that
    corner is handed from output to output for ever: the motion starts on
    the edge of each one, so nothing of it is used up. *)









(** ** Runs of the scenarios of the specification *)

(** S2: three finger scrolls of 4 and a finished one.  The accumulator
    crosses 10 at the third, which is followed by one emulated scroll down;
    the finished event resets the accumulator. *)
Example continuous_scroll_flushing :
  exists seat' trace,
    process_events 0
      [finger_scroll 4; finger_scroll 4; finger_scroll 4; finger_scroll 0]
      (initial_seat None)
    = Done tt seat' trace /\
    scroll_summary trace
    = [ (CLUTTER_SCROLL_SMOOTH, false, 0);
        (CLUTTER_SCROLL_SMOOTH, false, 0);
        (CLUTTER_SCROLL_SMOOTH, false, 0);
        (CLUTTER_SCROLL_DOWN, true, 0);
        (CLUTTER_SCROLL_SMOOTH, false, CLUTTER_SCROLL_FINISHED_VERTICAL) ] /\
    accum_scroll_dy seat' = F_finite 0.
Proof.
  do 2 eexists. split; [ vm_compute; reflexivity | ].
  split; reflexivity.
Qed.

(** The accumulator is a [float]: a finger scroll of 9.75 followed by one
    of 0.25 - 2^-22 adds up to 10 - 2^-22, which is stored as 10; one
    emulated scroll down follows and nothing is left in the accumulator. *)
Example continuous_scroll_rounds_to_float :
  exists seat' trace,
    process_events 0
      [finger_scroll (39 # 4); finger_scroll ((1 # 4) - (1 # 2 ^ 22))]
      (initial_seat None)
    = Done tt seat' trace /\
    scroll_summary trace
    = [ (CLUTTER_SCROLL_SMOOTH, false, 0);
        (CLUTTER_SCROLL_SMOOTH, false, 0);
        (CLUTTER_SCROLL_DOWN, true, 0) ] /\
    accum_scroll_dy seat' = F_finite 0.
Proof.
  do 2 eexists. split; [ vm_compute; reflexivity | ].
  split; reflexivity.
Qed.

(** Twenty-five finger scrolls of 0.4 do not reach 10 in [float]
    arithmetic: no discrete event is queued. *)
Example continuous_scroll_small_steps :
  exists seat' trace,
    process_events 0 (replicate 25 (finger_scroll (4 # 10))) (initial_seat None)
    = Done tt seat' trace /\
    scroll_summary trace = replicate 25 (CLUTTER_SCROLL_SMOOTH, false, 0) /\
    accum_scroll_dy seat' = F_finite (10485759 # 1048576).
Proof.
  do 2 eexists. split; [ vm_compute; reflexivity | ].
  split; reflexivity.
Qed.

(** The boundary case of the specification: a raw (100,0) that starts 50
    units left of the boundary between an output of scale 1 and one of
    scale 2 ends 50 * 2 units right of it. *)
Example relative_motion_across_boundary :
  exists seat' trace,
    process_device_event 2
      (LIBINPUT_EVENT_POINTER_MOTION a_mouse 1000 100 0 100 0)
      (seat_at two_outputs 950 500)
    = Done tt seat' trace /\
    (pointer_x seat' == 1000 + 50 * 2 /\ pointer_y seat' == 500)%Q.
Proof.
  do 2 eexists. split; [ vm_compute; reflexivity | ].
  split; reflexivity.
Qed.

(** A touch that goes down and up, and a second TOUCH_UP for the slot that
    is no longer there: one TOUCH_BEGIN, one TOUCH_END, nothing for the
    stale slot. *)
Example touch_down_up_up :
  exists seat' down up,
    process_events 0
      [ LIBINPUT_EVENT_TOUCH_DOWN a_touchscreen 1000 7 (1 # 2) (1 # 2);
        LIBINPUT_EVENT_TOUCH_UP a_touchscreen 2000 7;
        LIBINPUT_EVENT_TOUCH_UP a_touchscreen 3000 7 ]
      (initial_seat (Some two_outputs))
    = Done tt seat' [Queued (CLUTTER_TOUCH down); Queued (CLUTTER_TOUCH up)] /\
    touch_type down = CLUTTER_TOUCH_BEGIN /\
    touch_type up = CLUTTER_TOUCH_END /\
    touch_sequence down = 8 /\
    meta_seat_impl_lookup_touch_state seat' 7 = None.
Proof.
  do 3 eexists. split; [ vm_compute; reflexivity | ].
  repeat split.
Qed.

(** * Further properties of the embedded code *)

(** ** Touch sequences *)

Section TouchSequenceFacts.

Context {ext : External}.

(** X1.  A TOUCH_DOWN on a seat slot with no live touch state queues one
    TOUCH_BEGIN event, with sequence max (1, slot + 1) and the Button1 bit
    added to the modifier state; afterwards the slot is live with the stage
    coordinates of the event, and every other slot is as before. *)
Theorem touch_down_begins_sequence
    (fuel : nat) (seat : MetaSeatImpl) (device : ClutterInputDevice)
    (time_us slot : Z) (x y : Q) :
  meta_seat_impl_lookup_touch_state seat slot = None ->
  exists seat' ev,
    process_device_event fuel (LIBINPUT_EVENT_TOUCH_DOWN device time_us slot x y) seat
    = Done tt seat' [Queued (CLUTTER_TOUCH ev)] /\
    touch_type ev = CLUTTER_TOUCH_BEGIN /\
    touch_sequence ev = Z.max 1 (slot + 1) /\
    1 <= touch_sequence ev /\
    touch_modifier_state ev
    = Z.lor (meta_xkb_translate_state (xkb seat) (button_state seat))
            CLUTTER_BUTTON1_MASK /\
    meta_seat_impl_lookup_touch_state seat' slot
    = Some (mkTouchState slot
              (transformed x (fst (meta_viewport_info_get_extents (viewports seat))))
              (transformed y (snd (meta_viewport_info_get_extents (viewports seat))))) /\
    forall other, other <> slot ->
      meta_seat_impl_lookup_touch_state seat' other
      = meta_seat_impl_lookup_touch_state seat other.
Proof.
  unfold meta_seat_impl_lookup_touch_state. intros Hfree.
  cbn [process_device_event].
  unfold meta_seat_impl_acquire_touch_state, meta_seat_impl_notify_touch_event,
    touch_state_set_coords.
  run_seat.
  destruct (meta_viewport_info_get_extents (viewports seat)) as [w h]. run_seat.
  cbn [fst snd].
  assert (Hnone : match touch_states seat with
                  | Some table => table
                  | None => ∅
                  end !! slot = None).
  { destruct (touch_states seat); [ exact Hfree | apply lookup_empty ]. }
  rewrite Hnone. run_seat.
  cbn [touch_states set_touch_states viewports seat_slot xkb button_state
       core_pointer].
  destruct (viewports seat) as [vp |];
    [ destruct (meta_input_device_native_translate_coordinates device vp _ _)
        as [event_x event_y] | ];
    run_seat; do 2 eexists; (split; [ reflexivity | ]);
    cbn [touch_type touch_sequence touch_modifier_state touch_states
         set_touch_states];
    (split; [ reflexivity | ]); (split; [ reflexivity | ]);
    (split; [ lia | ]); (split; [ reflexivity | ]).
  all: split;
    [ rewrite lookup_alter_eq, lookup_insert_eq; reflexivity
    | intros other Hother;
      rewrite lookup_alter_ne, lookup_insert_ne by congruence;
      destruct (touch_states seat); [ reflexivity | apply lookup_empty ] ].
Qed.

(** X2.  TOUCH_UP, TOUCH_MOTION and TOUCH_CANCEL on a seat slot with no
    live touch state do nothing at all: no event, no warning, the seat as it
    was. *)
Theorem touch_event_on_unknown_slot_ignored
    (fuel : nat) (seat : MetaSeatImpl) (device : ClutterInputDevice)
    (time_us slot : Z) (x y : Q) :
  meta_seat_impl_lookup_touch_state seat slot = None ->
  process_device_event fuel (LIBINPUT_EVENT_TOUCH_UP device time_us slot) seat
  = Done tt seat [] /\
  process_device_event fuel (LIBINPUT_EVENT_TOUCH_MOTION device time_us slot x y) seat
  = Done tt seat [] /\
  process_device_event fuel (LIBINPUT_EVENT_TOUCH_CANCEL device time_us slot) seat
  = Done tt seat [].
Proof.
  intros Hfree. cbn [process_device_event]. run_seat.
  destruct (meta_viewport_info_get_extents (viewports seat)) as [w h].
  rewrite Hfree. repeat split.
Qed.

(** X3.  TOUCH_UP (TOUCH_CANCEL) on a live seat slot queues one TOUCH_END
    (TOUCH_CANCEL) event at the coordinates stored for the slot, with the
    sequence of the stored state and without the Button1 bit added, and
    removes the slot; every other slot is as before. *)
Theorem touch_end_releases_slot
    (fuel : nat) (seat : MetaSeatImpl) (device : ClutterInputDevice)
    (time_us slot : Z) (cancel : bool) (touch_state : MetaTouchState) :
  meta_seat_impl_lookup_touch_state seat slot = Some touch_state ->
  exists seat' ev,
    process_device_event fuel (touch_end_event cancel device time_us slot) seat
    = Done tt seat' [Queued (CLUTTER_TOUCH ev)] /\
    touch_type ev = (if cancel then CLUTTER_TOUCH_CANCEL else CLUTTER_TOUCH_END) /\
    touch_sequence ev = Z.max 1 (seat_slot touch_state + 1) /\
    (touch_x ev, touch_y ev)
    = match viewports seat with
      | Some vp =>
          meta_input_device_native_translate_coordinates device vp
            (coords_x touch_state) (coords_y touch_state)
      | None => (coords_x touch_state, coords_y touch_state)
      end /\
    touch_modifier_state ev
    = meta_xkb_translate_state (xkb seat) (button_state seat) /\
    meta_seat_impl_lookup_touch_state seat' slot = None /\
    forall other, other <> slot ->
      meta_seat_impl_lookup_touch_state seat' other
      = meta_seat_impl_lookup_touch_state seat other.
Proof.
  intros Hlive.
  destruct cancel; cbn [touch_end_event process_device_event]; run_seat;
    rewrite Hlive;
    unfold meta_seat_impl_notify_touch_event, meta_seat_impl_release_touch_state;
    run_seat;
    unfold meta_seat_impl_lookup_touch_state in *;
    destruct (touch_states seat) as [table |] eqn:Htable; try discriminate;
    (destruct (viewports seat) as [vp |];
     [ destruct (meta_input_device_native_translate_coordinates device vp _ _)
         as [event_x event_y] | ]);
    run_seat; rewrite ?Htable; do 2 eexists; (split; [ reflexivity | ]);
    cbn [touch_type touch_sequence touch_modifier_state touch_x touch_y
         touch_states set_touch_states];
    repeat (split; [ reflexivity | ]);
    (split; [ apply lookup_delete_eq
            | intros other Hother; apply lookup_delete_ne; congruence ]).
Qed.

(** X4.  A TOUCH_MOTION on a live seat slot queues one TOUCH_UPDATE and
    stores its stage coordinates in the slot, so that the TOUCH_UP or
    TOUCH_CANCEL that follows reports the position and the sequence of that
    last motion; the slot is free afterwards. *)
Theorem touch_end_reports_last_motion
    (fuel : nat) (seat : MetaSeatImpl) (device : ClutterInputDevice)
    (time_us time_us' slot : Z) (x y : Q) (cancel : bool)
    (touch_state : MetaTouchState) :
  meta_seat_impl_lookup_touch_state seat slot = Some touch_state ->
  exists seat' update final,
    process_events fuel
      [ LIBINPUT_EVENT_TOUCH_MOTION device time_us slot x y;
        touch_end_event cancel device time_us' slot ] seat
    = Done tt seat' [Queued (CLUTTER_TOUCH update); Queued (CLUTTER_TOUCH final)] /\
    touch_type update = CLUTTER_TOUCH_UPDATE /\
    touch_type final = (if cancel then CLUTTER_TOUCH_CANCEL else CLUTTER_TOUCH_END) /\
    (touch_x update, touch_y update)
    = match viewports seat with
      | Some vp =>
          meta_input_device_native_translate_coordinates device vp
            (transformed x (fst (meta_viewport_info_get_extents (viewports seat))))
            (transformed y (snd (meta_viewport_info_get_extents (viewports seat))))
      | None =>
          (transformed x (fst (meta_viewport_info_get_extents (viewports seat))),
           transformed y (snd (meta_viewport_info_get_extents (viewports seat))))
      end /\
    touch_x final = touch_x update /\
    touch_y final = touch_y update /\
    touch_sequence final = touch_sequence update /\
    meta_seat_impl_lookup_touch_state seat' slot = None.
Proof.
  intros Hlive.
  cbn [process_events]. unfold bind at 1.
  cbn [process_device_event]. run_seat.
  destruct (meta_viewport_info_get_extents (viewports seat)) as [w h].
  cbn [fst snd]. rewrite Hlive.
  unfold touch_state_set_coords, meta_seat_impl_notify_touch_event. run_seat.
  unfold meta_seat_impl_lookup_touch_state in Hlive.
  destruct (touch_states seat) as [table |] eqn:Htable; [ | discriminate ].
  cbn [viewports set_touch_states xkb button_state core_pointer].
  destruct cancel; cbn [touch_end_event process_device_event];
    (destruct (viewports seat) as [vp |] eqn:Hvp;
     [ destruct (meta_input_device_native_translate_coordinates device vp
                   (transformed x w) (transformed y h))
         as [event_x event_y] eqn:Htr | ]);
    run_seat;
    unfold meta_seat_impl_lookup_touch_state, meta_seat_impl_notify_touch_event,
      meta_seat_impl_release_touch_state;
    cbn [touch_states set_touch_states];
    rewrite lookup_alter_eq, Hlive; cbn [fmap option_fmap option_map];
    run_seat;
    cbn [viewports set_touch_states touch_states coords_x coords_y seat_slot];
    rewrite Hvp, ?Htr; run_seat;
    do 3 eexists; (split; [ reflexivity | ]);
    cbn [touch_type touch_sequence touch_x touch_y touch_states set_touch_states];
    repeat (split; [ reflexivity | ]);
    apply lookup_delete_eq.
Qed.

End TouchSequenceFacts.

(** ** Key repeat *)

Section KeyRepeatFacts.

Context {ext : External}.

(** X5.  A synthetic repeat (state [AUTOREPEAT_VALUE]) is never dropped and
    never counted: it queues one key event, flagged as repeated, for the
    given key and source device, and leaves the button counters, the xkb
    state and the button mask alone; no signal is emitted and the LEDs are
    not synced, whatever [update_keys] is. *)
Theorem autorepeat_bypasses_counter_and_xkb
    (seat : MetaSeatImpl) (device : ClutterInputDevice) (time_us key : Z)
    (update_keys : bool) :
  exists seat' ev,
    meta_seat_impl_notify_key device time_us key AUTOREPEAT_VALUE update_keys seat
    = Done tt seat' [Queued (CLUTTER_KEY ev)] /\
    key_repeated ev = true /\
    key_state ev = AUTOREPEAT_VALUE /\
    key_event_code ev = key /\
    key_time ev = us2ms time_us /\
    key_source_device ev = device /\
    key_device ev = core_keyboard seat /\
    button_count seat' = button_count seat /\
    xkb seat' = xkb seat /\
    button_state seat' = button_state seat.
Proof.
  unfold meta_seat_impl_notify_key.
  change (AUTOREPEAT_VALUE =? AUTOREPEAT_VALUE) with true.
  change (AUTOREPEAT_VALUE =? 0) with false.
  change (AUTOREPEAT_VALUE =? 1) with false.
  cbn [negb orb]. run_seat.
  unfold meta_key_event_new_from_evdev, meta_seat_impl_clear_repeat_timer.
  cbn [key_hardware_keycode key_time key_state key_modifier_state key_repeated
       key_device key_source_device key_event_code].
  rewrite andb_false_r. run_seat.
  repeat match goal with
         | |- context [if ?c then _ else _] => destruct c; run_seat
         end.
  all: do 2 eexists; (split; [ reflexivity | ]).
  all: repeat (split; [ reflexivity | ]).
  all: cbn; repeat match goal with
         | |- context [match ?c with _ => _ end] => destruct c
         end; reflexivity.
Qed.

(** A key notification that passes the counter and ends the repeat. *)
Lemma notify_key_clears_repeat_timer
    (seat : MetaSeatImpl) (device : ClutterInputDevice)
    (time_us key state : Z) (update_keys : bool) :
  state <> AUTOREPEAT_VALUE ->
  drop_repeated state (count_after state (button_count_of seat key)) = false ->
  state = 0 \/ repeat_enabled seat = false \/
  xkb_keymap_key_repeats (keymap seat) (meta_xkb_evdev_to_keycode key) = false ->
  exists seat' trace,
    meta_seat_impl_notify_key device time_us key state update_keys seat
    = Done tt seat' trace /\
    repeat_timer seat' = None /\
    (repeat_timer seat <> None -> repeat_device seat' = None).
Proof.
  intros Hstate Hdrop Hcancel. unfold meta_seat_impl_notify_key.
  apply Z.eqb_neq in Hstate. rewrite Hstate. cbn [negb].
  run_seat. rewrite update_button_count_run. rewrite Hdrop.
  unfold meta_key_event_new_from_evdev, meta_seat_impl_sync_leds,
    meta_seat_impl_clear_repeat_timer.
  cbn [key_hardware_keycode key_time key_state key_modifier_state key_repeated
       key_device key_source_device key_event_code].
  destruct (xkb_state_update_key _ _ _ _) as [xkb' changed].
  run_seat.
  assert (Hkeep : forall s : MetaSeatImpl,
            keymap (set_xkb xkb' (seat_after_count key state s)) = keymap s /\
            repeat_enabled (set_xkb xkb' (seat_after_count key state s))
            = repeat_enabled s /\
            repeat_timer (set_xkb xkb' (seat_after_count key state s))
            = repeat_timer s).
  { intros s. unfold seat_after_count.
    destruct ((state =? 0) && (button_count_of s key =? 0)); repeat split. }
  destruct (Hkeep seat) as (Hkm & Hen & Htm).
  assert (Hcond : (state =? 0)
                  || negb (repeat_enabled (set_xkb xkb' (seat_after_count key state seat)))
                  || negb (xkb_keymap_key_repeats
                             (keymap (set_xkb xkb' (seat_after_count key state seat)))
                             (meta_xkb_evdev_to_keycode key)) = true).
  { rewrite Hkm, Hen. destruct Hcancel as [-> | [-> | ->]]; cbn;
      rewrite ?orb_true_r; reflexivity. }
  destruct (update_keys && negb (Z.land changed XKB_STATE_LEDS =? 0)); run_seat;
    cbn [key_hardware_keycode]; rewrite Hcond; run_seat; rewrite Htm;
    do 2 eexists; (split; [ reflexivity | ]);
    destruct (repeat_timer seat); split; try reflexivity; try congruence;
    intros _; reflexivity.
Qed.

(** X6.  A key press that is not dropped, with repeat enabled and a key
    that repeats, starts the repeat: the counter of synthetic events is 1,
    the key and the device are latched, and the timer is armed with the
    initial delay. *)
Theorem key_press_arms_repeat
    (seat : MetaSeatImpl) (device : ClutterInputDevice)
    (time_us key : Z) (update_keys : bool) :
  drop_repeated 1 (count_after 1 (button_count_of seat key)) = false ->
  repeat_enabled seat = true ->
  xkb_keymap_key_repeats (keymap seat) (meta_xkb_evdev_to_keycode key) = true ->
  exists seat' trace,
    meta_seat_impl_notify_key device time_us key 1 update_keys seat
    = Done tt seat' trace /\
    repeat_count seat' = 1 /\
    repeat_key seat' = key /\
    repeat_device seat' = Some device /\
    repeat_timer seat' = Some (repeat_delay seat).
Proof.
  intros Hdrop Hen Hrep. unfold meta_seat_impl_notify_key.
  change (1 =? AUTOREPEAT_VALUE) with false. cbn [negb].
  run_seat. rewrite update_button_count_run. rewrite Hdrop.
  unfold meta_key_event_new_from_evdev, meta_seat_impl_sync_leds,
    meta_seat_impl_clear_repeat_timer.
  cbn [key_hardware_keycode key_time key_state key_modifier_state key_repeated
       key_device key_source_device key_event_code].
  destruct (xkb_state_update_key _ _ _ _) as [xkb' changed].
  run_seat. change (1 =? 0) with false. change (1 =? 1) with true. cbn [orb].
  assert (Hkeep : keymap (set_xkb xkb' (seat_after_count key 1 seat)) = keymap seat /\
                  repeat_enabled (set_xkb xkb' (seat_after_count key 1 seat))
                  = repeat_enabled seat /\
                  repeat_delay (set_xkb xkb' (seat_after_count key 1 seat))
                  = repeat_delay seat).
  { unfold seat_after_count.
    destruct ((1 =? 0) && (button_count_of seat key =? 0)); repeat split. }
  destruct Hkeep as (Hkm & Hen' & Hdelay).
  destruct (update_keys && negb (Z.land changed XKB_STATE_LEDS =? 0)); run_seat.
  all: cbn [key_hardware_keycode].
  all: rewrite Hkm, Hen', Hen, Hrep; cbn [negb orb]; run_seat.
  all: cbn [repeat_count set_repeat_count set_repeat_key].
  all: change (0 + 1 =? 1) with true; cbn [orb]; run_seat.
  all: do 2 eexists; (split; [ reflexivity | ]).
  all: unfold seat_after_count; change (1 =? 0) with false; cbn [andb].
  all: cbn; destruct (repeat_timer seat); repeat split.
Qed.

(** X7.  With repeat enabled and a key that repeats, a synthetic repeat
    counts itself and arms the timer by the count: the first one after the
    press (count 2) replaces the initial delay by the repeat interval, the
    later ones leave the running timer alone. *)
Theorem autorepeat_switches_to_interval
    (seat : MetaSeatImpl) (device : ClutterInputDevice)
    (time_us key : Z) (update_keys : bool) :
  repeat_enabled seat = true ->
  xkb_keymap_key_repeats (keymap seat) (meta_xkb_evdev_to_keycode key) = true ->
  exists seat' trace,
    meta_seat_impl_notify_key device time_us key AUTOREPEAT_VALUE update_keys seat
    = Done tt seat' trace /\
    repeat_count seat' = repeat_count seat + 1 /\
    repeat_key seat' = key /\
    (repeat_count seat = 1 ->
     repeat_timer seat' = Some (repeat_interval seat) /\
     repeat_device seat' = Some device) /\
    (2 <= repeat_count seat ->
     repeat_timer seat' = repeat_timer seat /\
     repeat_device seat' = repeat_device seat).
Proof.
  intros Hen Hrep. unfold meta_seat_impl_notify_key.
  change (AUTOREPEAT_VALUE =? AUTOREPEAT_VALUE) with true.
  change (AUTOREPEAT_VALUE =? 0) with false.
  change (AUTOREPEAT_VALUE =? 1) with false.
  cbn [negb orb]. run_seat.
  unfold meta_key_event_new_from_evdev, meta_seat_impl_clear_repeat_timer.
  cbn [key_hardware_keycode key_time key_state key_modifier_state key_repeated
       key_device key_source_device key_event_code].
  rewrite andb_false_r. run_seat. rewrite Hen, Hrep. cbn [negb orb]. run_seat.
  cbn [repeat_count set_repeat_count set_repeat_key].
  destruct (Z.eqb_spec (repeat_count seat + 1) 1) as [H1 | H1];
    [ | destruct (Z.eqb_spec (repeat_count seat + 1) 2) as [H2 | H2] ];
    cbn [orb]; run_seat.
  all: do 2 eexists; (split; [ reflexivity | ]).
  all: cbn [repeat_count repeat_key repeat_device repeat_timer set_repeat_timer
            set_repeat_device set_repeat_count set_repeat_key].
  all: (split; [ cbn; destruct (repeat_timer seat); reflexivity | ]).
  all: (split; [ cbn; destruct (repeat_timer seat); reflexivity | ]).
  all: (split; [ intros Hc; try lia | intros Hc; try lia ]).
  - cbn. destruct (repeat_timer seat); split; reflexivity.
  - split; reflexivity.
Qed.

End KeyRepeatFacts.

(** ** Button presses and releases *)

Lemma land_lor_lnot (a m : Z) : Z.land (Z.lor a m) (Z.lnot m) = Z.land a (Z.lnot m).
Proof.
  apply Z.bits_inj'. intros n Hn.
  rewrite !Z.land_spec, Z.lor_spec, Z.lnot_spec by exact Hn.
  destruct (Z.testbit a n), (Z.testbit m n); reflexivity.
Qed.

Lemma land_lnot_clear (a m : Z) : Z.land a m = 0 -> Z.land a (Z.lnot m) = a.
Proof.
  intros H. apply Z.bits_inj'. intros n Hn.
  rewrite Z.land_spec, Z.lnot_spec by exact Hn.
  pose proof (f_equal (fun z => Z.testbit z n) H) as Hbit. cbn beta in Hbit.
  rewrite Z.land_spec, Z.bits_0 in Hbit.
  destruct (Z.testbit a n), (Z.testbit m n); try reflexivity; discriminate.
Qed.

Section ClickFacts.

Context {ext : External}.

(** X8.  A press and the release that follows it, of a button whose
    counter is 0 and which maps to a logical button in 1..12, queue a
    BUTTON_PRESS and then a BUTTON_RELEASE with that logical button; the
    press sets the button's bit in the button mask; after the release the
    counter is back at 0 and the button mask is the one before the press
    with the button's bit cleared, hence the one before when the bit was
    clear. *)
Theorem press_release_round_trip
    (seat : MetaSeatImpl) (device : ClutterInputDevice)
    (time_us time_us' button : Z) :
  button_count_of seat button = 0 ->
  1 <= button_nr_of device button <= 12 ->
  exists seat1 seat2 press release,
    meta_seat_impl_notify_button device time_us button 1 seat
    = Done tt seat1 [Queued (CLUTTER_BUTTON press)] /\
    meta_seat_impl_notify_button device time_us' button 0 seat1
    = Done tt seat2 [Queued (CLUTTER_BUTTON release)] /\
    button_type press = CLUTTER_BUTTON_PRESS /\
    button_type release = CLUTTER_BUTTON_RELEASE /\
    button_button press = button_nr_of device button /\
    button_button release = button_nr_of device button /\
    button_state seat1
    = Z.lor (button_state seat) (mask_of_logical_button (button_nr_of device button)) /\
    button_count_of seat2 button = 0 /\
    button_state seat2
    = Z.land (button_state seat)
        (Z.lnot (mask_of_logical_button (button_nr_of device button))) /\
    (Z.land (button_state seat) (mask_of_logical_button (button_nr_of device button)) = 0 ->
     button_state seat2 = button_state seat).
Proof.
  intros Hcount Hnr.
  destruct (notify_button_passes seat device time_us button 1) as
    (seat1 & press & Hrun1 & Htype1 & Hnr1 & Hcount1 & Hstate1);
    [ rewrite Hcount; reflexivity | exact Hnr | ].
  rewrite Hcount in Hcount1. change (count_after 1 0) with 1 in Hcount1.
  destruct (notify_button_passes seat1 device time_us' button 0) as
    (seat2 & release & Hrun2 & Htype2 & Hnr2 & Hcount2 & Hstate2);
    [ rewrite Hcount1; reflexivity | exact Hnr | ].
  rewrite Hcount1 in Hcount2. change (count_after 0 1) with 0 in Hcount2.
  cbn [Z.eqb] in Htype1, Htype2, Hstate1, Hstate2.
  exists seat1, seat2, press, release.
  repeat (split; [ assumption | ]).
  assert (Hfinal : button_state seat2
                   = Z.land (button_state seat)
                       (Z.lnot (mask_of_logical_button (button_nr_of device button)))).
  { rewrite Hstate2, Hstate1. apply land_lor_lnot. }
  split; [ exact Hfinal | ].
  intros Hclear. rewrite Hfinal. apply land_lnot_clear. exact Hclear.
Qed.

End ClickFacts.

(** ** What the events leave alone *)

Section FrameFacts.

Context {ext : External}.

(** A motion event changes the pointer, the cached coordinates and the
    barrier manager, nothing else. *)
Lemma new_absolute_motion_event_frame (seat seat' : MetaSeatImpl)
    (device : ClutterInputDevice) (time_us : Z) (x y : Q) (axes : option (list Q))
    (event : MotionEvent) (trace : list Effect) :
  new_absolute_motion_event device time_us x y axes seat = Done event seat' trace ->
  button_count seat' = button_count seat /\
  touch_states seat' = touch_states seat /\
  xkb seat' = xkb seat /\
  button_state seat' = button_state seat /\
  repeat_timer seat' = repeat_timer seat /\
  trace = [].
Proof.
  unfold new_absolute_motion_event, meta_seat_impl_constrain_pointer,
    meta_input_device_native_update_coords.
  run_seat.
  destruct (is_tablet (device_type device)); cbn [negb]; run_seat.
  - destruct (viewports seat) as [vp |];
      [ destruct (meta_input_device_native_translate_coordinates device vp x y) | ];
      intros H; inversion H; subst; clear H; repeat split.
  - destruct (meta_barrier_manager_native_process _ _ _ _ _) as [manager [bx by_]].
    run_seat. cbn [pointer_constraint set_barrier_manager viewports].
    destruct (match pointer_constraint seat with
              | Some constraint =>
                  meta_pointer_constraint_impl_constrain constraint (core_pointer seat)
                    (us2ms time_us) (pointer_x seat) (pointer_y seat) bx by_
              | None => (bx, by_)
              end) as [new_x new_y].
    destruct (viewports seat) as [vp |] eqn:Hvp.
    + destruct (clutter_input_device_get_coords seat (core_pointer seat)) as [cx cy].
      destruct (0 <=? meta_viewport_info_get_view_at vp new_x new_y);
        run_seat; cbn [viewports set_barrier_manager]; rewrite ?Hvp.
      * destruct (meta_input_device_native_translate_coordinates device vp new_x new_y).
        intros H; inversion H; subst; clear H; repeat split.
      * destruct (constrain_all_screen_monitors cx cy vp new_x new_y) as [kx ky].
        run_seat. cbn [viewports set_barrier_manager]. rewrite Hvp.
        destruct (meta_input_device_native_translate_coordinates device vp kx ky).
        intros H; inversion H; subst; clear H; repeat split.
    + run_seat. cbn [viewports set_barrier_manager]. rewrite Hvp.
      intros H; inversion H; subst; clear H; repeat split.
Qed.

Ltac counters_leaf :=
  let H := fresh "H" in
  intros H; inversion H; subst; clear H;
  cbn [button_count touch_states set_xkb set_button_state set_touch_states
       set_pointer_x set_pointer_y set_accum_scroll_dx set_accum_scroll_dy
       set_viewports set_barrier_manager set_device_coords set_repeat_count
       set_repeat_key set_repeat_timer set_repeat_device set_device_tools
       set_device_last_tool is_touch_event];
  (split;
   [ first [ left; reflexivity | right; do 2 eexists; reflexivity ]
   | first [ reflexivity | discriminate
           | intros _; unfold seat_after_count;
             repeat match goal with
                    | |- context [if ?c then _ else _] => destruct c
                    end; reflexivity ] ]).

(** A button notification passes one notification to the counter of its
    code and leaves the touch states alone. *)
Lemma notify_button_counters (seat seat' : MetaSeatImpl)
    (device : ClutterInputDevice) (time_us button state : Z)
    (trace : list Effect) :
  meta_seat_impl_notify_button device time_us button state seat
  = Done tt seat' trace ->
  button_count seat' = button_count (seat_after_count button state seat) /\
  touch_states seat' = touch_states seat.
Proof.
  rewrite notify_button_run. cbv zeta.
  assert (Htouch : touch_states (seat_after_count button state seat)
                   = touch_states seat).
  { unfold seat_after_count.
    destruct ((state =? 0) && (button_count_of seat button =? 0)); reflexivity. }
  repeat match goal with
         | |- context [if ?c then _ else _] => destruct c
         end;
    intros H; inversion H; subst; clear H;
    cbn [button_count touch_states set_button_state];
    (split; [ reflexivity | exact Htouch ]).
Qed.

(** The counter of a code after a notification depends on the counters
    only. *)
Lemma seat_after_count_counters (s1 s2 : MetaSeatImpl) (code state : Z) :
  button_count s1 = button_count s2 ->
  button_count (seat_after_count code state s1)
  = button_count (seat_after_count code state s2).
Proof.
  intros Hsame. unfold seat_after_count, button_count_of. rewrite Hsame.
  destruct ((state =? 0) && (default 0 (button_count s2 !! code) =? 0));
    [ exact Hsame | ].
  cbn [button_count set_button_count]. reflexivity.
Qed.

(** The motion of a tablet tool leaves counters and touch states alone. *)
Lemma process_tablet_axis_counters (fuel : nat) (device : ClutterInputDevice)
    (tablet_event : libinput_event_tablet_tool)
    (seat seat' : MetaSeatImpl) (trace : list Effect) :
  process_tablet_axis fuel device tablet_event seat = Done tt seat' trace ->
  button_count seat' = button_count seat /\
  touch_states seat' = touch_states seat.
Proof.
  intros Hrun.
  apply process_tablet_axis_run in Hrun
    as (x & y & axes & event & t & queued & Hnew & _).
  apply new_absolute_motion_event_frame in Hnew as (Hc & Ht & _).
  split; assumption.
Qed.

(** So does the change of the tool in use. *)
Lemma input_device_update_tool_counters (device : ClutterInputDevice)
    (libinput_tool : option libinput_tablet_tool)
    (seat seat' : MetaSeatImpl) (trace : list Effect) :
  input_device_update_tool device libinput_tool seat = Done tt seat' trace ->
  button_count seat' = button_count seat /\
  touch_states seat' = touch_states seat.
Proof.
  destruct (input_device_update_tool_run seat device libinput_tool)
    as (tools & last & t & ->).
  intros H. inversion H; subst. split; reflexivity.
Qed.

(** One translated event either leaves the button counters alone or
    passes one notification to the counter of one code; only the events of
    a touch sequence change the touch states. *)
Lemma process_device_event_frame (fuel : nat) (event : libinput_event)
    (seat seat' : MetaSeatImpl) (trace : list Effect) :
  process_device_event fuel event seat = Done tt seat' trace ->
  (button_count seat' = button_count seat \/
   exists code state,
     button_count seat' = button_count (seat_after_count code state seat)) /\
  (is_touch_event event = false -> touch_states seat' = touch_states seat).
Proof.
  destruct event as [d t key pressed seat_key_count | d t dx dy ux uy | d t ax ay
                    | d t button pressed seat_button_count | d t source ev
                    | d t slot ax ay | d t slot | d t slot ax ay | d t slot
                    | d t n | d t n dx dy da sc | d t n cancelled
                    | d t n | d t n dx dy | d t n cancelled
                    | d tev | d tev is_in | d tev button pressed | d tev tip_down
                    | d t button group mode pressed
                    | d t number source group mode value
                    | d t number source group mode angle | d t];
    cbn [process_device_event].
  - destruct ((pressed && negb (seat_key_count =? 1))
              || (negb pressed && negb (seat_key_count =? 0))); [ counters_leaf | ].
    set (state := if pressed then 1 else 0).
    assert (Hstate : (state =? AUTOREPEAT_VALUE) = false)
      by (unfold state; destruct pressed; reflexivity).
    destruct (drop_repeated state (count_after state (button_count_of seat key)))
      eqn:Hdrop.
    + rewrite notify_key_dropped by (try apply Z.eqb_neq; assumption).
      counters_leaf.
    + unfold meta_seat_impl_notify_key. rewrite Hstate. cbn [negb].
      run_seat. rewrite update_button_count_run. rewrite Hdrop.
      unfold meta_key_event_new_from_evdev, meta_seat_impl_sync_leds,
        meta_seat_impl_clear_repeat_timer.
      cbn [key_hardware_keycode key_time key_state key_modifier_state key_repeated
           key_device key_source_device key_event_code].
      destruct (xkb_state_update_key _ _ _ _) as [xkb' changed].
      run_seat.
      repeat match goal with
             | |- context [if ?c then _ else _] => destruct c; run_seat
             end.
      all: counters_leaf.
  - unfold meta_seat_impl_notify_relative_motion. run_seat.
    destruct (meta_seat_impl_filter_relative_motion _ _ _ _ _ _) as [[rx ry] |];
      [ | discriminate ].
    run_seat.
    destruct (new_absolute_motion_event _ _ _ _ _ seat) as [mev s1 t1 | |] eqn:Hnew;
      try discriminate.
    apply new_absolute_motion_event_frame in Hnew as (Hc & Ht & _).
    intros H; inversion H; subst; clear H.
    split; [ left; exact Hc | intros _; exact Ht ].
  - unfold meta_seat_impl_notify_absolute_motion. run_seat.
    destruct (meta_viewport_info_get_extents (viewports seat)) as [w h].
    run_seat.
    destruct (new_absolute_motion_event _ _ _ _ _ seat) as [mev s1 t1 | |] eqn:Hnew;
      try discriminate.
    apply new_absolute_motion_event_frame in Hnew as (Hc & Ht & _).
    intros H; inversion H; subst; clear H.
    split; [ left; exact Hc | intros _; exact Ht ].
  - destruct ((pressed && negb (seat_button_count =? 1))
              || (negb pressed && negb (seat_button_count =? 0))); [ counters_leaf | ].
    rewrite notify_button_run. cbv zeta.
    repeat match goal with
           | |- context [if ?c then _ else _] => destruct c
           end.
    all: counters_leaf.
  - destruct (translate_scroll_source source).
    2: { unfold notify_discrete_axis, meta_seat_impl_notify_discrete_scroll,
           notify_scroll.
         run_seat.
         destruct (discrete_to_direction _ _) as [direction |]; [ | discriminate ].
         destruct direction; run_seat; counters_leaf. }
    all: unfold notify_continuous_axis;
      destruct (axis_horizontal ev), (axis_vertical ev);
      rewrite notify_scroll_continuous_run; cbv zeta; counters_leaf.
  - unfold meta_seat_impl_acquire_touch_state, meta_seat_impl_notify_touch_event,
      touch_state_set_coords.
    run_seat.
    destruct (meta_viewport_info_get_extents (viewports seat)) as [w h]. run_seat.
    destruct (match touch_states seat with Some table => table | None => ∅ end
              !! slot); [ discriminate | ].
    run_seat. cbn [touch_states set_touch_states viewports].
    destruct (viewports seat);
      [ destruct (meta_input_device_native_translate_coordinates _ _ _ _) | ];
      run_seat; counters_leaf.
  - unfold meta_seat_impl_notify_touch_event, meta_seat_impl_release_touch_state.
    run_seat.
    destruct (meta_seat_impl_lookup_touch_state seat slot); [ | counters_leaf ].
    run_seat.
    destruct (viewports seat);
      [ destruct (meta_input_device_native_translate_coordinates _ _ _ _) | ];
      run_seat; destruct (touch_states seat); counters_leaf.
  - unfold meta_seat_impl_notify_touch_event, touch_state_set_coords.
    run_seat.
    destruct (meta_viewport_info_get_extents (viewports seat)) as [w h]. run_seat.
    destruct (meta_seat_impl_lookup_touch_state seat slot); [ | counters_leaf ].
    run_seat.
    destruct (touch_states seat); cbn [viewports set_touch_states];
      (destruct (viewports seat);
       [ destruct (meta_input_device_native_translate_coordinates _ _ _ _) | ]);
      run_seat; counters_leaf.
  - unfold meta_seat_impl_notify_touch_event, meta_seat_impl_release_touch_state.
    run_seat.
    destruct (meta_seat_impl_lookup_touch_state seat slot); [ | counters_leaf ].
    run_seat.
    destruct (viewports seat);
      [ destruct (meta_input_device_native_translate_coordinates _ _ _ _) | ];
      run_seat; destruct (touch_states seat); counters_leaf.
  - destruct (notify_pinch_gesture_event_run seat d
                CLUTTER_TOUCHPAD_GESTURE_PHASE_BEGIN t 0 0 0 0 n) as (ev & -> & _).
    counters_leaf.
  - destruct (notify_pinch_gesture_event_run seat d
                CLUTTER_TOUCHPAD_GESTURE_PHASE_UPDATE t dx dy da sc n) as (ev & -> & _).
    counters_leaf.
  - cbv zeta.
    destruct (notify_pinch_gesture_event_run seat d
                (if cancelled then CLUTTER_TOUCHPAD_GESTURE_PHASE_CANCEL
                 else CLUTTER_TOUCHPAD_GESTURE_PHASE_END) t 0 0 0 0 n) as (ev & -> & _).
    counters_leaf.
  - destruct (notify_swipe_gesture_event_run seat d
                CLUTTER_TOUCHPAD_GESTURE_PHASE_BEGIN t n 0 0) as (ev & -> & _).
    counters_leaf.
  - destruct (notify_swipe_gesture_event_run seat d
                CLUTTER_TOUCHPAD_GESTURE_PHASE_UPDATE t n dx dy) as (ev & -> & _).
    counters_leaf.
  - cbv zeta.
    destruct (notify_swipe_gesture_event_run seat d
                (if cancelled then CLUTTER_TOUCHPAD_GESTURE_PHASE_CANCEL
                 else CLUTTER_TOUCHPAD_GESTURE_PHASE_END) t n 0 0) as (ev & -> & _).
    counters_leaf.
  - intros H. apply process_tablet_axis_counters in H as [Hc Ht].
    split; [ left; exact Hc | intros _; exact Ht ].
  - cbv zeta. intros H.
    apply bind_done_inv in H as ([] & s1 & t1 & t2 & Hbefore & H & _).
    apply bind_done_inv in H as ([] & s2 & t3 & t4 & Hprox & Hafter & _).
    rewrite notify_proximity_run in Hprox. inversion Hprox; subst s2; clear Hprox.
    assert (Hfirst : button_count s1 = button_count seat /\
                 touch_states s1 = touch_states seat).
    { destruct is_in.
      - eapply input_device_update_tool_counters. exact Hbefore.
      - inversion Hbefore; subst. split; reflexivity. }
    assert (Hsecond : button_count seat' = button_count s1 /\
                 touch_states seat' = touch_states s1).
    { destruct is_in; cbn [negb] in Hafter.
      - inversion Hafter; subst. split; reflexivity.
      - eapply input_device_update_tool_counters. exact Hafter. }
    destruct Hfirst as [Hc1 Ht1], Hsecond as [Hc2 Ht2].
    split; [ left; congruence | intros _; congruence ].
  - intros H.
    apply bind_done_inv in H as ([] & s1 & t1 & t2 & Haxis & Hbutton & _).
    apply process_tablet_axis_counters in Haxis as [Hc1 Ht1].
    apply notify_button_counters in Hbutton as [Hc2 Ht2].
    split; [ right | intros _; congruence ].
    do 2 eexists. rewrite Hc2. apply seat_after_count_counters. exact Hc1.
  - intros H.
    apply bind_done_inv in H as ([] & s1 & t1 & t2 & Hbefore & H & _).
    apply bind_done_inv in H as ([] & s2 & t3 & t4 & Hbutton & Hafter & _).
    assert (Hfirst : button_count s1 = button_count seat /\
                 touch_states s1 = touch_states seat).
    { destruct tip_down.
      - eapply process_tablet_axis_counters. exact Hbefore.
      - inversion Hbefore; subst. split; reflexivity. }
    assert (Hthird : button_count seat' = button_count s2 /\
                 touch_states seat' = touch_states s2).
    { destruct tip_down; cbn [negb] in Hafter.
      - inversion Hafter; subst. split; reflexivity.
      - eapply process_tablet_axis_counters. exact Hafter. }
    apply notify_button_counters in Hbutton as [Hc2 Ht2].
    destruct Hfirst as [Hc1 Ht1], Hthird as [Hc3 Ht3].
    split; [ right | intros _; congruence ].
    do 2 eexists. rewrite Hc3, Hc2. apply seat_after_count_counters. exact Hc1.
  - unfold notify_pad_button, queue_event, emit. counters_leaf.
  - unfold notify_pad_strip, queue_event, emit. counters_leaf.
  - unfold notify_pad_ring, queue_event, emit. counters_leaf.
  - unfold ret. counters_leaf.
Qed.

(** A property kept by each event of a kind is kept by a sequence of
    events of that kind. *)
Lemma process_events_invariant (fuel : nat) (ok : libinput_event -> Prop)
    (R : MetaSeatImpl -> MetaSeatImpl -> Prop) :
  (forall seat, R seat seat) ->
  (forall s1 s2 s3, R s1 s2 -> R s2 s3 -> R s1 s3) ->
  (forall event seat seat' trace,
     ok event ->
     process_device_event fuel event seat = Done tt seat' trace -> R seat seat') ->
  forall events seat seat' trace,
    Forall ok events ->
    process_events fuel events seat = Done tt seat' trace -> R seat seat'.
Proof.
  intros Hrefl Htrans Hstep.
  induction events as [| event rest IH]; intros seat seat' trace Hok Hrun.
  - cbn in Hrun. inversion Hrun; subst. apply Hrefl.
  - cbn [process_events] in Hrun. unfold bind in Hrun.
    destruct (process_device_event fuel event seat) as [[] s1 t1 | |] eqn:Hev;
      try discriminate.
    destruct (process_events fuel rest s1) as [[] s2 t2 | |] eqn:Hrest;
      try discriminate.
    inversion Hrun; subst.
    apply Forall_cons_1 in Hok as [Hok1 Hok].
    eapply Htrans; [ eapply Hstep; eassumption | eapply IH; eassumption ].
Qed.

Lemma counters_after_count (seat : MetaSeatImpl) (code state : Z) :
  counters_nonnegative seat ->
  counters_nonnegative (seat_after_count code state seat).
Proof.
  intros Hpos other. destruct (Z.eq_dec other code) as [-> | Hne].
  - rewrite button_count_of_after. unfold count_after.
    specialize (Hpos code).
    destruct (state =? 0); [ destruct (Z.eqb_spec (button_count_of seat code) 0) | ];
      lia.
  - unfold seat_after_count.
    destruct ((state =? 0) && (button_count_of seat code =? 0)); [ apply Hpos | ].
    unfold button_count_of. cbn. rewrite lookup_insert_ne by congruence.
    apply Hpos.
Qed.

(** X9.  No button counter ever goes negative: if every counter is at
    least 0 before a sequence of events, every counter is at least 0 after
    it.  A release that finds its counter at 0 leaves it there. *)
Theorem button_counters_never_negative
    (fuel : nat) (events : list libinput_event) (seat seat' : MetaSeatImpl)
    (trace : list Effect) :
  counters_nonnegative seat ->
  process_events fuel events seat = Done tt seat' trace ->
  counters_nonnegative seat'.
Proof.
  intros Hpos Hrun.
  refine (process_events_invariant fuel (fun _ => True)
            (fun s s' => counters_nonnegative s -> counters_nonnegative s')
            _ _ _ events seat seat' trace _ Hrun Hpos).
  - intros s H. exact H.
  - intros s1 s2 s3 H12 H23 H. apply H23, H12, H.
  - intros event s s' t _ Hev H.
    apply process_device_event_frame in Hev as [[Hsame | (code & state & Hsame)] _];
      intros other; unfold button_count_of; rewrite Hsame.
    + apply H.
    + apply (counters_after_count s code state H other).
  - apply Forall_forall. intros; exact I.
Qed.

Lemma same_pointer_trans (s1 s2 s3 : MetaSeatImpl) :
  same_pointer s1 s2 -> same_pointer s2 s3 -> same_pointer s1 s3.
Proof.
  unfold same_pointer. intros (A1 & A2 & A3 & A4 & A5) (B1 & B2 & B3 & B4 & B5).
  repeat split; congruence.
Qed.

(** X10.  Only pointer motion moves the pointer: a sequence of events
    with no relative and no absolute pointer motion in it, and no tablet
    tool axis, button or tip event (which carry the motion of the tool),
    leaves the pointer position, the coordinates cached on the devices, the
    layout and the core pointer as they were. *)
Theorem only_pointer_motion_moves_pointer
    (fuel : nat) (events : list libinput_event) (seat seat' : MetaSeatImpl)
    (trace : list Effect) :
  Forall (fun event => is_pointer_motion event = false) events ->
  process_events fuel events seat = Done tt seat' trace ->
  same_pointer seat seat'.
Proof.
  intros Hkind Hrun.
  refine (process_events_invariant fuel
            (fun event => is_pointer_motion event = false) same_pointer
            same_pointer_refl same_pointer_trans _ events seat seat' trace Hkind Hrun).
  clear. intros event seat seat' trace Hkind.
  destruct event as [d t key pressed seat_key_count | d t dx dy ux uy | d t ax ay
                    | d t button pressed seat_button_count | d t source ev
                    | d t slot ax ay | d t slot | d t slot ax ay | d t slot
                    | d t n | d t n dx dy da sc | d t n cancelled
                    | d t n | d t n dx dy | d t n cancelled
                    | d tev | d tev is_in | d tev button pressed | d tev tip_down
                    | d t button group mode pressed
                    | d t number source group mode value
                    | d t number source group mode angle | d t];
    try discriminate Hkind.
  - cbn [process_device_event].
    destruct ((pressed && negb (seat_key_count =? 1))
              || (negb pressed && negb (seat_key_count =? 0))).
    + intros H. inversion H; subst. apply same_pointer_refl.
    + apply notify_key_frame. destruct pressed; discriminate.
  - cbn [process_device_event].
    destruct ((pressed && negb (seat_button_count =? 1))
              || (negb pressed && negb (seat_button_count =? 0))).
    + intros H. inversion H; subst. apply same_pointer_refl.
    + apply notify_button_frame.
  - cbn [process_device_event].
    destruct (translate_scroll_source source);
      first [ apply notify_continuous_axis_frame | apply notify_discrete_axis_frame ].
  - apply touch_event_frame. exact I.
  - apply touch_event_frame. exact I.
  - apply touch_event_frame. exact I.
  - apply touch_event_frame. exact I.
  - cbn [process_device_event].
    destruct (notify_pinch_gesture_event_run seat d
                CLUTTER_TOUCHPAD_GESTURE_PHASE_BEGIN t 0 0 0 0 n) as (ev & -> & _).
    intros H. inversion H; subst. apply same_pointer_refl.
  - cbn [process_device_event].
    destruct (notify_pinch_gesture_event_run seat d
                CLUTTER_TOUCHPAD_GESTURE_PHASE_UPDATE t dx dy da sc n) as (ev & -> & _).
    intros H. inversion H; subst. apply same_pointer_refl.
  - cbn [process_device_event]. cbv zeta.
    destruct (notify_pinch_gesture_event_run seat d
                (if cancelled then CLUTTER_TOUCHPAD_GESTURE_PHASE_CANCEL
                 else CLUTTER_TOUCHPAD_GESTURE_PHASE_END) t 0 0 0 0 n) as (ev & -> & _).
    intros H. inversion H; subst. apply same_pointer_refl.
  - cbn [process_device_event].
    destruct (notify_swipe_gesture_event_run seat d
                CLUTTER_TOUCHPAD_GESTURE_PHASE_BEGIN t n 0 0) as (ev & -> & _).
    intros H. inversion H; subst. apply same_pointer_refl.
  - cbn [process_device_event].
    destruct (notify_swipe_gesture_event_run seat d
                CLUTTER_TOUCHPAD_GESTURE_PHASE_UPDATE t n dx dy) as (ev & -> & _).
    intros H. inversion H; subst. apply same_pointer_refl.
  - cbn [process_device_event]. cbv zeta.
    destruct (notify_swipe_gesture_event_run seat d
                (if cancelled then CLUTTER_TOUCHPAD_GESTURE_PHASE_CANCEL
                 else CLUTTER_TOUCHPAD_GESTURE_PHASE_END) t n 0 0) as (ev & -> & _).
    intros H. inversion H; subst. apply same_pointer_refl.
  - cbn [process_device_event]. cbv zeta. apply tool_proximity_frame.
  - cbn [process_device_event]. unfold notify_pad_button, queue_event, emit.
    intros H. inversion H; subst. apply same_pointer_refl.
  - cbn [process_device_event]. unfold notify_pad_strip, queue_event, emit.
    intros H. inversion H; subst. apply same_pointer_refl.
  - cbn [process_device_event]. unfold notify_pad_ring, queue_event, emit.
    intros H. inversion H; subst. apply same_pointer_refl.
  - cbn [process_device_event]. unfold ret.
    intros H. inversion H; subst. apply same_pointer_refl.
Qed.

(** X11.  The touch states belong to the touch events: a sequence of key,
    button, motion and scroll events leaves every seat slot as it was, live
    with the same coordinates or free. *)
Theorem touch_states_survive_other_events
    (fuel : nat) (events : list libinput_event) (seat seat' : MetaSeatImpl)
    (trace : list Effect) :
  Forall (fun event => is_touch_event event = false) events ->
  process_events fuel events seat = Done tt seat' trace ->
  forall slot,
    meta_seat_impl_lookup_touch_state seat' slot
    = meta_seat_impl_lookup_touch_state seat slot.
Proof.
  intros Hkind Hrun slot. unfold meta_seat_impl_lookup_touch_state.
  replace (touch_states seat') with (touch_states seat); [ reflexivity | ].
  refine (process_events_invariant fuel
            (fun event => is_touch_event event = false)
            (fun s s' => touch_states s = touch_states s')
            _ _ _ events seat seat' trace Hkind Hrun).
  - reflexivity.
  - intros; congruence.
  - intros event s s' t Hk Hev.
    apply process_device_event_frame in Hev as [_ Hsame]. symmetry. apply Hsame, Hk.
Qed.

End FrameFacts.

(** ** Pointer motion *)

Section MotionFacts.

Context {ext : External}.

(** X12.  With unscaled stage views, a relative motion that starts in a
    view and whose scaled target lies in the same view, or in no view at
    all, is the raw delta multiplied by the scale of that view; no fuel is
    needed, the loop over the outputs is not entered. *)
Theorem relative_motion_scaled_within_view
    (fuel : nat) (seat : MetaSeatImpl) (vp : MetaViewportInfo) (v : ViewInfo)
    (x y dx dy : Q) :
  meta_is_stage_views_scaled = false ->
  viewports seat = Some vp ->
  meta_viewport_info_get_view vp (meta_viewport_info_get_view_at vp x y) = Some v ->
  meta_viewport_info_get_view_at vp (x + dx * view_scale v) (y + dy * view_scale v) < 0
  \/ meta_viewport_info_get_view_at vp (x + dx * view_scale v) (y + dy * view_scale v)
     = meta_viewport_info_get_view_at vp x y ->
  meta_seat_impl_filter_relative_motion fuel seat x y dx dy
  = Some (dx * view_scale v, dy * view_scale v)%Q.
Proof.
  intros Hscaled Hvp Hview Hdest.
  unfold meta_seat_impl_filter_relative_motion.
  rewrite Hscaled, Hvp.
  assert (Hin : (meta_viewport_info_get_view_at vp x y <? 0) = false).
  { unfold meta_viewport_info_get_view in Hview.
    destruct (meta_viewport_info_get_view_at vp x y <? 0);
      [ discriminate | reflexivity ]. }
  rewrite Hin, Hview.
  destruct Hdest as [Hout | Hsame].
  - replace (0 <=? _) with false by (symmetry; apply Z.leb_gt; exact Hout).
    reflexivity.
  - rewrite Hsame, Z.eqb_refl, andb_false_r. reflexivity.
Qed.

(** X13.  An absolute motion of a tablet is not a motion of the seat
    pointer: it passes neither the barriers nor the constraint nor the clamp
    to the views, leaves the pointer position and the barrier manager as
    they were, and caches the position on the tablet; the one MOTION event
    is on the tablet itself, with its tool, at the position mapped through
    the layout. *)
Theorem tablet_motion_leaves_pointer
    (seat : MetaSeatImpl) (device : ClutterInputDevice) (time_us : Z) (x y : Q)
    (axes : option (list Q)) :
  is_tablet (device_type device) = true ->
  exists seat' ev,
    meta_seat_impl_notify_absolute_motion device time_us x y axes seat
    = Done tt seat' [Queued (CLUTTER_MOTION ev)] /\
    pointer_x seat' = pointer_x seat /\
    pointer_y seat' = pointer_y seat /\
    barrier_manager seat' = barrier_manager seat /\
    clutter_input_device_get_coords seat' device = (x, y) /\
    motion_device ev = device /\
    motion_source_device ev = device /\
    motion_tool ev = last_tool seat device /\
    motion_axes ev = axes /\
    motion_relative ev = None /\
    (motion_x ev, motion_y ev)
    = match viewports seat with
      | Some vp => meta_input_device_native_translate_coordinates device vp x y
      | None => (x, y)
      end.
Proof.
  intros Htablet.
  unfold meta_seat_impl_notify_absolute_motion, new_absolute_motion_event,
    meta_input_device_native_update_coords.
  rewrite Htablet. cbn [negb]. run_seat.
  destruct (viewports seat) as [vp |];
    [ destruct (meta_input_device_native_translate_coordinates device vp x y)
        as [event_x event_y] | ];
    do 2 eexists; (split; [ reflexivity | ]);
    cbn [motion_device motion_source_device motion_tool motion_axes
         motion_relative motion_x motion_y];
    repeat (split; [ reflexivity | ]);
    (split; [ | repeat split ]);
    unfold clutter_input_device_get_coords; cbn; rewrite lookup_insert_eq;
    reflexivity.
Qed.

(** X14.  A warp is an absolute motion of the core pointer at time 0.
    When no constraint is set and the target, as the barriers leave it, lies
    in a view (or no layout is set), the pointer lands on it exactly: seat
    position and cached coordinates of the core pointer are the target, and
    one MOTION event without relative motion is queued. *)
Theorem warp_pointer_lands_on_target
    (seat : MetaSeatImpl) (x y : Z) (manager : BarrierManager) (tx ty : Q) :
  is_tablet (device_type (core_pointer seat)) = false ->
  meta_barrier_manager_native_process (barrier_manager seat) (core_pointer seat)
    0 (inject_Z x) (inject_Z y) = (manager, (tx, ty)) ->
  pointer_constraint seat = None ->
  viewports seat = None \/
  (exists vp, viewports seat = Some vp /\ 0 <= meta_viewport_info_get_view_at vp tx ty) ->
  exists seat' ev,
    meta_seat_impl_warp_pointer x y seat
    = Done tt seat' [Queued (CLUTTER_MOTION ev)] /\
    pointer_x seat' = tx /\
    pointer_y seat' = ty /\
    clutter_input_device_get_coords seat' (core_pointer seat') = (tx, ty) /\
    barrier_manager seat' = manager /\
    motion_time ev = 0 /\
    motion_relative ev = None /\
    motion_device ev = core_pointer seat /\
    motion_source_device ev = core_pointer seat.
Proof.
  intros Htablet Hbarrier Hconstraint Hview.
  unfold meta_seat_impl_warp_pointer, meta_seat_impl_notify_absolute_motion,
    new_absolute_motion_event, meta_seat_impl_constrain_pointer,
    meta_input_device_native_update_coords.
  run_seat. rewrite Htablet. cbn [negb]. run_seat.
  change (us2ms 0) with 0. rewrite Hbarrier, Hconstraint. run_seat.
  destruct Hview as [Hnone | (vp & Hvp & Hin)].
  - rewrite Hnone. run_seat. cbn [viewports set_barrier_manager]. rewrite Hnone.
    do 2 eexists. split; [ reflexivity | ].
    cbn. unfold clutter_input_device_get_coords. cbn.
    rewrite lookup_insert_eq. repeat split.
  - rewrite Hvp. apply Z.leb_le in Hin.
    destruct (clutter_input_device_get_coords seat (core_pointer seat)) as [cx cy].
    rewrite Hin. run_seat. cbn [viewports set_barrier_manager]. rewrite Hvp.
    destruct (meta_input_device_native_translate_coordinates _ vp tx ty)
      as [event_x event_y].
    do 2 eexists. split; [ reflexivity | ].
    cbn. unfold clutter_input_device_get_coords. cbn.
    rewrite lookup_insert_eq. repeat split.
Qed.

End MotionFacts.

(** ** Scroll accumulation *)

(** What the accumulator held is the discrete steps taken out of it, 10
    each, in the direction of its sign, and what is left in it. *)
Lemma accumulator_split (acc : Q) :
  (acc == (if Qlt_bool 0 acc then 1 else -1)
          * (DISCRETE_SCROLL_STEP
             * inject_Z (Qfloor (Qabs acc / DISCRETE_SCROLL_STEP)))
          + Qfmod acc DISCRETE_SCROLL_STEP)%Q.
Proof.
  unfold Qfmod, Qtruncate, DISCRETE_SCROLL_STEP.
  destruct (Qlt_bool 0 acc) eqn:Hpos.
  - apply Qlt_bool_iff in Hpos.
    assert (Hdiv : (0 <= acc / 10)%Q).
    { apply Qle_shift_div_l; [ reflexivity | ]. rewrite Qmult_0_l.
      apply Qlt_le_weak. exact Hpos. }
    apply Qle_bool_iff in Hdiv. rewrite Hdiv.
    rewrite (Qabs_pos acc) by (apply Qlt_le_weak; exact Hpos).
    ring.
  - apply Qlt_bool_false_iff in Hpos.
    rewrite (Qabs_neg acc) by exact Hpos.
    destruct (Qle_bool 0 (acc / 10)) eqn:Hdiv.
    + apply Qle_bool_iff in Hdiv.
      assert (Hzero : (acc == 0)%Q).
      { apply Qle_antisym; [ exact Hpos | ].
        apply (Qmult_le_r _ _ (/ 10)); [ reflexivity | ].
        rewrite Qmult_0_l. exact Hdiv. }
      assert (Hlow : Qfloor (- acc / 10) = 0)
        by (rewrite (Qfloor_comp (- acc / 10) 0); [ reflexivity | ];
            rewrite Hzero; reflexivity).
      assert (Hhigh : Qfloor (acc / 10) = 0)
        by (rewrite (Qfloor_comp (acc / 10) 0); [ reflexivity | ];
            rewrite Hzero; reflexivity).
      rewrite Hlow, Hhigh. change (inject_Z 0) with 0%Q. ring.
    + unfold Qceiling.
      assert (Heq : (- (acc / 10) == - acc / 10)%Q) by (field; discriminate).
      rewrite Heq. rewrite inject_Z_opp. ring.
Qed.

Section ScrollAccumulatorFacts.

Context {ext : External}.

Lemma scroll_steps_app (direction : ClutterScrollDirection) (t1 t2 : list Effect) :
  scroll_steps direction (t1 ++ t2)
  = scroll_steps direction t1 + scroll_steps direction t2.
Proof.
  induction t1 as [| e t1 IH]; [ reflexivity | ].
  cbn [app scroll_steps]. destruct e as [[] | | | | | |]; rewrite IH; lia.
Qed.

Lemma scroll_steps_replicate (direction : ClutterScrollDirection) (n : Z)
    (s : ScrollEvent) :
  0 <= n ->
  scroll_steps direction (replicate (Z.to_nat n) (Queued (CLUTTER_SCROLL s)))
  = if scroll_direction_eqb (scroll_direction s) direction then n else 0.
Proof.
  intros Hn. rewrite <- (Z2Nat.id n) at 2 by exact Hn.
  induction (Z.to_nat n) as [| k IH]; cbn [replicate scroll_steps].
  - destruct (scroll_direction_eqb _ _); reflexivity.
  - rewrite IH. destruct (scroll_direction_eqb _ _); lia.
Qed.

(** X15.  Nothing of what a scroll accumulator stores is lost.  The
    value stored by the addition ([accumulator + delta] taken in [double]
    and stored as [float]; 0 for an axis whose FINISHED flag is set), as
    long as it is a number below 10 * 2^31 in magnitude, is 10 times the
    emulated steps just queued, RIGHT (DOWN) counted positive and LEFT (UP)
    negative, plus the accumulator after the notification: the remainder
    is taken without rounding. *)
Theorem continuous_scroll_conserved
    (seat : MetaSeatImpl) (device : ClutterInputDevice) (time_us : Z)
    (dx dy : Q) (scroll_source : ClutterScrollSource) (finish_flags : Z)
    (acc_x acc_y : Q) :
  accumulated finish_flags CLUTTER_SCROLL_FINISHED_HORIZONTAL
    (accum_scroll_dx seat) dx = F_finite acc_x ->
  accumulated finish_flags CLUTTER_SCROLL_FINISHED_VERTICAL
    (accum_scroll_dy seat) dy = F_finite acc_y ->
  (Qabs acc_x < 10 * 2 ^ 31)%Q ->
  (Qabs acc_y < 10 * 2 ^ 31)%Q ->
  exists seat' trace left_x left_y,
    meta_seat_impl_notify_scroll_continuous device time_us dx dy scroll_source
      finish_flags seat
    = Done tt seat' trace /\
    accum_scroll_dx seat' = F_finite left_x /\
    accum_scroll_dy seat' = F_finite left_y /\
    (acc_x
     == 10 * inject_Z (scroll_steps CLUTTER_SCROLL_RIGHT trace
                       - scroll_steps CLUTTER_SCROLL_LEFT trace)
        + left_x)%Q /\
    (acc_y
     == 10 * inject_Z (scroll_steps CLUTTER_SCROLL_DOWN trace
                       - scroll_steps CLUTTER_SCROLL_UP trace)
        + left_y)%Q.
Proof.
  intros Hx Hy Hrx Hry.
  pose proof (accumulated_binary32 _ _ _ _ _ Hx) as Hfx.
  pose proof (accumulated_binary32 _ _ _ _ _ Hy) as Hfy.
  rewrite notify_scroll_continuous_run. cbv zeta. rewrite Hx, Hy.
  unfold scroll_count_of.
  rewrite (scroll_count acc_x Hfx Hrx), (scroll_count acc_y Hfy Hry).
  cbn [accum_scroll_dx accum_scroll_dy set_accum_scroll_dx set_accum_scroll_dy
       c_gt fmodf].
  do 4 eexists. split; [ reflexivity | ].
  split; [ reflexivity | ]. split; [ reflexivity | ].
  assert (Hfloor : forall q : Q, 0 <= Qfloor (Qabs q / DISCRETE_SCROLL_STEP)).
  { intros q. change 0 with (Qfloor 0). apply Qfloor_resp_le.
    apply Qle_shift_div_l; [ reflexivity | ]. rewrite Qmult_0_l. apply Qabs_nonneg. }
  rewrite !Qred_correct.
  change (?e :: ?l1 ++ ?l2) with ([e] ++ l1 ++ l2).
  rewrite !scroll_steps_app, !scroll_steps_replicate by apply Hfloor.
  cbn [scroll_steps scroll_direction discrete_scroll_event scroll_direction_eqb].
  split.
  - rewrite (accumulator_split acc_x) at 1.
    set (n := Qfloor (Qabs acc_x / DISCRETE_SCROLL_STEP)).
    destruct (Qlt_bool 0 acc_x), (Qlt_bool 0 acc_y);
      cbn [scroll_direction_eqb];
      rewrite ?Z.add_0_l, ?Z.add_0_r, ?Z.sub_0_r, ?Z.sub_0_l, ?inject_Z_opp;
      unfold DISCRETE_SCROLL_STEP; ring.
  - rewrite (accumulator_split acc_y) at 1.
    set (n := Qfloor (Qabs acc_y / DISCRETE_SCROLL_STEP)).
    destruct (Qlt_bool 0 acc_x), (Qlt_bool 0 acc_y);
      cbn [scroll_direction_eqb];
      rewrite ?Z.add_0_l, ?Z.add_0_r, ?Z.sub_0_r, ?Z.sub_0_l, ?inject_Z_opp;
      unfold DISCRETE_SCROLL_STEP; ring.
Qed.

(** X16.  A finger or continuous scroll event ends the scroll on an axis
    exactly when it has that axis with a value below [DBL_EPSILON] in
    magnitude: the smooth event then carries the FINISHED flag of the axis
    and what the accumulator held is thrown away.  An event that lacks the
    axis is not an end: the accumulator keeps what it held, less the whole
    steps. *)
Theorem continuous_axis_finish
    (seat : MetaSeatImpl) (device : ClutterInputDevice) (time_us : Z)
    (scroll_source : ClutterScrollSource) (axis_event : libinput_event_pointer_axis) :
  exists seat' smooth rest,
    notify_continuous_axis device time_us scroll_source axis_event seat
    = Done tt seat' (Queued (CLUTTER_SCROLL smooth) :: rest) /\
    scroll_direction smooth = CLUTTER_SCROLL_SMOOTH /\
    (negb (Z.land (scroll_finish_flags smooth) CLUTTER_SCROLL_FINISHED_HORIZONTAL =? 0)
     = axis_is_finished (axis_horizontal axis_event)) /\
    (negb (Z.land (scroll_finish_flags smooth) CLUTTER_SCROLL_FINISHED_VERTICAL =? 0)
     = axis_is_finished (axis_vertical axis_event)) /\
    (axis_is_finished (axis_horizontal axis_event) = true ->
     accum_scroll_dx seat' = F_finite 0) /\
    (axis_is_finished (axis_vertical axis_event) = true ->
     accum_scroll_dy seat' = F_finite 0) /\
    (axis_horizontal axis_event = None ->
     accum_scroll_dx seat'
     = fmodf (float_add_double (accum_scroll_dx seat) 0) DISCRETE_SCROLL_STEP) /\
    (axis_vertical axis_event = None ->
     accum_scroll_dy seat'
     = fmodf (float_add_double (accum_scroll_dy seat) 0) DISCRETE_SCROLL_STEP).
Proof.
  unfold notify_continuous_axis, axis_is_finished.
  destruct (axis_horizontal axis_event) as [h |], (axis_vertical axis_event) as [v |];
    try destruct (Qlt_bool (Qabs (axis_value h)) DBL_EPSILON);
    try destruct (Qlt_bool (Qabs (axis_value v)) DBL_EPSILON);
    rewrite notify_scroll_continuous_run; cbv zeta;
    do 3 eexists; (split; [ reflexivity | ]);
    cbn [scroll_direction scroll_finish_flags accum_scroll_dx accum_scroll_dy
         set_accum_scroll_dx set_accum_scroll_dy];
    (split; [ reflexivity | ]); (split; [ reflexivity | ]);
    (split; [ reflexivity | ]);
    repeat split; intros H; try discriminate H; reflexivity.
Qed.

End ScrollAccumulatorFacts.

(** ** The pool of device ids *)

Lemma append_new_ids_run (rounds : nat) (seat : MetaSeatImplRest) :
  append_new_ids rounds seat
  = set_device_id_next (device_id_next seat + Z.of_nat rounds)
      (set_free_device_ids
         (free_device_ids seat ++ seqZ (device_id_next seat) (Z.of_nat rounds))
         seat).
Proof.
  revert seat. induction rounds as [| rounds IH]; intros seat.
  - destruct seat. cbn. rewrite app_nil_r, Z.add_0_r. reflexivity.
  - cbn [append_new_ids]. rewrite IH.
    unfold set_device_id_next, set_free_device_ids. cbn.
    rewrite Nat2Z.inj_succ, (seqZ_cons (device_id_next seat)) by lia.
    rewrite <- app_assoc. cbn [app].
    replace (Z.pred (Z.succ (Z.of_nat rounds))) with (Z.of_nat rounds) by lia.
    replace (device_id_next seat + 1 + Z.of_nat rounds)
      with (device_id_next seat + Z.succ (Z.of_nat rounds)) by lia.
    reflexivity.
Qed.

Lemma ascending_seqZ (m n : Z) : ascending (seqZ m n).
Proof.
  destruct (Z.le_gt_cases n 0) as [Hn | Hn]; [ rewrite seqZ_nil by lia; exact I | ].
  rewrite <- (Z2Nat.id n) by lia. clear Hn. revert m.
  induction (Z.to_nat n) as [| k IH]; intros m; [ exact I | ].
  rewrite Nat2Z.inj_succ, seqZ_cons by lia.
  replace (Z.pred (Z.succ (Z.of_nat k))) with (Z.of_nat k) by lia.
  split; [ | apply IH ].
  apply Forall_forall. intros x Hx. apply elem_of_seqZ in Hx. lia.
Qed.

Lemma insert_sorted_elem (l : list Z) (id x : Z) :
  x ∈ g_list_insert_sorted l id compare_ids <-> x = id \/ x ∈ l.
Proof.
  induction l as [| h t IH]; cbn [g_list_insert_sorted].
  - rewrite list_elem_of_singleton. rewrite elem_of_nil. tauto.
  - destruct (0 <? compare_ids id h).
    + rewrite !elem_of_cons, IH. tauto.
    + rewrite !elem_of_cons. tauto.
Qed.

Lemma insert_sorted_ascending (l : list Z) (id : Z) :
  ascending l -> id ∉ l -> ascending (g_list_insert_sorted l id compare_ids).
Proof.
  induction l as [| h t IH]; intros Hasc Hnew; cbn [g_list_insert_sorted].
  - split; [ constructor | exact I ].
  - destruct Hasc as [Hh Ht]. unfold compare_ids.
    assert (Hne : id <> h) by (intros ->; apply Hnew; left).
    assert (Hnt : id ∉ t) by (intros Hin; apply Hnew; right; exact Hin).
    destruct (Z.ltb_spec 0 (id - h)) as [Hgt | Hle].
    + split; [ | apply IH; assumption ].
      apply Forall_forall. intros x Hx. apply insert_sorted_elem in Hx as [-> | Hx].
      * lia.
      * rewrite Forall_forall in Hh. apply Hh, Hx.
    + split; [ | split; assumption ].
      constructor; [ lia | ].
      eapply Forall_impl; [ exact Hh | ]. cbn. intros x Hx. lia.
Qed.

(** X17.  From a pool in order, an acquisition hands out the smallest
    free id, or, when none is free, the next id the seat has not made yet,
    and makes ten ids in a row then.  The id handed out is not free any
    more, every id still free is larger, and the pool is in order again. *)
Theorem acquire_device_id_smallest_free (seat : MetaSeatImplRest) :
  pool_ok seat ->
  let '(id, seat') := meta_seat_impl_acquire_device_id seat in
  id = match free_device_ids seat with
       | [] => device_id_next seat
       | first :: _ => first
       end /\
  device_id_next seat' = match free_device_ids seat with
                         | [] => device_id_next seat + 10
                         | _ => device_id_next seat
                         end /\
  free_device_ids seat' = match free_device_ids seat with
                          | [] => seqZ (device_id_next seat + 1) 9
                          | _ :: rest => rest
                          end /\
  (id ∉ free_device_ids seat') /\
  Forall (Z.lt id) (free_device_ids seat') /\
  id < device_id_next seat' /\
  pool_ok seat' /\
  devices seat' = devices seat.
Proof.
  intros [Hasc Hbound]. unfold meta_seat_impl_acquire_device_id.
  destruct (free_device_ids seat) as [| first rest] eqn:Hfree.
  - rewrite append_new_ids_run. cbn [set_device_id_next set_free_device_ids
      free_device_ids device_id_next devices].
    rewrite Hfree. cbn [app].
    change (Z.of_nat 10) with 10. rewrite (seqZ_cons (device_id_next seat)) by lia.
    change (Z.pred 10) with 9.
    replace (Z.succ (device_id_next seat)) with (device_id_next seat + 1) by lia.
    cbn [set_free_device_ids free_device_ids device_id_next devices].
    repeat (split; [ reflexivity | ]).
    assert (Hall : Forall (Z.lt (device_id_next seat))
                     (seqZ (device_id_next seat + 1) 9)).
    { apply Forall_forall. intros x Hx. apply elem_of_seqZ in Hx. lia. }
    split.
    { intros Hin. rewrite Forall_forall in Hall. specialize (Hall _ Hin). lia. }
    split; [ exact Hall | ].
    unfold pool_ok.
    cbn [device_id_next set_device_id_next set_free_device_ids free_device_ids
         devices].
    split; [ lia | ]. split; [ | reflexivity ].
    split; [ apply ascending_seqZ | ].
    apply Forall_forall. intros x Hx. apply elem_of_seqZ in Hx. lia.
  - rewrite Hfree. destruct seat; cbn in *. subst.
    destruct Hasc as [Hfirst Hrest].
    repeat (split; [ reflexivity | ]).
    split.
    { intros Hin. rewrite Forall_forall in Hfirst. specialize (Hfirst _ Hin). lia. }
    split; [ exact Hfirst | ].
    apply Forall_cons_1 in Hbound as [Hb1 Hb2].
    split; [ exact Hb1 | ]. split; [ | reflexivity ].
    split; assumption.
Qed.

(** X18.  Releasing an id that is not free puts it into the free list at
    its place in the order: the free ids are the old ones and the released
    one, the pool is in order, and the next acquisition hands out the
    smaller of the released id and the smallest id that was free. *)
Theorem release_device_id_keeps_order
    (seat : MetaSeatImplRest) (device : ClutterInputDevice) :
  pool_ok seat ->
  device_id device ∉ free_device_ids seat ->
  device_id device < device_id_next seat ->
  let seat' := meta_seat_impl_release_device_id device seat in
  pool_ok seat' /\
  (forall id, id ∈ free_device_ids seat'
              <-> id = device_id device \/ id ∈ free_device_ids seat) /\
  device_id_next seat' = device_id_next seat /\
  fst (meta_seat_impl_acquire_device_id seat')
  = match free_device_ids seat with
    | [] => device_id device
    | first :: _ => Z.min (device_id device) first
    end.
Proof.
  intros [Hasc Hbound] Hnew Hmade. cbv zeta.
  unfold meta_seat_impl_release_device_id.
  split; [ | split; [ | split ] ].
  - split; cbn.
    + apply insert_sorted_ascending; assumption.
    + apply Forall_forall. intros x Hx. apply insert_sorted_elem in Hx as [-> | Hx].
      * exact Hmade.
      * rewrite Forall_forall in Hbound. apply Hbound, Hx.
  - intros id. cbn. apply insert_sorted_elem.
  - reflexivity.
  - unfold meta_seat_impl_acquire_device_id. cbn [free_device_ids set_free_device_ids].
    destruct (free_device_ids seat) as [| first rest]; cbn [g_list_insert_sorted].
    + reflexivity.
    + unfold compare_ids.
      destruct (0 <? device_id device - first) eqn:Hcmp;
        cbn [fst free_device_ids set_free_device_ids];
        [ apply Z.ltb_lt in Hcmp | apply Z.ltb_ge in Hcmp ]; lia.
Qed.

Lemma acquire_device_ids_in_a_row (n : nat) :
  forall (seat : MetaSeatImplRest) (a k : Z),
    0 <= k ->
    free_device_ids seat = seqZ a k ->
    device_id_next seat = a + k ->
    fst (acquire_device_ids n seat) = seqZ a (Z.of_nat n).
Proof.
  induction n as [| n IH]; intros seat a k Hk Hfree Hnext; [ reflexivity | ].
  cbn [acquire_device_ids].
  assert (Hstep : exists seat' k',
             meta_seat_impl_acquire_device_id seat = (a, seat') /\ 0 <= k' /\
             free_device_ids seat' = seqZ (a + 1) k' /\
             device_id_next seat' = a + 1 + k').
  { unfold meta_seat_impl_acquire_device_id. rewrite Hfree.
    destruct (Z.eq_dec k 0) as [-> | Hpos].
    - rewrite seqZ_nil by lia. rewrite append_new_ids_run.
      cbn [set_device_id_next set_free_device_ids free_device_ids device_id_next].
      rewrite Hfree, Hnext, seqZ_nil by lia. cbn [app].
      change (Z.of_nat 10) with 10. rewrite (seqZ_cons (a + 0)) by lia.
      change (Z.pred 10) with 9.
      eexists. exists 9. split; [ f_equal; lia | ].
      cbn. split; [ lia | ]. split; [ f_equal; lia | lia ].
    - rewrite (seqZ_cons a) by lia. cbv beta iota zeta.
      rewrite Hfree, (seqZ_cons a) by lia.
      eexists. exists (Z.pred k). split; [ reflexivity | ].
      cbn. split; [ lia | ]. split; [ f_equal; lia | lia ]. }
  destruct Hstep as (seat' & k' & -> & Hk' & Hfree' & Hnext').
  pose proof (IH seat' (a + 1) k' Hk' Hfree' Hnext') as Hrest.
  destruct (acquire_device_ids n seat') as [ids seat''].
  cbn [fst] in *. rewrite Hrest.
  rewrite Nat2Z.inj_succ, (seqZ_cons a) by lia.
  f_equal. f_equal; lia.
Qed.

(** X19.  A seat that has released no id hands the ids out in a row: with
    nothing free, [n] acquisitions give the next id of the seat and its
    [n - 1] successors, each once; the fresh seat starts at
    [INITIAL_DEVICE_ID]. *)
Theorem fresh_ids_in_a_row (n : nat) (seat : MetaSeatImplRest) :
  free_device_ids seat = [] ->
  fst (acquire_device_ids n seat) = seqZ (device_id_next seat) (Z.of_nat n) /\
  NoDup (fst (acquire_device_ids n seat)) /\
  fst (acquire_device_ids n initial_rest) = seqZ INITIAL_DEVICE_ID (Z.of_nat n).
Proof.
  intros Hfree.
  assert (Hrow : fst (acquire_device_ids n seat)
                 = seqZ (device_id_next seat) (Z.of_nat n)).
  { apply (acquire_device_ids_in_a_row n seat (device_id_next seat) 0);
      [ lia | rewrite Hfree; reflexivity | lia ]. }
  split; [ exact Hrow | ]. split.
  - rewrite Hrow. apply NoDup_seqZ.
  - apply (acquire_device_ids_in_a_row n initial_rest INITIAL_DEVICE_ID 0);
      [ lia | reflexivity | reflexivity ].
Qed.

(** ** The device list and touch mode *)

(** X20.  Touch mode follows the flags: after [update_touch_mode] it is
    on exactly when the seat has a touchscreen and either no tablet-mode
    switch or the switch on.  The signal is emitted only when the value
    changes, with the new value; a second update emits nothing and changes
    nothing. *)
Theorem touch_mode_signal_on_change_only (seat : MetaSeatImplRest) :
  let '(seat', effects) := update_touch_mode seat in
  touch_mode seat'
  = seat_has_touchscreen seat
    && (negb (seat_has_tablet_switch seat) || tablet_mode_switch_state seat) /\
  effects = (if Bool.eqb (touch_mode seat) (touch_mode seat') then []
             else [Signal_touch_mode (touch_mode seat')]) /\
  update_touch_mode seat' = (seat', []) /\
  seat' = set_touch_mode (touch_mode seat') seat.
Proof.
  unfold update_touch_mode.
  destruct seat as [devs ts sw st tm free next idx rel].
  destruct ts, sw, st, tm; cbn; repeat split.
Qed.

Lemma update_touch_mode_signal (seat : MetaSeatImplRest) :
  snd (update_touch_mode seat) = [] \/
  snd (update_touch_mode seat)
  = [Signal_touch_mode (touch_mode (fst (update_touch_mode seat)))].
Proof.
  unfold update_touch_mode.
  destruct seat as [devs ts sw st tm free next idx rel].
  destruct ts, sw, st, tm; cbn; auto.
Qed.

Lemma update_touch_mode_run (seat : MetaSeatImplRest) :
  fst (update_touch_mode seat)
  = set_touch_mode
      (seat_has_touchscreen seat
       && (negb (seat_has_tablet_switch seat) || tablet_mode_switch_state seat))
      seat.
Proof.
  unfold update_touch_mode.
  destruct seat as [devs ts sw st tm free next idx rel].
  destruct ts, sw, st, tm; reflexivity.
Qed.

(** An acquisition, as the device list needs it. *)
Lemma acquire_device_id_fresh (seat : MetaSeatImplRest) :
  pool_ok seat ->
  exists id free' next',
    meta_seat_impl_acquire_device_id seat
    = (id, set_free_device_ids free' (set_device_id_next next' seat)) /\
    (id ∈ free_device_ids seat \/ id = device_id_next seat) /\
    (id ∉ free') /\ id < next' /\ device_id_next seat <= next' /\
    (forall x, x ∈ free' -> x ∈ free_device_ids seat \/ device_id_next seat <= x) /\
    ascending free' /\ Forall (fun x => x < next') free'.
Proof.
  intros [Hasc Hbound]. unfold meta_seat_impl_acquire_device_id.
  destruct (free_device_ids seat) as [| first rest] eqn:Hfree.
  - rewrite append_new_ids_run, Hfree. cbn [app].
    change (Z.of_nat 10) with 10. rewrite (seqZ_cons (device_id_next seat)) by lia.
    change (Z.pred 10) with 9.
    cbn [set_device_id_next set_free_device_ids free_device_ids].
    exists (device_id_next seat), (seqZ (Z.succ (device_id_next seat)) 9),
      (device_id_next seat + 10).
    split; [ destruct seat; reflexivity | ].
    split; [ right; reflexivity | ].
    split; [ intros Hin; apply elem_of_seqZ in Hin; lia | ].
    split; [ lia | ]. split; [ lia | ].
    split; [ intros x Hx; apply elem_of_seqZ in Hx; right; lia | ].
    split; [ apply ascending_seqZ | ].
    apply Forall_forall. intros x Hx. apply elem_of_seqZ in Hx. lia.
  - rewrite Hfree. destruct Hasc as [Hfirst Hrest].
    apply Forall_cons_1 in Hbound as [Hb1 Hb2].
    exists first, rest, (device_id_next seat).
    split; [ destruct seat; cbn in *; subst; reflexivity | ].
    split; [ left; left | ].
    split; [ intros Hin; rewrite Forall_forall in Hfirst;
             specialize (Hfirst _ Hin); lia | ].
    split; [ exact Hb1 | ]. split; [ lia | ].
    split; [ intros x Hx; left; right; exact Hx | ].
    split; assumption.
Qed.

Lemma has_touchscreen_from_app (l1 l2 : list MetaInputDeviceNative) :
  has_touchscreen_from (l1 ++ l2)
  = has_touchscreen_from l1 || has_touchscreen_from l2.
Proof.
  induction l1 as [| d l1 IH]; [ reflexivity | ].
  cbn [app has_touchscreen_from].
  destruct (device_type (native_device d)); try exact IH; reflexivity.
Qed.

Lemma has_tablet_switch_from_app (l1 l2 : list MetaInputDeviceNative) :
  has_tablet_switch_from (l1 ++ l2)
  = has_tablet_switch_from l1 || has_tablet_switch_from l2.
Proof.
  induction l1 as [| d l1 IH]; [ reflexivity | ].
  cbn [app has_tablet_switch_from].
  destruct (device_is_tablet_switch d); [ reflexivity | exact IH ].
Qed.

(** With ids of their own, removing a device of the list takes that very
    device out. *)
Lemma g_slist_remove_known (l : list MetaInputDeviceNative)
    (device : MetaInputDeviceNative) :
  NoDup (device_ids l) ->
  In device l ->
  exists l1 l2, l = l1 ++ device :: l2 /\ g_slist_remove l device = l1 ++ l2.
Proof.
  induction l as [| head tail IH]; intros Hnodup Hin; [ destruct Hin | ].
  cbn [device_ids map] in Hnodup. apply NoDup_cons in Hnodup as [Hhead Htail].
  cbn [g_slist_remove]. unfold same_device.
  destruct Hin as [-> | Hin].
  - rewrite Z.eqb_refl. exists [], tail. split; reflexivity.
  - destruct (Z.eqb_spec (device_id (native_device head))
                (device_id (native_device device))) as [Heq | Hne].
    + exfalso. apply Hhead. rewrite Heq. apply list_elem_of_In.
      apply in_map_iff. exists device. split; [ reflexivity | exact Hin ].
    + destruct (IH Htail Hin) as (l1 & l2 & -> & Hrem).
      exists (head :: l1), l2. split; [ reflexivity | ].
      rewrite Hrem. reflexivity.
Qed.

Lemma touchscreen_flag_after_add (flag : bool) (type : ClutterInputDeviceType)
    (rest : bool) :
  flag = rest ->
  flag || match type with CLUTTER_TOUCHSCREEN_DEVICE => true | _ => false end
  = match type with CLUTTER_TOUCHSCREEN_DEVICE => true | _ => rest end.
Proof. intros ->. destruct type, rest; reflexivity. Qed.

(** Adding a device keeps the device list in order. *)
Lemma evdev_add_device_ok (core_keyboard core_pointer : ClutterInputDevice)
    (libinput_device : libinput_device) (seat : MetaSeatImplRest) :
  registry_ok seat ->
  exists device seat' effects,
    evdev_add_device core_keyboard core_pointer libinput_device seat
    = (device, seat', effects) /\
    registry_ok seat' /\
    devices seat' = device :: devices seat /\
    native_libinput_device device = libinput_device /\
    device_type (native_device device) = libinput_determined_type libinput_device /\
    (device_id (native_device device) ∉ device_ids (devices seat)) /\
    (device_id (native_device device) ∈ free_device_ids seat \/
     device_id (native_device device) = device_id_next seat) /\
    native_associated_device device
    = master_of core_keyboard core_pointer (libinput_determined_type libinput_device) /\
    tablet_mode_switch_state seat' = tablet_mode_switch_state seat /\
    layout_idx seat' = layout_idx seat /\
    released seat' = released seat /\
    (free_device_ids seat', device_id_next seat')
    = (free_device_ids (snd (meta_seat_impl_acquire_device_id seat)),
       device_id_next (snd (meta_seat_impl_acquire_device_id seat))) /\
    device_id (native_device device) = fst (meta_seat_impl_acquire_device_id seat).
Proof.
  intros (Hts & Hsw & Htm & Hnodup & Hids & Hpool).
  destruct (acquire_device_id_fresh seat Hpool)
    as (id & free' & next' & Hacq & Hfrom & Hfresh & Hlt & Hnext & Hsub & Hasc & Hbound).
  unfold evdev_add_device, meta_input_device_native_new. rewrite Hacq.
  cbv zeta beta iota. cbn [native_device native_libinput_device].
  set (type := libinput_determined_type libinput_device).
  set (device := match
                   match type with
                   | CLUTTER_POINTER_DEVICE => Some core_pointer
                   | CLUTTER_KEYBOARD_DEVICE => Some core_keyboard
                   | _ => None
                   end
                 with
                 | Some m => mkInputDeviceNative (mkDevice id type) libinput_device (Some m)
                 | None => mkInputDeviceNative (mkDevice id type) libinput_device None
                 end).
  assert (Hdev : native_device device = mkDevice id type /\
                 native_libinput_device device = libinput_device /\
                 native_associated_device device
                 = master_of core_keyboard core_pointer type).
  { unfold device, master_of. destruct type; repeat split. }
  destruct Hdev as (Hnd & Hld & Hassoc).
  cbn [devices set_free_device_ids set_device_id_next set_devices
       seat_has_touchscreen seat_has_tablet_switch set_seat_has_touchscreen
       set_seat_has_tablet_switch].
  set (is_touchscreen := match type with
                         | CLUTTER_TOUCHSCREEN_DEVICE => true
                         | _ => false
                         end).
  set (seat1 := set_seat_has_tablet_switch
                  (seat_has_tablet_switch seat || device_is_tablet_switch device)
                  (set_seat_has_touchscreen (seat_has_touchscreen seat || is_touchscreen)
                     (set_devices (device :: devices seat)
                        (set_free_device_ids free' (set_device_id_next next' seat))))).
  assert (Hfresh_id : id ∉ device_ids (devices seat)).
  { intros Hin. rewrite Forall_forall in Hids. destruct (Hids _ Hin) as [Hnf Hb].
    destruct Hfrom as [Hf | ->]; [ contradiction | lia ]. }
  assert (Hok1 : seat_has_touchscreen seat1 = has_touchscreen seat1 /\
                 seat_has_tablet_switch seat1 = has_tablet_switch seat1 /\
                 NoDup (device_ids (devices seat1)) /\
                 Forall (fun x => (x ∉ free_device_ids seat1) /\ x < device_id_next seat1)
                        (device_ids (devices seat1)) /\
                 pool_ok seat1).
  { unfold seat1, has_touchscreen, has_tablet_switch, pool_ok.
    cbn [devices set_free_device_ids set_device_id_next set_devices
         seat_has_touchscreen seat_has_tablet_switch set_seat_has_touchscreen
         set_seat_has_tablet_switch free_device_ids device_id_next
         has_touchscreen_from has_tablet_switch_from device_ids map].
    rewrite Hnd. cbn [device_type device_id].
    split; [ apply touchscreen_flag_after_add; exact Hts | ].
    split.
    { rewrite Hsw. unfold has_tablet_switch.
      destruct (device_is_tablet_switch device), (has_tablet_switch_from (devices seat));
        reflexivity. }
    split; [ apply NoDup_cons; split; assumption | ].
    split; [ | split; assumption ].
    constructor; [ split; assumption | ].
    rewrite Forall_forall in Hids. apply Forall_forall. intros x Hx.
    destruct (Hids x Hx) as [Hnf Hb]. split; [ | lia ].
    intros Hin. destruct (Hsub x Hin); [ contradiction | lia ]. }
  destruct Hok1 as (Hts1 & Hsw1 & Hnodup1 & Hids1 & Hpool1).
  assert (Hflags : is_touchscreen || device_is_tablet_switch device = false ->
                   seat_has_touchscreen seat1 = seat_has_touchscreen seat /\
                   seat_has_tablet_switch seat1 = seat_has_tablet_switch seat).
  { intros Hnone. apply orb_false_iff in Hnone as [Hn1 Hn2].
    unfold seat1.
    cbn [seat_has_touchscreen seat_has_tablet_switch set_seat_has_touchscreen
         set_seat_has_tablet_switch].
    rewrite Hn1, Hn2, !orb_false_r. split; reflexivity. }
  exists device.
  destruct (is_touchscreen || device_is_tablet_switch device) eqn:Hkind.
  - pose proof (update_touch_mode_run seat1) as Hrun.
    destruct (update_touch_mode seat1) as [seat2 effects]. cbn [fst] in Hrun.
    exists seat2, effects. split; [ reflexivity | ]. subst seat2.
    split.
    { unfold registry_ok, has_touchscreen, has_tablet_switch, pool_ok in *.
      cbn [set_touch_mode devices seat_has_touchscreen seat_has_tablet_switch
           tablet_mode_switch_state touch_mode free_device_ids device_id_next].
      repeat split; assumption || reflexivity || apply Hpool1. }
    rewrite Hnd. unfold seat1.
    cbn [fst snd devices tablet_mode_switch_state layout_idx released
         free_device_ids device_id_next set_touch_mode set_seat_has_tablet_switch
         set_seat_has_touchscreen set_devices set_free_device_ids
         set_device_id_next device_id device_type].
    repeat split; try assumption; try reflexivity.
  - exists seat1, []. split; [ reflexivity | ].
    destruct (Hflags eq_refl) as [Hf1 Hf2].
    split.
    { unfold registry_ok. repeat split; try assumption; try apply Hpool1.
      rewrite Hf1, Hf2. unfold seat1. cbn. exact Htm. }
    rewrite Hnd. unfold seat1.
    cbn [fst snd devices tablet_mode_switch_state layout_idx released
         free_device_ids device_id_next set_touch_mode set_seat_has_tablet_switch
         set_seat_has_touchscreen set_devices set_free_device_ids
         set_device_id_next device_id device_type].
    repeat split; try assumption; try reflexivity.
Qed.

Section RegistryFacts.

Context {ext : External}.

(** Removing a device of the list keeps the device list in order. *)
Lemma evdev_remove_device_ok (device : MetaInputDeviceNative)
    (rest : MetaSeatImplRest) (seat : MetaSeatImpl) :
  registry_ok rest ->
  In device (devices rest) ->
  exists rest' effects seat',
    evdev_remove_device device rest seat = Done (rest', effects) seat' [] /\
    registry_ok rest' /\
    (exists l1 l2, devices rest = l1 ++ device :: l2 /\ devices rest' = l1 ++ l2) /\
    devices rest' = g_slist_remove (devices rest) device /\
    free_device_ids rest' = free_device_ids rest /\
    device_id_next rest' = device_id_next rest /\
    tablet_mode_switch_state rest' = tablet_mode_switch_state rest /\
    layout_idx rest' = layout_idx rest /\
    released rest' = released rest /\
    seat' = match repeat_timer seat, repeat_device seat with
            | Some _, Some repeat_device =>
                if same_device repeat_device (native_device device)
                then set_repeat_device None (set_repeat_timer None seat)
                else seat
            | _, _ => seat
            end.
Proof.
  intros (Hts & Hsw & Htm & Hnodup & Hids & Hpool) Hin.
  destruct (g_slist_remove_known _ _ Hnodup Hin) as (l1 & l2 & Hsplit & Hrem).
  unfold evdev_remove_device.
  set (is_touchscreen := match device_type (native_device device) with
                         | CLUTTER_TOUCHSCREEN_DEVICE => true
                         | _ => false
                         end).
  set (rest1 := set_devices (g_slist_remove (devices rest) device) rest).
  set (rest2 := if is_touchscreen
                then set_seat_has_touchscreen (has_touchscreen rest1) rest1
                else rest1).
  set (rest3 := if device_is_tablet_switch device
                then set_seat_has_tablet_switch (has_tablet_switch rest2) rest2
                else rest2).
  assert (Hfields : devices rest3 = l1 ++ l2 /\
                    free_device_ids rest3 = free_device_ids rest /\
                    device_id_next rest3 = device_id_next rest /\
                    tablet_mode_switch_state rest3 = tablet_mode_switch_state rest /\
                    layout_idx rest3 = layout_idx rest /\
                    released rest3 = released rest /\
                    touch_mode rest3 = touch_mode rest).
  { unfold rest3, rest2, rest1. rewrite Hrem.
    destruct is_touchscreen, (device_is_tablet_switch device); repeat split. }
  destruct Hfields as (Hdevs & Hfree & Hnext & Hstate & Hidx & Hrel & Htm3).
  assert (Hts3 : seat_has_touchscreen rest3 = has_touchscreen rest3).
  { unfold has_touchscreen. rewrite Hdevs.
    unfold rest3, rest2, rest1, has_touchscreen. rewrite Hrem.
    destruct is_touchscreen eqn:Hkind, (device_is_tablet_switch device);
      cbn [seat_has_touchscreen set_seat_has_touchscreen set_seat_has_tablet_switch
           set_devices devices]; try reflexivity.
    all: rewrite Hts; unfold has_touchscreen; rewrite Hsplit.
    all: rewrite !has_touchscreen_from_app; cbn [has_touchscreen_from].
    all: unfold is_touchscreen in Hkind.
    all: destruct (device_type (native_device device)); try discriminate Hkind;
      reflexivity. }
  assert (Hsw3 : seat_has_tablet_switch rest3 = has_tablet_switch rest3).
  { unfold has_tablet_switch. rewrite Hdevs.
    unfold rest3, rest2, rest1, has_tablet_switch. rewrite Hrem.
    destruct is_touchscreen, (device_is_tablet_switch device) eqn:Hkind;
      cbn [seat_has_tablet_switch set_seat_has_touchscreen set_seat_has_tablet_switch
           set_devices devices]; try reflexivity.
    all: rewrite Hsw; unfold has_tablet_switch; rewrite Hsplit.
    all: rewrite !has_tablet_switch_from_app; cbn [has_tablet_switch_from].
    all: rewrite Hkind; reflexivity. }
  assert (Hnodup3 : NoDup (device_ids (l1 ++ l2))).
  { rewrite Hsplit in Hnodup. unfold device_ids in *.
    rewrite map_app in *. cbn [map] in Hnodup.
    apply NoDup_app in Hnodup as (Hn1 & Hdisj & Hn2).
    apply NoDup_cons in Hn2 as [_ Hn2].
    apply NoDup_app. split; [ exact Hn1 | ]. split; [ | exact Hn2 ].
    intros x Hx Hx2. apply (Hdisj x Hx). right. exact Hx2. }
  assert (Hids3 : Forall (fun id => (id ∉ free_device_ids rest) /\
                                    id < device_id_next rest)
                         (device_ids (l1 ++ l2))).
  { rewrite Hsplit in Hids. unfold device_ids in *.
    rewrite map_app in *. cbn [map] in Hids.
    apply Forall_app in Hids as [H1 H2]. apply Forall_cons_1 in H2 as [_ H2].
    apply Forall_app. split; assumption. }
  assert (Hunchanged : is_touchscreen || device_is_tablet_switch device = false ->
                       seat_has_touchscreen rest3 = seat_has_touchscreen rest /\
                       seat_has_tablet_switch rest3 = seat_has_tablet_switch rest).
  { intros Hnone. apply orb_false_iff in Hnone as [Hn1 Hn2].
    unfold rest3, rest2, rest1. rewrite Hn1, Hn2. split; reflexivity. }
  set (result := if is_touchscreen || device_is_tablet_switch device
                 then update_touch_mode rest3 else (rest3, [])).
  assert (Hresult : registry_ok (fst result) /\
                    devices (fst result) = l1 ++ l2 /\
                    free_device_ids (fst result) = free_device_ids rest /\
                    device_id_next (fst result) = device_id_next rest /\
                    tablet_mode_switch_state (fst result)
                    = tablet_mode_switch_state rest /\
                    layout_idx (fst result) = layout_idx rest /\
                    released (fst result) = released rest).
  { unfold result.
    destruct (is_touchscreen || device_is_tablet_switch device) eqn:Hkind.
    - rewrite update_touch_mode_run.
      unfold registry_ok, has_touchscreen, has_tablet_switch, pool_ok.
      cbn [set_touch_mode devices seat_has_touchscreen seat_has_tablet_switch
           tablet_mode_switch_state touch_mode free_device_ids device_id_next
           layout_idx released].
      rewrite Hdevs, Hfree, Hnext.
      unfold has_touchscreen in Hts3. unfold has_tablet_switch in Hsw3.
      rewrite Hdevs in Hts3, Hsw3.
      repeat split; assumption || reflexivity || apply Hpool.
    - cbn [fst]. destruct (Hunchanged eq_refl) as [Hf1 Hf2].
      split; [ | repeat split; assumption ].
      unfold registry_ok, pool_ok.
      split; [ exact Hts3 | ]. split; [ exact Hsw3 | ].
      split; [ rewrite Htm3, Hf1, Hf2, Hstate; exact Htm | ].
      rewrite Hdevs, Hfree, Hnext.
      repeat split; assumption || reflexivity || apply Hpool. }
  destruct result as [rest' effects]. cbn [fst] in Hresult.
  destruct Hresult as (Hok & Hd & Hf & Hn & Hst & Hi & Hr).
  exists rest', effects.
  unfold meta_seat_impl_clear_repeat_timer. run_seat.
  destruct (repeat_timer seat) as [timer |] eqn:Htimer;
    [ destruct (repeat_device seat) as [repeat_device |];
      [ destruct (same_device repeat_device (native_device device)) | ] | ];
    run_seat; rewrite ?Htimer;
    eexists; (split; [ reflexivity | ]);
    (split; [ exact Hok | ]);
    (split; [ exists l1, l2; split; assumption | ]);
    rewrite Hrem; repeat split; assumption.
Qed.

(** X21.  Every event keeps the device list in order: the cached flags
    for a touchscreen and a tablet-mode switch agree with the devices of the
    list, touch mode is on exactly when there is a touchscreen and either no
    tablet-mode switch or the switch on, the listed devices have ids of
    their own and none of them is free, and the free ids are in ascending
    order.  A removal is taken to be for a device of the list. *)
Theorem seat_events_keep_registry
    (fuel : nat) (event : libinput_seat_event) (rest rest' : MetaSeatImplRest)
    (seat seat' : MetaSeatImpl) (effects : list RestEffect) (trace : list Effect) :
  registry_ok rest ->
  event_of_known_device rest event ->
  process_event fuel event rest seat = Done (rest', effects) seat' trace ->
  registry_ok rest'.
Proof.
  intros Hok Hknown.
  destruct event as [libinput_device | device | sw state_on | event];
    unfold process_event, process_base_event.
  - run_seat.
    destruct (evdev_add_device_ok (core_keyboard seat) (core_pointer seat)
                libinput_device rest Hok)
      as (device & rest1 & effects1 & -> & Hok1 & _).
    intros H. inversion H; subst. exact Hok1.
  - unfold bind at 1 2.
    destruct (evdev_remove_device_ok device rest seat Hok Hknown)
      as (rest1 & effects1 & seat1 & -> & Hok1 & _).
    run_seat. intros H. inversion H; subst. exact Hok1.
  - run_seat. destruct sw.
    + intros H. inversion H; subst. exact Hok.
    + intros H. inversion H; subst. clear H.
      pose proof (update_touch_mode_run (set_tablet_mode_switch_state state_on rest))
        as Hrun.
      rewrite H1 in Hrun. cbn [fst] in Hrun. subst rest'.
      destruct Hok as (Hts & Hsw & Htm & Hnodup & Hids & Hpool).
      unfold registry_ok. repeat split; assumption || reflexivity || apply Hpool.
  - run_seat.
    destruct (process_device_event fuel event seat) as [[] s1 t1 | |];
      try discriminate.
    intros H. inversion H; subst. exact Hok.
Qed.

(** X22.  A DEVICE_ADDED event puts one new device at the head of the
    device list.  Its id is the one the pool hands out, which no listed
    device has; its type is the one determined for the libinput device; it
    is associated with the core keyboard when it is a keyboard, with the
    core pointer when it is a pointer, and with nothing otherwise.  The
    CLUTTER_DEVICE_ADDED event for it is queued last, after a touch-mode
    signal if there is one; the translation state of the seat is not
    touched. *)
Theorem device_added_is_new
    (fuel : nat) (libinput_device : libinput_device) (rest : MetaSeatImplRest)
    (seat : MetaSeatImpl) :
  registry_ok rest ->
  exists device rest' signals,
    process_event fuel (LIBINPUT_EVENT_DEVICE_ADDED libinput_device) rest seat
    = Done (rest', signals ++ [Queued_device_added (native_device device)]) seat [] /\
    devices rest' = device :: devices rest /\
    device_id (native_device device) = fst (meta_seat_impl_acquire_device_id rest) /\
    (device_id (native_device device) ∉ device_ids (devices rest)) /\
    device_type (native_device device) = libinput_determined_type libinput_device /\
    native_associated_device device
    = match libinput_determined_type libinput_device with
      | CLUTTER_KEYBOARD_DEVICE => Some (core_keyboard seat)
      | CLUTTER_POINTER_DEVICE => Some (core_pointer seat)
      | _ => None
      end /\
    (signals = [] \/ signals = [Signal_touch_mode (touch_mode rest')]).
Proof.
  intros Hok. unfold process_event, process_base_event. run_seat.
  destruct (evdev_add_device_ok (core_keyboard seat) (core_pointer seat)
              libinput_device rest Hok)
    as (device & rest1 & effects1 & Hrun & _ & Hdevs & _ & Htype & Hfresh & _
        & Hassoc & _ & _ & _ & _ & Hid).
  assert (Hsignals : effects1 = [] \/ effects1 = [Signal_touch_mode (touch_mode rest1)]).
  { revert Hrun. unfold evdev_add_device.
    destruct (meta_input_device_native_new rest libinput_device) as [d0 r0].
    cbv zeta.
    match goal with
    | |- context [if ?c then _ else _] => destruct c
    end.
    - match goal with
      | |- context [update_touch_mode ?r] =>
          pose proof (update_touch_mode_signal r) as Hsig;
          destruct (update_touch_mode r) as [r1 e1]
      end.
      cbn [fst snd] in Hsig.
      destruct Hsig as [Hsig | Hsig]; intros H; inversion H; subst;
        [ left | right ]; reflexivity.
    - intros H. inversion H; subst. left. reflexivity. }
  rewrite Hrun. exists device, rest1, effects1.
  split; [ rewrite app_nil_r; reflexivity | ].
  repeat (split; [ assumption | ]). exact Hsignals.
Qed.

Lemma insert_sorted_below (l : list Z) (id : Z) :
  Forall (Z.lt id) l -> g_list_insert_sorted l id compare_ids = id :: l.
Proof.
  destruct l as [| head tail]; intros Hbelow; [ reflexivity | ].
  apply Forall_cons_1 in Hbelow as [Hhead _].
  cbn [g_list_insert_sorted]. unfold compare_ids.
  replace (0 <? id - head) with false by (symmetry; apply Z.ltb_ge; lia).
  reflexivity.
Qed.

(** X23.  Adding a device and removing it again puts the device list, the
    two flags, touch mode and the switch state back as they were; only the
    pool of ids has moved.  When an id was free before, releasing the id of
    the removed device puts the pool back too: the rest of the seat is
    then exactly what it was. *)
Theorem device_add_remove_round_trip
    (fuel : nat) (libinput_device : libinput_device) (rest : MetaSeatImplRest)
    (seat : MetaSeatImpl) :
  registry_ok rest ->
  exists device rest1 effects1 rest2 effects2 seat2,
    process_event fuel (LIBINPUT_EVENT_DEVICE_ADDED libinput_device) rest seat
    = Done (rest1, effects1) seat [] /\
    devices rest1 = device :: devices rest /\
    process_event fuel (LIBINPUT_EVENT_DEVICE_REMOVED device) rest1 seat
    = Done (rest2, effects2) seat2 [] /\
    same_but_pool rest rest2 /\
    (free_device_ids rest <> [] ->
     meta_seat_impl_release_device_id (native_device device) rest2 = rest).
Proof.
  intros Hok.
  destruct (evdev_add_device_ok (core_keyboard seat) (core_pointer seat)
              libinput_device rest Hok)
    as (device & rest1 & effects1 & Hadd & Hok1 & Hdevs & _ & _ & _ & _ & _
        & Hstate1 & Hidx1 & Hrel1 & Hpool1 & Hid).
  assert (Hin : In device (devices rest1)) by (rewrite Hdevs; left; reflexivity).
  destruct (evdev_remove_device_ok device rest1 seat Hok1 Hin)
    as (rest2 & effects2 & seat2 & Hrem & Hok2 & _ & Hdevs2 & Hfree2 & Hnext2
        & Hstate2 & Hidx2 & Hrel2 & _).
  exists device, rest1, (effects1 ++ [Queued_device_added (native_device device)]),
    rest2, (effects2 ++ [Queued_device_removed (native_device device)]), seat2.
  split.
  { unfold process_event, process_base_event. run_seat. rewrite Hadd. reflexivity. }
  split; [ exact Hdevs | ].
  split.
  { unfold process_event, process_base_event. unfold bind at 1 2.
    rewrite Hrem. reflexivity. }
  assert (Hlist : devices rest2 = devices rest).
  { rewrite Hdevs2, Hdevs. cbn [g_slist_remove]. unfold same_device.
    rewrite Z.eqb_refl. reflexivity. }
  assert (Hsame : same_but_pool rest rest2).
  { unfold same_but_pool.
    destruct Hok as (Hts & Hsw & Htm & _), Hok2 as (Hts2 & Hsw2 & Htm2 & _).
    unfold has_touchscreen, has_tablet_switch in *.
    rewrite Hlist in Hts2, Hsw2. rewrite <- Hts in Hts2. rewrite <- Hsw in Hsw2.
    rewrite Hts2, Hsw2, Hstate2, Hstate1, <- Htm in Htm2.
    rewrite Hstate1 in Hstate2. rewrite Hidx1 in Hidx2. rewrite Hrel1 in Hrel2.
    clear - Hts2 Hsw2 Htm2 Hlist Hstate2 Hidx2 Hrel2.
    destruct rest as [dv1 ts1 sw1 st1 tm1 fr1 nx1 ly1 rl1],
             rest2 as [dv2 ts2 sw2 st2 tm2 fr2 nx2 ly2 rl2].
    cbn [devices seat_has_touchscreen seat_has_tablet_switch
         tablet_mode_switch_state touch_mode free_device_ids device_id_next
         layout_idx released set_free_device_ids set_device_id_next] in *.
    subst. reflexivity. }
  split; [ exact Hsame | ].
  intros Hnonempty. unfold meta_seat_impl_release_device_id.
  unfold same_but_pool in Hsame. rewrite Hsame at 2.
  rewrite Hid, Hfree2, Hnext2.
  inversion Hpool1 as [[Hf Hn]]. rewrite Hf, Hn.
  destruct Hok as (_ & _ & _ & _ & _ & Hasc & _).
  unfold meta_seat_impl_acquire_device_id.
  destruct (free_device_ids rest) as [| first others] eqn:Hfree;
    [ contradiction | ].
  cbn [fst snd free_device_ids device_id_next set_free_device_ids
       set_device_id_next].
  rewrite Hfree.
  cbn [fst snd free_device_ids device_id_next set_free_device_ids
       set_device_id_next].
  rewrite insert_sorted_below by apply Hasc.
  clear - Hfree. destruct rest as [dv1 ts1 sw1 st1 tm1 fr1 nx1 ly1 rl1].
  cbn [devices seat_has_touchscreen seat_has_tablet_switch
       tablet_mode_switch_state touch_mode free_device_ids device_id_next
       layout_idx released set_free_device_ids set_device_id_next] in *.
  subst. reflexivity.
Qed.

(** X24.  Removing a device takes it out of the list and, when the repeat
    timer is armed for it, stops the repeat: timer and repeat device are
    cleared.  A timer armed for another device, and everything else of the
    translation state, is left alone; the removal queues no input event. *)
Theorem removed_device_stops_its_repeat
    (device : MetaInputDeviceNative) (rest : MetaSeatImplRest)
    (seat : MetaSeatImpl) :
  exists rest' effects seat',
    evdev_remove_device device rest seat = Done (rest', effects) seat' [] /\
    devices rest' = g_slist_remove (devices rest) device /\
    (forall timer rd,
       repeat_timer seat = Some timer ->
       repeat_device seat = Some rd ->
       device_id rd = device_id (native_device device) ->
       repeat_timer seat' = None /\ repeat_device seat' = None) /\
    (repeat_timer seat = None \/
     (forall rd, repeat_device seat = Some rd ->
                 device_id rd <> device_id (native_device device)) ->
     seat' = seat) /\
    button_count seat' = button_count seat /\
    touch_states seat' = touch_states seat /\
    xkb seat' = xkb seat.
Proof.
  unfold evdev_remove_device.
  match goal with
  | |- context [let '(r, e) := ?c in _] =>
      assert (Hdevices : devices (fst c) = g_slist_remove (devices rest) device);
      [ | destruct c as [rest' effects] ]
  end.
  { repeat match goal with
           | |- context [if ?b then _ else _] => destruct b
           end;
      rewrite ?update_touch_mode_run; reflexivity. }
  cbn [fst] in Hdevices.
  exists rest', effects.
  unfold meta_seat_impl_clear_repeat_timer. run_seat.
  destruct (repeat_timer seat) as [timer |] eqn:Htimer;
    [ destruct (repeat_device seat) as [rd |] eqn:Hrd;
      [ unfold same_device;
        destruct (Z.eqb_spec (device_id rd) (device_id (native_device device))) | ] | ];
    run_seat; rewrite ?Htimer; eexists; (split; [ reflexivity | ]).
  all: split; [ exact Hdevices | ].
  all: split;
    [ intros t r Ht Hr Hid; try discriminate;
      try (inversion Hr; subst; contradiction); split; reflexivity | ].
  all: split;
    [ intros [Hnone | Hother]; try discriminate; try reflexivity;
      exfalso; eapply Hother; eauto | ].
  all: repeat split.
Qed.

End RegistryFacts.

(** ** Motion compression *)

(** X25.  Compressing a motion event with the one it replaces loses no
    relative motion: each relative delta of the result is the sum of the
    deltas of the two events, an event without relative motion counting as
    zero.  Position, time, devices and axes are those of the event that
    stays; when the discarded event has no relative motion the event that
    stays is not changed at all. *)
Theorem compress_motion_adds_deltas (event : MotionEvent) (to_discard : ClutterEvent) :
  let result := meta_seat_native_compress_motion event to_discard in
  let '(dx, dy, dx_unaccel, dy_unaccel) := relative_of (CLUTTER_MOTION result) in
  let '(ex, ey, ex_unaccel, ey_unaccel) := relative_of (CLUTTER_MOTION event) in
  let '(tx, ty, tx_unaccel, ty_unaccel) := relative_of to_discard in
  ((dx == tx + ex)%Q /\ (dy == ty + ey)%Q /\
   (dx_unaccel == tx_unaccel + ex_unaccel)%Q /\
   (dy_unaccel == ty_unaccel + ey_unaccel)%Q) /\
  (motion_x result = motion_x event /\ motion_y result = motion_y event /\
   motion_time_usec result = motion_time_usec event /\
   motion_time result = motion_time event /\
   motion_modifier_state result = motion_modifier_state event /\
   motion_device result = motion_device event /\
   motion_source_device result = motion_source_device event /\
   motion_axes result = motion_axes event /\
   motion_tool result = motion_tool event) /\
  (meta_event_native_get_relative_motion to_discard = None -> result = event).
Proof.
  unfold meta_seat_native_compress_motion, relative_of.
  cbn [meta_event_native_get_relative_motion].
  destruct (meta_event_native_get_relative_motion to_discard)
    as [[[[tx ty] tu] tv] |].
  - destruct (motion_relative event) as [[[[ex ey] eu] ev] |];
      cbn [meta_event_native_set_relative_motion motion_relative motion_x motion_y
           motion_time_usec motion_time motion_modifier_state motion_device
           motion_source_device motion_axes motion_tool];
      (split; [ repeat split; reflexivity | ]);
      (split; [ repeat split | discriminate ]).
  - destruct (motion_relative event) as [[[[ex ey] eu] ev] |];
      (split; [ repeat split; ring | ]);
      (split; [ repeat split | reflexivity ]).
Qed.

(** ** The keyboard layout *)

Section KeyboardLayoutFacts.

Context {ext : External}.

(** X26.  Setting the layout index and reading it back gives the index
    set.  The change keeps the depressed, latched and locked modifiers, cut
    to the modifiers of the keymap, hence as they were when they held
    nothing else; the effective layout of the state becomes the index,
    wrapped into the layouts of the keymap.  Nothing is signalled and the
    LEDs are not synced. *)
Theorem keyboard_layout_index_round_trip
    (seat : MetaSeatImpl) (rest : MetaSeatImplRest) (idx : Z) :
  exists seat' rest',
    meta_seat_impl_set_keyboard_layout_index idx rest seat = Done rest' seat' [] /\
    meta_seat_impl_get_keyboard_layout_index rest' = idx /\
    rest' = set_layout_idx idx rest /\
    (forall component,
       xkb_state_serialize_mods (xkb seat') component
       = Z.land (xkb_state_serialize_mods (xkb seat) component)
                (2 ^ keymap_num_mods (keymap seat) - 1)) /\
    (mods_within_keymap (keymap seat) (xkb seat) ->
     forall component,
       xkb_state_serialize_mods (xkb seat') component
       = xkb_state_serialize_mods (xkb seat) component) /\
    (0 < keymap_num_layouts (keymap seat) ->
     xkb_state_serialize_layout_effective (keymap seat') (xkb seat')
     = idx mod keymap_num_layouts (keymap seat)) /\
    keymap seat' = keymap seat.
Proof.
  unfold meta_seat_impl_set_keyboard_layout_index. run_seat.
  do 2 eexists. split; [ reflexivity | ].
  split; [ reflexivity | ]. split; [ reflexivity | ].
  cbn [xkb set_xkb keymap].
  split; [ intros []; reflexivity | ].
  split.
  - intros (Hd & Hl & Hk) []; cbn; assumption.
  - split; [ | reflexivity ].
    intros Hlayouts. unfold xkb_state_serialize_layout_effective.
    cbn [xkb_state_update_mask xkb_depressed_layout xkb_latched_layout
         xkb_locked_layout].
    replace (keymap_num_layouts (keymap seat) <=? 0) with false
      by (symmetry; apply Z.leb_gt; exact Hlayouts).
    reflexivity.
Qed.

(** X27.  The layout index and the locks outlive a change of keymap.
    After the index was set, [meta_seat_impl_set_keyboard_map] makes a new
    state for the new keymap in which nothing is depressed, the latched and
    locked modifiers are the old ones cut to the modifiers of the new
    keymap, and the effective layout is the index set, wrapped into the
    layouts of the new keymap; the LEDs are synced to that state. *)
Theorem layout_and_locks_outlive_keymap
    (seat : MetaSeatImpl) (rest : MetaSeatImplRest) (idx : Z)
    (xkb_keymap : xkb_keymap) :
  exists seat1 rest1 seat2 trace,
    meta_seat_impl_set_keyboard_layout_index idx rest seat = Done rest1 seat1 [] /\
    meta_seat_impl_set_keyboard_map xkb_keymap rest1 seat1 = Done tt seat2 trace /\
    trace = [Sync_leds (xkb seat2)] /\
    keymap seat2 = xkb_keymap /\
    xkb_state_serialize_mods (xkb seat2) XKB_STATE_MODS_DEPRESSED = 0 /\
    xkb_state_serialize_mods (xkb seat2) XKB_STATE_MODS_LATCHED
    = Z.land (xkb_state_serialize_mods (xkb seat1) XKB_STATE_MODS_LATCHED)
             (2 ^ keymap_num_mods xkb_keymap - 1) /\
    xkb_state_serialize_mods (xkb seat2) XKB_STATE_MODS_LOCKED
    = Z.land (xkb_state_serialize_mods (xkb seat1) XKB_STATE_MODS_LOCKED)
             (2 ^ keymap_num_mods xkb_keymap - 1) /\
    (0 < keymap_num_layouts xkb_keymap ->
     xkb_state_serialize_layout_effective (keymap seat2) (xkb seat2)
     = idx mod keymap_num_layouts xkb_keymap).
Proof.
  unfold meta_seat_impl_set_keyboard_layout_index, meta_seat_impl_set_keyboard_map,
    meta_seat_impl_update_xkb_state, meta_seat_impl_sync_leds.
  run_seat. do 4 eexists. split; [ reflexivity | ].
  split; [ reflexivity | ].
  cbn [app xkb set_xkb keymap set_keymap layout_idx set_layout_idx].
  split; [ reflexivity | ].
  split; [ reflexivity | ]. split; [ reflexivity | ].
  split; [ reflexivity | ]. split; [ reflexivity | ].
  intros Hlayouts. unfold xkb_state_serialize_layout_effective.
  cbn [xkb_state_update_mask xkb_depressed_layout xkb_latched_layout
       xkb_locked_layout].
  replace (keymap_num_layouts xkb_keymap <=? 0) with false
    by (symmetry; apply Z.leb_gt; exact Hlayouts).
  reflexivity.
Qed.

End KeyboardLayoutFacts.

(** ** Releasing and reclaiming the devices *)

Lemma acquire_device_id_only_pool (rest : MetaSeatImplRest) :
  released (snd (meta_seat_impl_acquire_device_id rest)) = released rest.
Proof.
  unfold meta_seat_impl_acquire_device_id.
  destruct (free_device_ids rest) as [| first others] eqn:Hfree.
  - rewrite append_new_ids_run.
    cbn [free_device_ids set_device_id_next set_free_device_ids].
    destruct (free_device_ids rest ++ seqZ (device_id_next rest) (Z.of_nat 10));
      reflexivity.
  - rewrite Hfree. reflexivity.
Qed.

Lemma update_touch_mode_released (rest : MetaSeatImplRest) :
  released (fst (update_touch_mode rest)) = released rest.
Proof. rewrite update_touch_mode_run. reflexivity. Qed.

Section ReleaseFacts.

Context {ext : External}.

(** X28.  When the repeat timer fires while the seat-wide release of a
    held key is still pending in libinput, the release is translated first
    and cancels the timer: the callback queues the release event only, no
    synthetic repeat, and asks for the timer source to be removed. *)
Theorem keyboard_repeat_cancelled_by_pending_release
    (fuel : nat) (seat : MetaSeatImpl) (rest : MetaSeatImplRest)
    (device : ClutterInputDevice) (time_us key source_time : Z) :
  button_count_of seat key = 1 ->
  exists seat' trace ev,
    keyboard_repeat fuel
      [LIBINPUT_EVENT_OF_DEVICE
         (LIBINPUT_EVENT_KEYBOARD_KEY device time_us key false 0)]
      source_time rest seat
    = Done (false, rest, []) seat' trace /\
    queued_events trace = [CLUTTER_KEY ev] /\
    key_state ev = 0 /\
    key_repeated ev = false /\
    repeat_timer seat' = None.
Proof.
  intros Hcount.
  assert (Hdrop : drop_repeated 0 (count_after 0 (button_count_of seat key)) = false)
    by (rewrite Hcount; reflexivity).
  destruct (notify_key_passes seat device time_us key 0 true
              ltac:(discriminate) Hdrop)
    as (seat1 & trace1 & ev & Hrun & Hq & Hst & _ & Hrep & _).
  destruct (notify_key_clears_repeat_timer seat device time_us key 0 true
              ltac:(discriminate) Hdrop (or_introl eq_refl))
    as (seat2 & trace2 & Hrun2 & Htimer & _).
  rewrite Hrun in Hrun2. inversion Hrun2; subst seat2 trace2; clear Hrun2.
  unfold keyboard_repeat, dispatch_libinput.
  cbn [process_seat_events]. unfold process_event, process_base_event.
  run_seat. cbn [process_device_event]. cbn [negb andb orb Z.eqb].
  rewrite Hrun. run_seat. rewrite Htimer.
  cbn [app]. rewrite !app_nil_r.
  exists seat1, trace1, ev.
  repeat split; assumption.
Qed.


Lemma process_event_keeps_released (fuel : nat) (event : libinput_seat_event)
    (rest rest' : MetaSeatImplRest) (seat seat' : MetaSeatImpl)
    (effects : list RestEffect) (trace : list Effect) :
  process_event fuel event rest seat = Done (rest', effects) seat' trace ->
  released rest' = released rest.
Proof.
  destruct event as [libinput_device | device | sw state_on | event];
    unfold process_event, process_base_event.
  - run_seat. unfold evdev_add_device, meta_input_device_native_new.
    pose proof (acquire_device_id_only_pool rest) as Hacq.
    destruct (meta_seat_impl_acquire_device_id rest) as [id rest1].
    cbn [snd] in Hacq. cbv zeta beta iota.
    match goal with
    | |- context [if ?c then _ else _] => destruct c
    end.
    + match goal with
      | |- context [update_touch_mode ?r] =>
          pose proof (update_touch_mode_released r) as Hupd;
          destruct (update_touch_mode r) as [r1 e1]
      end.
      cbn [fst] in Hupd. intros H. inversion H; subst. rewrite Hupd. exact Hacq.
    + intros H. inversion H; subst. exact Hacq.
  - unfold bind at 1 2. unfold evdev_remove_device.
    match goal with
    | |- context [let '(r, e) := ?c in _] =>
        assert (Hrel : released (fst c) = released rest);
        [ | destruct c as [rest1 effects1] ]
    end.
    { repeat match goal with
             | |- context [if ?b then _ else _] => destruct b
             end;
        rewrite ?update_touch_mode_released; reflexivity. }
    cbn [fst] in Hrel. unfold meta_seat_impl_clear_repeat_timer. run_seat.
    destruct (repeat_timer seat);
      [ destruct (repeat_device seat) as [rd |];
        [ destruct (same_device rd (native_device device)) | ] | ];
      run_seat; intros H; inversion H; subst; exact Hrel.
  - run_seat. destruct sw.
    + intros H. inversion H; subst. reflexivity.
    + intros H. inversion H; subst. clear H.
      pose proof (update_touch_mode_released
                    (set_tablet_mode_switch_state state_on rest)) as Hupd.
      rewrite H1 in Hupd. exact Hupd.
  - run_seat.
    destruct (process_device_event fuel event seat) as [[] s1 t1 | |];
      try discriminate.
    intros H. inversion H; subst. reflexivity.
Qed.

Lemma process_seat_events_keep_released (fuel : nat)
    (events : list libinput_seat_event) :
  forall (rest rest' : MetaSeatImplRest) (seat seat' : MetaSeatImpl)
         (effects : list RestEffect) (trace : list Effect),
    process_seat_events fuel events rest seat = Done (rest', effects) seat' trace ->
    released rest' = released rest.
Proof.
  induction events as [| event events IH];
    intros rest rest' seat seat' effects trace.
  - cbn. intros H. inversion H; subst. reflexivity.
  - cbn [process_seat_events]. unfold bind at 1.
    destruct (process_event fuel event rest seat) as [[rest1 e1] seat1 t1 | |] eqn:Hev;
      try discriminate.
    unfold bind at 1.
    destruct (process_seat_events fuel events rest1 seat1)
      as [[rest2 e2] seat2 t2 | |] eqn:Hrest; try discriminate.
    run_seat. intros H. inversion H; subst.
    rewrite (IH _ _ _ _ _ _ Hrest).
    exact (process_event_keeps_released _ _ _ _ _ _ _ _ Hev).
Qed.

Lemma update_touch_mode_no_warning (rest : MetaSeatImplRest) :
  Forall (fun e => is_impl_warning e = false) (snd (update_touch_mode rest)).
Proof.
  destruct (update_touch_mode_signal rest) as [-> | ->]; repeat constructor.
Qed.

Lemma process_event_no_warning (fuel : nat) (event : libinput_seat_event)
    (rest rest' : MetaSeatImplRest) (seat seat' : MetaSeatImpl)
    (effects : list RestEffect) (trace : list Effect) :
  process_event fuel event rest seat = Done (rest', effects) seat' trace ->
  Forall (fun e => is_impl_warning e = false) effects.
Proof.
  destruct event as [libinput_device | device | sw state_on | event];
    unfold process_event, process_base_event.
  - run_seat. unfold evdev_add_device.
    destruct (meta_input_device_native_new rest libinput_device) as [d0 r0].
    cbv zeta beta iota.
    match goal with
    | |- context [if ?c then _ else _] => destruct c
    end.
    + match goal with
      | |- context [update_touch_mode ?r] =>
          pose proof (update_touch_mode_no_warning r) as Hupd;
          destruct (update_touch_mode r) as [r1 e1]
      end.
      cbn [snd] in Hupd. intros H. inversion H; subst.
      apply Forall_app. split; [ exact Hupd | repeat constructor ].
    + intros H. inversion H; subst. repeat constructor.
  - unfold bind at 1 2. unfold evdev_remove_device.
    match goal with
    | |- context [let '(r, e) := ?c in _] =>
        assert (Hno : Forall (fun e => is_impl_warning e = false) (snd c));
        [ | destruct c as [rest1 effects1] ]
    end.
    { match goal with
      | |- context [if ?b then update_touch_mode _ else _] => destruct b
      end; [ apply update_touch_mode_no_warning | constructor ]. }
    cbn [snd] in Hno. unfold meta_seat_impl_clear_repeat_timer. run_seat.
    destruct (repeat_timer seat);
      [ destruct (repeat_device seat) as [rd |];
        [ destruct (same_device rd (native_device device)) | ] | ];
      run_seat; intros H; inversion H; subst;
      (apply Forall_app; split; [ exact Hno | repeat constructor ]).
  - run_seat. destruct sw.
    + intros H. inversion H; subst. constructor.
    + intros H. inversion H; subst. clear H.
      pose proof (update_touch_mode_no_warning
                    (set_tablet_mode_switch_state state_on rest)) as Hupd.
      rewrite H1 in Hupd. exact Hupd.
  - run_seat.
    destruct (process_device_event fuel event seat) as [[] s1 t1 | |];
      try discriminate.
    intros H. inversion H; subst. constructor.
Qed.

Lemma process_seat_events_no_warning (fuel : nat)
    (events : list libinput_seat_event) :
  forall (rest rest' : MetaSeatImplRest) (seat seat' : MetaSeatImpl)
         (effects : list RestEffect) (trace : list Effect),
    process_seat_events fuel events rest seat = Done (rest', effects) seat' trace ->
    Forall (fun e => is_impl_warning e = false) effects.
Proof.
  induction events as [| event events IH];
    intros rest rest' seat seat' effects trace.
  - cbn. intros H. inversion H; subst. constructor.
  - cbn [process_seat_events]. unfold bind at 1.
    destruct (process_event fuel event rest seat) as [[rest1 e1] seat1 t1 | |] eqn:Hev;
      try discriminate.
    unfold bind at 1.
    destruct (process_seat_events fuel events rest1 seat1)
      as [[rest2 e2] seat2 t2 | |] eqn:Hrest; try discriminate.
    run_seat. intros H. inversion H; subst.
    apply Forall_app. split.
    + exact (process_event_no_warning _ _ _ _ _ _ _ _ Hev).
    + exact (IH _ _ _ _ _ _ Hrest).
Qed.

(** The seat implementation after a release or a reclaim that came to its
    end. *)
Lemma release_devices_released (fuel : nat) (pending : list libinput_seat_event)
    (rest rest' : MetaSeatImplRest) (seat seat' : MetaSeatImpl)
    (effects : list RestEffect) (trace : list Effect) :
  meta_seat_impl_release_devices fuel pending rest seat
  = Done (rest', effects) seat' trace ->
  released rest' = true /\
  (released rest = false -> Forall (fun e => is_impl_warning e = false) effects).
Proof.
  unfold meta_seat_impl_release_devices.
  destruct (released rest) eqn:Hrel.
  - run_seat. intros H. inversion H; subst. split; [ exact Hrel | discriminate ].
  - unfold bind at 1.
    destruct (process_seat_events fuel pending rest seat)
      as [[rest1 e1] seat1 t1 | |] eqn:Hrun; try discriminate.
    run_seat. intros H. inversion H; subst.
    split; [ reflexivity | ]. intros _.
    constructor; [ reflexivity | ].
    exact (process_seat_events_no_warning _ _ _ _ _ _ _ _ Hrun).
Qed.

Lemma reclaim_devices_released (fuel : nat) (pending : list libinput_seat_event)
    (rest rest' : MetaSeatImplRest) (seat seat' : MetaSeatImpl)
    (effects : list RestEffect) (trace : list Effect) :
  meta_seat_impl_reclaim_devices fuel pending rest seat
  = Done (rest', effects) seat' trace ->
  released rest' = false /\
  (released rest = true -> Forall (fun e => is_impl_warning e = false) effects).
Proof.
  unfold meta_seat_impl_reclaim_devices.
  destruct (released rest) eqn:Hrel; cbn [negb].
  - unfold meta_seat_impl_update_xkb_state, meta_seat_impl_sync_leds. run_seat.
    match goal with
    | |- context [process_seat_events fuel pending rest ?s] =>
        destruct (process_seat_events fuel pending rest s)
          as [[rest1 e1] seat1 t1 | |] eqn:Hrun; try discriminate
    end.
    run_seat. intros H. inversion H; subst.
    split; [ reflexivity | ]. intros _.
    constructor; [ reflexivity | ].
    exact (process_seat_events_no_warning _ _ _ _ _ _ _ _ Hrun).
  - run_seat. intros H. inversion H; subst. split; [ exact Hrel | discriminate ].
Qed.

(** X29.  Releasing the devices twice, or reclaiming them twice, does the
    work once.  After a release that came to its end the seat is marked
    released, and a further release warns and does nothing else: the seat
    is as it was and the events libinput holds are not read.  The same
    holds for a reclaim after a reclaim, the seat then being marked not
    released. *)
Theorem release_and_reclaim_only_once
    (fuel : nat) (pending pending' : list libinput_seat_event)
    (rest rest1 : MetaSeatImplRest) (seat seat1 : MetaSeatImpl)
    (effects1 : list RestEffect) (trace1 : list Effect) :
  (meta_seat_impl_release_devices fuel pending rest seat
   = Done (rest1, effects1) seat1 trace1 ->
   released rest1 = true /\
   meta_seat_impl_release_devices fuel pending' rest1 seat1
   = Done (rest1, [Warning_release_devices]) seat1 []) /\
  (meta_seat_impl_reclaim_devices fuel pending rest seat
   = Done (rest1, effects1) seat1 trace1 ->
   released rest1 = false /\
   meta_seat_impl_reclaim_devices fuel pending' rest1 seat1
   = Done (rest1, [Warning_reclaim_devices]) seat1 []).
Proof.
  split; intros Hrun.
  - apply release_devices_released in Hrun as [Hrel _].
    split; [ exact Hrel | ].
    unfold meta_seat_impl_release_devices. rewrite Hrel. reflexivity.
  - apply reclaim_devices_released in Hrun as [Hrel _].
    split; [ exact Hrel | ].
    unfold meta_seat_impl_reclaim_devices. rewrite Hrel. reflexivity.
Qed.

(** X30.  Through the functions of the native seat the two released
    flags stay equal, and the warnings of the seat implementation are never
    reached: when the flag of the native seat equals the flag of the
    implementation before [meta_seat_native_release_devices] or
    [meta_seat_native_reclaim_devices], it does so afterwards, and the only
    warning there can be is the one of the native seat. *)
Theorem native_release_keeps_flags_equal
    (fuel : nat) (pending : list libinput_seat_event) (seat_released : bool)
    (rest rest' : MetaSeatImplRest) (seat seat' : MetaSeatImpl)
    (seat_released' : bool) (effects : list RestEffect) (trace : list Effect) :
  seat_released = released rest ->
  (meta_seat_native_release_devices fuel pending seat_released rest seat
   = Done (seat_released', rest', effects) seat' trace ->
   seat_released' = released rest' /\ seat_released' = true /\
   Forall (fun e => is_impl_warning e = false) effects) /\
  (meta_seat_native_reclaim_devices fuel pending seat_released rest seat
   = Done (seat_released', rest', effects) seat' trace ->
   seat_released' = released rest' /\ seat_released' = false /\
   Forall (fun e => is_impl_warning e = false) effects).
Proof.
  intros Hequal. split.
  - unfold meta_seat_native_release_devices.
    destruct seat_released.
    + run_seat. intros H. inversion H; subst.
      split; [ assumption | ]. split; [ reflexivity | repeat constructor ].
    + unfold bind at 1.
      destruct (meta_seat_impl_release_devices fuel pending rest seat)
        as [[rest1 e1] seat1 t1 | |] eqn:Hrun; try discriminate.
      run_seat. intros H. inversion H; subst.
      apply release_devices_released in Hrun as [Hrel Hno].
      split; [ symmetry; exact Hrel | ]. split; [ reflexivity | ].
      apply Hno. symmetry. exact Hequal.
  - unfold meta_seat_native_reclaim_devices.
    destruct seat_released; cbn [negb].
    + unfold bind at 1.
      destruct (meta_seat_impl_reclaim_devices fuel pending rest seat)
        as [[rest1 e1] seat1 t1 | |] eqn:Hrun; try discriminate.
      run_seat. intros H. inversion H; subst.
      apply reclaim_devices_released in Hrun as [Hrel Hno].
      split; [ symmetry; exact Hrel | ]. split; [ reflexivity | ].
      apply Hno. symmetry. exact Hequal.
    + run_seat. intros H. inversion H; subst.
      split; [ assumption | ]. split; [ reflexivity | repeat constructor ].
Qed.

End ReleaseFacts.

(** ** The further properties at concrete seats *)

Lemma touch_down_begins_sequence_witness :
  meta_seat_impl_lookup_touch_state (initial_seat None) 7 = None /\
  exists seat' ev,
    process_device_event 0
      (LIBINPUT_EVENT_TOUCH_DOWN a_touchscreen 1000 7 (1 # 2) (1 # 2))
      (initial_seat None)
    = Done tt seat' [Queued (CLUTTER_TOUCH ev)] /\
    touch_sequence ev = 8.
Proof.
  split; [ reflexivity | ].
  destruct (touch_down_begins_sequence 0 (initial_seat None) a_touchscreen 1000 7
              (1 # 2) (1 # 2) eq_refl)
    as (seat' & ev & Hrun & _ & Hseq & _).
  exists seat', ev. split; [ exact Hrun | exact Hseq ].
Defined.

Lemma touch_event_on_unknown_slot_ignored_witness :
  meta_seat_impl_lookup_touch_state (initial_seat None) 7 = None /\
  process_device_event 0 (LIBINPUT_EVENT_TOUCH_UP a_touchscreen 1000 7)
    (initial_seat None)
  = Done tt (initial_seat None) [].
Proof.
  split; [ reflexivity | ].
  apply (touch_event_on_unknown_slot_ignored 0 (initial_seat None) a_touchscreen
           1000 7 0 0 eq_refl).
Defined.

Lemma touch_end_releases_slot_witness :
  meta_seat_impl_lookup_touch_state seat_with_touch 7 = Some (mkTouchState 7 0 0) /\
  exists seat' ev,
    process_device_event 0 (touch_end_event false a_touchscreen 1000 7) seat_with_touch
    = Done tt seat' [Queued (CLUTTER_TOUCH ev)] /\
    meta_seat_impl_lookup_touch_state seat' 7 = None.
Proof.
  split; [ reflexivity | ].
  destruct (touch_end_releases_slot 0 seat_with_touch a_touchscreen 1000 7 false
              (mkTouchState 7 0 0) eq_refl)
    as (seat' & ev & Hrun & _ & _ & _ & _ & Hfree & _).
  exists seat', ev. split; [ exact Hrun | exact Hfree ].
Defined.

Lemma touch_end_reports_last_motion_witness :
  meta_seat_impl_lookup_touch_state seat_with_touch 7 = Some (mkTouchState 7 0 0) /\
  exists seat' update final,
    process_events 0
      [ LIBINPUT_EVENT_TOUCH_MOTION a_touchscreen 1000 7 (1 # 2) (1 # 2);
        touch_end_event false a_touchscreen 2000 7 ] seat_with_touch
    = Done tt seat' [Queued (CLUTTER_TOUCH update); Queued (CLUTTER_TOUCH final)] /\
    touch_x final = touch_x update /\
    touch_y final = touch_y update.
Proof.
  split; [ reflexivity | ].
  destruct (touch_end_reports_last_motion 0 seat_with_touch a_touchscreen 1000 2000 7
              (1 # 2) (1 # 2) false (mkTouchState 7 0 0) eq_refl)
    as (seat' & update & final & Hrun & _ & _ & _ & Hx & Hy & _).
  exists seat', update, final. repeat split; assumption.
Defined.

Lemma key_press_arms_repeat_witness :
  drop_repeated 1 (count_after 1 (button_count_of (repeating_seat 0) 30)) = false /\
  repeat_enabled (repeating_seat 0) = true /\
  @xkb_keymap_key_repeats repeating_external (keymap (repeating_seat 0))
    (@meta_xkb_evdev_to_keycode repeating_external 30) = true /\
  exists seat' trace,
    meta_seat_impl_notify_key core_keyboard_device 1000 30 1 true (repeating_seat 0)
    = Done tt seat' trace /\
    repeat_timer seat' = Some 250.
Proof.
  split; [ reflexivity | ]. split; [ reflexivity | ]. split; [ reflexivity | ].
  destruct (@key_press_arms_repeat repeating_external (repeating_seat 0)
              core_keyboard_device 1000 30 true eq_refl eq_refl eq_refl)
    as (seat' & trace & Hrun & _ & _ & _ & Htimer).
  exists seat', trace. split; [ exact Hrun | exact Htimer ].
Defined.

Lemma autorepeat_switches_to_interval_witness :
  repeat_enabled (repeating_seat 1) = true /\
  @xkb_keymap_key_repeats repeating_external (keymap (repeating_seat 1))
    (@meta_xkb_evdev_to_keycode repeating_external 30) = true /\
  exists seat' trace,
    meta_seat_impl_notify_key core_keyboard_device 1000 30 AUTOREPEAT_VALUE false
      (repeating_seat 1)
    = Done tt seat' trace /\
    repeat_timer seat' = Some 33.
Proof.
  split; [ reflexivity | ]. split; [ reflexivity | ].
  destruct (@autorepeat_switches_to_interval repeating_external (repeating_seat 1)
              core_keyboard_device 1000 30 false eq_refl eq_refl)
    as (seat' & trace & Hrun & _ & _ & Hfirst & _).
  exists seat', trace. split; [ exact Hrun | ].
  exact (proj1 (Hfirst eq_refl)).
Defined.

Lemma keyboard_repeat_cancelled_by_pending_release_witness :
  button_count_of seat_holding_key 30 = 1 /\
  exists seat' trace,
    keyboard_repeat 0
      [LIBINPUT_EVENT_OF_DEVICE
         (LIBINPUT_EVENT_KEYBOARD_KEY core_keyboard_device 1000 30 false 0)]
      2000 initial_rest seat_holding_key
    = Done (false, initial_rest, []) seat' trace /\
    repeat_timer seat' = None.
Proof.
  split; [ reflexivity | ].
  destruct (keyboard_repeat_cancelled_by_pending_release 0 seat_holding_key
              initial_rest core_keyboard_device 1000 30 2000 eq_refl)
    as (seat' & trace & ev & Hrun & _ & _ & _ & Htimer).
  exists seat', trace. split; [ exact Hrun | exact Htimer ].
Defined.

Lemma press_release_round_trip_witness :
  button_count_of (initial_seat None) BTN_LEFT = 0 /\
  1 <= button_nr_of a_mouse BTN_LEFT <= 12 /\
  exists seat1 seat2 press release,
    meta_seat_impl_notify_button a_mouse 1000 BTN_LEFT 1 (initial_seat None)
    = Done tt seat1 [Queued (CLUTTER_BUTTON press)] /\
    meta_seat_impl_notify_button a_mouse 2000 BTN_LEFT 0 seat1
    = Done tt seat2 [Queued (CLUTTER_BUTTON release)] /\
    button_count_of seat2 BTN_LEFT = 0.
Proof.
  split; [ reflexivity | ]. split; [ vm_compute; split; discriminate | ].
  destruct (press_release_round_trip (initial_seat None) a_mouse 1000 2000 BTN_LEFT
              eq_refl)
    as (seat1 & seat2 & press & release & H1 & H2 & _ & _ & _ & _ & _ & Hcount & _).
  { vm_compute. split; discriminate. }
  exists seat1, seat2, press, release. repeat split; assumption.
Defined.

Lemma button_counters_never_negative_witness :
  counters_nonnegative (initial_seat None) /\
  exists seat' trace,
    process_events 0 (debounced_double_press a_mouse 1000) (initial_seat None)
    = Done tt seat' trace /\
    counters_nonnegative seat'.
Proof.
  assert (H0 : counters_nonnegative (initial_seat None)).
  { intros code. unfold button_count_of. cbn [initial_seat button_count].
    rewrite lookup_empty. cbn. lia. }
  split; [ exact H0 | ].
  do 2 eexists. split; [ vm_compute; reflexivity | ].
  eapply (button_counters_never_negative 0 (debounced_double_press a_mouse 1000)
            (initial_seat None)).
  - exact H0.
  - vm_compute. reflexivity.
Defined.

Lemma only_pointer_motion_moves_pointer_witness :
  Forall (fun event => is_pointer_motion event = false)
    (debounced_double_press a_mouse 1000) /\
  exists seat' trace,
    process_events 0 (debounced_double_press a_mouse 1000) (initial_seat None)
    = Done tt seat' trace /\
    same_pointer (initial_seat None) seat'.
Proof.
  assert (H0 : Forall (fun event => is_pointer_motion event = false)
                 (debounced_double_press a_mouse 1000))
    by (repeat constructor).
  split; [ exact H0 | ].
  do 2 eexists. split; [ vm_compute; reflexivity | ].
  eapply (only_pointer_motion_moves_pointer 0 (debounced_double_press a_mouse 1000)
            (initial_seat None)).
  - exact H0.
  - vm_compute. reflexivity.
Defined.

Lemma touch_states_survive_other_events_witness :
  Forall (fun event => is_touch_event event = false)
    (debounced_double_press a_mouse 1000) /\
  exists seat' trace,
    process_events 0 (debounced_double_press a_mouse 1000) seat_with_touch
    = Done tt seat' trace /\
    meta_seat_impl_lookup_touch_state seat' 7 = Some (mkTouchState 7 0 0).
Proof.
  assert (H0 : Forall (fun event => is_touch_event event = false)
                 (debounced_double_press a_mouse 1000))
    by (repeat constructor).
  split; [ exact H0 | ].
  do 2 eexists. split; [ vm_compute; reflexivity | ].
  rewrite (touch_states_survive_other_events 0 (debounced_double_press a_mouse 1000)
             seat_with_touch _ _ H0 ltac:(vm_compute; reflexivity) 7).
  reflexivity.
Defined.

Lemma relative_motion_scaled_within_view_witness :
  @meta_is_stage_views_scaled plain_external = false /\
  viewports (seat_at two_outputs 1500 500) = Some two_outputs /\
  meta_viewport_info_get_view two_outputs
    (meta_viewport_info_get_view_at two_outputs 1500 500)
  = Some (mkView (mkRect 1000 0 1000 1000) 2) /\
  meta_seat_impl_filter_relative_motion 0 (seat_at two_outputs 1500 500)
    1500 500 10 0
  = Some (10 * 2, 0 * 2)%Q.
Proof.
  split; [ reflexivity | ]. split; [ reflexivity | ]. split; [ reflexivity | ].
  apply (@relative_motion_scaled_within_view plain_external 0
           (seat_at two_outputs 1500 500) two_outputs
           (mkView (mkRect 1000 0 1000 1000) 2) 1500 500 10 0);
    try reflexivity.
  right. reflexivity.
Defined.

Lemma tablet_motion_leaves_pointer_witness :
  is_tablet (device_type a_tablet) = true /\
  exists seat' ev,
    meta_seat_impl_notify_absolute_motion a_tablet 1000 300 400 None
      (initial_seat None)
    = Done tt seat' [Queued (CLUTTER_MOTION ev)] /\
    pointer_x seat' = INITIAL_POINTER_X /\
    pointer_y seat' = INITIAL_POINTER_Y.
Proof.
  split; [ reflexivity | ].
  destruct (tablet_motion_leaves_pointer (initial_seat None) a_tablet 1000 300 400
              None eq_refl)
    as (seat' & ev & Hrun & Hx & Hy & _).
  exists seat', ev. repeat split; assumption.
Defined.

Lemma warp_pointer_lands_on_target_witness :
  is_tablet (device_type (core_pointer (initial_seat (Some output_at_origin)))) = false /\
  pointer_constraint (initial_seat (Some output_at_origin)) = None /\
  0 <= meta_viewport_info_get_view_at output_at_origin (inject_Z 50) (inject_Z 60) /\
  exists seat' ev,
    meta_seat_impl_warp_pointer 50 60 (initial_seat (Some output_at_origin))
    = Done tt seat' [Queued (CLUTTER_MOTION ev)] /\
    pointer_x seat' = inject_Z 50 /\
    pointer_y seat' = inject_Z 60.
Proof.
  split; [ reflexivity | ]. split; [ reflexivity | ].
  split; [ vm_compute; discriminate | ].
  destruct (@warp_pointer_lands_on_target plain_external
              (initial_seat (Some output_at_origin)) 50 60 tt
              (inject_Z 50) (inject_Z 60) eq_refl eq_refl eq_refl)
    as (seat' & ev & Hrun & Hx & Hy & _).
  { right. exists output_at_origin. split; [ reflexivity | vm_compute; discriminate ]. }
  exists seat', ev. repeat split; assumption.
Defined.

Lemma continuous_scroll_conserved_witness :
  accumulated 0 CLUTTER_SCROLL_FINISHED_HORIZONTAL
    (accum_scroll_dx (initial_seat None)) 0 = F_finite 0 /\
  accumulated 0 CLUTTER_SCROLL_FINISHED_VERTICAL
    (accum_scroll_dy (initial_seat None)) 14 = F_finite 14 /\
  (Qabs 0 < 10 * 2 ^ 31)%Q /\
  (Qabs 14 < 10 * 2 ^ 31)%Q /\
  exists seat' trace left_x left_y,
    meta_seat_impl_notify_scroll_continuous a_mouse 1000 0 14
      CLUTTER_SCROLL_SOURCE_FINGER 0 (initial_seat None)
    = Done tt seat' trace /\
    accum_scroll_dx seat' = F_finite left_x /\
    accum_scroll_dy seat' = F_finite left_y /\
    (0
     == 10 * inject_Z (scroll_steps CLUTTER_SCROLL_RIGHT trace
                       - scroll_steps CLUTTER_SCROLL_LEFT trace)
        + left_x)%Q /\
    (14
     == 10 * inject_Z (scroll_steps CLUTTER_SCROLL_DOWN trace
                       - scroll_steps CLUTTER_SCROLL_UP trace)
        + left_y)%Q.
Proof.
  split; [ vm_compute; reflexivity | ].
  split; [ vm_compute; reflexivity | ].
  split; [ reflexivity | ].
  split; [ reflexivity | ].
  apply (continuous_scroll_conserved (initial_seat None) a_mouse 1000 0 14
           CLUTTER_SCROLL_SOURCE_FINGER 0 0 14).
  - vm_compute. reflexivity.
  - vm_compute. reflexivity.
  - reflexivity.
  - reflexivity.
Defined.

Lemma acquire_device_id_smallest_free_witness :
  pool_ok initial_rest /\
  fst (meta_seat_impl_acquire_device_id initial_rest) = 2 /\
  pool_ok (snd (meta_seat_impl_acquire_device_id initial_rest)).
Proof.
  assert (H0 : pool_ok initial_rest) by (split; [ exact I | constructor ]).
  split; [ exact H0 | ].
  pose proof (acquire_device_id_smallest_free initial_rest H0) as H.
  destruct (meta_seat_impl_acquire_device_id initial_rest) as [id seat'].
  destruct H as (Hid & _ & _ & _ & _ & _ & Hpool & _).
  split; [ exact Hid | exact Hpool ].
Defined.

Lemma release_device_id_keeps_order_witness :
  pool_ok rest_after_first_device /\
  (device_id core_pointer_device ∉ free_device_ids rest_after_first_device) /\
  device_id core_pointer_device < device_id_next rest_after_first_device /\
  fst (meta_seat_impl_acquire_device_id
         (meta_seat_impl_release_device_id core_pointer_device rest_after_first_device))
  = 2.
Proof.
  assert (H0 : pool_ok rest_after_first_device).
  { split; cbn; repeat constructor; lia. }
  assert (H1 : device_id core_pointer_device ∉ free_device_ids rest_after_first_device).
  { cbn. intros Hin. repeat (apply elem_of_cons in Hin as [Hin | Hin]; [ discriminate | ]).
    apply elem_of_nil in Hin. exact Hin. }
  assert (H2 : device_id core_pointer_device < device_id_next rest_after_first_device)
    by (vm_compute; reflexivity).
  split; [ exact H0 | ]. split; [ exact H1 | ]. split; [ exact H2 | ].
  destruct (release_device_id_keeps_order rest_after_first_device core_pointer_device
              H0 H1 H2) as (_ & _ & _ & Hacq).
  exact Hacq.
Defined.

Lemma fresh_ids_in_a_row_witness :
  free_device_ids initial_rest = [] /\
  fst (acquire_device_ids 3 initial_rest) = [2; 3; 4].
Proof.
  split; [ reflexivity | ].
  exact (proj1 (fresh_ids_in_a_row 3 initial_rest eq_refl)).
Defined.

Lemma registry_ok_initial_rest : registry_ok initial_rest.
Proof.
  unfold registry_ok, pool_ok. cbn.
  repeat split; constructor.
Defined.

Lemma seat_events_keep_registry_witness :
  registry_ok initial_rest /\
  event_of_known_device initial_rest
    (LIBINPUT_EVENT_DEVICE_ADDED a_libinput_touchscreen) /\
  exists rest' effects seat' trace,
    process_event 0 (LIBINPUT_EVENT_DEVICE_ADDED a_libinput_touchscreen)
      initial_rest (initial_seat None)
    = Done (rest', effects) seat' trace /\
    touch_mode rest' = true /\
    registry_ok rest'.
Proof.
  split; [ exact registry_ok_initial_rest | ]. split; [ exact I | ].
  do 4 eexists. split; [ vm_compute; reflexivity | ].
  split; [ reflexivity | ].
  eapply (seat_events_keep_registry 0
            (LIBINPUT_EVENT_DEVICE_ADDED a_libinput_touchscreen) initial_rest _
            (initial_seat None)).
  - exact registry_ok_initial_rest.
  - exact I.
  - vm_compute. reflexivity.
Defined.

Lemma device_added_is_new_witness :
  registry_ok initial_rest /\
  exists device rest' signals,
    process_event 0 (LIBINPUT_EVENT_DEVICE_ADDED a_libinput_touchscreen)
      initial_rest (initial_seat None)
    = Done (rest', signals ++ [Queued_device_added (native_device device)])
        (initial_seat None) [] /\
    devices rest' = device :: devices initial_rest /\
    device_id (native_device device) = 2.
Proof.
  split; [ exact registry_ok_initial_rest | ].
  destruct (device_added_is_new 0 a_libinput_touchscreen initial_rest
              (initial_seat None) registry_ok_initial_rest)
    as (device & rest' & signals & Hrun & Hdevs & Hid & _).
  exists device, rest', signals. repeat split; assumption.
Defined.

Lemma device_add_remove_round_trip_witness :
  registry_ok rest_after_first_device /\
  free_device_ids rest_after_first_device <> [] /\
  exists device rest1 effects1 rest2 effects2 seat2,
    process_event 0 (LIBINPUT_EVENT_DEVICE_ADDED a_libinput_touchscreen)
      rest_after_first_device (initial_seat None)
    = Done (rest1, effects1) (initial_seat None) [] /\
    process_event 0 (LIBINPUT_EVENT_DEVICE_REMOVED device) rest1 (initial_seat None)
    = Done (rest2, effects2) seat2 [] /\
    meta_seat_impl_release_device_id (native_device device) rest2
    = rest_after_first_device.
Proof.
  assert (H0 : registry_ok rest_after_first_device).
  { unfold registry_ok, pool_ok. cbn.
    repeat split; repeat constructor; lia. }
  assert (H1 : free_device_ids rest_after_first_device <> []) by discriminate.
  split; [ exact H0 | ]. split; [ exact H1 | ].
  destruct (device_add_remove_round_trip 0 a_libinput_touchscreen
              rest_after_first_device (initial_seat None) H0)
    as (device & rest1 & effects1 & rest2 & effects2 & seat2
        & Hadd & _ & Hrem & _ & Hback).
  exists device, rest1, effects1, rest2, effects2, seat2.
  split; [ exact Hadd | ]. split; [ exact Hrem | ]. exact (Hback H1).
Defined.

Lemma native_release_keeps_flags_equal_witness :
  false = released initial_rest /\
  meta_seat_native_release_devices 0 [] false initial_rest (initial_seat None)
  = Done (true, set_released true initial_rest, [Libinput_suspend])
      (initial_seat None) [] /\
  true = released (set_released true initial_rest) /\
  Forall (fun e => is_impl_warning e = false) [Libinput_suspend].
Proof.
  split; [ reflexivity | ].
  assert (Hrun : meta_seat_native_release_devices 0 [] false initial_rest
                   (initial_seat None)
                 = Done (true, set_released true initial_rest, [Libinput_suspend])
                     (initial_seat None) [])
    by reflexivity.
  split; [ exact Hrun | ].
  destruct (proj1 (@native_release_keeps_flags_equal plain_external 0 [] false
                     initial_rest (set_released true initial_rest)
                     (initial_seat None) (initial_seat None) true
                     [Libinput_suspend] [] eq_refl) Hrun)
    as (Hflag & _ & Hwarn).
  split; [ exact Hflag | exact Hwarn ].
Defined.

Lemma release_and_reclaim_only_once_witness :
  meta_seat_impl_release_devices 0 [] initial_rest (initial_seat None)
  = Done (set_released true initial_rest, [Libinput_suspend]) (initial_seat None) [] /\
  meta_seat_impl_release_devices 0 [] (set_released true initial_rest)
    (initial_seat None)
  = Done (set_released true initial_rest, [Warning_release_devices])
      (initial_seat None) [].
Proof.
  assert (Hrun : meta_seat_impl_release_devices 0 [] initial_rest (initial_seat None)
                 = Done (set_released true initial_rest, [Libinput_suspend])
                     (initial_seat None) [])
    by reflexivity.
  split; [ exact Hrun | ].
  exact (proj2 (proj1 (@release_and_reclaim_only_once plain_external 0 [] []
                         initial_rest (set_released true initial_rest)
                         (initial_seat None) (initial_seat None)
                         [Libinput_suspend] []) Hrun)).
Defined.
